(** * Git Fusion synchronisation engine

    A shallow embedding of the parts of Perforce Git Fusion that move
    history between Perforce and Git:

    - [ConflictChecker] : p4gf_g2p_conflict_checker.py
    - [ObjectType]      : p4gf_object_type.py
    - [RevRange]        : p4gf_copy_to_git.py (class RevRange)
    - [RevList]         : p4gf_copy_to_git.py (class RevList)
    - [UserMap]         : p4gf_usermap.py
    - [FastImport]      : p4gf_fastimport.py
    - [GitMirror]       : p4gf_gitmirror.py
    - [G2P]             : p4gf_copy_to_p4.py
    - [Lock]            : p4gf_lock.py ([LockRace]: two processes on one
                          server)

    Python values keep their shape: strings are [string], dicts are
    [gmap], optional values ([None]) are [option], exceptions are the
    [exn] type carried by [res].  A character of a [string] stands for
    the code point of the same number, so the strings of the embedding
    are the Python strings whose code points are below 256.  The
    built-in functions are those of Python 3.2, the interpreter that
    the scripts name in their first line.  Everything outside the
    Python process (the Perforce server, the file system, child
    processes) is reached through one oracle, [ext], and every request
    is appended to a trace, so that a statement about what the program
    did to the outside world is a statement about that trace. *)

From Stdlib Require Import ZArith List String Ascii Bool Lia.
From Stdlib Require Import DecimalString DecimalZ DecimalPos.
From stdpp Require Import base option list gmap strings.
Import ListNotations.

#[local] Open Scope string_scope.
#[local] Open Scope list_scope.

(* ===================================================================== *)
(** * Python strings and numbers *)
(* ===================================================================== *)

Module Py.

(** [bool(s)] for a string, and for a value that may be [None]. *)
Definition truthy (s : string) : bool := negb (String.eqb s "").

Definition truthy_opt (o : option string) : bool :=
  match o with
  | Some s => truthy s
  | None => false
  end.

(** [s.startswith(p)] *)
Definition startswith (p s : string) : bool := String.prefix p s.

(** [s.endswith(p)] *)
Definition endswith (p s : string) : bool :=
  String.prefix (string_of_list_ascii (rev (list_ascii_of_string p)))
                (string_of_list_ascii (rev (list_ascii_of_string s))).

(** [s.find(sub)]: index of the first occurrence, or -1. *)
Fixpoint find_from (sub s : string) (i : Z) : Z :=
  if String.prefix sub s then i
  else match s with
       | EmptyString => (-1)%Z
       | String _ s' => find_from sub s' (i + 1)%Z
       end.

Definition find (sub s : string) : Z := find_from sub s 0%Z.

(** [sub in s] *)
Definition contains (sub s : string) : bool := (0 <=? find sub s)%Z.

(** Slice bounds as Python normalises them: a negative index counts from
    the end, and both ends are clamped to the string. *)
Definition norm_index (len i : Z) : Z :=
  if (i <? 0)%Z then Z.max 0 (len + i) else Z.min len i.

(** [s[lo:hi]], either bound possibly omitted. *)
Definition slice (s : string) (lo hi : option Z) : string :=
  let len := Z.of_nat (String.length s) in
  let a := match lo with None => 0%Z | Some i => norm_index len i end in
  let b := match hi with None => len | Some i => norm_index len i end in
  String.substring (Z.to_nat a) (Z.to_nat (b - a)) s.

(** [s.split(sep)] for a one-character separator. *)
Fixpoint split (sep : ascii) (s : string) : list string :=
  match s with
  | EmptyString => [EmptyString]
  | String c s' =>
      if Ascii.eqb c sep then EmptyString :: split sep s'
      else match split sep s' with
           | [] => [String c EmptyString]
           | w :: ws => String c w :: ws
           end
  end.

(** [s.split(sep, n)]: at most [n] cuts. *)
Fixpoint split_max (sep : ascii) (s : string) (n : nat) {struct s} : list string :=
  match n with
  | O => [s]
  | S n' =>
      match s with
      | EmptyString => [EmptyString]
      | String c s' =>
          if Ascii.eqb c sep then EmptyString :: split_max sep s' n'
          else match split_max sep s' n with
               | [] => [String c EmptyString]
               | w :: ws => String c w :: ws
               end
      end
  end.

(** [sep.join(l)] *)
Definition join (sep : string) (l : list string) : string := String.concat sep l.

Definition rev_string (s : string) : string :=
  string_of_list_ascii (rev (list_ascii_of_string s)).

Fixpoint lstrip_with (p : ascii -> bool) (s : string) : string :=
  match s with
  | EmptyString => EmptyString
  | String c s' => if p c then lstrip_with p s' else s
  end.

Definition strip_with (p : ascii -> bool) (s : string) : string :=
  rev_string (lstrip_with p (rev_string (lstrip_with p s))).

Definition mem_char (chars : string) (c : ascii) : bool :=
  existsb (Ascii.eqb c) (list_ascii_of_string chars).

(** [s.strip(chars)] *)
Definition strip_chars (chars s : string) : string := strip_with (mem_char chars) s.

(** [c.isspace()]: below code point 256 the white space of Python is
    the tab, LF, VT, FF and CR, the separators U+001C to U+001F, the
    space, U+0085 and U+00A0. *)
Definition is_space (c : ascii) : bool :=
  let n := nat_of_ascii c in
  ((9 <=? n)%nat && (n <=? 13)%nat) || ((28 <=? n)%nat && (n <=? 32)%nat)
  || (n =? 133)%nat || (n =? 160)%nat.

(** [s.split()]: the maximal runs of characters that are not white
    space. *)
Fixpoint words_aux (s : string) (cur : string) : list string :=
  match s with
  | EmptyString => if String.eqb cur "" then [] else [cur]
  | String c s' =>
      if is_space c
      then (if String.eqb cur "" then words_aux s' "" else cur :: words_aux s' "")
      else words_aux s' (cur +:+ String c EmptyString)
  end.

Definition words (s : string) : list string := words_aux s "".

(** [s.strip()] *)
Definition strip (s : string) : string := strip_with is_space s.

(** The line boundaries of [str.splitlines()] below code point 256: LF,
    VT, FF, CR, U+001C to U+001E and U+0085. *)
Definition is_linebreak (c : ascii) : bool :=
  let n := nat_of_ascii c in
  ((10 <=? n)%nat && (n <=? 13)%nat) || ((28 <=? n)%nat && (n <=? 30)%nat)
  || (n =? 133)%nat.

(** [s.splitlines()]: CR followed by LF is one boundary, and a boundary
    at the very end opens no further line. *)
Fixpoint splitlines_aux (s : string) (cur : string) : list string :=
  match s with
  | EmptyString => if String.eqb cur "" then [] else [cur]
  | String c s' =>
      if is_linebreak c then
        cur :: match s' with
               | String c' s'' =>
                   if Ascii.eqb c "013"%char && Ascii.eqb c' "010"%char
                   then splitlines_aux s'' ""
                   else splitlines_aux s' ""
               | EmptyString => []
               end
      else splitlines_aux s' (cur +:+ String c EmptyString)
  end.

Definition splitlines (s : string) : list string := splitlines_aux s "".

Definition is_digit (c : ascii) : bool :=
  let n := nat_of_ascii c in (48 <=? n)%nat && (n <=? 57)%nat.

Fixpoint digits_value (s : string) (acc : Z) : option Z :=
  match s with
  | EmptyString => Some acc
  | String c s' =>
      if is_digit c
      then digits_value s' (10 * acc + (Z.of_nat (nat_of_ascii c) - 48))%Z
      else None
  end.

Definition nonempty_digits (s : string) : option Z :=
  match s with
  | EmptyString => None
  | _ => digits_value s 0%Z
  end.

(** [int(s, 8)]: surrounding white space is dropped, one sign and the
    prefix [0o] are allowed, the rest must be octal digits. *)
Fixpoint octal_value (s : string) (acc : Z) : option Z :=
  match s with
  | EmptyString => Some acc
  | String c s' =>
      let n := nat_of_ascii c in
      if (48 <=? n)%nat && (n <=? 55)%nat
      then octal_value s' (8 * acc + (Z.of_nat n - 48))%Z
      else None
  end.

Definition nonempty_octal (s : string) : option Z :=
  match s with
  | EmptyString => None
  | String "0"%char (String "o"%char EmptyString)
  | String "0"%char (String "O"%char EmptyString) => None
  | String "0"%char (String "o"%char d) | String "0"%char (String "O"%char d) =>
      octal_value d 0%Z
  | _ => octal_value s 0%Z
  end.

Definition int8 (s : string) : option Z :=
  match strip s with
  | String "+"%char d => nonempty_octal d
  | String "-"%char d => Z.opp <$> nonempty_octal d
  | t => nonempty_octal t
  end.

(** [int(s)]: surrounding white space is dropped, one sign is allowed,
    the rest must be decimal digits (below code point 256 the decimal
    digits are 0 to 9; Python 3.2 allows no underscore between them);
    [None] stands for [ValueError]. *)
Definition int (s : string) : option Z :=
  match strip s with
  | String "+"%char d => nonempty_digits d
  | String "-"%char d => Z.opp <$> nonempty_digits d
  | t => nonempty_digits t
  end.

(** [str(n)] for an integer. *)
Definition str (n : Z) : string := NilZero.string_of_int (Z.to_int n).

(** [str(x)] where [x] may be [None]. *)
Definition str_opt (o : option string) : string :=
  match o with
  | Some s => s
  | None => "None"
  end.

(** [l[i]] for [0 <= i]; [None] stands for [IndexError]. *)
Definition index {A : Type} (l : list A) (i : nat) : option A := nth_error l i.

End Py.

(* ===================================================================== *)
(** * Exceptions and results *)
(* ===================================================================== *)

Inductive exn : Type :=
| RuntimeError (msg : string)
| P4Exception (msg : string)
| OSError (msg : string)
| IndexError
| KeyError (key : string)
| ValueError (msg : string)
| TypeError (msg : string)
| AssertionError.

Inductive res (A : Type) : Type :=
| Ok (a : A)
| Raise (e : exn).

Arguments Ok {A} a.
Arguments Raise {A} e.

Definition is_raise {A : Type} (r : res A) : bool :=
  match r with
  | Ok _ => false
  | Raise _ => true
  end.

(* ===================================================================== *)
(** * Data exchanged with the outside world *)
(* ===================================================================== *)

(** One element of the list [p4.run] returns: a tagged dict, or plain
    text (what a broker or an untagged command inserts). *)
Inductive p4result : Type :=
| PDict (d : gmap string string)
| PText (s : string).

(** A [P4.Message]: its [msgid], [str(m)] and [m.dict]. *)
Record message : Type := Message {
  msgid : Z;
  msg_text : string;
  msg_dict : gmap string string
}.

(** The three server connections the code holds: [ctx.p4] (the view's
    client), [ctx.p4gf] (the object client) and the connection that
    [revert_and_raise] opens with [connect_p4]. *)
Inductive conn : Type := CtxP4 | CtxP4gf | Recovery.

(** [author]/[committer] of a fast-export commit, as the parser builds
    them: the e-mail keeps its angle brackets. *)
Record ident : Type := Ident {
  user : string;
  email : string;
  date : string;
  timezone : string
}.

(** One entry of [commit['files']].  ['mode'] and ['sha1'] exist for
    action M only, ['topath'] for R and C only. *)
Record blob : Type := Blob {
  action : string;
  mode : option string;
  blob_sha1 : option string;
  path : string;
  topath : option string
}.

(** A commit as [Parser.get_commit] returns it.  ['from'] and ['merge']
    are keys that may be absent. *)
Record commit : Type := Commit {
  ref : string;
  mark : string;
  sha1 : string;
  data : string;
  author : ident;
  committer : ident;
  from_ : option string;
  merge : option string;
  files : list blob
}.

(** [command['command']] is 'commit', 'reset' or anything else. *)
Inductive command : Type :=
| CmdCommit (c : commit)
| CmdReset (r : string)
| CmdOther (name : string).

(** Requests to the outside world. *)
Inductive call : Type :=
| P4Connect (p4user client : string)
| P4Run (c : conn) (cmd : list string)
| P4FetchChange (c : conn) (change : option string)
| P4SaveChange (c : conn) (change : option string) (owner when : string)
| PathExists (p : string)
| Makedirs (p : string)
| OsRemove (p : string)
| OsUnlink (p : string)
| StatExec (p : string)
| CopyFile (src dst : string)
| CopyStat (src dst : string)
| WriteFile (p content : string)
| Popen (cmd : list string) (stdin : option string)
| UserMapLookupByEmail (addr : string)
| UserMapLookupByP4User (p4user : string)
| UserMapP4UserExists (p4user : string)
| ProtectsCheck (authenticated : option string) (p4user : string) (paths : list blob)
| LockHeartbeat
| MirrorAddCommits (marks : list string)
| MirrorAddObjectsToP4
| FastExportRun (start_at end_at : string).

(** Answers of the outside world. *)
Inductive reply : Type :=
| RNone
| RBool (b : bool)
| RResults (rows : list p4result) (msgs : list message)
| RProc (returncode : Z) (out : string)
| RUser (u : option (string * string * string))
| RMsg (m : option string)
| RCommands (cmds : list command)
| RRaise (e : exn).

(** The outside world: a state, how it answers a request, the deflate
    function of zlib, and the text that [traceback.format_stack()]
    produces. *)
Class Env : Type := {
  World : Type;
  ext : call -> World -> reply * World;
  zlib_compress : string -> string;
  format_stack : string
}.

(** What the process can see of the world: the world itself, every
    request made so far (oldest first), and the [messages] attribute of
    the two long-lived connections. *)
Record io `{Env} : Type := IO {
  world : World;
  trace : list call;
  p4_messages : list message;
  p4gf_messages : list message
}.

(* ===================================================================== *)
(** * A state and exception monad *)
(* ===================================================================== *)

(** A computation reads and writes a state and either returns or raises.
    The state survives a raise: what a Python method did to its object
    before it raised stays done. *)
Definition M (S A : Type) : Type := S -> res A * S.

Definition ret {S A : Type} (a : A) : M S A := fun s => (Ok a, s).

Definition bind {S A B : Type} (m : M S A) (k : A -> M S B) : M S B :=
  fun s =>
    match m s with
    | (Ok a, s') => k a s'
    | (Raise e, s') => (Raise e, s')
    end.

Definition raise {S A : Type} (e : exn) : M S A := fun s => (Raise e, s).

Definition get {S : Type} : M S S := fun s => (Ok s, s).

Definition put {S : Type} (s : S) : M S unit := fun _ => (Ok tt, s).

Definition modify {S : Type} (f : S -> S) : M S unit := fun s => (Ok tt, f s).

(** Run a computation on a part of the state. *)
Definition zoom {S T A : Type} (proj : S -> T) (inj : T -> S -> S) (m : M T A) : M S A :=
  fun s => let '(r, t) := m (proj s) in (r, inj t s).

(** [try: body  except P4.P4Exception as e: handler(str(e))] *)
Definition try_except_P4 {S A : Type} (body : M S A) (handler : string -> M S A) : M S A :=
  fun s =>
    match body s with
    | (Raise (P4Exception m), s') => handler m s'
    | other => other
    end.

(** [try: body  finally: final].  A raise in [final] replaces whatever
    [body] produced. *)
Definition try_finally {S A : Type} (body : M S A) (final : M S unit) : M S A :=
  fun s =>
    let '(r, s1) := body s in
    match final s1 with
    | (Ok _, s2) => (r, s2)
    | (Raise e, s2) => (Raise e, s2)
    end.

Declare Scope m_scope.
Delimit Scope m_scope with m.
Notation "'let*' x ':=' c 'in' k" := (bind c (fun x => k))
  (at level 10, x pattern, c at level 100, k at level 200) : m_scope.
Notation "c1 '>>' c2" := (bind c1 (fun _ => c2))
  (at level 100, c2 at level 200, right associativity) : m_scope.
#[local] Open Scope m_scope.

(** [for x in l: body(x)] *)
Fixpoint for_each {S A : Type} (l : list A) (body : A -> M S unit) : M S unit :=
  match l with
  | [] => ret tt
  | x :: l' => body x >> for_each l' body
  end.

(** [[f(x) for x in l]] *)
Fixpoint map_m {S A B : Type} (f : A -> M S B) (l : list A) : M S (list B) :=
  match l with
  | [] => ret []
  | x :: l' => let* y := f x in let* ys := map_m f l' in ret (y :: ys)
  end.

Definition when {S : Type} (b : bool) (m : M S unit) : M S unit :=
  if b then m else ret tt.

Section Primitives.
Context `{Env}.

Definition set_messages (c : conn) (msgs : list message) (s : io) : io :=
  match c with
  | CtxP4 => IO _ (world s) (trace s) msgs (p4gf_messages s)
  | CtxP4gf => IO _ (world s) (trace s) (p4_messages s) msgs
  | Recovery => s
  end.

(** One request: the world answers and changes, the trace grows. *)
Definition request (c : call) : M io reply :=
  fun s =>
    let '(r, w) := ext c (world s) in
    let s' := IO _ w (trace s ++ [c]) (p4_messages s) (p4gf_messages s) in
    match r with
    | RRaise e => (Raise e, s')
    | _ => (Ok r, s')
    end.

(** [p4.run(cmd)] *)
Definition p4_run (c : conn) (cmd : list string) : M io (list p4result) :=
  let* r := request (P4Run c cmd) in
  match r with
  | RResults rows msgs => modify (set_messages c msgs) >> ret rows
  | _ => raise (TypeError "p4.run")
  end.

(** A request whose answer is not looked at. *)
Definition perform (c : call) : M io unit := request c >> ret tt.

(** A request that answers with a boolean. *)
Definition ask (c : call) : M io bool :=
  let* r := request c in
  match r with
  | RBool b => ret b
  | _ => raise (TypeError "bool expected")
  end.

(** [subprocess]: return code and standard output. *)
Definition popen_no_throw (cmd : list string) (stdin : option string) : M io (Z * string) :=
  let* r := request (Popen cmd stdin) in
  match r with
  | RProc rc out => ret (rc, out)
  | _ => raise (TypeError "process expected")
  end.

(** [p4gf_util.popen]: a non-zero return code raises. *)
Definition popen (cmd : list string) : M io string :=
  let* (rc, out) := popen_no_throw cmd None in
  if (rc =? 0)%Z then ret out
  else raise (RuntimeError ("Command failed: " ++ Py.join " " cmd)).

End Primitives.

(** [p4gf_util.first_value_for_key] *)
Fixpoint first_value_for_key (result_list : list p4result) (key : string) : option string :=
  match result_list with
  | [] => None
  | PDict d :: rest =>
      match d !! key with
      | Some v => Some v
      | None => first_value_for_key rest key
      end
  | PText _ :: rest => first_value_for_key rest key
  end.

(** The parts of [Context] and [Config] the code below reads. *)
Record context : Type := MkContext {
  p4client : string;               (* ctx.config.p4client = ctx.p4.client *)
  p4client_gf : string;            (* ctx.config.p4client_gf *)
  view_name : string;              (* ctx.config.view_name *)
  authenticated_p4user : option string;
  contentlocalroot : string;
  gitlocalroot : string
}.

(** [Context.client_view_path] *)
Definition client_view_path (ctx : context) : string :=
  "//" ++ p4client ctx ++ "/...".

(* ===================================================================== *)
(** * Regular expressions, as far as the code uses them *)
(* ===================================================================== *)

Module Re.

(** A pattern is a sequence of literal characters, greedy repetitions of
    a character class with bounds, and group parentheses.  Groups do not
    nest in any pattern of the code. *)
Inductive item : Type :=
| Chr (c : ascii)
| Rep (p : ascii -> bool) (lo : nat) (hi : option nat)
| Open
| Close.

Definition regex : Type := list item.

Definition lit (s : string) : regex := map Chr (list_ascii_of_string s).

(** Character classes. *)
Definition dot (c : ascii) : bool := negb (Ascii.eqb c "010"%char).
Definition digit (c : ascii) : bool := Py.is_digit c.
Definition not_dash (c : ascii) : bool := negb (Ascii.eqb c "-"%char).
Definition between (a b : nat) (c : ascii) : bool :=
  let n := nat_of_ascii c in (a <=? n)%nat && (n <=? b)%nat.
Definition hex (c : ascii) : bool :=
  between 48 57 c || between 97 102 c || between 65 70 c.
Definition octal (c : ascii) : bool := between 48 55 c.
Definition lower (c : ascii) : bool := between 97 122 c.

Definition plus (p : ascii -> bool) : item := Rep p 1 None.
Definition star (p : ascii -> bool) : item := Rep p 0 None.
Definition exactly (p : ascii -> bool) (n : nat) : item := Rep p n (Some n).

(** How many leading characters of [s] are in the class, at most [hi]. *)
Fixpoint run_length (p : ascii -> bool) (hi : option nat) (s : string) : nat :=
  match hi with
  | Some O => O
  | _ =>
      match s with
      | String c s' =>
          if p c then S (run_length p (Nat.pred <$> hi) s') else O
      | EmptyString => O
      end
  end.

Fixpoint drop (n : nat) (s : string) : string :=
  match n, s with
  | S n', String _ s' => drop n' s'
  | _, _ => s
  end.

(** Greedy repetition: the longest run first, then shorter ones. *)
Fixpoint try_down {R : Type} (k : nat -> option R) (lo n : nat) : option R :=
  if (n <? lo)%nat then None
  else match k n with
       | Some r => Some r
       | None =>
           match n with
           | O => None
           | S n' => try_down k lo n'
           end
       end.

Definition extend (cur : option string) (t : string) : option string :=
  (fun g => String.append g t) <$> cur.

(** Match [re] at the start of [s].  [cur] is the text of the group that
    is open, [groups] the closed groups, last first.  The result is the
    groups in order and the unmatched rest. *)
Fixpoint match_here (re : regex) (s : string) (cur : option string)
    (groups : list string) : option (list string * string) :=
  match re with
  | [] => Some (rev groups, s)
  | Chr c :: re' =>
      match s with
      | String x s' =>
          if Ascii.eqb x c
          then match_here re' s' (extend cur (String x EmptyString)) groups
          else None
      | EmptyString => None
      end
  | Rep p lo hi :: re' =>
      try_down
        (fun k => match_here re' (drop k s) (extend cur (String.substring 0 k s)) groups)
        lo (run_length p hi s)
  | Open :: re' => match_here re' s (Some EmptyString) groups
  | Close :: re' =>
      match_here re' s None
        (match cur with Some g => g :: groups | None => groups end)
  end.

(** [re.match(s)]: the groups, or [None]. *)
Definition match_ (re : regex) (s : string) : option (list string) :=
  fst <$> match_here re s None [].

(** [re.search(s)]: the groups of the leftmost match, or [None]. *)
Fixpoint search (re : regex) (s : string) : option (list string) :=
  match match_ re s with
  | Some g => Some g
  | None =>
      match s with
      | EmptyString => None
      | String _ s' => search re s'
      end
  end.

(** [m.group(i)], [i >= 1]. *)
Definition group (g : list string) (i : nat) : string := nth (i - 1) g EmptyString.

End Re.

(* ===================================================================== *)
(** * p4gf_object_type.py *)
(* ===================================================================== *)

Module ObjectType.

Definition TREE : string := "tree".
Definition COMMIT : string := "commit".
Definition BLOB : string := "blob".

Definition P4GF_DEPOT : string := ".git-fusion".

(** class ObjectType *)
Record t : Type := Make {
  sha1 : string;
  type : string;
  p4changelists : option (list (string * string))
}.

(** [ObjectType.view_name_to_changelist].  Iterating over
    [p4changelists] when it is [None] is a [TypeError]. *)
Definition view_name_to_changelist (self : t) (view_name : string) : res (option string) :=
  match p4changelists self with
  | None => Raise (TypeError "'NoneType' object is not iterable")
  | Some l =>
      let matched := map fst (List.filter (fun p => String.eqb (snd p) view_name) l) in
      Ok (head matched)
  end.

(** [ObjectType.applies_to_view] *)
Definition applies_to_view (self : t) (view_name : string) : res bool :=
  if negb (String.eqb COMMIT (type self)) then Ok true
  else match view_name_to_changelist self view_name with
       | Ok m => Ok (bool_decide (m <> None))
       | Raise e => Raise e
       end.

(** [_deslash] *)
Definition _deslash (s : string) : string :=
  string_of_list_ascii
    (List.filter (fun c => negb (Ascii.eqb c "/"%char)) (list_ascii_of_string s)).

(** The pattern of [re_gfo]: the text /objects/, a group of one or more
    characters other than a dash, a dash, and a group with the rest of
    the line. *)
Definition re_gfo : Re.regex :=
  Re.lit "/objects/" ++ [Re.Open; Re.plus Re.not_dash; Re.Close; Re.Chr "-"%char;
                         Re.Open; Re.star Re.dot; Re.Close].

(** [_filepath_to_object_type] *)
Definition _filepath_to_object_type (sha1_ : string) (filepath : string) : res t :=
  match Re.search re_gfo filepath with
  | None => Raise (RuntimeError ("could not parse path for sha1: " ++ sha1_ ++ "
" ++ filepath))
  | Some m =>
      let sha1' := _deslash (Re.group m 1) in
      let info_list := Py.split "-"%char (Re.group m 2) in
      match info_list with
      | [kind] =>
          if String.eqb kind COMMIT
          then Raise (RuntimeError "Bug: commit object with no associated p4changelist")
          else Ok (Make sha1' kind None)
      | kind :: change :: view1 :: views =>
          Ok (Make sha1' kind (Some [(change, Py.join "-" (view1 :: views))]))
      | _ => Raise (RuntimeError ("could not parse path for sha1: " ++ sha1_ ++ "
" ++ filepath))
      end
  end.

(** [f['depotFile']] for an element of a [p4 files] result. *)
Definition depot_file (f : p4result) : res string :=
  match f with
  | PDict d =>
      match d !! "depotFile" with
      | Some v => Ok v
      | None => Raise (KeyError "depotFile")
      end
  | PText _ => Raise (TypeError "string indices must be integers")
  end.

Fixpoint map_res {A B : Type} (f : A -> res B) (l : list A) : res (list B) :=
  match l with
  | [] => Ok []
  | x :: l' =>
      match f x with
      | Raise e => Raise e
      | Ok y =>
          match map_res f l' with
          | Raise e => Raise e
          | Ok ys => Ok (y :: ys)
          end
      end
  end.

Definition lift_res {S A : Type} (r : res A) : M S A :=
  match r with
  | Ok a => ret a
  | Raise e => raise e
  end.

Section WithEnv.
Context `{Env}.

(** [_sha1_to_object_type_list_p4].  Slicing a [None] sha1 is a
    [TypeError]. *)
Definition _sha1_to_object_type_list_p4 (sha1_ : option string) (p4 : conn) : M io (list t) :=
  match sha1_ with
  | None => raise (TypeError "'NoneType' object is not subscriptable")
  | Some s =>
      let slashed : string :=
        Py.slice s (Some 0%Z) (Some 2%Z) +:+ "/"
        +:+ Py.slice s (Some 2%Z) (Some 4%Z) +:+ "/"
        +:+ Py.slice s (Some 4%Z) None in
      let path : string := "//" +:+ P4GF_DEPOT +:+ "/objects/" +:+ slashed +:+ "*" in
      let* files := p4_run p4 ["files"; path] in
      lift_res (map_res (fun f =>
                  match depot_file f with
                  | Ok d => _filepath_to_object_type s d
                  | Raise e => Raise e
                  end) files)
  end.

(** The body of the [try] in [sha1_to_object_type]. *)
Definition sha1_to_object_type_body (sha1_ : option string) (view : string) (p4 : conn)
    : M io t :=
  let* object_type_list := _sha1_to_object_type_list_p4 sha1_ p4 in
  let* flags := lift_res (map_res (fun ot => applies_to_view ot view) object_type_list) in
  let matching := map fst (List.filter snd (combine object_type_list flags)) in
  match matching with
  | [] => raise (RuntimeError ("sha1 not matched: " ++ Py.str_opt sha1_
                               ++ " for view " ++ view))
  | [ot] => ret ot
  | _ => raise (RuntimeError ("sha1 not unique: " ++ Py.str_opt sha1_
                              ++ " for view " ++ view))
  end.

(** [sha1_to_object_type]: the bare [except:] swallows every exception
    unless [raise_on_error]. *)
Definition sha1_to_object_type (sha1_ : option string) (view : string) (p4 : conn)
    (raise_on_error : bool) : M io (option t) :=
  fun s =>
    match sha1_to_object_type_body sha1_ view p4 s with
    | (Ok ot, s') => (Ok (Some ot), s')
    | (Raise e, s') => if raise_on_error then (Raise e, s') else (Ok None, s')
    end.

End WithEnv.

End ObjectType.

(* ===================================================================== *)
(** * p4gf_g2p_conflict_checker.py *)
(* ===================================================================== *)

(** [p4gf_path.slash_dot_dot_dot] *)
Definition slash_dot_dot_dot (path_ : string) : string :=
  let s1 : string := if Py.startswith "//" path_ then path_ else "//" +:+ path_ in
  if Py.endswith "/..." path_ then s1 else s1 +:+ "/...".

Module ConflictChecker.

(** The named tuple [CommitChange].  Either field can be [None]. *)
Record CommitChange : Type := MkCommitChange {
  git_commit_sha1 : option string;
  p4_changelist_number : option string
}.

(** The attributes of a [G2PConflictChecker]. *)
Record t : Type := Make {
  good : list CommitChange;
  first_conflict_index : option nat;
  last_good_change_number : option string
}.

(** [g == c] for a known changelist number (maybe [None]) and the
    ['change'] of a [p4 changes] row. *)
Definition same_change (g : option string) (c : string) : bool :=
  match g with
  | Some s => String.eqb s c
  | None => false
  end.

(** [good[0] in changes] *)
Definition in_changes (g : option string) (changes : list string) : bool :=
  existsb (same_change g) changes.

(** [while len(good) and not (good[0] in changes): good.pop(0)] *)
Fixpoint skip_old (good_ : list (option string)) (changes : list string)
    : list (option string) :=
  match good_ with
  | [] => []
  | g :: rest => if in_changes g changes then good_ else skip_old rest changes
  end.

(** How the lock-step loop ends: at a mismatch, or with one of the two
    lists used up. *)
Inductive walk : Type :=
| Mismatch (good_index : nat)
| FellOff (good_left : list (option string)) (changes_left : list string) (good_index : nat).

(** [while len(good) and len(changes): ...] *)
Fixpoint lockstep (good_ : list (option string)) (changes : list string) (good_index : nat)
    : walk :=
  match good_, changes with
  | g :: gs, c :: cs =>
      if same_change g c then lockstep gs cs (S good_index) else Mismatch good_index
  | _, _ => FellOff good_ changes good_index
  end.

(** [x['change']] for a row of [p4 changes]. *)
Definition change_of (x : p4result) : res string :=
  match x with
  | PDict d =>
      match d !! "change" with
      | Some v => Ok v
      | None => Raise (KeyError "change")
      end
  | PText _ => Raise (TypeError "string indices must be integers")
  end.

Section WithEnv.
Context `{Env}.

(** The checker and the world it talks to. *)
Definition st : Type := t * io.

Definition io_ {A : Type} (m : M io A) : M st A :=
  zoom snd (fun i s => (fst s, i)) m.

Definition self : M st t := fun s => (Ok (fst s), s).

Definition update (f : t -> t) : M st unit := modify (fun s => (f (fst s), snd s)).

(** [p4gf_util.git_head_sha1] *)
Definition git_head_sha1 : M io (option string) :=
  let* (_, out) := popen_no_throw ["git"; "log"; "-1"; "--oneline"; "--abbrev=40"; "HEAD"; "--"] None in
  if (String.length out =? 0)%nat then ret None
  else ret (head (Py.split " "%char out)).

(** [G2PConflictChecker.__init__] without the testing arguments (and
    with debug logging off, so nothing is dumped). *)
Definition __init__ (ctx : context) : M io t :=
  let empty := Make [] None None in
  let* head_sha1 := git_head_sha1 in
  if Py.truthy_opt head_sha1 then
    let* again := git_head_sha1 in
    let* found := ObjectType.sha1_to_object_type again (view_name ctx) CtxP4 true in
    match found with
    | None => raise (TypeError "'NoneType' object has no attribute 'type'")
    | Some object_type =>
        if String.eqb (ObjectType.type object_type) "commit" then
          let* change_num :=
            ObjectType.lift_res
              (ObjectType.view_name_to_changelist object_type (view_name ctx)) in
          ret (Make [MkCommitChange (Some (ObjectType.sha1 object_type)) change_num]
                    None change_num)
        else ret empty
    end
  else ret empty.

(** [record_commit] *)
Definition record_commit (commit_sha1 changelist_number : option string) : M st unit :=
  if negb (Py.truthy_opt commit_sha1) && negb (Py.truthy_opt changelist_number)
  then raise (RuntimeError
      "Cannot record a partial git commit + p4 changelist, both must be non-None")
  else update (fun c =>
         Make (good c ++ [MkCommitChange commit_sha1 changelist_number])
              (first_conflict_index c) (last_good_change_number c)).

(** [find_conflict_index].  The list [good] that the loop consumes,
    and that receives the extra element in the last branch, is the
    local list of changelist numbers, not [self.good]. *)
Definition find_conflict_index (changelist_list_ : list p4result) : M st (option nat) :=
  let changelist_list := rev changelist_list_ in
  let* c := self in
  let good_ := map p4_changelist_number (good c) in
  let* changes := ObjectType.lift_res (ObjectType.map_res change_of changelist_list) in
  match lockstep (skip_old good_ changes) changes 0 with
  | Mismatch good_index => ret (Some good_index)
  | FellOff (_ :: _) _ good_index => ret (Some good_index)
  | FellOff [] (_ :: _) good_index => ret (Some good_index)
  | FellOff [] [] _ =>
      match last (good c) with
      | Some e =>
          update (fun c => Make (good c) (first_conflict_index c) (p4_changelist_number e))
          >> ret None
      | None => ret None
      end
  end.

(** [check] *)
Definition check (ctx : context) : M st (option string) :=
  let future := "2030/12/31" in
  let path_ := slash_dot_dot_dot (p4client ctx) in
  let* c := self in
  let path_at : string :=
    if Py.truthy_opt (last_good_change_number c)
    then path_ +:+ "@" +:+ Py.str_opt (last_good_change_number c) +:+ "," +:+ future
    else path_ +:+ "@0," +:+ future in
  let* changelist_list := io_ (p4_run CtxP4 ["changes"; "-m5"; "-ssubmitted"; path_at]) in
  let* idx := find_conflict_index changelist_list in
  update (fun c => Make (good c) idx (last_good_change_number c)) >>
  match idx with
  | None => ret None
  | Some i =>
      let* c := self in
      match Py.index (good c) i with
      | None => raise IndexError
      | Some e => ret (p4_changelist_number e)
      end
  end.

(** [has_conflict] *)
Definition has_conflict (c : t) : bool := bool_decide (first_conflict_index c <> None).

End WithEnv.

End ConflictChecker.

(* ===================================================================== *)
(** * p4gf_gitmirror.py *)
(* ===================================================================== *)

(** [MsgId(sub, cod)] of p4gf_p4msgid.py, and the ids used below. *)
Definition ES_DM : Z := 6.
Definition MsgId (sub cod : Z) : Z := Z.lor (Z.shiftl sub 10) cod.
Definition MsgDm_OpenUpToDate : Z := MsgId ES_DM 293.
Definition MsgDm_ExFILE : Z := MsgId ES_DM 375.

(** [l[:n]], [l[n:]] and the loop that eats a list in bites of [n]. *)
Fixpoint bites_aux {A : Type} (fuel n : nat) (l : list A) : list (list A) :=
  match fuel, l with
  | S fuel', _ :: _ => firstn n l :: bites_aux fuel' n (skipn n l)
  | _, _ => []
  end.

Definition bites {A : Type} (n : nat) (l : list A) : list (list A) :=
  bites_aux (length l) n l.

(** [os.path.dirname] (posixpath). *)
Fixpoint rfind_slash (s : string) (i : nat) (acc : nat) : nat :=
  match s with
  | EmptyString => acc
  | String c s' => rfind_slash s' (S i) (if Ascii.eqb c "/"%char then S i else acc)
  end.

Definition dirname (p : string) : string :=
  let head_ := String.substring 0 (rfind_slash p 0 0) p in
  let stripped := Py.rev_string (Py.lstrip_with (Ascii.eqb "/"%char) (Py.rev_string head_)) in
  if String.eqb stripped "" then head_ else stripped.

(** [list.sort()] on strings: insertion into an ordered list. *)
Fixpoint insert_sorted (x : string) (l : list string) : list string :=
  match l with
  | [] => [x]
  | y :: l' => if String.leb x y then x :: l else y :: insert_sorted x l'
  end.

Definition sort_strings (l : list string) : list string :=
  fold_right insert_sorted [] l.

Module GitMirror.

(** [mirror_path] *)
Definition mirror_path (root sha1_ objtype : string) : string :=
  root +:+ "objects/" +:+ Py.slice sha1_ None (Some 2%Z) +:+ "/"
  +:+ Py.slice sha1_ (Some 2%Z) (Some 4%Z) +:+ "/"
  +:+ Py.slice sha1_ (Some 4%Z) None +:+ "-" +:+ objtype.

(** class GitObject *)
Record GitObject : Type := MkGitObject {
  type : string;
  sha1 : string;
  p4changelists : option (list (string * string))
}.

(** [GitObject.git_p4_client_path] *)
Definition git_p4_client_path (self : GitObject) (ctx : context) : res string :=
  let path_ := mirror_path (gitlocalroot ctx) (sha1 self) (type self) in
  if String.eqb (type self) "commit" then
    match p4changelists self with
    | None => Raise (TypeError "object of type 'NoneType' has no len()")
    | Some [cl] => Ok (path_ +:+ "-" +:+ fst cl +:+ "-" +:+ snd cl)
    | Some _ =>
        Raise (RuntimeError
          "Bug: commit objects can only produce single path if given a single changelist and view name")
    end
  else Ok path_.

(** class GitObjectList: the dict [objects] and the dict [counts]. *)
Record GitObjectList : Type := MkGitObjectList {
  objects : gmap string GitObject;
  counts : gmap string Z
}.

(** [GitObjectList.__init__] *)
Definition empty_list : GitObjectList :=
  MkGitObjectList ∅ (<["commit" := 0%Z]> (<["tree" := 0%Z]> (<["tag" := 0%Z]> ∅))).

Definition key_of (o : GitObject) : string := type o +:+ sha1 o.

(** [GitObjectList.add_object].  A new object is stored first;
    [counts[type] += 1] then is a [KeyError] for a type that is not one
    of the three, and the object stays stored. *)
Definition add_object (obj_to_add : GitObject) : M GitObjectList unit :=
  let key := key_of obj_to_add in
  let* l := get in
  match objects l !! key with
  | Some _ => ret tt
  | None =>
      put (MkGitObjectList (<[key := obj_to_add]> (objects l)) (counts l)) >>
      match counts l !! type obj_to_add with
      | None => raise (KeyError (type obj_to_add))
      | Some n =>
          put (MkGitObjectList (<[key := obj_to_add]> (objects l))
                               (<[type obj_to_add := (n + 1)%Z]> (counts l)))
      end
  end.

(** [objects.values()] *)
Definition values (l : GitObjectList) : list GitObject :=
  map snd (map_to_list (objects l)).

(** class FilterAddFstatHandler: [files] and [existing]. *)
Record handler : Type := MkHandler {
  h_files : list string;
  h_existing : list (string * string)
}.

(** [FilterAddFstatHandler.outputStat] *)
Definition outputStat (view : string) (h : gmap string string) (hd : handler) : res handler :=
  let views := default "" (h !! "attr-views") in
  let parts := Py.split "#"%char views in
  if existsb (String.eqb view) parts then Ok hd
  else
    match h !! "depotFile" with
    | None => Raise (KeyError "depotFile")
    | Some depot =>
        Ok (MkHandler (h_files hd)
                      (h_existing hd ++ [(depot, Py.join "#" (parts ++ [view]))]))
    end.

(** [FilterAddFstatHandler.outputMessage] *)
Definition outputMessage (m : message) (hd : handler) : res handler :=
  if (msgid m =? MsgDm_ExFILE)%Z then
    match msg_dict m !! "argc" with
    | None => Raise (KeyError "argc")
    | Some f => Ok (MkHandler (h_files hd ++ [f]) (h_existing hd))
    end
  else Ok hd.

Fixpoint fold_res {A B : Type} (f : A -> B -> res B) (l : list A) (b : B) : res B :=
  match l with
  | [] => Ok b
  | x :: l' =>
      match f x b with
      | Ok b' => fold_res f l' b'
      | Raise e => Raise e
      end
  end.

(** What one [fstat] run does to the handler: a stat callback for every
    dict of the result, a message callback for every message. *)
Definition feed_handler (view : string) (rows : list p4result) (msgs : list message)
    (hd : handler) : res handler :=
  match fold_res (fun r hd => match r with
                              | PDict d => outputStat view d hd
                              | PText _ => Ok hd
                              end) rows hd with
  | Ok hd' => fold_res outputMessage msgs hd'
  | Raise e => Raise e
  end.

(** [build_view_mapping], first loop: the names, and the dict from a
    views string to its files. *)
Fixpoint group_by_views (existing_files : list (string * string))
    (names : list string) (view_files : gmap string (list string))
    : list string * gmap string (list string) :=
  match existing_files with
  | [] => (names, view_files)
  | ef :: rest =>
      let views := snd ef in
      group_by_views rest (names ++ [fst ef])
        (match view_files !! views with
         | Some fs => <[views := fs ++ [fst ef]]> view_files
         | None => <[views := [fst ef]]> view_files
         end)
  end.

Definition remove_first (x : string) (l : list string) : list string :=
  (fix go (l : list string) : list string :=
     match l with
     | [] => []
     | y :: l' => if String.eqb x y then l' else y :: go l'
     end) l.

(** [build_view_mapping], second loop: [for views in view_keys] over a
    list that the body shortens with [view_keys.remove(views)]; the loop
    index moves on regardless, so the element after a removed one is
    passed over. *)
Fixpoint normalise_keys (fuel i : nat) (view_keys : list string)
    (view_files : gmap string (list string)) : gmap string (list string) :=
  match fuel with
  | O => view_files
  | S fuel' =>
      match nth_error view_keys i with
      | None => view_files
      | Some views =>
          let view_parts := Py.split "#"%char views in
          let news := Py.join "#" (sort_strings view_parts) in
          if (1 <? length view_parts)%nat && negb (String.eqb news views) then
            let files_ := default [] (view_files !! views) in
            let vf := delete views view_files in
            normalise_keys fuel' (S i) (remove_first views view_keys)
              (match vf !! news with
               | Some fs => <[news := fs ++ files_]> vf
               | None => <[news := files_]> vf
               end)
          else normalise_keys fuel' (S i) view_keys view_files
      end
  end.

(** [build_view_mapping] *)
Definition build_view_mapping (existing_files : list (string * string))
    : list string * gmap string (list string) :=
  let '(existing_names, view_files) := group_by_views existing_files [] ∅ in
  let view_keys := map fst (map_to_list view_files) in
  (existing_names, normalise_keys (length view_keys) 0 view_keys view_files).

Section WithEnv.
Context `{Env}.

(** The mirror's object list and the world. *)
Definition st : Type := GitObjectList * io.

Definition io_ {A : Type} (m : M io A) : M st A :=
  zoom snd (fun i s => (fst s, i)) m.

(** [self.git_objects.add_object(obj)] *)
Definition add (obj : GitObject) : M st unit :=
  zoom fst (fun l s => (l, snd s)) (add_object obj).

(** [GitMirror.get_change_for_commit] *)
Definition get_change_for_commit (commit_ : option string) (ctx : context)
    : M io (option string) :=
  let* object_type := ObjectType.sha1_to_object_type commit_ (view_name ctx) CtxP4gf false in
  match object_type with
  | None => ret None
  | Some ot => ObjectType.lift_res (ObjectType.view_name_to_changelist ot (view_name ctx))
  end.

(** [po.splitlines()] *)
Definition splitlines (po : string) : list string := Py.splitlines po.

(** [__get_commit_tree]: the first line that starts with "tree". *)
Definition __get_commit_tree (commit_ : string) : M st (option string) :=
  let* (_, po) := io_ (popen_no_throw ["git"; "cat-file"; "commit"; commit_] None) in
  match List.filter (Py.startswith "tree") (splitlines po) with
  | [] => ret None
  | line :: _ =>
      match Py.split " "%char (Py.strip line) with
      | _ :: sha1_ :: _ => add (MkGitObject "tree" sha1_ None) >> ret (Some sha1_)
      | _ => raise IndexError
      end
  end.

(** A [None] in the argument list of [Popen] is a [TypeError]. *)
Definition argument (a : option string) : M st string :=
  match a with
  | Some x => ret x
  | None => raise (TypeError "expected str, got NoneType")
  end.

(** The pattern of [__get_snapshot_trees]: six octal digits, " tree ",
    a group of forty hex digits, a tab. *)
Definition re_ls_tree : Re.regex :=
  [Re.exactly Re.octal 6] ++ Re.lit " tree " ++
  [Re.Open; Re.exactly Re.hex 40; Re.Close; Re.Chr "009"%char; Re.star Re.dot].

(** [__get_snapshot_trees] *)
Definition __get_snapshot_trees (commit_ : string) : M st (option string) :=
  let* top_tree := __get_commit_tree commit_ in
  let* tree_arg := argument top_tree in
  let* (_, po) := io_ (popen_no_throw ["git"; "ls-tree"; "-rt"; tree_arg] None) in
  for_each (splitlines po) (fun line =>
    match Re.match_ re_ls_tree line with
    | Some m => add (MkGitObject "tree" (Re.group m 1) None)
    | None => ret tt
    end) >>
  ret top_tree.

(** The pattern of [__get_delta_trees]: a colon, six octal digits, a
    group of two octal digits and four more, forty hex digits, a group
    of forty hex digits. *)
Definition re_diff_tree : Re.regex :=
  [Re.Chr ":"%char; Re.exactly Re.octal 6; Re.Chr " "%char;
   Re.Open; Re.exactly Re.octal 2; Re.Close; Re.exactly Re.octal 4; Re.Chr " "%char;
   Re.exactly Re.hex 40; Re.Chr " "%char;
   Re.Open; Re.exactly Re.hex 40; Re.Close; Re.Chr " "%char; Re.star Re.dot].

(** [__get_delta_trees] *)
Definition __get_delta_trees (top_tree1 : string) (commit2 : string) : M st (option string) :=
  let* top_tree2 := __get_commit_tree commit2 in
  let* tree_arg := argument top_tree2 in
  let* (_, po) := io_ (popen_no_throw
                         ["git"; "diff-tree"; "-t"; top_tree1; tree_arg] None) in
  for_each (splitlines po) (fun line =>
    match Re.match_ re_diff_tree line with
    | Some m =>
        if String.eqb (Re.group m 1) "04"
        then add (MkGitObject "tree" (Re.group m 2) None)
        else ret tt
    | None => ret tt
    end) >>
  ret top_tree2.

(** [add_commits] *)
Fixpoint add_commits_from (view : string) (marks : list string) (last_top_tree : option string)
    : M st unit :=
  match marks with
  | [] => ret tt
  | mark_ :: rest =>
      match Py.split " "%char mark_ with
      | part0 :: part1 :: _ =>
          let change_num := Py.slice part0 (Some 1%Z) None in
          let sha1_ := Py.strip part1 in
          add (MkGitObject "commit" sha1_ (Some [(change_num, view)])) >>
          let* top :=
            (if Py.truthy_opt last_top_tree
             then __get_delta_trees (Py.str_opt last_top_tree) sha1_
             else __get_snapshot_trees sha1_) in
          add_commits_from view rest top
      | _ => raise IndexError
      end
  end.

Definition add_commits (ctx : context) (marks : list string) : M st unit :=
  add_commits_from (view_name ctx) marks None.

(** [__add_object_to_p4] *)
Definition __add_object_to_p4 (ctx : context) (go : GitObject) : M io string :=
  perform LockHeartbeat >>
  let* dst := ObjectType.lift_res (git_p4_client_path go ctx) in
  let* there := ask (PathExists dst) in
  if there then ret dst
  else
    let dstdir := dirname dst in
    let* dir_there := ask (PathExists dstdir) in
    when (negb dir_there) (perform (Makedirs dstdir)) >>
    let* (_, po) := popen_no_throw ["git"; "cat-file"; type go; sha1 go] None in
    let header : string :=
      type go +:+ " " +:+ Py.str (Z.of_nat (String.length po)) +:+ String "000"%char "" in
    let deflated := zlib_compress (header +:+ po) in
    perform (WriteFile dst deflated) >>
    ret dst.

(** [add_objects_with_views]: the number of files not added. *)
Definition count_messages (msgs : list message) : res Z :=
  fold_res (fun m n =>
    if negb (msgid m =? MsgDm_OpenUpToDate)%Z then Ok (n + 1)%Z
    else match msg_dict m !! "action" with
         | None => Raise (KeyError "action")
         | Some a => Ok (if negb (String.eqb a "add") then (n + 1)%Z else n)
         end) msgs 0%Z.

Definition sort_result (r : p4result) (acc : Z * list string) : res (Z * list string) :=
  match r with
  | PText _ => Ok acc
  | PDict d =>
      match d !! "action" with
      | None => Raise (KeyError "action")
      | Some a =>
          if negb (String.eqb a "add") then Ok ((fst acc + 1)%Z, snd acc)
          else match d !! "depotFile" with
               | None => Raise (KeyError "depotFile")
               | Some f => Ok (fst acc, snd acc ++ [f])
               end
      end
  end.

Fixpoint add_bites (bs : list (list string)) (not_added : Z) (added : list string)
    : M io (Z * list string) :=
  match bs with
  | [] => ret (not_added, added)
  | bite :: rest =>
      let* result := p4_run CtxP4gf (["add"; "-t"; "binary"] ++ bite) in
      let* s := get in
      let* n := ObjectType.lift_res (count_messages (p4gf_messages s)) in
      let* (n', added') :=
        ObjectType.lift_res (fold_res sort_result result ((not_added + n)%Z, added)) in
      add_bites rest n' added'
  end.

Definition add_objects_with_views (ctx : context) (add_files : list string) : M io Z :=
  let* (files_not_added, added_files) := add_bites (bites 1000 add_files) 0%Z [] in
  for_each (bites 1000 added_files) (fun bite =>
    p4_run CtxP4gf (["attribute"; "-p"; "-n"; "views"; "-v"; view_name ctx] ++ bite) >> ret tt) >>
  ret files_not_added.

(** [edit_objects_with_views] *)
Definition edit_objects_with_views (existing_files : list (string * string)) : M io unit :=
  let '(existing_names, view_mapping) := build_view_mapping existing_files in
  for_each (bites 1000 existing_names) (fun bite =>
    p4_run CtxP4gf ("edit" :: bite) >> ret tt) >>
  for_each (map_to_list view_mapping) (fun vn =>
    for_each (bites 1000 (snd vn)) (fun bite =>
      p4_run CtxP4gf (["attribute"; "-p"; "-n"; "views"; "-v"; fst vn] ++ bite) >> ret tt)).

(** The [fstat] loop of [add_objects_to_p4]. *)
Fixpoint fstat_bites (view : string) (bs : list (list string)) (hd : handler) : M io handler :=
  match bs with
  | [] => ret hd
  | bite :: rest =>
      let* r := request (P4Run CtxP4gf (["fstat"; "-Oa"; "-T"; "depotFile, attr-views"] ++ bite)) in
      match r with
      | RResults rows msgs =>
          let* hd' := ObjectType.lift_res (feed_handler view rows msgs hd) in
          fstat_bites view rest hd'
      | _ => raise (TypeError "p4.run")
      end
  end.

(** [add_objects_to_p4] *)
Definition add_objects_to_p4 (ctx : context) : M st unit :=
  let* opened := io_ (p4_run CtxP4gf ["opened"]) in
  when (negb (bool_decide (opened = [])))
    (io_ (p4_run CtxP4gf ["revert"; "//" +:+ p4client_gf ctx +:+ "/..."]) >> ret tt) >>
  let* s := get in
  let* add_files := io_ (map_m (__add_object_to_p4 ctx) (values (fst s))) in
  let* hd := io_ (fstat_bites (view_name ctx) (bites 1000 add_files) (MkHandler [] [])) in
  let add_files := h_files hd in
  let existing_files := h_existing hd in
  let files_to_add := (length add_files + length existing_files)%nat in
  if (files_to_add =? 0)%nat then ret tt
  else
    let* files_not_added := io_ (add_objects_with_views ctx add_files) in
    io_ (edit_objects_with_views existing_files) >>
    if (files_not_added <? Z.of_nat files_to_add)%Z
    then io_ (p4_run CtxP4gf ["submit"; "-d";
                              "Git Fusion " +:+ view_name ctx +:+ " copied to git"]) >> ret tt
    else ret tt.

End WithEnv.

End GitMirror.

(* ===================================================================== *)
(** * p4gf_copy_to_git.py: RevRange *)
(* ===================================================================== *)

Module RevRange.

(** class RevRange *)
Record t : Type := Make {
  begin_rev_spec : option string;
  end_rev_spec : option string;
  new_repo : bool;
  graft_change_num : option Z;
  last_commit : option string
}.

(** The pattern of [expand_sha1]: a group of forty hex digits, a space,
    a group of lower-case letters, a space, the rest of the line. *)
Definition patt : Re.regex :=
  [Re.Open; Re.Rep Re.hex 40 (Some 40); Re.Close; Re.Chr " "%char;
   Re.Open; Re.plus Re.lower; Re.Close; Re.Chr " "%char; Re.star Re.dot].

Section WithEnv.
Context `{Env}.

(** [expand_sha1]: [None] when the output of git does not match. *)
Definition expand_sha1 (partial_sha1 : string) : M io (option string) :=
  let* (_, out) := popen_no_throw ["git"; "cat-file"; "--batch-check"] (Some partial_sha1) in
  ret ((fun g => Re.group g 1) <$> Re.match_ patt out).

(** [_new_repo_from_perforce_range] *)
Definition _new_repo_from_perforce_range (ctx : context) (start_at stop_at : string) : M io t :=
  if negb (String.eqb start_at "@1") then
    let* changes_result := p4_run CtxP4 ["changes"; "-m2"; client_view_path ctx +:+ start_at] in
    match changes_result with
    | _ :: older :: _ =>
        let* change := ObjectType.lift_res (ConflictChecker.change_of older) in
        match Py.int change with
        | Some n => ret (Make (Some start_at) (Some stop_at) true (Some n) None)
        | None => raise (ValueError ("invalid literal for int() with base 10: " +:+ change))
        end
    | _ => ret (Make (Some start_at) (Some stop_at) true None None)
    end
  else ret (Make (Some start_at) (Some stop_at) true None None).

(** [_existing_repo_after_commit] *)
Definition _existing_repo_after_commit (ctx : context) (start_at stop_at : string) : M io t :=
  let* last_commit_ := expand_sha1 start_at in
  let* last_changelist_number := GitMirror.get_change_for_commit last_commit_ ctx in
  if negb (Py.truthy_opt last_changelist_number) then
    raise (RuntimeError ("Invalid startAt=" +:+ start_at
             +:+ ": no commit sha1 with a corresponding Perforce changelist number."))
  else
    match Py.int (Py.str_opt last_changelist_number) with
    | None => raise (ValueError ("invalid literal for int() with base 10: "
                                 +:+ Py.str_opt last_changelist_number))
    | Some n =>
        ret (Make (Some ("@" +:+ Py.str (1 + n))) (Some stop_at) false None last_commit_)
    end.

(** [from_start_stop] *)
Definition from_start_stop (ctx : context) (start_at stop_at : string) : M io t :=
  if Py.startswith "@" start_at
  then _new_repo_from_perforce_range ctx start_at stop_at
  else _existing_repo_after_commit ctx start_at stop_at.

End WithEnv.

End RevRange.

(* ===================================================================== *)
(** * p4gf_p4file.py, p4gf_p4changelist.py and p4gf_fastimport.py *)
(* ===================================================================== *)

(** [p4gf_const.P4GF_IMPORT_HEADER] and [P4GF_BRANCH_TEMP] *)
Definition P4GF_IMPORT_HEADER : string := "Imported from Git".
Definition P4GF_BRANCH_TEMP : string := "git_fusion_temp_branch".

Definition LF : string := String "010"%char EmptyString.

Module P4File.

(** class P4File *)
Record t : Type := Make {
  depot_path : string;
  client_path : option string;
  action : string;
  revision : string;
  sha1 : string;
  type : string
}.

(** The table of [update_type_string]. *)
Definition old_filetypes : list (string * string) :=
  [ ("ctempobj", "binary+Sw"); ("ctext", "text+C"); ("cxtext", "text+Cx");
    ("ktext", "text+k"); ("kxtext", "text+kx"); ("ltext", "text+F");
    ("tempobj", "binary+FSw"); ("ubinary", "binary+F"); ("uresource", "resource+F");
    ("uxbinary", "binary+Fx"); ("xbinary", "binary+x"); ("xltext", "text+Fx");
    ("xtempobj", "binary+Swx"); ("xtext", "text+x"); ("xunicode", "unicode+x");
    ("xutf16", "utf16+x") ].

Fixpoint assoc (k : string) (l : list (string * string)) : option string :=
  match l with
  | [] => None
  | (k', v) :: l' => if String.eqb k k' then Some v else assoc k l'
  end.

(** [update_type_string] *)
Definition update_type_string (old_type : string) : string :=
  default old_type (assoc old_type old_filetypes).

(** [has_type_modifier] *)
Definition has_type_modifier (typestring modifier : string) : bool :=
  match Py.split "+"%char (update_type_string typestring) with
  | _ :: mods :: _ => negb (Py.find modifier mods =? -1)%Z
  | _ => false
  end.

(** [is_delete], [is_x_type], [is_symlink] *)
Definition is_delete (self : t) : bool :=
  String.eqb (action self) "delete" || String.eqb (action self) "move/delete".

Definition is_x_type (self : t) : bool := has_type_modifier (type self) "x".

Definition is_symlink (self : t) : bool := Py.startswith "symlink" (type self).

End P4File.

(** class P4Changelist *)
Record P4Changelist : Type := MkP4Changelist {
  change : string;
  description : string;
  cl_user : string;
  time : string;
  cl_files : list P4File.t
}.

Module FastImport.

(** The attributes of a [FastImport] that [add_commit] reads or writes:
    the text written to the script file so far, the server time zone,
    the length of the view's root path, the branch name and the cache of
    full names. *)
Record t : Type := Make {
  script : string;
  fi_timezone : option string;
  project_root_path_length : Z;
  branchname : string;
  username_map : gmap string string
}.

(** The pattern of [add_commit] for a key: the capitalised key, a colon
    and a space, then four groups separated by single spaces: one or
    more characters; an opening angle bracket, one or more characters
    and a closing angle bracket; one or more digits; one or more
    characters.  A character here is anything but a line feed. *)
Definition trailer_regex (capitalized_key : string) : Re.regex :=
  Re.lit (capitalized_key +:+ ": ") ++
  [Re.Open; Re.plus Re.dot; Re.Close; Re.Chr " "%char;
   Re.Open; Re.Chr "<"%char; Re.plus Re.dot; Re.Chr ">"%char; Re.Close; Re.Chr " "%char;
   Re.Open; Re.plus Re.digit; Re.Close; Re.Chr " "%char;
   Re.Open; Re.plus Re.dot; Re.Close].

Section WithEnv.
Context `{Env}.

Definition st : Type := t * io.

Definition io_ {A : Type} (m : M io A) : M st A :=
  zoom snd (fun i s => (fst s, i)) m.

Definition self : M st t := fun s => (Ok (fst s), s).

(** [__append] *)
Definition __append (text : string) : M st unit :=
  modify (fun s : st =>
    (Make (script (fst s) +:+ text) (fi_timezone (fst s))
          (project_root_path_length (fst s)) (branchname (fst s))
          (username_map (fst s)), snd s)).

(** [__add_data] *)
Definition __add_data (text : string) : M st unit :=
  __append ("data " +:+ Py.str (Z.of_nat (String.length text)) +:+ LF +:+ text).

(** [__relative_path] *)
Definition __relative_path (p4file : P4File.t) : M st string :=
  let* fi := self in
  match P4File.client_path p4file with
  | None => raise (TypeError "object of type 'NoneType' has no len()")
  | Some cp =>
      if (project_root_path_length fi <? Z.of_nat (String.length cp))%Z
      then ret (Py.slice cp (Some (project_root_path_length fi)) None)
      else raise AssertionError
  end.

(** [__add_files] *)
Definition __add_file (p4file : P4File.t) : M st unit :=
  let* path_ := __relative_path p4file in
  if P4File.is_delete p4file then __append ("D " +:+ path_ +:+ LF)
  else if String.eqb (P4File.sha1 p4file) "" then ret tt
  else
    let mode_ : string :=
      if P4File.is_x_type p4file then "100755"
      else if P4File.is_symlink p4file then "120000"
      else "100644" in
    __append ("M " +:+ mode_ +:+ " " +:+ P4File.sha1 p4file +:+ " " +:+ path_ +:+ LF).

Definition __add_files (snapshot : list P4File.t) : M st unit :=
  for_each snapshot __add_file.

(** [usermap.lookup_by_p4user] *)
Definition lookup_by_p4user (username : string) : M st (option (string * string * string)) :=
  let* r := io_ (request (UserMapLookupByP4User username)) in
  match r with
  | RUser u => ret u
  | _ => raise (TypeError "user tuple expected")
  end.

(** [__email_for_user] *)
Definition __email_for_user (username : string) : M st string :=
  let* user_3tuple := lookup_by_p4user username in
  match user_3tuple with
  | None => ret ("Unknown Perforce User <" +:+ username +:+ ">")
  | Some (_, mail, _) => ret ("<" +:+ mail +:+ ">")
  end.

(** [__full_name_for_user] *)
Definition __full_name_for_user (username : string) : M st string :=
  let* fi := self in
  match username_map fi !! username with
  | Some cached => ret cached
  | None =>
      let* user_3tuple := lookup_by_p4user username in
      let fullname :=
        match user_3tuple with
        | Some (_, _, full_name) => Py.join " " (Py.words full_name)
        | None => ""
        end in
      modify (fun s : st =>
        (Make (script (fst s)) (fi_timezone (fst s))
              (project_root_path_length (fst s)) (branchname (fst s))
              (<[username := fullname]> (username_map (fst s))), snd s)) >>
      ret fullname
  end.

(** The loop over the two keys in [add_commit]: a line for each key
    whose pattern is found in the suffix; the result tells whether any
    was. *)
Fixpoint add_trailer_lines (keys : list (string * string)) (suffix : string)
    (committer_added : bool) : M st bool :=
  match keys with
  | [] => ret committer_added
  | (key, capitalized) :: rest =>
      match Re.search (trailer_regex capitalized) suffix with
      | Some m =>
          __append (key +:+ " " +:+ Re.group m 1 +:+ " " +:+ Re.group m 2 +:+ " "
                    +:+ Re.group m 3 +:+ " " +:+ Re.group m 4 +:+ LF) >>
          add_trailer_lines rest suffix true
      | None => add_trailer_lines rest suffix committer_added
      end
  end.

(** [add_commit], up to and including the parent reference. *)
Definition add_commit_head (cl : P4Changelist) (last_ : option string) : M st unit :=
  let* fi := self in
  __append ("commit refs/heads/" +:+ branchname fi +:+ LF) >>
  __append ("mark : " +:+ change cl +:+ LF) >>
  let impidx := Py.find P4GF_IMPORT_HEADER (description cl) in
  let* committer_added :=
    (if (-1 <? impidx)%Z
     then add_trailer_lines [("author", "Author"); ("committer", "Committer")]
            (Py.slice (description cl) (Some impidx) None) false
     else ret false) in
  let* desc :=
    (if committer_added
     then ret (Py.slice (description cl) (Some 0%Z) (Some (impidx - 1)%Z))
     else
       let* fullname := __full_name_for_user (cl_user cl) in
       let* mail := __email_for_user (cl_user cl) in
       __append ("committer " +:+ fullname +:+ " " +:+ mail +:+ " " +:+ time cl
                 +:+ " " +:+ Py.str_opt (fi_timezone fi) +:+ LF) >>
       ret (description cl)) in
  __add_data desc >>
  match last_ with
  | Some l =>
      if Py.truthy l then
        if (String.length l =? 40)%nat
        then __append ("from " +:+ l +:+ LF)
        else __append ("from :" +:+ l +:+ LF)
      else __append ("deleteall" +:+ LF)
  | None => __append ("deleteall" +:+ LF)
  end.

(** [add_commit] *)
Definition add_commit (cl : P4Changelist) (last_ : option string) : M st unit :=
  add_commit_head cl last_ >> __add_files (cl_files cl).

End WithEnv.

End FastImport.

(* ===================================================================== *)
(** * p4gf_p4filetype.py *)
(* ===================================================================== *)

Module P4FileType.

Definition ALIASES : list (string * list string) :=
  [ ("ctempobj", ["binary"; "S"; "w"]); ("ctext", ["text"; "C"]);
    ("cxtext", ["text"; "C"; "x"]); ("ktext", ["text"; "k"]);
    ("kxtext", ["text"; "k"; "x"]); ("ltext", ["text"; "F"]);
    ("tempobj", ["binary"; "F"; "S"; "w"]); ("ubinary", ["binary"; "F"]);
    ("uresource", ["resource"; "F"]); ("uxbinary", ["binary"; "F"; "x"]);
    ("xbinary", ["binary"; "x"]); ("xltext", ["text"; "F"; "x"]);
    ("xtempobj", ["binary"; "S"; "w"; "x"]); ("xtext", ["text"; "x"]);
    ("xunicode", ["unicode"; "x"]); ("xutf16", ["utf16"; "x"]) ].

Fixpoint lookup (k : string) (l : list (string * list string)) : option (list string) :=
  match l with
  | [] => None
  | (k', v) :: l' => if String.eqb k k' then Some v else lookup k l'
  end.

(** The last step of [to_base_mods]: replace an alias by its base and
    append its modifiers. *)
Definition apply_alias (base : string) (mods : list string) : list string :=
  match lookup base ALIASES with
  | Some (b :: ms) => b :: mods ++ ms
  | _ => base :: mods
  end.

(** [to_base_mods].  The recursive call is on a base without a plus
    sign, so it goes one level deep. *)
Definition to_base_mods (filetype : string) : list string :=
  match Py.split "+"%char filetype with
  | [] => [filetype]
  | base :: [] => apply_alias base []
  | base :: mods =>
      match apply_alias base [] with
      | b :: ms => apply_alias b (mods ++ ms)
      | [] => apply_alias base mods
      end
  end.

Fixpoint remove_first (x : string) (l : list string) : list string :=
  match l with
  | [] => []
  | y :: l' => if String.eqb x y then l' else y :: remove_first x l'
  end.

(** [remove_mod] *)
Definition remove_mod (filetype mod_ : string) : res string :=
  if negb (String.length mod_ =? 1)%nat
  then Raise (RuntimeError ("Cannot remove multiple modifier chars: " +:+ mod_))
  else
    match remove_first mod_ (to_base_mods filetype) with
    | [] => Raise IndexError
    | [b] => Ok b
    | b :: ms => Ok (b +:+ "+" +:+ Py.join "" ms)
    end.

End P4FileType.

(* ===================================================================== *)
(** * p4gf_copy_to_p4.py *)
(* ===================================================================== *)

Definition P4GF_USER : string := "git-fusion-user".

Definition MsgDm_LockSuccess : Z := MsgId ES_DM 276.
Definition MsgDm_LockAlready : Z := MsgId ES_DM 277.
Definition MsgDm_LockAlreadyOther : Z := MsgId ES_DM 278.
Definition MsgDm_LockNoPermission : Z := MsgId ES_DM 279.
Definition MsgDm_LockBadUnicode : Z := MsgId ES_DM 525.
Definition MsgDm_LockUtf16NotSupp : Z := MsgId ES_DM 526.
Definition MsgDm_UnLockSuccess : Z := MsgId ES_DM 280.
Definition MsgDm_UnLockAlready : Z := MsgId ES_DM 281.
Definition MsgDm_UnLockAlreadyOther : Z := MsgId ES_DM 282.
Definition MsgDm_OpenIsLocked : Z := MsgId ES_DM 298.
Definition MsgDm_OpenXOpened : Z := MsgId ES_DM 286.
Definition MsgDm_IntegXOpened : Z := MsgId ES_DM 252.
Definition MsgDm_OpenWarnOpenStream : Z := MsgId ES_DM 553.
Definition MsgDm_IntegMovedUnmapped : Z := MsgId ES_DM 551.
Definition MsgDm_ExVIEW : Z := MsgId ES_DM 367.
Definition MsgDm_ExVIEW2 : Z := MsgId ES_DM 477.
Definition MsgDm_ExPROTECT : Z := MsgId ES_DM 369.
Definition MsgDm_ExPROTECT2 : Z := MsgId ES_DM 480.

Module G2P.

(** [p4type_from_mode]; [None] in the result is Python's [None]. *)
Definition p4type_from_mode (mode_ : string) : res (option string) :=
  if String.eqb mode_ "120000" then Ok (Some "symlink")
  else match Py.int8 mode_ with
       | None => Raise (ValueError ("invalid literal for int() with base 8: " +:+ mode_))
       | Some n => Ok (if negb (Z.land n 64 =? 0)%Z then Some "+x" else None)
       end.

(** [changelist_from_submit_result].  For a text element the test
    ['submittedChange' in d] is a substring test, and indexing the text
    with the key is a [TypeError]. *)
Fixpoint changelist_from_submit_result (r : list p4result) : res (option string) :=
  match r with
  | [] => Ok None
  | PDict d :: rest =>
      match d !! "submittedChange" with
      | Some v => Ok (Some v)
      | None => changelist_from_submit_result rest
      end
  | PText s :: rest =>
      if Py.contains "submittedChange" s
      then Raise (TypeError "string indices must be integers")
      else changelist_from_submit_result rest
  end.

(** One line of the audit trailer. *)
Definition trailer_line (capitalized_key : string) (datum : ident) : string :=
  " " +:+ capitalized_key +:+ ": " +:+ user datum +:+ " " +:+ email datum +:+ " "
  +:+ date datum +:+ " " +:+ timezone datum.

(** [change_description] *)
Definition change_description (c : commit) (pusher : option string) (author_ : string) : string :=
  Py.join LF
    ([data c; P4GF_IMPORT_HEADER;
      trailer_line "Author" (author c); trailer_line "Committer" (committer c)]
     ++ (if bool_decide (pusher = Some author_) then []
         else [" Pusher: " +:+ Py.str_opt pusher])
     ++ [" sha1: " +:+ sha1 c]).

(** [mark_to_commit_changelist] *)
Definition mark_to_commit_changelist (mark_ : string) : res (string * string) :=
  match Py.split " "%char (Py.slice mark_ (Some 1%Z) None) with
  | r0 :: r1 :: _ => Ok (r1, r0)
  | _ => Raise IndexError
  end.

(** [check_valid_filename] *)
Definition check_valid_filename (name : string) : option string :=
  if Py.contains "..." name then Some ("bad filename: " +:+ name) else None.

(** [escape_path]: the four replacements, the percent sign first, so
    that every special character is rewritten once. *)
Fixpoint escape_path (p : string) : string :=
  match p with
  | EmptyString => EmptyString
  | String c p' =>
      (if Ascii.eqb c "%"%char then "%25"
       else if Ascii.eqb c "#"%char then "%23"
       else if Ascii.eqb c "@"%char then "%40"
       else if Ascii.eqb c "*"%char then "%2A"
       else String c EmptyString) +:+ escape_path p'
  end.

Definition MSGID_CANNOT_OPEN : list Z :=
  [ MsgDm_LockSuccess; MsgDm_LockAlready; MsgDm_LockAlreadyOther; MsgDm_LockNoPermission;
    MsgDm_LockBadUnicode; MsgDm_LockUtf16NotSupp; MsgDm_UnLockSuccess; MsgDm_UnLockAlready;
    MsgDm_UnLockAlreadyOther; MsgDm_OpenIsLocked; MsgDm_OpenXOpened; MsgDm_IntegXOpened;
    MsgDm_OpenWarnOpenStream; MsgDm_IntegMovedUnmapped; MsgDm_ExVIEW; MsgDm_ExVIEW2;
    MsgDm_ExPROTECT; MsgDm_ExPROTECT2 ].

Definition MSGID_EXPLAIN_P4USER : list Z := [ MsgDm_ExPROTECT; MsgDm_ExPROTECT2 ].
Definition MSGID_EXPLAIN_P4CLIENT : list Z := [ MsgDm_ExVIEW; MsgDm_ExVIEW2 ].

Definition mem_Z (x : Z) (l : list Z) : bool := existsb (Z.eqb x) l.

(** An argument queued for a batched command: a path, or for 'move' the
    pair of the old and the new path. *)
Inductive queued : Type :=
| One (p : string)
| Pair (frompath topath : string).

(** The attributes of a [G2P] and the locals of [copy] that outlive one
    commit: the batch table [addeditdelete], the list [marks], the
    conflict checker, and the world. *)
Record t `{Env} : Type := Make {
  g_io : io;
  addeditdelete : gmap string (list queued);
  marks : list string;
  checker : ConflictChecker.t
}.

Arguments Make {_} _ _ _ _.

(** The paths queued under an operation whose first word is 'add'. *)
Definition is_add (operation : string) : bool :=
  match Py.split " "%char operation with
  | w :: _ => String.eqb w "add"
  | [] => false
  end.

Definition added_paths (table : gmap string (list queued)) : list queued :=
  concat (map snd (List.filter (fun e => is_add (fst e)) (map_to_list table))).

(** The conflict message of [copy]. *)
Definition conflict_message : string :=
  "Conflicting change from Perforce caused one or more git commits to fail. Time to pull, rebase, and try again.".

(** The merge message of [copy_commit]. *)
Definition merge_message (c : commit) : string :=
  "Merge commit " +:+ sha1 c +:+ " not permitted. Rebase to create a linear history.".

(** How one pass of the loop in [copy] ends. *)
Inductive flow : Type := Next | Break.

Section WithEnv.
Context `{Env}.

Definition io_ {A : Type} (m : M io A) : M t A :=
  zoom g_io (fun i s => Make i (addeditdelete s) (marks s) (checker s)) m.

Definition ck_ {A : Type} (m : M ConflictChecker.st A) : M t A :=
  zoom (fun s => (checker s, g_io s))
       (fun ci s => Make (snd ci) (addeditdelete s) (marks s) (fst ci)) m.

Definition set_table (table : gmap string (list queued)) : M t unit :=
  modify (fun s => Make (g_io s) table (marks s) (checker s)).

Definition lift {A : Type} (r : res A) : M t A := ObjectType.lift_res r.

(** [os.unlink(path)] for a queued argument; a pair is not a path. *)
Definition unlink (q : queued) : M t unit :=
  match q with
  | One p => io_ (perform (OsUnlink p))
  | Pair _ _ => raise (TypeError "unlink: expected str, got tuple")
  end.

(** [remove_added_files] *)
Definition remove_added_files : M t unit :=
  let* s := get in
  for_each (map_to_list (addeditdelete s)) (fun entry =>
    if is_add (fst entry) then for_each (snd entry) unlink else ret tt).

(** [connect_p4]: whether a connection came back. *)
Definition connect_p4 (p4user client : string) : M t bool :=
  io_ (ask (P4Connect p4user client)).

(** [revert_and_raise].  It never returns. *)
Definition revert_and_raise {A : Type} (ctx : context) (errmsg : string) : M t A :=
  let* p4 := connect_p4 P4GF_USER (p4client ctx) in
  when p4
    (let* opened := io_ (p4_run Recovery ["opened"]) in
     when (negb (bool_decide (opened = [])))
       (io_ (p4_run Recovery ["revert"; "//" +:+ p4client ctx +:+ "/..."]) >> ret tt)) >>
  remove_added_files >>
  let errmsg' := if Py.truthy errmsg then errmsg else format_stack in
  raise (RuntimeError ("import failed: " +:+ errmsg')).

(** [_p4_message_to_text] *)
Definition _p4_message_to_text (ctx : context) (m : message) : string :=
  msg_text m
  +:+ (if mem_Z (msgid m) MSGID_EXPLAIN_P4USER then " P4USER=" +:+ P4GF_USER +:+ "." else "")
  +:+ (if mem_Z (msgid m) MSGID_EXPLAIN_P4CLIENT then " P4USER=" +:+ p4client ctx +:+ "." else "").

(** [check_p4_messages] *)
Definition check_p4_messages (ctx : context) : M t unit :=
  let* s := get in
  match List.filter (fun m => mem_Z (msgid m) MSGID_CANNOT_OPEN) (p4_messages (g_io s)) with
  | [] => ret tt
  | msgs => revert_and_raise ctx (Py.join LF (map (_p4_message_to_text ctx) msgs))
  end.

(** [_p4run] *)
Definition _p4run (ctx : context) (cmd : list string) : M t unit :=
  io_ (p4_run CtxP4 cmd) >> check_p4_messages ctx.

Definition as_path (q : queued) : M t string :=
  match q with
  | One p => ret p
  | Pair _ _ => raise (TypeError "expected str, got tuple")
  end.

Definition as_pair (q : queued) : M t (string * string) :=
  match q with
  | Pair a b => ret (a, b)
  | One _ => raise (TypeError "expected a pair of paths")
  end.

(** One pass of the loop of [run_p4_commands]. *)
Definition run_p4_command (ctx : context) (operation : string) (paths : list queued) : M t unit :=
  let cmd0 := Py.split " "%char operation in
  let first := default "" (head cmd0) in
  let cmd := if negb (String.eqb first "add") then cmd0 ++ ["-k"] else cmd0 in
  if String.eqb first "move" then
    let* pairs := map_m as_pair paths in
    _p4run ctx (["edit"; "-k"] ++ map (fun pr => escape_path (fst pr)) pairs) >>
    for_each pairs (fun pr =>
      _p4run ctx ["move"; "-k"; escape_path (fst pr); escape_path (snd pr)])
  else
    let* names := map_m as_path paths in
    let* (reopen, cmd') :=
      (if Py.contains "edit -t" operation then
         match nth_error cmd 2 with
         | Some ty => ret (["reopen"; "-t"; ty], firstn 1 cmd ++ skipn 3 cmd)
         | None => raise IndexError
         end
       else ret ([], cmd)) in
    (if negb (String.eqb first "add")
     then _p4run ctx (cmd' ++ map escape_path names)
     else _p4run ctx (cmd' ++ names)) >>
    when (negb (bool_decide (reopen = [])))
      (_p4run ctx (reopen ++ map escape_path names)) >>
    when (String.eqb first "delete")
      (for_each names (fun p => io_ (perform (OsRemove p)))).

(** [run_p4_commands] *)
Definition run_p4_commands (ctx : context) : M t unit :=
  let* s := get in
  for_each (map_to_list (addeditdelete s)) (fun entry =>
    run_p4_command ctx (fst entry) (snd entry)).

(** [setup_p4_command] *)
Definition setup_p4_command (command_ : string) (p4path : queued) : M t unit :=
  let* s := get in
  set_table (match addeditdelete s !! command_ with
             | Some l => <[command_ := l ++ [p4path]]> (addeditdelete s)
             | None => <[command_ := [p4path]]> (addeditdelete s)
             end).

(** [_toggle_filetype] *)
Definition fstat_type (tipe p4path : string) (p4type : option string) : M t (option string) :=
  let* p4type' :=
    try_except_P4
      (let* r := io_ (p4_run CtxP4 ["fstat"; "-T" +:+ tipe; p4path]) in
       ret (first_value_for_key r tipe))
      (fun _ => ret p4type) in
  if Py.truthy_opt p4type'
  then let* x := lift (P4FileType.remove_mod (Py.str_opt p4type') "x") in ret (Some x)
  else ret p4type'.

Definition _toggle_filetype (p4path : string) (isx : bool) : M t (option string) :=
  if isx then ret (Some "+x")
  else
    let* t1 := fstat_type "headType" p4path None in
    fstat_type "type" p4path t1.

Definition ensure_dir (dstdir : string) : M t unit :=
  let* there := io_ (ask (PathExists dstdir)) in
  when (negb there) (io_ (perform (Makedirs dstdir))).

Definition required (key : string) (v : option string) : M t string :=
  match v with
  | Some x => ret x
  | None => raise (KeyError key)
  end.

(** [add_or_edit_blob] *)
Definition add_or_edit_blob (ctx : context) (b : blob) : M t unit :=
  let p4path := contentlocalroot ctx +:+ path b in
  let* isedit := io_ (ask (PathExists p4path)) in
  ensure_dir (dirname p4path) >>
  let* p4type :=
    (if isedit then
       let* wasx := io_ (ask (StatExec p4path)) in
       let* isx := io_ (ask (StatExec (path b))) in
       let* ty := (if negb (Bool.eqb wasx isx) then _toggle_filetype p4path isx
                   else ret None) in
       io_ (perform (CopyStat (path b) p4path)) >>
       io_ (perform (CopyFile (path b) p4path)) >>
       ret ty
     else
       let* m := required "mode" (mode b) in
       let* ty := lift (p4type_from_mode m) in
       io_ (perform (CopyFile (path b) p4path)) >>
       ret ty) in
  let suffix : string :=
    if Py.truthy_opt p4type then " -t " +:+ Py.str_opt p4type else "" in
  if isedit then setup_p4_command ("edit" +:+ suffix) (One p4path)
  else setup_p4_command ("add -f" +:+ suffix) (One p4path).

(** [rename_blob] *)
Definition rename_blob (ctx : context) (b : blob) : M t unit :=
  let p4frompath := contentlocalroot ctx +:+ path b in
  let* target := required "topath" (topath b) in
  let p4topath := contentlocalroot ctx +:+ target in
  ensure_dir (dirname p4topath) >>
  io_ (perform (CopyFile target p4topath)) >>
  setup_p4_command "move" (Pair p4frompath p4topath).

(** [copy_blob] *)
Definition copy_blob (ctx : context) (b : blob) : M t unit :=
  let p4frompath := contentlocalroot ctx +:+ path b in
  let* target := required "topath" (topath b) in
  let p4topath := contentlocalroot ctx +:+ target in
  _p4run ctx ["copy"; "-v"; escape_path p4frompath; escape_path p4topath] >>
  ensure_dir (dirname p4topath) >>
  io_ (perform (CopyFile p4frompath p4topath)).

(** [delete_blob] *)
Definition delete_blob (ctx : context) (b : blob) : M t unit :=
  setup_p4_command "delete" (One (contentlocalroot ctx +:+ path b)).

(** [copy_blobs] *)
Definition copy_blobs (ctx : context) (blobs : list blob) : M t unit :=
  for_each blobs (fun b =>
    if String.eqb (action b) "R" then rename_blob ctx b
    else if String.eqb (action b) "C" then copy_blob ctx b
    else ret tt) >>
  run_p4_commands ctx >>
  set_table ∅ >>
  for_each blobs (fun b =>
    if String.eqb (action b) "M" then add_or_edit_blob ctx b
    else if String.eqb (action b) "D" then delete_blob ctx b
    else ret tt) >>
  run_p4_commands ctx.

(** [check_protects]: the permission filter is a collaborator; it
    answers with the error message of [ProtectsChecker], if any. *)
Definition check_protects (ctx : context) (p4user : string) (blobs : list blob) : M t unit :=
  let* r := io_ (request (ProtectsCheck (authenticated_p4user ctx) p4user blobs)) in
  match r with
  | RMsg (Some err) => revert_and_raise ctx err
  | RMsg None => ret tt
  | _ => raise (TypeError "protects")
  end.

(** [p4_submit] *)
Definition p4_submit (desc author_ author_date : string) : M t (option string) :=
  let* r := io_ (p4_run CtxP4 ["submit"; "-d"; desc]) in
  let* changenum := lift (changelist_from_submit_result r) in
  io_ (perform (P4FetchChange CtxP4 changenum)) >>
  io_ (perform (P4SaveChange CtxP4 changenum author_ author_date)) >>
  ret changenum.

(** [copy_commit], the [try] around [copy_blobs]. *)
Definition replay_files (ctx : context) (c : commit) : M t unit :=
  try_except_P4 (copy_blobs ctx (files c)) (fun e => revert_and_raise ctx e).

(** [copy_commit], the body of the [try] around the submit: the number
    of the new changelist, or [None] when nothing is opened. *)
Definition submit_opened (ctx : context) (c : commit) (author_p4user : string)
    : M t (option (option string)) :=
  let desc := change_description c (authenticated_p4user ctx) author_p4user in
  let* opened := io_ (p4_run CtxP4 ["opened"]) in
  if negb (bool_decide (opened = []))
  then let* n := p4_submit desc author_p4user (date (author c)) in ret (Some n)
  else ret None.

(** [copy_commit], the [try] around the submit: the mark of the new
    changelist, or [None] for an empty commit. *)
Definition submit_commit (ctx : context) (c : commit) (author_p4user : string)
    : M t (option string) :=
  let* changenum :=
    try_except_P4 (submit_opened ctx c author_p4user) (fun e => revert_and_raise ctx e) in
  match changenum with
  | None => ret None
  | Some n => ret (Some (":" +:+ Py.str_opt n +:+ " " +:+ sha1 c))
  end.

(** [usermap.lookup_by_email] and [usermap.p4user_exists] *)
Definition lookup_by_email (addr : string) : M t (option (string * string * string)) :=
  let* r := io_ (request (UserMapLookupByEmail addr)) in
  match r with
  | RUser u => ret u
  | _ => raise (TypeError "user tuple expected")
  end.

Definition p4user_exists (p4user : string) : M t bool :=
  io_ (ask (UserMapP4UserExists p4user)).

(** [copy_commit] *)
Definition copy_commit (ctx : context) (c : commit) : M t (option string) :=
  set_table ∅ >>
  (if bool_decide (merge c <> None)
   then revert_and_raise ctx (merge_message c)
   else ret tt) >>
  let email_ := Py.strip_chars "<>" (email (author c)) in
  let* found := lookup_by_email email_ in
  let* author_p4user :=
    match found with
    | None => revert_and_raise ctx ("User '" +:+ email_ +:+ "' not permitted to commit")
    | Some (p4user, _, _) =>
        let* known := p4user_exists p4user in
        if known then ret p4user
        else revert_and_raise ctx ("User '" +:+ email_ +:+ "' not permitted to commit")
    end in
  for_each (files c) (fun b =>
    match check_valid_filename (path b) with
    | Some err => revert_and_raise ctx err
    | None => ret tt
    end) >>
  let* (returncode, _) := io_ (popen_no_throw ["git"; "checkout"; sha1 c] None) in
  when (negb (returncode =? 0)%Z)
    (io_ (popen ["git"; "reset"; "--hard"; sha1 c; "--"]) >> ret tt) >>
  check_protects ctx author_p4user (files c) >>
  replay_files ctx c >>
  submit_commit ctx c author_p4user.

(** [p4gf_util.sha1_for_branch] for refs/heads/master *)
Definition git_ref_master : M t (option string) :=
  let* (_, out) := io_ (popen_no_throw
    ["git"; "show-ref"; "--verify"; "--hash"; "refs/heads/master"] None) in
  let out' := Py.strip out in
  ret (if Py.truthy out' then Some out' else None).

(** [attempt_resync] *)
Definition attempt_resync (ctx : context) : M t unit :=
  try_except_P4
    (let* last_commit := git_ref_master in
     if Py.truthy_opt last_commit then
       let* last_changelist_number := io_ (GitMirror.get_change_for_commit last_commit ctx) in
       if Py.truthy_opt last_changelist_number
       then _p4run ctx ["sync"; "-k"; "//...@" +:+ Py.str_opt last_changelist_number]
       else ret tt
     else ret tt)
    (fun _ => ret tt).

(** The body of the loop of [copy] for one command.  The test hook
    [test_block_push] does nothing unless the test configuration asks
    for it, and is left out. *)
Definition copy_command (ctx : context) (cmd : command) : M t flow :=
  match cmd with
  | CmdCommit c =>
      io_ (perform LockHeartbeat) >>
      let* mark_ := copy_commit ctx c in
      match mark_ with
      | None => ret Next
      | Some m =>
          let* (git_commit_sha1, p4_changelist_number) := lift (mark_to_commit_changelist m) in
          ck_ (ConflictChecker.record_commit (Some git_commit_sha1) (Some p4_changelist_number)) >>
          let* conflict := ck_ (ConflictChecker.check ctx) in
          if Py.truthy_opt conflict then ret Break
          else
            modify (fun s => Make (g_io s) (addeditdelete s) (marks s ++ [m]) (checker s)) >>
            ret Next
      end
  | CmdReset _ => ret Next
  | CmdOther name => raise (RuntimeError ("Unexpected fast-export command: " +:+ name))
  end.

(** [for command in fe.commands: ...]; the result tells whether the
    loop ran to its end or was left by [break]. *)
Fixpoint copy_loop (ctx : context) (cmds : list command) : M t flow :=
  match cmds with
  | [] => ret Next
  | cmd :: rest =>
      let* f := copy_command ctx cmd in
      match f with
      | Next => copy_loop ctx rest
      | Break => ret Break
      end
  end.

(** The [finally] of [copy]: the mirror is a collaborator here (it is
    [GitMirror] above); its two entry points are requests. *)
Definition flush_mirror : M t unit :=
  let* s := get in
  io_ (perform (MirrorAddCommits (marks s))) >>
  io_ (perform MirrorAddObjectsToP4).

(** [copy], from the [try] to the end of the [with HeadRestorer()]
    block. *)
Definition copy_commands (ctx : context) (cmds : list command) : M t unit :=
  try_finally (copy_loop ctx cmds >> ret tt) flush_mirror >>
  let* s := get in
  if ConflictChecker.has_conflict (checker s)
  then raise (RuntimeError conflict_message)
  else ret tt.

(** [HeadRestorer.__exit__] *)
Definition restore_head (r : option string) : M t unit :=
  match r with
  | Some sha =>
      if Py.truthy sha then
        io_ (popen ["git"; "reset"; "--hard"; sha]) >>
        io_ (popen ["git"; "checkout"; sha]) >> ret tt
      else ret tt
  | None => ret tt
  end.

(** [FastExport.run] and the resulting [fe.commands] *)
Definition fast_export (start_at end_at : string) : M t (list command) :=
  let* r := io_ (request (FastExportRun start_at end_at)) in
  match r with
  | RCommands cmds => ret cmds
  | _ => raise (TypeError "commands expected")
  end.

(** [copy] *)
Definition copy (ctx : context) (start_at end_at : string) : M t unit :=
  let* head_ := io_ ConflictChecker.git_head_sha1 in
  try_finally
    (attempt_resync ctx >>
     let* ck := io_ (ConflictChecker.__init__ ctx) in
     modify (fun s => Make (g_io s) (addeditdelete s) [] ck) >>
     let* cmds := fast_export start_at end_at in
     copy_commands ctx cmds)
    (restore_head head_).

End WithEnv.

End G2P.

(* ===================================================================== *)
(** * p4gf_lock.py *)
(* ===================================================================== *)

Module Lock.

(** Time is counted in milliseconds: [time.time()] is the clock divided
    by a thousand, [calendar.timegm(time.gmtime())] its whole seconds. *)
Definition _RETRY_PERIOD : Z := 100.           (* 100 * MS *)
Definition LOCK_TIMEOUT_SECS : Z := 10.
Definition HEARTBEAT_TIMEOUT_SECS : Z := 60.
Definition HEART_RATE : Z := 1.

(** [_log_timer_duration_seconds()] outside a test configuration. *)
Definition _log_timer_duration_seconds : Z := 5 * 60.

(** What the lock does to the outside: commands on counters of the
    Perforce server, sleeping, and starting or stopping its helpers. *)
Inductive event : Type :=
| CounterIncrement (name : string)            (* p4 counter -u -i name *)
| CounterGet (name : string)                  (* p4 counter -u name *)
| CounterSet (name value : string)            (* p4 counter -u name value *)
| CounterDelete (name : string)               (* p4 counter -u -d name *)
| Sleep (ms : Z)
| PacemakerStart (name : string)
| PacemakerStop
| LogTimerStart
| LogTimerCancel.

(** The server's counters, the clock, and what was done so far. *)
Record world : Type := World {
  counters : gmap string string;
  clock : Z;
  events : list event
}.

(** The process that runs the code. *)
Record process : Type := Process {
  hostname : string;
  pid : Z;
  argv : list string
}.

(** The attributes of a [CounterLock]. *)
Record t : Type := Make {
  counter_name : string;
  has : bool;
  timeout_secs : option Z;
  log_timer : bool;
  acquisition_time : option Z;
  heartbeat_time : option Z;
  heartbeat_content_ : option string;
  heartbeat_only : bool;
  auto_beat : bool;
  pacemaker_event : bool
}.

(** [CounterLock.__init__] *)
Definition __init__ (name : string) (timeout : option Z) (hb_only : bool) : t :=
  Make name false timeout false None None None hb_only false false.

(** [view_lock_name], [view_lock] *)
Definition view_lock_name (view : string) : string := "git_fusion_view_" +:+ view +:+ "_lock".

Definition view_lock (view : string) : t :=
  Make (view_lock_name view) false (Some LOCK_TIMEOUT_SECS) false None None None false true false.

Definition heartbeat_counter_name (l : t) : string := counter_name l +:+ "_heartbeat".

Definition st : Type := t * world.

Definition self : M st t := fun s => (Ok (fst s), s).

Definition update (f : t -> t) : M st unit := modify (fun s => (f (fst s), snd s)).

Definition emit (e : event) : M st unit :=
  modify (fun s : st => (fst s, World (counters (snd s)) (clock (snd s)) (events (snd s) ++ [e]))).

Definition set_counters (f : gmap string string -> gmap string string) : M st unit :=
  modify (fun s : st => (fst s, World (f (counters (snd s))) (clock (snd s)) (events (snd s)))).

(** [time.time()], in milliseconds, and [calendar.timegm(time.gmtime())]. *)
Definition time_time : M st Z := fun s => (Ok (clock (snd s)), s).

Definition timegm_now : M st Z := fun s => (Ok (clock (snd s) / 1000)%Z, s).

(** [time.sleep(secs)], in milliseconds. *)
Definition sleep (ms : Z) : M st unit :=
  emit (Sleep ms) >>
  modify (fun s : st => (fst s, World (counters (snd s)) (clock (snd s) + ms)%Z (events (snd s)))).

(** The number a counter holds, as the server reads it. *)
Definition counter_number (v : string) : option Z :=
  Z.of_int <$> NilZero.int_of_string v.

(** The server side of [p4 counter -u -i name]: an absent counter
    counts as 0; the new value is stored and reported. *)
Definition counter_increment (name : string) : M st string :=
  emit (CounterIncrement name) >>
  let* s := get in
  match counter_number (default "0" (counters (snd s) !! name)) with
  | None => raise (P4Exception "Can't increment a non-numeric counter.")
  | Some n =>
      let v := Py.str (n + 1) in
      set_counters (insert name v) >> ret v
  end.

(** [p4 counter -u name]: an absent counter reads as "0". *)
Definition counter_get (name : string) : M st string :=
  emit (CounterGet name) >>
  let* s := get in
  ret (default "0" (counters (snd s) !! name)).

(** [p4 counter -u name value] *)
Definition counter_set (name value : string) : M st unit :=
  emit (CounterSet name value) >> set_counters (insert name value).

(** [p4 counter -u -d name]: an error when there is no such counter. *)
Definition counter_delete (name : string) : M st unit :=
  emit (CounterDelete name) >>
  let* s := get in
  match counters (snd s) !! name with
  | None => raise (P4Exception ("No such counter '" +:+ name +:+ "'."))
  | Some _ => set_counters (delete name)
  end.

(** [with p4.at_exception_level(P4.RAISE_NONE): ...] *)
Definition suppress_P4 (m : M st unit) : M st unit :=
  try_except_P4 m (fun _ => ret tt).

(** [check_holder_alive].  The third field of the record is missing:
    [IndexError].  It is not an integer: alive. *)
Definition check_holder_alive (now : Z) (holder : string) : res bool :=
  match nth_error (Py.split_max "009"%char holder 3) 2 with
  | None => Raise IndexError
  | Some field =>
      match Py.int field with
      | None => Ok true
      | Some then_ => Ok ((now <? then_)%Z || (now - then_ <? HEARTBEAT_TIMEOUT_SECS)%Z)
      end
  end.

Section WithProcess.
Variable me : process.

(** [_acquire_attempt] *)
Definition _acquire_attempt : M st bool :=
  let* l := self in
  let* value := counter_increment (counter_name l) in
  ret (String.eqb value "1").

(** [heartbeat_content]: the current and the previous content. *)
Definition heartbeat_content : M st (option string * option string) :=
  let* now := timegm_now in
  let* l := self in
  if match heartbeat_time l with
     | Some t0 => negb (t0 =? 0)%Z && (now - t0 <? HEART_RATE)%Z
     | None => false
     end
  then ret (heartbeat_content_ l, heartbeat_content_ l)
  else
    let val : string :=
      hostname me +:+ String "009"%char "" +:+ Py.str (pid me) +:+ String "009"%char ""
      +:+ Py.str now +:+ String "009"%char "" +:+ Py.join " " (argv me) in
    update (fun l => Make (counter_name l) (has l) (timeout_secs l) (log_timer l)
                          (acquisition_time l) (Some now) (Some val)
                          (heartbeat_only l) (auto_beat l) (pacemaker_event l)) >>
    ret (Some val, heartbeat_content_ l).

(** [update_heartbeat] *)
Definition update_heartbeat : M st unit :=
  let* l := self in
  if negb (has l || heartbeat_only l) then ret tt
  else
    let* (current, last_) := heartbeat_content in
    if bool_decide (current <> last_)
    then counter_set (heartbeat_counter_name l) (Py.str_opt current)
    else ret tt.

(** [get_heartbeat] *)
Definition get_heartbeat : M st (option string) :=
  let* l := self in
  let* value := counter_get (heartbeat_counter_name l) in
  if negb (Py.truthy value) || String.eqb value "0" then ret None else ret (Some value).

(** [clear_heartbeat] *)
Definition clear_heartbeat : M st unit :=
  let* l := self in
  suppress_P4 (counter_delete (heartbeat_counter_name l)).

Definition set_has (b : bool) : M st unit :=
  update (fun l => Make (counter_name l) b (timeout_secs l) (log_timer l)
                        (acquisition_time l) (heartbeat_time l) (heartbeat_content_ l)
                        (heartbeat_only l) (auto_beat l) (pacemaker_event l)).

(** [_start_pacemaker], [_stop_pacemaker] *)
Definition _start_pacemaker : M st unit :=
  let* l := self in
  if auto_beat l && negb (pacemaker_event l) then
    update (fun l => Make (counter_name l) (has l) (timeout_secs l) (log_timer l)
                          (acquisition_time l) (heartbeat_time l) (heartbeat_content_ l)
                          (heartbeat_only l) (auto_beat l) true) >>
    emit (PacemakerStart (counter_name l))
  else ret tt.

Definition _stop_pacemaker : M st unit :=
  let* l := self in
  if pacemaker_event l then
    emit PacemakerStop >>
    update (fun l => Make (counter_name l) (has l) (timeout_secs l) (log_timer l)
                          (acquisition_time l) (heartbeat_time l) (heartbeat_content_ l)
                          (heartbeat_only l) (auto_beat l) false)
  else ret tt.

(** [_create_log_timer], [_destroy_log_timer] *)
Definition set_log_timer (b : bool) : M st unit :=
  update (fun l => Make (counter_name l) (has l) (timeout_secs l) b
                        (acquisition_time l) (heartbeat_time l) (heartbeat_content_ l)
                        (heartbeat_only l) (auto_beat l) (pacemaker_event l)).

Definition _create_log_timer : M st unit := emit LogTimerStart >> set_log_timer true.

Definition _destroy_log_timer : M st unit :=
  let* l := self in
  if log_timer l then emit LogTimerCancel >> set_log_timer false else ret tt.

(** [_held_duration_seconds], in milliseconds. *)
Definition _held_duration : M st Z :=
  let* l := self in
  match acquisition_time l with
  | Some t0 => if (t0 =? 0)%Z then ret 0%Z else let* now := time_time in ret (now - t0)%Z
  | None => ret 0%Z
  end.

(** [_report_long_lock]: the log line is not modelled, the call of
    [heartbeat_content] it makes is. *)
Definition _report_long_lock : M st unit := heartbeat_content >> ret tt.

(** [release] *)
Definition release : M st bool :=
  let* l := self in
  when (has l || heartbeat_only l) _stop_pacemaker >>
  if negb (has l) then ret false
  else
    _destroy_log_timer >>
    let* held := _held_duration in
    when (_log_timer_duration_seconds * 1000 <=? held)%Z _report_long_lock >>
    clear_heartbeat >>
    counter_delete (counter_name l) >>
    set_has false >>
    ret true.

(** The timeout message of [acquire]. *)
Definition timeout_message (name : string) (holder : option string) : string :=
  "Unable to acquire lock: " +:+ name
  +:+ match holder with
      | Some h => LF +:+ "Lock holder: " +:+ h
      | None => ""
      end
  +:+ LF +:+ "Please try again after 1 minute(s).".

(** After a successful attempt in [acquire].  The test hook
    [_test_view_sleep_after_acquire] does nothing outside a test
    configuration. *)
Definition acquired : M st unit :=
  let* now := time_time in
  update (fun l => Make (counter_name l) (has l) (timeout_secs l) (log_timer l)
                        (Some now) (heartbeat_time l) (heartbeat_content_ l)
                        (heartbeat_only l) (auto_beat l) (pacemaker_event l)) >>
  update_heartbeat >>
  _start_pacemaker >>
  _create_log_timer.

(** How one pass of the [while True] of [acquire] ends. *)
Inductive pass : Type :=
| Acquired          (* return *)
| Reclaimed         (* continue, without sleeping *)
| Slept.            (* fell through to time.sleep *)

(** One pass of the loop of [acquire]. *)
Definition acquire_pass (start : Z) (timeout : option Z) : M st pass :=
  let* got := _acquire_attempt in
  set_has got >>
  if got then acquired >> ret Acquired
  else
    let* holder := get_heartbeat in
    let* now := timegm_now in
    let* dead :=
      match holder with
      | Some h => let* alive := ObjectType.lift_res (check_holder_alive now h) in
                  ret (negb alive)
      | None => ret false
      end in
    if dead then
      set_has true >> release >> ret Reclaimed
    else
      let* t1 := time_time in
      let elapsed := (t1 - start)%Z in
      match timeout with
      | Some secs =>
          if negb (secs =? 0)%Z && (secs * 1000 <=? elapsed)%Z then
            let* holder' := get_heartbeat in
            let* l := self in
            raise (RuntimeError (timeout_message (counter_name l) holder'))
          else sleep _RETRY_PERIOD >> ret Slept
      | None => sleep _RETRY_PERIOD >> ret Slept
      end.

(** The [while True] of [acquire], for at most [fuel] passes; [None]
    when the passes are used up. *)
Fixpoint acquire_loop (fuel : nat) (start : Z) (timeout : option Z) (s : st)
    : option (res unit * st) :=
  match fuel with
  | O => None
  | S fuel' =>
      match acquire_pass start timeout s with
      | (Ok Acquired, s') => Some (Ok tt, s')
      | (Ok _, s') => acquire_loop fuel' start timeout s'
      | (Raise e, s') => Some (Raise e, s')
      end
  end.

(** [acquire] *)
Definition acquire (fuel : nat) (timeout : option Z) (s : st) : option (res unit * st) :=
  if heartbeat_only (fst s) then Some (Ok tt, s)
  else acquire_loop fuel (clock (snd s)) timeout s.

(** [canceled] *)
Definition canceled : M st bool :=
  let* l := self in
  let* value := counter_get (counter_name l) in
  ret (String.eqb value "0").

End WithProcess.

End Lock.

(* ===================================================================== *)
(** * Concrete worlds *)
(* ===================================================================== *)

(** The answer of a world in which nothing exists and nothing fails. *)
Definition default_reply (c : call) : reply :=
  match c with
  | P4Connect _ _ => RBool true
  | P4Run _ _ => RResults [] []
  | PathExists _ | StatExec _ | UserMapP4UserExists _ => RBool false
  | Popen _ _ => RProc 0 ""
  | UserMapLookupByEmail _ | UserMapLookupByP4User _ => RUser None
  | ProtectsCheck _ _ _ => RMsg None
  | FastExportRun _ _ => RCommands []
  | _ => RNone
  end.

(** A world that answers the requests from a prepared list, one answer
    per request in the order they come, and with [default_reply] once
    the list is used up. *)
Definition scripted : Env := {|
  World := list reply;
  ext := fun c w =>
    match w with
    | r :: w' => (r, w')
    | [] => (default_reply c, [])
    end;
  zlib_compress := fun s => s;
  format_stack := "<stack>"
|}.

(** The process state at the start of a scripted run. *)
Definition start_io (answers : list reply) : @io scripted :=
  @IO scripted answers [] [] [].

(** A tagged result row with one key. *)
Definition row1 (k v : string) : p4result := PDict (<[k := v]> ∅).

Definition row2 (k1 v1 k2 v2 : string) : p4result := PDict (<[k1 := v1]> (<[k2 := v2]> ∅)).

Definition demo_ctx : context :=
  MkContext "git-fusion-demo" "git-fusion--host" "demo" (Some "pat") "/ws/" "/gf/".


(* ===================================================================== *)
(** * Vocabulary of the statements *)
(* ===================================================================== *)

(** The state after a request [c] that the world answered by moving to
    [w]. *)
Definition after `{Env} (c : call) (w : World) (i : io) : io :=
  IO _ w (trace i ++ [c]) (p4_messages i) (p4gf_messages i).

(** A computation keeps a property of the state, however it ends. *)
Definition preserves {S A : Type} (P : S -> Prop) (m : M S A) : Prop :=
  forall s r s', P s -> m s = (r, s') -> P s'.

Module FastImportSpec.
Import FastImport.

(** The file-change line of a revision whose path relative to the view
    root is [rel], in the words of the specification: a delete line for
    a deleted revision; nothing for a revision without a content hash;
    otherwise a modify line whose mode is 100755 for an executable type,
    else 120000 for a symlink, else 100644. *)
Definition file_change_line (rel : string) (f : P4File.t) : option string :=
  if P4File.is_delete f then Some ("D " +:+ rel +:+ LF)
  else if String.eqb (P4File.sha1 f) "" then None
  else Some ("M "
             +:+ (if P4File.is_x_type f then "100755"
                  else if P4File.is_symlink f then "120000" else "100644")
             +:+ " " +:+ P4File.sha1 f +:+ " " +:+ rel +:+ LF).

(** The revision has a client path that is longer than the root. *)
Definition rooted (plen : Z) (f : P4File.t) : Prop :=
  exists cp, P4File.client_path f = Some cp /\ (plen < Z.of_nat (String.length cp))%Z.

Definition relative (plen : Z) (f : P4File.t) : string :=
  Py.slice (default "" (P4File.client_path f)) (Some plen) None.

Fixpoint lines_of (plen : Z) (snapshot : list P4File.t) : list string :=
  match snapshot with
  | [] => []
  | f :: rest =>
      match file_change_line (relative plen f) f with
      | Some line => line :: lines_of plen rest
      | None => lines_of plen rest
      end
  end.

Definition flatten (l : list string) : string := fold_right String.append "" l.

(** A revision gets a line unless it is an undeleted one without hash. *)
Definition has_line (f : P4File.t) : bool :=
  P4File.is_delete f || negb (String.eqb (P4File.sha1 f) "").

Definition with_script (fi : t) (text : string) : t :=
  Make text (fi_timezone fi) (project_root_path_length fi) (branchname fi) (username_map fi).

End FastImportSpec.

(** ** Scenarios for the script builder *)

(** A script builder that has written nothing yet; the view root
    "/ws/" has four characters. *)
Definition fresh_fastimport : FastImport.t :=
  FastImport.Make "" (Some "+0000") 4 P4GF_BRANCH_TEMP ∅.

(** An edited revision whose content hash was never filled in. *)
Definition revision_without_hash : P4File.t :=
  P4File.Make "//depot/a.txt" (Some "/ws/a.txt") "edit" "3" "" "text".

Definition changelist_without_hash : P4Changelist :=
  MkP4Changelist "9" "msg" "ann" "1350000000" [revision_without_hash].

(** A changelist with a delete, an executable file, a symlink, a plain
    file and a revision without hash. *)
Definition mixed_changelist : P4Changelist :=
  MkP4Changelist "10" "msg" "ann" "1350000000"
    [ P4File.Make "//depot/old.txt" (Some "/ws/old.txt") "delete" "4" "" "text";
      P4File.Make "//depot/run.sh" (Some "/ws/run.sh") "edit" "2"
        "0123456789012345678901234567890123456789" "xtext";
      P4File.Make "//depot/link" (Some "/ws/link") "add" "1"
        "1123456789012345678901234567890123456789" "symlink";
      P4File.Make "//depot/b.txt" (Some "/ws/b.txt") "add" "1"
        "2123456789012345678901234567890123456789" "text";
      revision_without_hash ].

(** The lines of a script that are file changes. *)
Definition file_change_lines (text : string) : list string :=
  List.filter (fun l => Py.startswith "M " l || Py.startswith "D " l)
    (Py.split "010"%char text).

(** A commit by an author whose e-mail address is empty, which git
    records as a pair of angle brackets with nothing in between. *)
Definition commit_with_empty_email : commit :=
  Commit "refs/heads/master" "2" "abc123" ("Fix the thing" +:+ LF)
    (Ident "Ann Lee" "<>" "1350000000" "+0100")
    (Ident "Bob" "<bob@example.com>" "1350000001" "-0700")
    None None [].

(** The same commit with an address. *)
Definition commit_with_email : commit :=
  Commit "refs/heads/master" "2" "abc123" ("Fix the thing" +:+ LF)
    (Ident "Ann Lee" "<ann@example.com>" "1350000000" "+0100")
    (Ident "Bob" "<bob@example.com>" "1350000001" "-0700")
    None None [].

(** Export the commit to a description, and import that description as
    changelist 17 on top of mark 16. *)
Definition round_trip (c : commit) : res unit * @FastImport.st scripted :=
  let desc := G2P.change_description c (Some "pat") "ann" in
  @FastImport.add_commit scripted (MkP4Changelist "17" desc "ann" "1350000100" [])
    (Some "16") (fresh_fastimport, start_io []).

(** ** Scenario for the revision range *)

Definition sha1_of_head : string := "0123456789abcdef0123456789abcdef01234567".

(** git knows the commit, and the mirror holds it as changelist 41 of
    the view "demo". *)
Definition mirror_knows_head : list reply :=
  [ RProc 0 (sha1_of_head +:+ " commit 215" +:+ LF);
    RResults [row1 "depotFile"
                ("//.git-fusion/objects/01/23/456789abcdef0123456789abcdef01234567"
                 +:+ "-commit-41-demo")] [] ].

(** git knows the commit, the mirror has no file for it. *)
Definition mirror_lacks_head : list reply :=
  [ RProc 0 (sha1_of_head +:+ " commit 215" +:+ LF);
    RResults [] [] ].

Module LockSpec.
Import Lock.

Definition TAB : string := String "009"%char EmptyString.

(** The third tab-separated field of a heartbeat record. *)
Definition third_field (holder : string) : option string :=
  nth_error (Py.split_max "009"%char holder 3) 2.

(** A lock object that has not held the lock yet: what [__init__]
    builds, before or after [autobeat()]. *)
Definition fresh (name : string) (timeout : option Z) (autobeat : bool) : t :=
  Make name false timeout false None None None false autobeat false.

(** The heartbeat record that process [me] writes in second [now]. *)
Definition record_of (me : process) (now : Z) : string :=
  hostname me +:+ TAB +:+ Py.str (pid me) +:+ TAB +:+ Py.str now +:+ TAB
  +:+ Py.join " " (argv me).

Definition is_delete (e : event) : bool :=
  match e with
  | CounterDelete _ => true
  | _ => false
  end.

Definition is_sleep (e : event) : bool :=
  match e with
  | Sleep _ => true
  | _ => false
  end.

(** The counter server after the events [es] and with counters [c]. *)
Definition server (c : gmap string string) (w : world) (es : list event) : world :=
  World c (clock w) (events w ++ es).

(** A host and two heartbeat records for the examples: one written at
    second 1000, one whose time field is not a number. *)
Definition demo_process : process := Process "host-b" 4321 ["p4gf_auth_server.py"; "demo"].

Definition stale_record : string :=
  "host-a" +:+ TAB +:+ "77" +:+ TAB +:+ "1000" +:+ TAB +:+ "p4gf_auth_server.py demo".

Definition malformed_record : string :=
  "host-a" +:+ TAB +:+ "77" +:+ TAB +:+ "soon" +:+ TAB +:+ "p4gf_auth_server.py demo".

(** A record whose time is second 2001. *)
Definition future_record : string :=
  "host-a" +:+ TAB +:+ "77" +:+ TAB +:+ "2001" +:+ TAB +:+ "p4gf_auth_server.py demo".

Definition demo_lock_name : string := view_lock_name "demo".

(** A server on which the lock is taken and the holder left the given
    heartbeat record; the clock shows second 2000. *)
Definition held_server (record : string) : world :=
  World (<[demo_lock_name := "1"]> (<[demo_lock_name +:+ "_heartbeat" := record]> ∅))
        2000000 [].

(** The lock object with its [has] flag set. *)
Definition with_has (b : bool) (l : t) : t :=
  Make (counter_name l) b (timeout_secs l) (log_timer l) (acquisition_time l)
       (heartbeat_time l) (heartbeat_content_ l) (heartbeat_only l) (auto_beat l)
       (pacemaker_event l).

(** [timeout_secs and timeout_secs <= elapsed], in milliseconds. *)
Definition timed_out (timeout : option Z) (elapsed : Z) : bool :=
  match timeout with
  | Some secs => negb (secs =? 0)%Z && (secs * 1000 <=? elapsed)%Z
  | None => false
  end.

End LockSpec.


Module G2PSpec.
Import G2P.

(** A request that opens a file in the server (for add, edit, delete,
    move or copy), changes what it is opened for, or submits. *)
Definition opens_or_submits (c : call) : bool :=
  match c with
  | P4Run _ (verb :: _) =>
      existsb (String.eqb verb) ["add"; "edit"; "delete"; "move"; "copy"; "reopen"; "submit"]
  | P4SaveChange _ _ _ _ => true
  | _ => false
  end.

(** The rows of an answer to [p4 opened]. *)
Definition rows_of (r : reply) : list p4result :=
  match r with
  | RResults rows _ => rows
  | _ => []
  end.

Definition path_of (q : queued) : string :=
  match q with
  | One p => p
  | Pair a _ => a
  end.

Definition is_One (q : queued) : Prop :=
  match q with
  | One _ => True
  | Pair _ _ => False
  end.

(** Every argument queued under an 'add' operation is a path. *)
Definition adds_are_paths (table : gmap string (list queued)) : Prop :=
  forall operation paths,
    table !! operation = Some paths -> is_add operation = true -> Forall is_One paths.

(** The requests of [revert_and_raise] when the connection comes back:
    connect, list the opened files, revert the client if there are any,
    and unlink every path queued for add. *)
Definition recovery_requests (ctx : context) (opened : list p4result)
    (table : gmap string (list queued)) : list call :=
  [P4Connect P4GF_USER (p4client ctx); P4Run Recovery ["opened"]]
  ++ (if bool_decide (opened = []) then []
      else [P4Run Recovery ["revert"; "//" +:+ p4client ctx +:+ "/..."]])
  ++ map (fun q => OsUnlink (path_of q)) (added_paths table).

(** The message of the error that [revert_and_raise] raises. *)
Definition failure (H : Env) (errmsg : string) : exn :=
  RuntimeError ("import failed: " +:+ (if Py.truthy errmsg then errmsg else format_stack)).

(** A world in which the recovery of [revert_and_raise] goes through:
    the connection is made, its commands answer with rows, and unlink
    does not fail. *)
Definition recovery_cooperates (H : Env) : Prop :=
  (forall u c w, exists w', ext (P4Connect u c) w = (RBool true, w'))
  /\ (forall cmd w, exists rows msgs w', ext (P4Run Recovery cmd) w = (RResults rows msgs, w'))
  /\ (forall p w, exists r w', ext (OsUnlink p) w = (r, w') /\ forall e, r <> RRaise e).

(** A property of the state that does not look at the world nor at the
    conflict checker. *)
Definition insensitive {H : Env} (P : t -> Prop) : Prop :=
  forall s i ck, P s -> P (Make i (addeditdelete s) (marks s) ck).

(** A computation that never returns. *)
Definition always_raises {S A : Type} (m : M S A) : Prop :=
  forall s, exists e s', m s = (Raise e, s').

(** Two states of the exporter that differ in the world and its trace
    at most. *)
Definition same_books {H : Env} (s s' : t) : Prop :=
  addeditdelete s' = addeditdelete s /\ marks s' = marks s /\ checker s' = checker s.

(** The list of marks is [ms], and the batch table queues nothing but
    paths under its 'add' operations. *)
Definition settled {H : Env} (ms : list string) (s : t) : Prop :=
  marks s = ms /\ adds_are_paths (addeditdelete s).

(** [s2] is [s1] after the recovery of [revert_and_raise]: the
    connection was made, [p4 opened] answered with [rows], and the
    requests since [s1] are those of the recovery, the revert among them
    when [rows] is not empty and one unlink for every path queued for
    add in [s1]. *)
Definition recovered {H : Env} (ctx : context) (s1 s2 : t) : Prop :=
  exists w1 w2 rows msgs,
    ext (P4Connect P4GF_USER (p4client ctx)) (world (g_io s1)) = (RBool true, w1)
    /\ ext (P4Run Recovery ["opened"]) w1 = (RResults rows msgs, w2)
    /\ trace (g_io s2) = trace (g_io s1) ++ recovery_requests ctx rows (addeditdelete s1)
    /\ same_books s1 s2.

(** A request that only [revert_and_raise] makes. *)
Definition is_recovery_request (c : call) : bool :=
  match c with
  | P4Connect _ _ | P4Run Recovery _ | OsUnlink _ => true
  | _ => false
  end.

(** The requests between two states. *)
Definition requests_between {H : Env} (s s' : t) (reqs : list call) : Prop :=
  trace (g_io s') = trace (g_io s) ++ reqs.

End G2PSpec.

(** A world like [scripted] in which, besides, the recovery always goes
    through: a connection is always made, [p4 opened] on it always lists
    one file, its other commands succeed, and unlink succeeds.  The
    prepared answers go to the other requests. *)
Definition recovering : Env := {|
  World := list reply;
  ext := fun c w =>
    match c with
    | P4Connect _ _ => (RBool true, w)
    | P4Run Recovery cmd =>
        if bool_decide (cmd = ["opened"])
        then (RResults [row1 "depotFile" "//depot/left-open"] [], w)
        else (RResults [] [], w)
    | OsUnlink _ => (RNone, w)
    | _ =>
        match w with
        | r :: w' => (r, w')
        | [] => (default_reply c, [])
        end
    end;
  zlib_compress := fun s => s;
  format_stack := "<stack>"
|}.

(** ** Scenarios for the exporter *)

Definition ann : ident := Ident "Ann Lee" "<ann@example.com>" "1350000000" "+0100".

(** A merge commit. *)
Definition merge_commit : commit :=
  Commit "refs/heads/master" "3" "fedcba" "Merge branch" ann ann (Some "2") (Some "9")
    [Blob "M" (Some "100644") (Some "1111") "c.txt" None].

(** A commit that adds one file. *)
Definition add_commit_c : commit :=
  Commit "refs/heads/master" "3" "fedcba" "Add c" ann ann (Some "2") None
    [Blob "M" (Some "100644") (Some "1111") "c.txt" None].

(** A commit that renames a file and adds two. *)
Definition rename_and_add : commit :=
  Commit "refs/heads/master" "3" "fedcba" "Rename and add" ann ann (Some "2") None
    [ Blob "R" None None "a.txt" (Some "b.txt");
      Blob "M" (Some "100644") (Some "1111") "c.txt" None;
      Blob "M" (Some "120000") (Some "2222") "d.lnk" None ].

(** The exporter at the start of a commit, in the two worlds. *)
Definition start_g2p (H : Env) (answers : @World H) (ck : ConflictChecker.t) : @G2P.t H :=
  @G2P.Make H (@IO H answers [] [] []) ∅ [] ck.

Definition no_history : ConflictChecker.t := ConflictChecker.Make [] None None.

(** The file c.txt is new, its directory exists, the copy succeeds, and
    [p4 add] fails. *)
Definition add_fails : list reply :=
  [ RBool false; RBool true; RNone; RRaise (P4Exception "add failed") ].

(** The rename goes through (the directory exists, the copy succeeds,
    [p4 edit] and [p4 move] succeed); c.txt is new and is copied; d.lnk
    is new, and copying it fails in the operating system (a symlink
    that points nowhere). *)
Definition copy_fails : list reply :=
  [ RBool true; RNone; RResults [] []; RResults [] [];
    RBool false; RBool true; RNone;
    RBool false; RBool true; RRaise (OSError "No such file or directory: 'd.lnk'") ].

(** [p4 edit] answers that the file is locked by somebody else. *)
Definition edit_is_locked : list reply :=
  [ RResults [] [Message MsgDm_OpenIsLocked "//depot/a.txt - locked by pat@ws" ∅] ].

(** One commit without merge parent and without files. *)
Definition plain_commit : commit :=
  Commit "refs/heads/master" "3" "abc123" "Fix" ann ann (Some "2") None [].

(** The head is known as changelist 5. *)
Definition head_is_5 : ConflictChecker.t :=
  ConflictChecker.Make [ConflictChecker.MkCommitChange (Some "h0") (Some "5")] None (Some "5").

(** The commit is submitted as changelist 7, and the server then lists
    the changelists 7, 6, 5: somebody else submitted 6 in between. *)
Definition foreign_6 : list reply :=
  [ RNone;                                              (* heartbeat *)
    RUser (Some ("ann", "ann@example.com", "Ann Lee")); (* user map *)
    RBool true;                                         (* the user exists *)
    RProc 0 "";                                         (* git checkout *)
    RMsg None;                                          (* protections *)
    RResults [row1 "depotFile" "//depot/x"] [];         (* p4 opened *)
    RResults [row1 "submittedChange" "7"] [];           (* p4 submit *)
    RNone; RNone;                                       (* fetch and save the change *)
    RResults [row1 "change" "7"; row1 "change" "6"; row1 "change" "5"] [] ].

Module GitMirrorSpec.
Import GitMirror.

(** Every object of the list is stored under the key made of its own
    type and sha1. *)
Definition well_keyed (l : GitObjectList) : Prop :=
  forall k o, objects l !! k = Some o -> key_of o = k.

(** The same, for the mirror and its world. *)
Definition keyed `{Env} (s : st) : Prop := well_keyed (fst s).

(** A command on the object client that opens files for edit or sets
    their 'views' attribute. *)
Definition is_edit_or_views (c : call) : bool :=
  match c with
  | P4Run CtxP4gf (verb :: args) =>
      String.eqb verb "edit"
      || (String.eqb verb "attribute"
          && match args with
             | a :: b :: c :: _ => String.eqb a "-p" && String.eqb b "-n" && String.eqb c "views"
             | _ => false
             end)
  | _ => false
  end.

(** Every request of a computation satisfies [P]. *)
Definition emits `{Env} {A : Type} (P : call -> bool) (m : M io A) : Prop :=
  forall i r i', m i = (r, i') -> exists reqs, trace i' = trace i ++ reqs /\ forallb P reqs = true.

(** A request that produces the content of an object: the directory,
    the call of git, the file. *)
Definition extracts (c : call) : bool :=
  match c with
  | Makedirs _ | Popen _ _ | WriteFile _ _ => true
  | _ => false
  end.

(** The files that the requests [reqs] write, oldest first. *)
Definition written (reqs : list call) : list string :=
  omap (fun c => match c with WriteFile p _ => Some p | _ => None end) reqs.

(** [paths] are the files of the objects [objs], one each and in the
    same order. *)
Definition files_of (ctx : context) (objs : list GitObject) (paths : list string) : Prop :=
  Forall2 (fun o p => git_p4_client_path o ctx = Ok p) objs paths.

(** Since the trace was [tr0], the files [ws] were written. *)
Definition wrote `{Env} (tr0 : list call) (ws : list string) (i : io) : Prop :=
  exists reqs, trace i = tr0 ++ reqs /\ written reqs = ws.

(** The files named by the 'no such file' messages of an answer. *)
Definition missing_files (msgs : list message) : list string :=
  omap (fun m => if (msgid m =? MsgDm_ExFILE)%Z then msg_dict m !! "argc" else None) msgs.

(** What [edit_objects_with_views] asks when every command goes
    through: [p4 edit] for the names, a thousand at a time, then
    [p4 attribute] for the files of each views string. *)
Definition edit_requests (existing_files : list (string * string)) : list call :=
  let '(existing_names, view_mapping) := build_view_mapping existing_files in
  map (fun bite => P4Run CtxP4gf ("edit" :: bite)) (bites 1000 existing_names)
  ++ concat (map (fun vn =>
               map (fun bite =>
                      P4Run CtxP4gf (["attribute"; "-p"; "-n"; "views"; "-v"; fst vn] ++ bite))
                   (bites 1000 (snd vn)))
             (map_to_list view_mapping)).

End GitMirrorSpec.

(** ** Scenarios for the mirror *)

Definition tree_t1 : string := "1111111111111111111111111111111111111111".

Definition shared_tree : GitMirror.GitObject := GitMirror.MkGitObject "tree" tree_t1 None.

(** Two commits, submitted as changelists 7 and 8, whose top tree is
    the same: the answers of git to cat-file, ls-tree, cat-file and
    diff-tree. *)
Definition two_marks : list string := [":7 aaaa"; ":8 bbbb"].

Definition same_top_tree : list reply :=
  [ RProc 0 ("tree " +:+ tree_t1 +:+ LF +:+ "author Ann Lee" +:+ LF);
    RProc 0 "";
    RProc 0 ("tree " +:+ tree_t1 +:+ LF +:+ "author Ann Lee" +:+ LF);
    RProc 0 "" ].

(** The heartbeat is written, and the file of the object exists. *)
Definition file_exists : list reply := [ RNone; RBool true ].

Module ConflictCheckerSpec.
Import ConflictChecker.

(** Known commits, given as pairs of a commit and its changelist
    number. *)
Definition known_of (l : list (string * string)) : list CommitChange :=
  map (fun p => MkCommitChange (Some (fst p)) (Some (snd p))) l.

End ConflictCheckerSpec.

Module G2PMoreSpec.
Import G2P G2PSpec.

(** [s.replace(old, new)] for a pattern [old] of one character. *)
Fixpoint replace_char (old : ascii) (new s : string) : string :=
  match s with
  | EmptyString => EmptyString
  | String c s' =>
      (if Ascii.eqb c old then new else String c EmptyString) +:+ replace_char old new s'
  end.

(** [escape_path] as p4gf_copy_to_p4.py writes it: four replacements,
    one after the other, the percent sign first. *)
Definition escape_path_chain (path_ : string) : string :=
  replace_char "*" "%2A"
    (replace_char "@" "%40"
       (replace_char "#" "%23"
          (replace_char "%" "%25" path_))).

(** A character that the server reads as a revision, a changelist or a
    wildcard. *)
Definition is_p4_special (c : ascii) : bool :=
  Ascii.eqb c "#" || Ascii.eqb c "@" || Ascii.eqb c "*".

(** [copy_commit] refuses the commit: after the requests [asked] it
    turns to its recovery and raises.  Nothing it asked of the world
    opens a file or submits, the list of marks is as before, and, when
    the recovery goes through, the error carries [msg] and the
    requests after [asked] are those of the recovery with nothing
    queued. *)
Definition refused {H : Env} (ctx : context) (c : commit) (s : t)
    (asked : list call) (msg : string) : Prop :=
  exists e s' reqs,
    copy_commit ctx c s = (Raise e, s')
    /\ requests_between s s' (asked ++ reqs)
    /\ Forall (fun r => opens_or_submits r = false) (asked ++ reqs)
    /\ marks s' = marks s
    /\ (recovery_cooperates H ->
        e = RuntimeError ("import failed: " +:+ msg)
        /\ exists rows, reqs = recovery_requests ctx rows ∅).

(** A property of the state that looks at the list of marks and at the
    conflict checker only. *)
Definition of_the_books {H : Env} (P : t -> Prop) : Prop :=
  forall s i table, P s -> P (Make i table (marks s) (checker s)).

(** The result of [copy_commands], from the result of its loop and the
    result of the flush of the mirror that follows. *)
Definition after_flush (loop_ : res flow) (flush : res unit) (conflict : bool) : res unit :=
  match flush, loop_ with
  | Raise e, _ => Raise e
  | Ok _, Raise e => Raise e
  | Ok _, Ok _ => if conflict then Raise (RuntimeError conflict_message) else Ok tt
  end.

(** A commit that adds two files, the second under a name with three
    dots in a row; and the answers of a user map that knows the
    author. *)
Definition dotted_commit : commit :=
  Commit "refs/heads/master" "3" "fedcba" "Add two" ann ann (Some "2") None
    [ Blob "M" (Some "100644") (Some "1111") "c.txt" None;
      Blob "M" (Some "100644") (Some "2222") "a...b" None ].

Definition author_known : list reply :=
  [ RUser (Some ("ann", "ann@example.com", "Ann Lee")); RBool true ].

(** The author is known, git checks the commit out, the author may
    submit, one file is opened, and the submit answers changelist 7. *)
Definition submits_7 : list reply :=
  [ RUser (Some ("ann", "ann@example.com", "Ann Lee")); RBool true; RProc 0 ""; RMsg None;
    RResults [row1 "depotFile" "//depot/x"] [];
    RResults [row1 "submittedChange" "7"] []; RNone; RNone ].

End G2PMoreSpec.

Module GitMirrorMoreSpec.
Import GitMirror.

(** The number of objects of a type that a list holds. *)
Definition count_of (ty : string) (l : GitObjectList) : nat :=
  length (List.filter (fun o => String.eqb (type o) ty) (values l)).

(** The counters agree with the objects. *)
Definition counted (l : GitObjectList) : Prop :=
  forall ty n, counts l !! ty = Some n -> n = Z.of_nat (count_of ty l).

(** The mirror holds the object [o] under the key [k]. *)
Definition holds `{Env} (k : string) (o : GitObject) (s : st) : Prop :=
  objects (fst s) !! k = Some o.

End GitMirrorMoreSpec.

Module RevList.

(** class RevList of p4gf_copy_to_git.py: the list [revs] of pairs of
    a key and a revision. *)
Definition t : Type := list (string * P4File.t).

(** [RevList.__init__] *)
Definition __init__ : t := [].

(** [RevList.append] *)
Definition append (p4file : P4File.t) (self : t) : t :=
  self ++ [(P4File.depot_path p4file +:+ "#" +:+ P4File.revision p4file, p4file)].

(** [list.sort(key=...)] is a stable sort by the key, in the order of
    strings: every element is put behind the elements before it whose
    key is not greater. *)
Fixpoint insert_sorted (x : string * P4File.t) (l : t) : t :=
  match l with
  | [] => [x]
  | y :: l' => if String.ltb (fst x) (fst y) then x :: l else y :: insert_sorted x l'
  end.

(** [RevList.sort] *)
Definition sort (self : t) : t := fold_left (fun acc x => insert_sorted x acc) self [].

(** [RevList.find]: the loop [while lo < hi], for at most [fuel]
    passes; [None] when the passes are used up.  [int((lo+hi)/2)] is
    the quotient of the sum by two. *)
Fixpoint find_loop (fuel lo hi : nat) (key : string) (self : t)
    : option (res (option P4File.t)) :=
  match fuel with
  | O => None
  | S fuel' =>
      if (lo <? hi)%nat then
        let mid := Nat.div (lo + hi) 2 in
        match nth_error self mid with
        | None => Some (Raise IndexError)
        | Some (midkey, f) =>
            if String.leb midkey key then
              if String.eqb midkey key then Some (Ok (Some f))
              else find_loop fuel' (mid + 1) hi key self
            else find_loop fuel' lo mid key self
        end
      else Some (Ok None)
  end.

Definition find (key : string) (self : t) : option (res (option P4File.t)) :=
  find_loop (S (length self)) 0 (length self) key self.

End RevList.

Module RevListSpec.
Import RevList.

(** The keys of the list do not decrease. *)
Fixpoint sorted (l : t) : Prop :=
  match l with
  | [] => True
  | x :: l' => Forall (fun y => String.leb (fst x) (fst y) = true) l' /\ sorted l'
  end.

End RevListSpec.

Module FastImportMoreSpec.
Import FastImport.

(** The script of [s] goes on from the script of [fi0], and the
    settings of the builder are those of [fi0]. *)
Definition grown_from {H : Env} (fi0 : t) (s : st) : Prop :=
  (exists text, script (fst s) = script fi0 +:+ text)
  /\ fi_timezone (fst s) = fi_timezone fi0
  /\ project_root_path_length (fst s) = project_root_path_length fi0
  /\ branchname (fst s) = branchname fi0.

End FastImportMoreSpec.

(* ===================================================================== *)
(** * p4gf_usermap.py *)
(* ===================================================================== *)

Module UserMap.

(** A 3-tuple (p4user, email, fullname), and the three indexes
    [TUPLE_INDEX_P4USER], [TUPLE_INDEX_EMAIL], [TUPLE_INDEX_FULLNAME]. *)
Definition tuple : Type := string * string * string.

Inductive tuple_index : Type :=
| TUPLE_INDEX_P4USER
| TUPLE_INDEX_EMAIL
| TUPLE_INDEX_FULLNAME.

(** [usr[index]] *)
Definition field (index : tuple_index) (usr : tuple) : string :=
  match index with
  | TUPLE_INDEX_P4USER => fst (fst usr)
  | TUPLE_INDEX_EMAIL => snd (fst usr)
  | TUPLE_INDEX_FULLNAME => snd usr
  end.

Definition P4GF_UNKNOWN_USER : string := "unknown_git".

(** [find_by_tuple_index] *)
Fixpoint find_by_tuple_index (index : tuple_index) (find_value : string) (users : list tuple)
    : option tuple :=
  match users with
  | [] => None
  | usr :: rest =>
      if String.eqb (field index usr) find_value then Some usr
      else find_by_tuple_index index find_value rest
  end.

(** [find_by_email], [find_by_p4user] *)
Definition find_by_email (addr : string) (users : list tuple) : option tuple :=
  find_by_tuple_index TUPLE_INDEX_EMAIL addr users.

Definition find_by_p4user (p4user : string) (users : list tuple) : option tuple :=
  find_by_tuple_index TUPLE_INDEX_P4USER p4user users.

(** The pattern of [read_user_map]: a group of characters other than
    space and tab, spaces or tabs, a second such group, spaces or tabs,
    and a group of characters other than the double quote between two
    double quotes. *)
Definition blank (c : ascii) : bool := Ascii.eqb c " "%char || Ascii.eqb c "009"%char.
Definition not_blank (c : ascii) : bool := negb (blank c).
Definition not_quote (c : ascii) : bool := negb (Ascii.eqb c "034"%char).

Definition re_usermap : Re.regex :=
  [Re.Open; Re.plus not_blank; Re.Close; Re.plus blank;
   Re.Open; Re.plus not_blank; Re.Close; Re.plus blank;
   Re.Chr "034"%char; Re.Open; Re.plus not_quote; Re.Close; Re.Chr "034"%char].

(** The body of the loop of [read_user_map] for one line of the file. *)
Definition parse_line (line : string) : option tuple :=
  let line := Py.strip line in
  if Py.truthy line && negb (Py.startswith "#" line) then
    match Re.search re_usermap line with
    | Some m => Some (Re.group m 1, Re.group m 2, Re.group m 3)
    | None => None
    end
  else None.

(** [r['User'], r['Email'], r['FullName']] for a row of [p4 users]. *)
Definition user_of_row (r : p4result) : res tuple :=
  match r with
  | PDict d =>
      match d !! "User" with
      | None => Raise (KeyError "User")
      | Some u =>
          match d !! "Email" with
          | None => Raise (KeyError "Email")
          | Some e =>
              match d !! "FullName" with
              | None => Raise (KeyError "FullName")
              | Some f => Ok (u, e, f)
              end
          end
      end
  | PText _ => Raise (TypeError "string indices must be integers")
  end.

(** What the user map sees of the outside: the root of the object
    client, the answer to the sync of the map file, the lines of the
    file if it exists, and the answer to [p4 users]. *)
Record world : Type := World {
  client_root : res string;
  sync_answer : res unit;
  map_lines : option (list string);
  users_answer : res (list p4result)
}.

(** What the user map asks of the outside. *)
Inductive event : Type :=
| FetchClient
| Sync (path_ : string)
| PathExists (path_ : string)
| OpenFile (path_ : string)
| RunUsers.

(** The attributes [users] and [p4users] of a [UserMap]. *)
Record t : Type := Make {
  users : option (list tuple);
  p4users : option (list tuple)
}.

(** [UserMap.__init__] *)
Definition __init__ : t := Make None None.

Definition st : Type := t * list event.

Definition self : M st t := fun s => (Ok (fst s), s).

Definition emit (e : event) : M st unit := modify (fun s : st => (fst s, snd s ++ [e])).

Definition set_users (l : list tuple) : M st unit :=
  modify (fun s : st => (Make (Some l) (p4users (fst s)), snd s)).

Definition set_p4users (l : list tuple) : M st unit :=
  modify (fun s : st => (Make (users (fst s)) (Some l), snd s)).

Section WithWorld.
Variable w : world.

(** [read_user_map] *)
Definition read_user_map : M st (list tuple) :=
  emit FetchClient >>
  let* root := ObjectType.lift_res (client_root w) in
  let mappath := root +:+ "/users/p4gf_usermap" in
  emit (Sync mappath) >>
  ObjectType.lift_res (sync_answer w) >>
  emit (PathExists mappath) >>
  match map_lines w with
  | Some lines => emit (OpenFile mappath) >> ret (omap parse_line lines)
  | None => ret []
  end.

(** [get_p4_users].  The module [ravenbrook_data] is not part of the
    product, so that [local_users] is the empty dict. *)
Definition get_p4_users : M st (list tuple) :=
  emit RunUsers >>
  let* results := ObjectType.lift_res (users_answer w) in
  ObjectType.lift_res (ObjectType.map_res user_of_row results).

(** [if not self.users: self.users = read_user_map(self.p4)] *)
Definition the_users : M st (list tuple) :=
  let* s := self in
  match users s with
  | Some (u :: l) => ret (u :: l)
  | _ => let* l := read_user_map in set_users l >> ret l
  end.

(** [if not self.p4users: self.p4users = get_p4_users(self.p4)] *)
Definition the_p4users : M st (list tuple) :=
  let* s := self in
  match p4users s with
  | Some (u :: l) => ret (u :: l)
  | _ => let* l := get_p4_users in set_p4users l >> ret l
  end.

(** [UserMap._lookup_by_tuple_index] *)
Definition _lookup_by_tuple_index (index : tuple_index) (value : string)
    : M st (option tuple) :=
  let* users_ := the_users in
  match find_by_tuple_index index value users_ with
  | Some user_ => ret (Some user_)
  | None =>
      let* p4users_ := the_p4users in
      let user_ :=
        match find_by_tuple_index index value p4users_ with
        | Some u => Some u
        | None => find_by_tuple_index TUPLE_INDEX_P4USER P4GF_UNKNOWN_USER p4users_
        end in
      match user_ with
      | Some u =>
          modify (fun s : st =>
            (Make (Some (default [] (users (fst s)) ++ [u])) (p4users (fst s)), snd s)) >>
          ret (Some u)
      | None => ret None
      end
  end.

(** [lookup_by_email], [lookup_by_p4user], [p4user_exists] *)
Definition lookup_by_email (addr : string) : M st (option tuple) :=
  _lookup_by_tuple_index TUPLE_INDEX_EMAIL addr.

Definition lookup_by_p4user (p4user : string) : M st (option tuple) :=
  _lookup_by_tuple_index TUPLE_INDEX_P4USER p4user.

Definition p4user_exists (p4user : string) : M st bool :=
  let* p4users_ := the_p4users in
  ret (bool_decide (find_by_tuple_index TUPLE_INDEX_P4USER p4user p4users_ <> None)).

End WithWorld.

End UserMap.

Module UserMapSpec.
Import UserMap.

(** The user map file as [read_user_map] reads it. *)
Definition file_map (w : world) : list tuple :=
  match map_lines w with
  | Some lines => omap parse_line lines
  | None => []
  end.

(** The outside answers, and [p4 users] lists [server]. *)
Definition answers (w : world) (server : list tuple) : Prop :=
  (exists root, client_root w = Ok root)
  /\ sync_answer w = Ok tt
  /\ exists rows, users_answer w = Ok rows
                  /\ ObjectType.map_res user_of_row rows = Ok server.

(** The answer to a lookup in the words of the documentation: the
    first match in the user map file; else the first match among the
    Perforce users; else the user unknown_git, if Perforce has one. *)
Definition answer (index : tuple_index) (value : string) (file server : list tuple)
    : option tuple :=
  match find_by_tuple_index index value file with
  | Some u => Some u
  | None =>
      match find_by_tuple_index index value server with
      | Some u => Some u
      | None => find_by_tuple_index TUPLE_INDEX_P4USER P4GF_UNKNOWN_USER server
      end
  end.

(** What the two caches of a [UserMap] can hold: nothing yet; or the
    user map file followed by Perforce users found earlier, and the
    list of the Perforce users. *)
Definition cached (w : world) (server : list tuple) (s : t) : Prop :=
  (users s = None
   \/ exists hits, users s = Some (file_map w ++ hits) /\ Forall (fun h => In h server) hits)
  /\ (p4users s = None \/ p4users s = Some server).

(** A map file and a server for the examples. *)
Definition demo_world : world :=
  World (Ok "/gf")
        (Ok tt)
        (Some [ "# Git Fusion user map" +:+ LF;
                "bob bob@work.example " +:+ String "034"%char "Bob Ray"
                +:+ String "034"%char LF ])
        (Ok [ PDict (<["User" := "ann"]> (<["Email" := "ann@example.com"]>
                      (<["FullName" := "Ann Lee"]> ∅)));
              PDict (<["User" := "unknown_git"]> (<["Email" := "nobody@example.com"]>
                      (<["FullName" := "Unknown"]> ∅))) ]).

Definition demo_server : list tuple :=
  [ ("ann", "ann@example.com", "Ann Lee");
    ("unknown_git", "nobody@example.com", "Unknown") ].

End UserMapSpec.

Module MirrorPathSpec.

(** The depot path of the mirror, the root under which the objects are
    stored and searched: //.git-fusion/ *)
Definition depot_root : string := "//" +:+ ObjectType.P4GF_DEPOT +:+ "/".

(** No character of [s] is [c]. *)
Definition free_of (c : ascii) (s : string) : Prop := ~ In c (list_ascii_of_string s).

End MirrorPathSpec.

Module LockRace.
Import Lock LockSpec.

(** What a waiter has found out after the first requests of a pass of
    [acquire]. *)
Inductive found : Type :=
| Got               (* the increment answered 1 *)
| HolderDead        (* the holder's heartbeat is too old *)
| HolderAlive.      (* there is no heartbeat, or it counts as alive *)

(** The first part of a pass of [acquire]: the attempt and, when it
    fails, the look at the holder's heartbeat. *)
Definition contend : M st found :=
  let* got := _acquire_attempt in
  set_has got >>
  if got then ret Got
  else
    let* holder := get_heartbeat in
    let* now := timegm_now in
    let* dead :=
      match holder with
      | Some h => let* alive := ObjectType.lift_res (check_holder_alive now h) in
                  ret (negb alive)
      | None => ret false
      end in
    ret (if dead then HolderDead else HolderAlive).

(** The second part of the pass: what the waiter does about it. *)
Definition settle (me : process) (start : Z) (timeout : option Z) (f : found) : M st pass :=
  match f with
  | Got => acquired me >> ret Acquired
  | HolderDead => set_has true >> release me >> ret Reclaimed
  | HolderAlive =>
      let* t1 := time_time in
      let elapsed := (t1 - start)%Z in
      match timeout with
      | Some secs =>
          if negb (secs =? 0)%Z && (secs * 1000 <=? elapsed)%Z then
            let* holder' := get_heartbeat in
            let* l := self in
            raise (RuntimeError (timeout_message (counter_name l) holder'))
          else sleep _RETRY_PERIOD >> ret Slept
      | None => sleep _RETRY_PERIOD >> ret Slept
      end
  end.

(** Two processes on one server.  Each has its own [CounterLock]; the
    counters, the clock and the list of what was done are shared. *)
Definition two : Type := t * t * world.

Definition first_runs {A : Type} (m : M st A) : M two A :=
  zoom (fun s : two => (fst (fst s), snd s)) (fun lw s => (fst lw, snd (fst s), snd lw)) m.

Definition second_runs {A : Type} (m : M st A) : M two A :=
  zoom (fun s : two => (snd (fst s), snd s)) (fun lw s => (fst (fst s), fst lw, snd lw)) m.

(** Two waiters [a] and [b] in [acquire], and one order in which the
    server can receive their requests: both make their attempt and
    read the heartbeat; then [a] does what it found to do and goes
    through its next pass; then [b] does what it had found to do and
    goes through its next pass. *)
Definition both_contend (a b : process) (timeout_a timeout_b : option Z) : M two (pass * pass) :=
  let* w := get in
  let start := clock (snd w) in
  let* found_a := first_runs contend in
  let* found_b := second_runs contend in
  first_runs (settle a start timeout_a found_a) >>
  let* pass_a := first_runs (acquire_pass a start timeout_a) in
  second_runs (settle b start timeout_b found_b) >>
  let* pass_b := second_runs (acquire_pass b start timeout_b) in
  ret (pass_a, pass_b).

(** A second process for the examples. *)
Definition other_process : process := Process "host-c" 8765 ["p4gf_auth_server.py"; "demo"].

End LockRace.

(* ===================================================================== *)
(** * The monad and the requests, step by step *)
(* ===================================================================== *)

Section MonadFacts.
Context {S A B : Type}.

Lemma bind_ok (m : M S A) (k : A -> M S B) s a s' :
  m s = (Ok a, s') -> bind m k s = k a s'.
Proof. intros E. unfold bind. rewrite E. reflexivity. Qed.

Lemma bind_raise (m : M S A) (k : A -> M S B) s e s' :
  m s = (Raise e, s') -> bind m k s = (Raise e, s').
Proof. intros E. unfold bind. rewrite E. reflexivity. Qed.

Lemma bind_ok_inv (m : M S A) (k : A -> M S B) s b s' :
  bind m k s = (Ok b, s') -> exists a s1, m s = (Ok a, s1) /\ k a s1 = (Ok b, s').
Proof.
  unfold bind. destruct (m s) as [[a | e] s1]; [| discriminate].
  intros E. now exists a, s1.
Qed.

Lemma bind_cases (m : M S A) (k : A -> M S B) s r s' :
  bind m k s = (r, s') ->
  (exists e, m s = (Raise e, s') /\ r = Raise e)
  \/ (exists a s1, m s = (Ok a, s1) /\ k a s1 = (r, s')).
Proof.
  unfold bind. destruct (m s) as [[a | e] s1].
  - intros E. right. now exists a, s1.
  - intros [= <- <-]. left. now exists e.
Qed.

End MonadFacts.

(** Run the first computation of a sequence with a known result. *)
Ltac step_with tac := erewrite bind_ok by tac; cbn [fst snd].
Ltac step := step_with ltac:(reflexivity).

Section PrimitiveFacts.
Context `{Env}.

Lemma request_answer c i r w :
  ext c (world i) = (r, w) ->
  request c i = (match r with RRaise e => Raise e | _ => Ok r end, after c w i).
Proof. intros E. unfold request. rewrite E. destruct r; reflexivity. Qed.

Lemma p4_run_results c cmd i rows msgs w :
  ext (P4Run c cmd) (world i) = (RResults rows msgs, w) ->
  p4_run c cmd i = (Ok rows, set_messages c msgs (after (P4Run c cmd) w i)).
Proof.
  intros E. unfold p4_run, bind. rewrite (request_answer _ _ _ _ E). reflexivity.
Qed.

Lemma p4_run_raises c cmd i e w :
  ext (P4Run c cmd) (world i) = (RRaise e, w) ->
  p4_run c cmd i = (Raise e, after (P4Run c cmd) w i).
Proof.
  intros E. unfold p4_run, bind. rewrite (request_answer _ _ _ _ E). reflexivity.
Qed.

Lemma ask_answer c i b w :
  ext c (world i) = (RBool b, w) ->
  ask c i = (Ok b, after c w i).
Proof.
  intros E. unfold ask, bind. rewrite (request_answer _ _ _ _ E). reflexivity.
Qed.

Lemma trace_set_messages c msgs i : trace (set_messages c msgs i) = trace i.
Proof. destruct c; reflexivity. Qed.

Lemma world_set_messages c msgs i : world (set_messages c msgs i) = world i.
Proof. destruct c; reflexivity. Qed.

End PrimitiveFacts.

(** ** What a computation leaves as it is *)

Section PreservationFacts.
Context {S : Type} (P : S -> Prop).

Lemma pres_ret {A : Type} (a : A) : preserves P (ret a).
Proof. intros s r s' HP [= <- <-]. exact HP. Qed.

Lemma pres_raise {A : Type} (e : exn) : preserves P (raise (A := A) e).
Proof. intros s r s' HP [= <- <-]. exact HP. Qed.

Lemma pres_get : preserves P get.
Proof. intros s r s' HP [= <- <-]. exact HP. Qed.

Lemma pres_bind {A B : Type} (m : M S A) (k : A -> M S B) :
  preserves P m -> (forall a, preserves P (k a)) -> preserves P (bind m k).
Proof.
  intros Hm Hk s r s' HP E. unfold bind in E.
  destruct (m s) as [[a | e] s1] eqn:Em.
  - exact (Hk a s1 r s' (Hm s _ s1 HP Em) E).
  - injection E as <- <-. exact (Hm s _ s1 HP Em).
Qed.

Lemma pres_when (b : bool) (m : M S unit) : preserves P m -> preserves P (when b m).
Proof. intros Hm. destruct b; [exact Hm | apply pres_ret]. Qed.

Lemma pres_for_each {A : Type} (l : list A) (body : A -> M S unit) :
  (forall x, preserves P (body x)) -> preserves P (for_each l body).
Proof.
  intros Hb. induction l as [| x l IH]; cbn [for_each].
  - apply pres_ret.
  - apply pres_bind; [apply Hb | intros _; exact IH].
Qed.

Lemma pres_map_m {A B : Type} (f : A -> M S B) (l : list A) :
  (forall x, preserves P (f x)) -> preserves P (map_m f l).
Proof.
  intros Hf. induction l as [| x l IH]; cbn [map_m].
  - apply pres_ret.
  - apply pres_bind; [apply Hf | intros y].
    apply pres_bind; [exact IH | intros ys; apply pres_ret].
Qed.

Lemma pres_try {A : Type} (body : M S A) (handler : string -> M S A) :
  preserves P body -> (forall m, preserves P (handler m)) ->
  preserves P (try_except_P4 body handler).
Proof.
  intros Hb Hh s r s' HP E. unfold try_except_P4 in E.
  destruct (body s) as [[a | e] s1] eqn:Eb.
  - injection E as <- <-. exact (Hb s _ s1 HP Eb).
  - pose proof (Hb s _ s1 HP Eb) as HP1.
    destruct e; try (injection E as <- <-; exact HP1).
    exact (Hh msg s1 r s' HP1 E).
Qed.

Lemma pres_lift_res {A : Type} (x : res A) : preserves P (ObjectType.lift_res (S := S) x).
Proof.
  intros s r s' HP E. unfold ObjectType.lift_res in E.
  destruct x; injection E as <- <-; exact HP.
Qed.

End PreservationFacts.

(** Take a computation apart and settle each piece; [tac] settles the
    pieces that are not of the monad itself. *)
Ltac pres_with tac :=
  repeat first
    [ tac
    | apply pres_ret | apply pres_raise | apply pres_get
    | apply pres_lift_res
    | apply pres_when
    | apply pres_for_each; intros
    | apply pres_map_m; intros
    | apply pres_try; [| intros]
    | apply pres_bind; [| intros]
    | match goal with
      | |- preserves _ (if ?b then _ else _) => destruct b
      | |- preserves _ (match ?x with _ => _ end) => destruct x
      end ].

(* ===================================================================== *)
(** * The conflict checker *)
(* ===================================================================== *)

Module ConflictCheckerFacts.
Import ConflictChecker.

Section WithEnv.
Context `{Env}.

(** A query that answers with three changelists, the newest first, of
    which the older two are the known ones: the walk runs off the end
    of the known list, at index 2. *)
Lemma find_conflict_index_foreign_tail c1 c2 p1 p2 p3 r1 r2 r3 fci lg (i : io) :
  change_of r1 = Ok p1 -> change_of r2 = Ok p2 -> change_of r3 = Ok p3 ->
  find_conflict_index [r3; r2; r1]
    (Make [MkCommitChange c1 (Some p1); MkCommitChange c2 (Some p2)] fci lg, i)
  = (Ok (Some 2),
     (Make [MkCommitChange c1 (Some p1); MkCommitChange c2 (Some p2)] fci lg, i)).
Proof.
  intros H1 H2 H3.
  unfold find_conflict_index, bind, self, ObjectType.lift_res, ret. cbn.
  rewrite H1, H2, H3. cbn.
  unfold in_changes. cbn.
  rewrite !String.eqb_refl. cbn.
  rewrite !String.eqb_refl. reflexivity.
Qed.

(** C1, as the code has it.  The known-good list is [(c1,p1),(c2,p2)]
    and the server reports the changelists p1, p2 and a foreign p3
    (newest first, as [p4 changes] lists them).  [check] finds the
    conflict at index 2 and stores it, so that [has_conflict] is true
    afterwards; but the element it then reads, [self.good[2]], does
    not exist, because [find_conflict_index] appended the foreign
    changelist to its local copy of the list: [check] raises
    [IndexError] instead of returning p3. *)
Theorem check_foreign_tail_raises ctx c1 c2 p1 p2 p3 r1 r2 r3 msgs fci lg (i : io) w :
  change_of r1 = Ok p1 -> change_of r2 = Ok p2 -> change_of r3 = Ok p3 ->
  (forall cmd, ext (P4Run CtxP4 cmd) (world i) = (RResults [r3; r2; r1] msgs, w)) ->
  let known := [MkCommitChange c1 (Some p1); MkCommitChange c2 (Some p2)] in
  exists i',
    check ctx (Make known fci lg, i) = (Raise IndexError, (Make known (Some 2) lg, i'))
    /\ has_conflict (Make known (Some 2) lg) = true
    /\ Py.index known 2 = None.
Proof.
  intros H1 H2 H3 Hq known.
  eexists. split; [| split; reflexivity].
  unfold check.
  erewrite bind_ok by reflexivity. cbv zeta beta.
  erewrite bind_ok.
  2:{ unfold io_, zoom. cbn [fst snd]. rewrite (p4_run_results _ _ _ _ _ _ (Hq _)).
      reflexivity. }
  erewrite bind_ok by (apply (find_conflict_index_foreign_tail _ _ p1 p2 p3); assumption).
  reflexivity.
Qed.

End WithEnv.

(** The theorem on an instance: changelists 1 and 2 are known, 3 is
    foreign. *)
Lemma check_foreign_tail_raises_witness :
  let known := [MkCommitChange (Some "c1") (Some "1"); MkCommitChange (Some "c2") (Some "2")] in
  exists i',
    @check scripted demo_ctx
      (Make known None None,
       start_io [RResults [row1 "change" "3"; row1 "change" "2"; row1 "change" "1"] []])
    = (Raise IndexError, (Make known (Some 2) None, i'))
    /\ has_conflict (Make known (Some 2) None) = true
    /\ Py.index known 2 = None.
Proof.
  apply (@check_foreign_tail_raises scripted demo_ctx (Some "c1") (Some "c2") "1" "2" "3"
           (row1 "change" "1") (row1 "change" "2") (row1 "change" "3") [] None None
           (start_io [RResults [row1 "change" "3"; row1 "change" "2"; row1 "change" "1"] []])
           []);
    reflexivity.
Defined.

End ConflictCheckerFacts.

(* ===================================================================== *)
(** * The script builder *)
(* ===================================================================== *)

Module FastImportFacts.
Import FastImport FastImportSpec.

Lemma append_cons (x : ascii) (a b : string) : String x a +:+ b = String x (a +:+ b).
Proof. reflexivity. Qed.

Lemma append_assoc (a b c : string) : (a +:+ b) +:+ c = a +:+ (b +:+ c).
Proof.
  induction a as [| x a IH]; [reflexivity |].
  rewrite !append_cons. f_equal. exact IH.
Qed.

Lemma append_empty_r (a : string) : a +:+ "" = a.
Proof.
  induction a as [| x a IH]; [reflexivity |].
  rewrite append_cons. f_equal. exact IH.
Qed.

Lemma has_line_spec rel f :
  has_line f = bool_decide (file_change_line rel f <> None).
Proof.
  unfold has_line, file_change_line.
  destruct (P4File.is_delete f); [reflexivity |].
  destruct (String.eqb (P4File.sha1 f) ""); reflexivity.
Qed.

Lemma length_lines_of plen snapshot :
  length (lines_of plen snapshot) = length (List.filter has_line snapshot).
Proof.
  induction snapshot as [| f l IH]; [reflexivity |].
  cbn [lines_of List.filter]. rewrite (has_line_spec (relative plen f)).
  destruct (file_change_line (relative plen f) f); cbn; rewrite IH; reflexivity.
Qed.

Lemma lines_of_each plen snapshot :
  Forall2 (fun f line => file_change_line (relative plen f) f = Some line)
    (List.filter has_line snapshot) (lines_of plen snapshot).
Proof.
  induction snapshot as [| f l IH]; [constructor |].
  cbn [lines_of List.filter]. rewrite (has_line_spec (relative plen f)).
  destruct (file_change_line (relative plen f) f) eqn:E; cbn; [| exact IH].
  constructor; [exact E | exact IH].
Qed.

Section WithEnv.
Context `{Env}.

Lemma append_run text (fi : t) (i : io) :
  __append text (fi, i) = (Ok tt, (with_script fi (script fi +:+ text), i)).
Proof. reflexivity. Qed.

Lemma relative_path_run f (fi : t) (i : io) :
  rooted (project_root_path_length fi) f ->
  __relative_path f (fi, i) = (Ok (relative (project_root_path_length fi) f), (fi, i)).
Proof.
  intros (cp & Hcp & Hlen). apply Z.ltb_lt in Hlen.
  unfold __relative_path, relative.
  erewrite bind_ok by reflexivity. cbn [fst]. rewrite Hcp, Hlen. reflexivity.
Qed.

Lemma add_file_run f (fi : t) (i : io) :
  rooted (project_root_path_length fi) f ->
  __add_file f (fi, i)
  = (Ok tt,
     (with_script fi
        (script fi +:+ default ""
           (file_change_line (relative (project_root_path_length fi) f) f)), i)).
Proof.
  intros Hr. unfold __add_file, file_change_line.
  erewrite bind_ok by (apply relative_path_run; exact Hr).
  destruct (P4File.is_delete f); [apply append_run |].
  destruct (String.eqb (P4File.sha1 f) "").
  - cbn [default]. unfold ret. rewrite append_empty_r. destruct fi; reflexivity.
  - apply append_run.
Qed.

Lemma add_files_run snapshot : forall (fi : t) (i : io),
  Forall (rooted (project_root_path_length fi)) snapshot ->
  __add_files snapshot (fi, i)
  = (Ok tt,
     (with_script fi
        (script fi +:+ flatten (lines_of (project_root_path_length fi) snapshot)), i)).
Proof.
  induction snapshot as [| f l IH]; intros fi i Hall.
  - cbn. unfold ret. rewrite append_empty_r. destruct fi; reflexivity.
  - inversion Hall as [| ? ? Hf Hl]; subst.
    unfold __add_files in *. cbn [for_each].
    erewrite bind_ok by (apply add_file_run; assumption).
    rewrite IH by assumption.
    cbn [with_script script project_root_path_length].
    f_equal. f_equal. unfold with_script. cbn. f_equal.
    rewrite append_assoc. f_equal.
    cbn [lines_of].
    destruct (file_change_line _ f); reflexivity.
Qed.

(** C6, amended.  After the header of the commit record, [add_commit]
    appends, in order, one file-change line for every FileRevision
    that is a delete or has a content hash, and nothing for the
    others: a delete line for a delete, else a modify line with mode
    100755 for an executable type, else 120000 for a symlink, else
    100644, the revision's stored hash and its path below the root.
    Nothing else changes: no request is made, so no content is read. *)
Theorem add_commit_file_lines (cl : P4Changelist) (last_ : option string) (s s1 : st) :
  add_commit_head cl last_ s = (Ok tt, s1) ->
  Forall (rooted (project_root_path_length (fst s1))) (cl_files cl) ->
  let plen := project_root_path_length (fst s1) in
  add_commit cl last_ s
  = (Ok tt, (with_script (fst s1)
               (script (fst s1) +:+ flatten (lines_of plen (cl_files cl))), snd s1))
  /\ length (lines_of plen (cl_files cl)) = length (List.filter has_line (cl_files cl))
  /\ Forall2 (fun f line => file_change_line (relative plen f) f = Some line)
       (List.filter has_line (cl_files cl)) (lines_of plen (cl_files cl)).
Proof.
  intros Hhead Hall plen. split; [| split].
  - unfold add_commit. erewrite bind_ok by exact Hhead.
    destruct s1 as [fi i]. apply add_files_run. exact Hall.
  - apply length_lines_of.
  - apply lines_of_each.
Qed.

End WithEnv.

(** The theorem on an instance: five revisions, four lines. *)
Lemma add_commit_file_lines_witness :
  exists s1 : @st scripted,
    @add_commit scripted mixed_changelist None (fresh_fastimport, start_io [])
    = (Ok tt, (with_script (fst s1)
                 (script (fst s1) +:+ flatten (lines_of 4 (cl_files mixed_changelist))),
               snd s1))
    /\ length (lines_of 4 (cl_files mixed_changelist)) = 4%nat
    /\ lines_of 4 (cl_files mixed_changelist)
       = [ "D old.txt" +:+ LF;
           "M 100755 0123456789012345678901234567890123456789 run.sh" +:+ LF;
           "M 120000 1123456789012345678901234567890123456789 link" +:+ LF;
           "M 100644 2123456789012345678901234567890123456789 b.txt" +:+ LF ].
Proof.
  exists (snd (@add_commit_head scripted mixed_changelist None (fresh_fastimport, start_io []))).
  destruct (@add_commit_file_lines scripted mixed_changelist None
              (fresh_fastimport, start_io [])
              (snd (@add_commit_head scripted mixed_changelist None
                      (fresh_fastimport, start_io []))))
    as (Hrun & Hlen & _).
  - vm_compute. reflexivity.
  - repeat constructor; eexists; (split; [reflexivity | vm_compute; reflexivity]).
  - split; [exact Hrun | split; vm_compute; reflexivity].
Defined.

(** C6, as stated, fails: a changelist with one FileRevision, an edit
    whose content hash is empty, yields a commit record without any
    file-change line. *)
Lemma add_commit_skips_revision_without_hash :
  length (cl_files changelist_without_hash) = 1%nat
  /\ exists s' : @st scripted,
       @add_commit scripted changelist_without_hash None (fresh_fastimport, start_io [])
       = (Ok tt, s')
       /\ script (fst s')
          = "commit refs/heads/git_fusion_temp_branch" +:+ LF
            +:+ "mark : 9" +:+ LF
            +:+ "committer  Unknown Perforce User <ann> 1350000000 +0000" +:+ LF
            +:+ "data 3" +:+ LF +:+ "msg"
            +:+ "deleteall" +:+ LF
       /\ file_change_lines (script (fst s')) = [].
Proof.
  split; [reflexivity |].
  eexists. split; [vm_compute; reflexivity | split; vm_compute; reflexivity].
Qed.

(** C9, as the code has it.  A commit whose author has an empty e-mail
    address is exported to a description with the line
    " Author: Ann Lee <> 1350000000 +0100".  On import the author
    pattern, which asks for at least one character between the angle
    brackets, finds nothing in that description: the record that
    [add_commit] emits has the committer line and the message without
    the trailer, and no author line. *)
Theorem round_trip_drops_author_with_empty_email :
  Re.search (trailer_regex "Author")
    (G2P.change_description commit_with_empty_email (Some "pat") "ann") = None
  /\ exists s',
       round_trip commit_with_empty_email = (Ok tt, s')
       /\ script (fst s')
          = "commit refs/heads/git_fusion_temp_branch" +:+ LF
            +:+ "mark : 17" +:+ LF
            +:+ "committer Bob <bob@example.com> 1350000001 -0700" +:+ LF
            +:+ "data 14" +:+ LF +:+ "Fix the thing" +:+ LF
            +:+ "from :16" +:+ LF.
Proof.
  split; [vm_compute; reflexivity |].
  eexists. split; vm_compute; reflexivity.
Qed.

(** With an address the same commit comes back whole. *)
Example round_trip_keeps_identity :
  exists s',
    round_trip commit_with_email = (Ok tt, s')
    /\ script (fst s')
       = "commit refs/heads/git_fusion_temp_branch" +:+ LF
         +:+ "mark : 17" +:+ LF
         +:+ "author Ann Lee <ann@example.com> 1350000000 +0100" +:+ LF
         +:+ "committer Bob <bob@example.com> 1350000001 -0700" +:+ LF
         +:+ "data 14" +:+ LF +:+ "Fix the thing" +:+ LF
         +:+ "from :16" +:+ LF.
Proof. eexists. split; vm_compute; reflexivity. Qed.

End FastImportFacts.

(* ===================================================================== *)
(** * The revision range *)
(* ===================================================================== *)

Module RevRangeFacts.
Import RevRange.

Lemma int_truthy cl n : Py.int cl = Some n -> Py.truthy cl = true.
Proof. destruct cl; [discriminate | reflexivity]. Qed.

Section WithEnv.
Context `{Env}.

(** C8.  Computed from a starting commit hash (a start that does not
    begin with an at sign), the range begins one changelist after the
    one that the mirror's lookup, [get_change_for_commit], gives for the
    commit; it is not a new repository, has no graft changelist and
    remembers the commit.  When the lookup finds nothing the
    computation raises the invalid-start error. *)
Theorem from_start_stop_after_commit ctx start_at stop_at last_commit_ (i i1 i2 : io) :
  Py.startswith "@" start_at = false ->
  expand_sha1 start_at i = (Ok last_commit_, i1) ->
  (forall cl n,
      GitMirror.get_change_for_commit last_commit_ ctx i1 = (Ok (Some cl), i2) ->
      Py.int cl = Some n ->
      from_start_stop ctx start_at stop_at i
      = (Ok (Make (Some ("@" +:+ Py.str (1 + n))) (Some stop_at) false None last_commit_), i2))
  /\ (GitMirror.get_change_for_commit last_commit_ ctx i1 = (Ok None, i2) ->
      from_start_stop ctx start_at stop_at i
      = (Raise (RuntimeError ("Invalid startAt=" +:+ start_at
                  +:+ ": no commit sha1 with a corresponding Perforce changelist number.")),
         i2)).
Proof.
  intros Hat Hexp. unfold from_start_stop. rewrite Hat.
  unfold _existing_repo_after_commit.
  erewrite bind_ok by exact Hexp.
  split.
  - intros cl n Hget Hint.
    erewrite bind_ok by exact Hget.
    cbn [Py.truthy_opt Py.str_opt]. rewrite (int_truthy _ _ Hint), Hint. reflexivity.
  - intros Hget. erewrite bind_ok by exact Hget. reflexivity.
Qed.

End WithEnv.

(** The theorem on an instance: the head commit is changelist 41 in the
    mirror, the range starts at 42; and with an empty mirror the start
    is refused. *)
Lemma from_start_stop_after_commit_witness :
  @from_start_stop scripted demo_ctx sha1_of_head "#head" (start_io mirror_knows_head)
  = (Ok (Make (Some "@42") (Some "#head") false None (Some sha1_of_head)),
     snd (@from_start_stop scripted demo_ctx sha1_of_head "#head" (start_io mirror_knows_head)))
  /\ @from_start_stop scripted demo_ctx sha1_of_head "#head" (start_io mirror_lacks_head)
     = (Raise (RuntimeError ("Invalid startAt=" +:+ sha1_of_head
                 +:+ ": no commit sha1 with a corresponding Perforce changelist number.")),
        snd (@from_start_stop scripted demo_ctx sha1_of_head "#head" (start_io mirror_lacks_head))).
Proof.
  split.
  - refine (proj1 (@from_start_stop_after_commit scripted demo_ctx sha1_of_head "#head"
                     (Some sha1_of_head) (start_io mirror_knows_head)
                     (snd (@expand_sha1 scripted sha1_of_head (start_io mirror_knows_head)))
                     _ _ _) "41" 41%Z _ _);
      vm_compute; reflexivity.
  - refine (proj2 (@from_start_stop_after_commit scripted demo_ctx sha1_of_head "#head"
                     (Some sha1_of_head) (start_io mirror_lacks_head)
                     (snd (@expand_sha1 scripted sha1_of_head (start_io mirror_lacks_head)))
                     _ _ _) _);
      vm_compute; reflexivity.
Defined.

End RevRangeFacts.

(* ===================================================================== *)
(** * The lock *)
(* ===================================================================== *)

Module LockFacts.
Import Lock LockSpec.

(** Printing a number and reading it back, as the server does. *)
Lemma counter_number_str (k : Z) : counter_number (Py.str k) = Some k.
Proof.
  unfold counter_number, Py.str.
  rewrite NilZero.isi.
  - cbn [fmap option_fmap option_map]. rewrite DecimalZ.of_to. reflexivity.
  - destruct k as [| p | p]; cbn; try discriminate.
    intros [= E]. now apply DecimalPos.Unsigned.to_uint_nonnil in E.
  - destruct k as [| p | p]; cbn; try discriminate.
    intros [= E]. now apply DecimalPos.Unsigned.to_uint_nonnil in E.
Qed.

Lemma str_is_one (k : Z) : Py.str k = "1" -> k = 1%Z.
Proof.
  intros E. pose proof (counter_number_str k) as Hk. rewrite E in Hk.
  vm_compute in Hk. congruence.
Qed.

Lemma length_append (a b : string) :
  String.length (a +:+ b) = (String.length a + String.length b)%nat.
Proof.
  induction a as [| x a IH]; [reflexivity |].
  change (String x a +:+ b) with (String x (a +:+ b)). cbn. now rewrite IH.
Qed.

Lemma heartbeat_name_differs (name : string) : name +:+ "_heartbeat" <> name.
Proof.
  intros E. apply (f_equal String.length) in E. rewrite length_append in E.
  cbn in E. lia.
Qed.

Lemma server_server c c' w es es' :
  server c' (server c w es) es' = server c' w (es ++ es').
Proof. unfold server. cbn. now rewrite app_assoc. Qed.

Lemma server_nil (w : world) : server (counters w) w [] = w.
Proof. destruct w. unfold server. cbn. now rewrite app_nil_r. Qed.

(** The four counter commands. *)
Lemma counter_increment_run name (l : t) (w : world) n :
  counter_number (default "0" (counters w !! name)) = Some n ->
  counter_increment name (l, w)
  = (Ok (Py.str (n + 1)),
     (l, server (<[name := Py.str (n + 1)]> (counters w)) w [CounterIncrement name])).
Proof.
  intros E. unfold counter_increment, bind, emit, modify, get, set_counters, ret.
  cbn [fst snd counters clock events]. rewrite E. reflexivity.
Qed.

Lemma counter_get_run name (l : t) (w : world) :
  counter_get name (l, w)
  = (Ok (default "0" (counters w !! name)), (l, server (counters w) w [CounterGet name])).
Proof. reflexivity. Qed.

Lemma counter_set_run name value (l : t) (w : world) :
  counter_set name value (l, w)
  = (Ok tt, (l, server (<[name := value]> (counters w)) w [CounterSet name value])).
Proof. reflexivity. Qed.

Lemma counter_delete_run name (l : t) (w : world) v :
  counters w !! name = Some v ->
  counter_delete name (l, w)
  = (Ok tt, (l, server (delete name (counters w)) w [CounterDelete name])).
Proof.
  intros E. unfold counter_delete, bind, emit, modify, get, set_counters, ret.
  cbn [fst snd counters clock events]. rewrite E. reflexivity.
Qed.

(** Flatten the nested descriptions of the server. *)
Ltac norm :=
  unfold server; cbn [clock counters events fst snd];
  rewrite <- ?app_assoc; cbn [app].

Section WithProcess.
Variable me : process.

Lemma acquire_attempt_run (l : t) (w : world) n :
  counter_number (default "0" (counters w !! counter_name l)) = Some n ->
  _acquire_attempt (l, w)
  = (Ok (String.eqb (Py.str (n + 1)) "1"),
     (l, server (<[counter_name l := Py.str (n + 1)]> (counters w)) w
           [CounterIncrement (counter_name l)])).
Proof.
  intros E. unfold _acquire_attempt.
  erewrite bind_ok by reflexivity.
  erewrite bind_ok by (apply counter_increment_run; exact E).
  reflexivity.
Qed.

Lemma get_heartbeat_run (l : t) (w : world) holder :
  counters w !! heartbeat_counter_name l = Some holder ->
  Py.truthy holder = true -> holder <> "0" ->
  get_heartbeat (l, w)
  = (Ok (Some holder), (l, server (counters w) w [CounterGet (heartbeat_counter_name l)])).
Proof.
  intros E Ht H0. unfold get_heartbeat.
  erewrite bind_ok by reflexivity.
  erewrite bind_ok by apply counter_get_run.
  cbn [fst snd]. rewrite E. cbn [from_option id]. rewrite Ht.
  destruct (String.eqb_spec holder "0"); [contradiction | reflexivity].
Qed.

(** One pass of the loop when the counter is taken and the holder's
    record counts as alive: nothing is deleted; the pass ends in the
    timeout error when the time is up and in a sleep otherwise. *)
Lemma pass_waits (l : t) (w : world) start timeout n holder :
  counter_number (default "0" (counters w !! counter_name l)) = Some n ->
  (1 <= n)%Z ->
  counters w !! heartbeat_counter_name l = Some holder ->
  Py.truthy holder = true -> holder <> "0" ->
  check_holder_alive (clock w / 1000) holder = Ok true ->
  let c1 := <[counter_name l := Py.str (n + 1)]> (counters w) in
  let hb := heartbeat_counter_name l in
  acquire_pass me start timeout (l, w)
  = if timed_out timeout (clock w - start)
    then (Raise (RuntimeError (timeout_message (counter_name l) (Some holder))),
          (with_has false l,
           server c1 w [CounterIncrement (counter_name l); CounterGet hb; CounterGet hb]))
    else (Ok Slept,
          (with_has false l,
           World c1 (clock w + _RETRY_PERIOD)
                 (events w ++ [CounterIncrement (counter_name l); CounterGet hb;
                               Sleep _RETRY_PERIOD]))).
Proof.
  intros Hn Hge Hhb Ht H0 Halive c1 hb.
  assert (Hne : String.eqb (Py.str (n + 1)) "1" = false).
  { destruct (String.eqb_spec (Py.str (n + 1)) "1") as [E |]; [| reflexivity].
    apply str_is_one in E. lia. }
  assert (Hhb1 : c1 !! heartbeat_counter_name (with_has false l) = Some holder).
  { unfold c1. rewrite lookup_insert_ne; [exact Hhb |].
    intros E. symmetry in E. apply heartbeat_name_differs in E. exact E. }
  unfold acquire_pass.
  step_with ltac:(apply acquire_attempt_run; exact Hn).
  rewrite Hne.
  step.
  step_with ltac:(apply (get_heartbeat_run (with_has false l)); [exact Hhb1 | exact Ht | exact H0]).
  step. norm.
  rewrite Halive. cbn [ObjectType.lift_res].
  step. cbn [negb]. step. norm.
  unfold timed_out. destruct timeout as [secs |].
  - destruct (negb (secs =? 0)%Z && (secs * 1000 <=? clock w - start)%Z).
    + step_with ltac:(apply (get_heartbeat_run (with_has false l));
                      [exact Hhb1 | exact Ht | exact H0]).
      step. norm. reflexivity.
    + unfold sleep, bind, emit, modify, ret. norm. reflexivity.
  - unfold sleep, bind, emit, modify, ret. norm. reflexivity.
Qed.

Lemma acquire_loop_S fuel start timeout (s : st) :
  acquire_loop me (S fuel) start timeout s
  = match acquire_pass me start timeout s with
    | (Ok Acquired, s') => Some (Ok tt, s')
    | (Ok _, s') => acquire_loop me fuel start timeout s'
    | (Raise e, s') => Some (Raise e, s')
    end.
Proof. reflexivity. Qed.

(** As long as the holder's record counts as alive the loop sleeps and
    tries again; it ends in the timeout error, after [k] more sleeps,
    when the time is up. *)
Lemma loop_waits (start T : Z) (holder : string) (k : nat) : forall (l : t) (w : world) n,
  (0 < T)%Z ->
  Py.truthy holder = true -> holder <> "0" ->
  (forall now, (now <= (start + T * 1000) / 1000)%Z ->
               check_holder_alive now holder = Ok true) ->
  counter_number (default "0" (counters w !! counter_name l)) = Some n ->
  (1 <= n)%Z ->
  counters w !! heartbeat_counter_name l = Some holder ->
  (clock w - start = T * 1000 - 100 * Z.of_nat k)%Z ->
  exists c es,
    acquire_loop me (S k) start (Some T) (l, w)
    = Some (Raise (RuntimeError (timeout_message (counter_name l) (Some holder))),
            (with_has false l, World c (start + T * 1000) (events w ++ es)))
    /\ Forall (fun e => is_delete e = false) es
    /\ length (List.filter is_sleep es) = k
    /\ c !! heartbeat_counter_name l = Some holder.
Proof.
  induction k as [| k IH]; intros l w n HT Ht H0 Halive Hn Hge Hhb Hclock.
  - rewrite acquire_loop_S.
    rewrite (pass_waits l w start (Some T) n holder Hn Hge Hhb Ht H0).
    2:{ apply Halive. apply Z.div_le_mono; lia. }
    unfold timed_out.
    replace (negb (T =? 0)%Z && (T * 1000 <=? clock w - start)%Z) with true.
    2:{ symmetry. apply andb_true_iff. split.
        - apply negb_true_iff, Z.eqb_neq. lia.
        - apply Z.leb_le. lia. }
    eexists. exists [CounterIncrement (counter_name l);
                     CounterGet (heartbeat_counter_name l);
                     CounterGet (heartbeat_counter_name l)].
    split; [| split; [| split]].
    + unfold server. do 4 f_equal. lia.
    + repeat constructor.
    + reflexivity.
    + rewrite lookup_insert_ne; [exact Hhb |].
      intros E. symmetry in E. now apply heartbeat_name_differs in E.
  - rewrite acquire_loop_S.
    rewrite (pass_waits l w start (Some T) n holder Hn Hge Hhb Ht H0).
    2:{ apply Halive. apply Z.div_le_mono; lia. }
    unfold timed_out.
    replace (negb (T =? 0)%Z && (T * 1000 <=? clock w - start)%Z) with false.
    2:{ symmetry. apply andb_false_iff. right. apply Z.leb_gt. lia. }
    destruct (IH (with_has false l)
                 (World (<[counter_name l := Py.str (n + 1)]> (counters w))
                        (clock w + _RETRY_PERIOD)
                        (events w ++ [CounterIncrement (counter_name l);
                                      CounterGet (heartbeat_counter_name l);
                                      Sleep _RETRY_PERIOD]))
                 (n + 1)%Z HT Ht H0 Halive)
      as (c & es & Hrun & Hdel & Hsleep & Hc).
    + cbn [counters counter_name with_has]. rewrite lookup_insert_eq. cbn [from_option id].
      apply counter_number_str.
    + lia.
    + cbn [counters]. unfold heartbeat_counter_name. cbn [counter_name with_has].
      rewrite lookup_insert_ne; [exact Hhb |].
      intros E. symmetry in E. now apply heartbeat_name_differs in E.
    + cbn [clock]. unfold _RETRY_PERIOD. lia.
    + exists c. eexists. split; [| split; [| split]].
      * rewrite Hrun. cbn [events]. rewrite <- app_assoc. reflexivity.
      * cbn [app]. repeat constructor. exact Hdel.
      * cbn. rewrite Hsleep. reflexivity.
      * exact Hc.
Qed.

(** C10, as the code has it.  A heartbeat record whose third field is
    not an integer counts as alive, and so does a record whose time
    lies after the local clock.  Consequently an acquirer with a
    timeout of [T] seconds that finds the counter taken deletes no
    counter, when the record is unreadable, or when at the end of the
    timeout its time is still less than sixty seconds behind the
    clock (as for a record from the future and a timeout of up to
    sixty seconds): it sleeps and tries again, ten times a second,
    until the timeout is over, and then raises the timeout error that
    names the holder. *)
Theorem unreadable_or_future_heartbeat_is_never_stolen :
  (forall now holder field,
      third_field holder = Some field -> Py.int field = None ->
      check_holder_alive now holder = Ok true)
  /\ (forall now holder field then_,
         third_field holder = Some field -> Py.int field = Some then_ ->
         (now < then_)%Z ->
         check_holder_alive now holder = Ok true)
  /\ (forall (l : t) (w : world) T n holder field,
         heartbeat_only l = false ->
         counter_number (default "0" (counters w !! counter_name l)) = Some n ->
         (1 <= n)%Z ->
         counters w !! heartbeat_counter_name l = Some holder ->
         Py.truthy holder = true -> holder <> "0" ->
         third_field holder = Some field ->
         (Py.int field = None
          \/ exists then_,
               Py.int field = Some then_
               /\ (clock w / 1000 + T < then_ + HEARTBEAT_TIMEOUT_SECS)%Z) ->
         (0 < T)%Z ->
         exists c es,
           acquire me (S (Z.to_nat (10 * T))) (Some T) (l, w)
           = Some (Raise (RuntimeError (timeout_message (counter_name l) (Some holder))),
                   (with_has false l, World c (clock w + T * 1000) (events w ++ es)))
           /\ Forall (fun e => is_delete e = false) es
           /\ length (List.filter is_sleep es) = Z.to_nat (10 * T)
           /\ c !! heartbeat_counter_name l = Some holder).
Proof.
  split; [| split].
  - intros now holder field Hf Hint. unfold check_holder_alive.
    unfold third_field in Hf. rewrite Hf, Hint. reflexivity.
  - intros now holder field then_ Hf Hint Hlt. unfold check_holder_alive.
    unfold third_field in Hf. rewrite Hf, Hint.
    apply Z.ltb_lt in Hlt. rewrite Hlt. reflexivity.
  - intros l w T n holder field Hhbo Hn Hge Hhb Ht H0 Hf Hrecord HT.
    unfold acquire. cbn [fst snd]. rewrite Hhbo.
    apply (loop_waits (clock w) T holder (Z.to_nat (10 * T)) l w n); try assumption.
    + intros now Hnow. unfold check_holder_alive. unfold third_field in Hf. rewrite Hf.
      destruct Hrecord as [-> | (then_ & -> & Hyoung)]; [reflexivity |].
      rewrite Z.div_add in Hnow by lia.
      f_equal. apply orb_true_iff. right. apply Z.ltb_lt. lia.
    + rewrite Z2Nat.id by lia. lia.
Qed.

(** Releasing a lock that was never really held (the step by which
    [acquire] clears an abandoned lock): the heartbeat counter and the
    lock counter are deleted. *)
Lemma release_run name to ab (w : world) v1 v2 :
  counters w !! name = Some v1 ->
  counters w !! (name +:+ "_heartbeat") = Some v2 ->
  let hb := name +:+ "_heartbeat" in
  release me (with_has true (fresh name to ab), w)
  = (Ok true,
     (fresh name to ab,
      server (delete name (delete hb (counters w))) w [CounterDelete hb; CounterDelete name])).
Proof.
  intros H1 H2 hb.
  assert (Hdiff : hb <> name) by apply heartbeat_name_differs.
  unfold release.
  step. cbn [has with_has fresh orb negb].
  step. step. step. step.
  step_with ltac:(unfold clear_heartbeat; step; unfold suppress_P4, try_except_P4;
                  erewrite counter_delete_run by exact H2; reflexivity).
  step_with ltac:(eapply counter_delete_run; norm;
                  rewrite lookup_delete_ne by exact Hdiff; exact H1).
  step. norm. reflexivity.
Qed.

(** A pass that finds the counter taken and a heartbeat that is sixty
    seconds old or older: both counters are deleted, nothing else. *)
Lemma pass_reclaims name to ab (w : world) start timeout n holder field then_ :
  counter_number (default "0" (counters w !! name)) = Some n ->
  (1 <= n)%Z ->
  counters w !! (name +:+ "_heartbeat") = Some holder ->
  Py.truthy holder = true -> holder <> "0" ->
  third_field holder = Some field -> Py.int field = Some then_ ->
  (HEARTBEAT_TIMEOUT_SECS <= clock w / 1000 - then_)%Z ->
  let hb := name +:+ "_heartbeat" in
  acquire_pass me start timeout (fresh name to ab, w)
  = (Ok Reclaimed,
     (fresh name to ab,
      server (delete name (delete hb (<[name := Py.str (n + 1)]> (counters w)))) w
        [CounterIncrement name; CounterGet hb; CounterDelete hb; CounterDelete name])).
Proof.
  intros Hn Hge Hhb Ht H0 Hf Hint Hold hb.
  assert (Hne : String.eqb (Py.str (n + 1)) "1" = false).
  { destruct (String.eqb_spec (Py.str (n + 1)) "1") as [E |]; [| reflexivity].
    apply str_is_one in E. lia. }
  assert (Hdiff : name <> hb).
  { intros E. symmetry in E. now apply heartbeat_name_differs in E. }
  unfold acquire_pass.
  step_with ltac:(apply acquire_attempt_run; exact Hn).
  cbn [counter_name fresh]. rewrite Hne.
  step.
  step_with ltac:(apply (get_heartbeat_run (fresh name to ab));
                  [norm; rewrite lookup_insert_ne by exact Hdiff; exact Hhb
                  | exact Ht | exact H0]).
  step. norm.
  unfold check_holder_alive. unfold third_field in Hf. rewrite Hf, Hint.
  replace ((clock w / 1000 <? then_)%Z || (clock w / 1000 - then_ <? HEARTBEAT_TIMEOUT_SECS)%Z)
    with false.
  2:{ symmetry. apply orb_false_iff. unfold HEARTBEAT_TIMEOUT_SECS in *.
      split; apply Z.ltb_ge; lia. }
  cbn [ObjectType.lift_res].
  step. cbn [negb].
  step.
  step_with ltac:(apply (release_run name to ab) with (v1 := Py.str (n + 1)) (v2 := holder);
                  cbn [counters];
                  [apply lookup_insert_eq
                  | rewrite lookup_insert_ne by exact Hdiff; exact Hhb]).
  norm. reflexivity.
Qed.

(** The first heartbeat of a lock that was just taken. *)
Lemma update_heartbeat_first name to ab acq (w : world) :
  let hb := name +:+ "_heartbeat" in
  let now := (clock w / 1000)%Z in
  update_heartbeat me (Make name true to false acq None None false ab false, w)
  = (Ok tt,
     (Make name true to false acq (Some now) (Some (record_of me now)) false ab false,
      server (<[hb := record_of me now]> (counters w)) w [CounterSet hb (record_of me now)])).
Proof.
  intros hb now.
  unfold update_heartbeat.
  step. cbn [has heartbeat_only orb negb].
  step_with ltac:(unfold heartbeat_content; step; step; cbn [heartbeat_time];
                  step; reflexivity).
  reflexivity.
Qed.

(** What [acquire] does once its attempt succeeded. *)
Lemma acquired_run name to ab (w : world) :
  let hb := name +:+ "_heartbeat" in
  let now := (clock w / 1000)%Z in
  acquired me (Make name true to false None None None false ab false, w)
  = (Ok tt,
     (Make name true to true (Some (clock w)) (Some now) (Some (record_of me now))
           false ab ab,
      server (<[hb := record_of me now]> (counters w)) w
        ([CounterSet hb (record_of me now)]
         ++ (if ab then [PacemakerStart name] else []) ++ [LogTimerStart]))).
Proof.
  intros hb now.
  unfold acquired.
  step. step. cbn [counter_name has timeout_secs log_timer heartbeat_time heartbeat_content_
                   heartbeat_only auto_beat pacemaker_event].
  step_with ltac:(apply update_heartbeat_first).
  destruct ab.
  - step_with ltac:(unfold _start_pacemaker; step; cbn [auto_beat pacemaker_event andb negb];
                    step; reflexivity).
    unfold _create_log_timer. step. norm. reflexivity.
  - step_with ltac:(reflexivity).
    unfold _create_log_timer. step. norm. reflexivity.
Qed.

(** A pass that finds no lock counter: the increment answers 1, the lock
    is held, and the holder writes its heartbeat record. *)
Lemma pass_acquires name to ab (w : world) start timeout :
  counters w !! name = None ->
  let hb := name +:+ "_heartbeat" in
  let now := (clock w / 1000)%Z in
  acquire_pass me start timeout (fresh name to ab, w)
  = (Ok Acquired,
     (Make name true to true (Some (clock w)) (Some now) (Some (record_of me now))
           false ab ab,
      server (<[hb := record_of me now]> (<[name := "1"]> (counters w))) w
        ([CounterIncrement name; CounterSet hb (record_of me now)]
         ++ (if ab then [PacemakerStart name] else []) ++ [LogTimerStart]))).
Proof.
  intros Hfree hb now.
  unfold acquire_pass.
  step_with ltac:(apply (acquire_attempt_run (fresh name to ab) w 0);
                  cbn [counter_name fresh]; rewrite Hfree; reflexivity).
  change (Py.str (0 + 1)) with "1". cbn [String.eqb Ascii.eqb Bool.eqb].
  step. cbn [counter_name fresh timeout_secs log_timer acquisition_time heartbeat_time
             heartbeat_content_ heartbeat_only auto_beat pacemaker_event].
  step_with ltac:(apply acquired_run).
  norm. destruct ab; reflexivity.
Qed.

(** One waiter and an abandoned lock, no other process acting
    meanwhile.  An acquirer that has not held the lock finds the counter taken
    (its increment answers a number other than 1) and reads a heartbeat
    record that is as old as the liveness threshold of sixty seconds or
    older.  Then [acquire] is done after two passes of its loop: it
    deletes the heartbeat counter and the lock counter, increments the
    lock counter again, and obtains 1.  It does not sleep, it does not
    look at the timeout, and the clock has not moved.  Afterwards it
    holds the lock: [has] is true, the lock counter is 1 and the
    heartbeat counter carries its own record. *)
Theorem stale_lock_is_reclaimed name to ab timeout (w : world) n holder field then_ :
  counter_number (default "0" (counters w !! name)) = Some n ->
  (1 <= n)%Z ->
  counters w !! (name +:+ "_heartbeat") = Some holder ->
  Py.truthy holder = true -> holder <> "0" ->
  third_field holder = Some field -> Py.int field = Some then_ ->
  (HEARTBEAT_TIMEOUT_SECS <= clock w / 1000 - then_)%Z ->
  let hb := name +:+ "_heartbeat" in
  let now := (clock w / 1000)%Z in
  let mine := record_of me now in
  exists c,
    acquire me 2 timeout (fresh name to ab, w)
    = Some (Ok tt,
            (Make name true to true (Some (clock w)) (Some now) (Some mine) false ab ab,
             World c (clock w)
               (events w ++
                [CounterIncrement name; CounterGet hb; CounterDelete hb; CounterDelete name;
                 CounterIncrement name; CounterSet hb mine]
                ++ (if ab then [PacemakerStart name] else []) ++ [LogTimerStart])))
    /\ c !! name = Some "1"
    /\ c !! hb = Some mine.
Proof.
  intros Hn Hge Hhb Ht H0 Hf Hint Hold hb now mine.
  assert (Hdiff : hb <> name) by apply heartbeat_name_differs.
  eexists. split; [| split].
  - unfold acquire. cbn [fst snd heartbeat_only fresh].
    rewrite acquire_loop_S.
    rewrite (pass_reclaims name to ab w (clock w) timeout n holder field then_
               Hn Hge Hhb Ht H0 Hf Hint Hold).
    rewrite acquire_loop_S.
    rewrite pass_acquires by (norm; apply lookup_delete_eq).
    norm. destruct ab; reflexivity.
  - rewrite lookup_insert_ne by exact Hdiff. apply lookup_insert_eq.
  - apply lookup_insert_eq.
Qed.

End WithProcess.

(** On an instance: the lock of view "demo" is taken, its heartbeat
    was written at second 1000, the clock shows second 2000. *)
Lemma stale_lock_is_reclaimed_witness :
  exists c,
    acquire demo_process 2 (Some LOCK_TIMEOUT_SECS)
      (view_lock "demo", held_server stale_record)
    = Some (Ok tt,
            (Make demo_lock_name true (Some LOCK_TIMEOUT_SECS) true (Some 2000000%Z)
                  (Some 2000%Z) (Some (record_of demo_process 2000)) false true true,
             World c 2000000
               ([CounterIncrement demo_lock_name;
                 CounterGet (demo_lock_name +:+ "_heartbeat");
                 CounterDelete (demo_lock_name +:+ "_heartbeat");
                 CounterDelete demo_lock_name;
                 CounterIncrement demo_lock_name;
                 CounterSet (demo_lock_name +:+ "_heartbeat") (record_of demo_process 2000);
                 PacemakerStart demo_lock_name; LogTimerStart])))
    /\ c !! demo_lock_name = Some "1"
    /\ c !! (demo_lock_name +:+ "_heartbeat") = Some (record_of demo_process 2000).
Proof.
  refine (stale_lock_is_reclaimed demo_process demo_lock_name (Some LOCK_TIMEOUT_SECS) true
            (Some LOCK_TIMEOUT_SECS) (held_server stale_record) 1 stale_record "1000" 1000
            _ _ _ _ _ _ _ _).
  - vm_compute. reflexivity.
  - lia.
  - vm_compute. reflexivity.
  - reflexivity.
  - discriminate.
  - vm_compute. reflexivity.
  - vm_compute. reflexivity.
  - vm_compute. discriminate.
Defined.

(** C10 on instances: an unreadable record and a record from the
    future; an acquirer with a timeout of one second that finds the
    lock of view "demo" taken with the unreadable record; and one with
    the default timeout of ten seconds that finds it taken with a
    record dated one second ahead. *)
Lemma unreadable_or_future_heartbeat_is_never_stolen_witness :
  check_holder_alive 2000 malformed_record = Ok true
  /\ check_holder_alive 2000 future_record = Ok true
  /\ (exists c es,
       acquire demo_process 11 (Some 1%Z) (view_lock "demo", held_server malformed_record)
       = Some (Raise (RuntimeError (timeout_message demo_lock_name
                                      (Some malformed_record))),
               (with_has false (view_lock "demo"), World c 2001000 es))
       /\ Forall (fun e => is_delete e = false) es
       /\ length (List.filter is_sleep es) = 10%nat
       /\ c !! (demo_lock_name +:+ "_heartbeat") = Some malformed_record)
  /\ (exists c es,
       acquire demo_process 101 (Some LOCK_TIMEOUT_SECS)
         (view_lock "demo", held_server future_record)
       = Some (Raise (RuntimeError (timeout_message demo_lock_name (Some future_record))),
               (with_has false (view_lock "demo"), World c 2010000 es))
       /\ Forall (fun e => is_delete e = false) es
       /\ length (List.filter is_sleep es) = 100%nat
       /\ c !! (demo_lock_name +:+ "_heartbeat") = Some future_record).
Proof.
  destruct (unreadable_or_future_heartbeat_is_never_stolen demo_process) as (H1 & H2 & H3).
  split; [| split; [| split]].
  - apply (H1 2000%Z malformed_record "soon"); vm_compute; reflexivity.
  - apply (H2 2000%Z future_record "2001" 2001%Z); vm_compute; reflexivity.
  - apply (H3 (view_lock "demo") (held_server malformed_record) 1%Z 1%Z malformed_record "soon").
    + reflexivity.
    + vm_compute. reflexivity.
    + lia.
    + vm_compute. reflexivity.
    + reflexivity.
    + discriminate.
    + vm_compute. reflexivity.
    + left. vm_compute. reflexivity.
    + lia.
  - apply (H3 (view_lock "demo") (held_server future_record) LOCK_TIMEOUT_SECS 1%Z
              future_record "2001").
    + reflexivity.
    + vm_compute. reflexivity.
    + lia.
    + vm_compute. reflexivity.
    + reflexivity.
    + discriminate.
    + vm_compute. reflexivity.
    + right. exists 2001%Z. split; vm_compute; reflexivity.
    + reflexivity.
Defined.

(** The claim as it stood fails: the record is dated one second ahead
    of the clock, and the acquirer has a timeout of a hundred seconds.
    After sixty-one seconds of waiting the record counts as dead: the
    acquirer deletes both counters and takes the lock, thirty-nine
    seconds before its timeout. *)
Lemma future_heartbeat_is_stolen_in_a_long_wait :
  check_holder_alive 2000 future_record = Ok true
  /\ exists l w,
       acquire demo_process 612 (Some 100%Z) (view_lock "demo", held_server future_record)
       = Some (Ok tt, (l, w))
       /\ has l = true
       /\ clock w = 2061000%Z
       /\ List.filter is_delete (events w)
          = [CounterDelete (demo_lock_name +:+ "_heartbeat"); CounterDelete demo_lock_name]
       /\ counters w !! (demo_lock_name +:+ "_heartbeat") = Some (record_of demo_process 2061).
Proof.
  split; [vm_compute; reflexivity |].
  eexists. eexists. split; [vm_compute; reflexivity |].
  repeat split; vm_compute; reflexivity.
Qed.

End LockFacts.

(* ===================================================================== *)
(** * Two waiters and an abandoned lock *)

Module LockRaceFacts.
Import Lock LockSpec LockRace LockFacts.

(** A pass of [acquire] is its two parts, one after the other. *)
Lemma pass_in_two_parts (me : process) start timeout (s : st) :
  acquire_pass me start timeout s = (let* f := contend in settle me start timeout f) s.
Proof.
  unfold acquire_pass, contend, bind.
  destruct (_acquire_attempt s) as [[got | e] s1]; [| reflexivity].
  destruct (set_has got s1) as [[[] | e] s2]; [| reflexivity].
  destruct got; [reflexivity |].
  destruct (get_heartbeat s2) as [[holder | e] s3]; [| reflexivity].
  destruct (timegm_now s3) as [[now | e] s4]; [| reflexivity].
  destruct holder as [h |].
  - destruct (ObjectType.lift_res (check_holder_alive now h) s4) as [[alive | e] s5];
      [| reflexivity].
    cbn [ret]. destruct alive; reflexivity.
  - cbn [ret]. reflexivity.
Qed.


Ltac norm :=
  unfold server; cbn [clock counters events fst snd];
  rewrite <- ?app_assoc; cbn [app].

Lemma first_runs_run {A : Type} (m : M st A) (la lb la' : t) (w w' : world) r :
  m (la, w) = (r, (la', w')) -> first_runs m (la, lb, w) = (r, (la', lb, w')).
Proof. intros E. unfold first_runs, zoom. cbn [fst snd]. rewrite E. reflexivity. Qed.

Lemma second_runs_run {A : Type} (m : M st A) (la lb lb' : t) (w w' : world) r :
  m (lb, w) = (r, (lb', w')) -> second_runs m (la, lb, w) = (r, (la, lb', w')).
Proof. intros E. unfold second_runs, zoom. cbn [fst snd]. rewrite E. reflexivity. Qed.

(** The first part of a pass that finds the counter taken and a
    heartbeat that is sixty seconds old or older. *)
Lemma contend_finds_dead name to ab (w : world) n holder field then_ :
  counter_number (default "0" (counters w !! name)) = Some n ->
  (1 <= n)%Z ->
  counters w !! (name +:+ "_heartbeat") = Some holder ->
  Py.truthy holder = true -> holder <> "0" ->
  third_field holder = Some field -> Py.int field = Some then_ ->
  (HEARTBEAT_TIMEOUT_SECS <= clock w / 1000 - then_)%Z ->
  let hb := name +:+ "_heartbeat" in
  contend (fresh name to ab, w)
  = (Ok HolderDead,
     (fresh name to ab,
      server (<[name := Py.str (n + 1)]> (counters w)) w [CounterIncrement name; CounterGet hb])).
Proof.
  intros Hn Hge Hhb Ht H0 Hf Hint Hold hb.
  assert (Hne : String.eqb (Py.str (n + 1)) "1" = false).
  { destruct (String.eqb_spec (Py.str (n + 1)) "1") as [E |]; [| reflexivity].
    apply str_is_one in E. lia. }
  assert (Hdiff : name <> hb).
  { intros E. symmetry in E. now apply heartbeat_name_differs in E. }
  unfold contend.
  step_with ltac:(apply acquire_attempt_run; exact Hn).
  cbn [counter_name fresh]. rewrite Hne.
  step.
  step_with ltac:(apply (get_heartbeat_run (fresh name to ab));
                  [norm; rewrite lookup_insert_ne by exact Hdiff; exact Hhb
                  | exact Ht | exact H0]).
  step. norm.
  unfold check_holder_alive. unfold third_field in Hf. rewrite Hf, Hint.
  replace ((clock w / 1000 <? then_)%Z || (clock w / 1000 - then_ <? HEARTBEAT_TIMEOUT_SECS)%Z)
    with false.
  2:{ symmetry. apply orb_false_iff. unfold HEARTBEAT_TIMEOUT_SECS in *.
      split; apply Z.ltb_ge; lia. }
  cbn [ObjectType.lift_res].
  step. cbn [negb]. reflexivity.
Qed.

(** What a waiter does that found the holder dead. *)
Lemma settle_dead me name to ab (w : world) start timeout v1 v2 :
  counters w !! name = Some v1 ->
  counters w !! (name +:+ "_heartbeat") = Some v2 ->
  let hb := name +:+ "_heartbeat" in
  settle me start timeout HolderDead (fresh name to ab, w)
  = (Ok Reclaimed,
     (fresh name to ab,
      server (delete name (delete hb (counters w))) w [CounterDelete hb; CounterDelete name])).
Proof.
  intros H1 H2 hb. cbn [settle].
  step.
  step_with ltac:(apply (release_run me name to ab) with (v1 := v1) (v2 := v2); assumption).
  reflexivity.
Qed.

Section Race.
Variables a b : process.

(** C5, as the code has it.  Two waiters find the counter taken and
    read the same heartbeat record, sixty seconds old or older, before
    either of them has cleared the lock.  Then both clear it and both
    take it: the first deletes the two counters, increments the lock
    counter to 1 and writes its heartbeat; the second, which had made
    up its mind before, deletes the two counters again (the lock and
    the heartbeat of the first) and increments the lock counter to 1
    as well.  In the end both have [has] set, the lock counter is 1
    and the heartbeat is that of the second: the reclaiming acquirer
    is not the sole holder. *)
Theorem two_waiters_both_reclaim name to_a ab_a to_b ab_b timeout_a timeout_b
    (w : world) n holder field then_ :
  counter_number (default "0" (counters w !! name)) = Some n ->
  (1 <= n)%Z ->
  counters w !! (name +:+ "_heartbeat") = Some holder ->
  Py.truthy holder = true -> holder <> "0" ->
  third_field holder = Some field -> Py.int field = Some then_ ->
  (HEARTBEAT_TIMEOUT_SECS <= clock w / 1000 - then_)%Z ->
  let hb := name +:+ "_heartbeat" in
  let now := (clock w / 1000)%Z in
  exists la lb c,
    both_contend a b timeout_a timeout_b (fresh name to_a ab_a, fresh name to_b ab_b, w)
    = (Ok (Acquired, Acquired),
       (la, lb,
        World c (clock w)
          (events w ++
           [CounterIncrement name; CounterGet hb;
            CounterIncrement name; CounterGet hb;
            CounterDelete hb; CounterDelete name;
            CounterIncrement name; CounterSet hb (record_of a now)]
           ++ (if ab_a then [PacemakerStart name] else []) ++
           [LogTimerStart;
            CounterDelete hb; CounterDelete name;
            CounterIncrement name; CounterSet hb (record_of b now)]
           ++ (if ab_b then [PacemakerStart name] else []) ++ [LogTimerStart])))
    /\ has la = true /\ has lb = true
    /\ c !! name = Some "1"
    /\ c !! hb = Some (record_of b now).
Proof.
  intros Hn Hge Hhb Ht H0 Hf Hint Hold hb now.
  assert (Hdiff : hb <> name) by apply heartbeat_name_differs.
  assert (Hdiff' : name <> hb) by (intros E; symmetry in E; exact (Hdiff E)).
  eexists _, _, _. split; [| split; [| split; [| split]]].
  - unfold both_contend.
    step. cbn [fst snd].
    step_with ltac:(apply first_runs_run;
                    exact (contend_finds_dead name to_a ab_a w n holder field then_
                             Hn Hge Hhb Ht H0 Hf Hint Hold)).
    step_with ltac:(apply second_runs_run;
                    apply (contend_finds_dead name to_b ab_b _ (n + 1) holder field then_);
                    norm;
                    [ rewrite lookup_insert_eq; apply counter_number_str
                    | lia
                    | rewrite lookup_insert_ne by exact Hdiff'; exact Hhb
                    | exact Ht | exact H0 | exact Hf | exact Hint | exact Hold ]).
    step_with ltac:(apply first_runs_run;
                    apply (settle_dead a name to_a ab_a) with (v1 := Py.str (n + 1 + 1))
                                                              (v2 := holder);
                    norm;
                    [ apply lookup_insert_eq
                    | rewrite !lookup_insert_ne by exact Hdiff'; exact Hhb ]).
    step_with ltac:(apply first_runs_run; apply pass_acquires; norm; apply lookup_delete_eq).
    step_with ltac:(apply second_runs_run;
                    apply (settle_dead b name to_b ab_b) with (v1 := "1")
                                                              (v2 := record_of a now);
                    norm;
                    [ rewrite lookup_insert_ne by exact Hdiff; apply lookup_insert_eq
                    | apply lookup_insert_eq ]).
    step_with ltac:(apply second_runs_run; apply pass_acquires; norm; apply lookup_delete_eq).
    norm. destruct ab_a, ab_b; reflexivity.
  - reflexivity.
  - reflexivity.
  - rewrite lookup_insert_ne by exact Hdiff. apply lookup_insert_eq.
  - apply lookup_insert_eq.
Qed.

End Race.

Lemma two_waiters_both_reclaim_witness :
  exists la lb w,
    both_contend demo_process other_process (Some LOCK_TIMEOUT_SECS) (Some LOCK_TIMEOUT_SECS)
      (view_lock "demo", view_lock "demo", held_server stale_record)
    = (Ok (Acquired, Acquired), (la, lb, w))
    /\ has la = true /\ has lb = true
    /\ counters w !! demo_lock_name = Some "1"
    /\ counters w !! (demo_lock_name +:+ "_heartbeat") = Some (record_of other_process 2000)
    /\ List.filter is_delete (events w)
       = [ CounterDelete (demo_lock_name +:+ "_heartbeat"); CounterDelete demo_lock_name;
           CounterDelete (demo_lock_name +:+ "_heartbeat"); CounterDelete demo_lock_name ].
Proof.
  destruct (two_waiters_both_reclaim demo_process other_process demo_lock_name
              (Some LOCK_TIMEOUT_SECS) true (Some LOCK_TIMEOUT_SECS) true
              (Some LOCK_TIMEOUT_SECS) (Some LOCK_TIMEOUT_SECS)
              (held_server stale_record) 1 stale_record "1000" 1000)
    as (la & lb & c & Hrun & Ha & Hb & Hc & Hh).
  - vm_compute. reflexivity.
  - lia.
  - vm_compute. reflexivity.
  - reflexivity.
  - discriminate.
  - vm_compute. reflexivity.
  - vm_compute. reflexivity.
  - vm_compute. discriminate.
  - eexists _, _, _. split; [exact Hrun |].
    split; [exact Ha |]. split; [exact Hb |]. split; [exact Hc |]. split; [exact Hh |].
    reflexivity.
Defined.

End LockRaceFacts.

(* ===================================================================== *)
(** * The exporter *)
(* ===================================================================== *)

Module G2PFacts.
Import G2P G2PSpec.

Section WithEnv.
Context `{H : Env}.

(** ** Running a computation on the world *)

Lemma io_run {A : Type} (m : M io A) (s : t) :
  io_ m s = (fst (m (g_io s)),
             Make (snd (m (g_io s))) (addeditdelete s) (marks s) (checker s)).
Proof. unfold io_, zoom. destruct (m (g_io s)); reflexivity. Qed.

(** A request answers or raises; either way it is written down, and
    the books of the exporter stay as they are. *)
Lemma io_request c (s : t) :
  exists r w,
    ext c (world (g_io s)) = (r, w)
    /\ io_ (request c) s
       = (match r with RRaise e => Raise e | _ => Ok r end,
          Make (after c w (g_io s)) (addeditdelete s) (marks s) (checker s)).
Proof.
  destruct (ext c (world (g_io s))) as [r w] eqn:E. exists r, w. split; [reflexivity |].
  rewrite io_run, (request_answer _ _ _ _ E). reflexivity.
Qed.

Lemma io_ask c (s : t) :
  exists r w,
    ext c (world (g_io s)) = (r, w)
    /\ io_ (ask c) s
       = (match r with
          | RRaise e => Raise e
          | RBool b => Ok b
          | _ => Raise (TypeError "bool expected")
          end,
          Make (after c w (g_io s)) (addeditdelete s) (marks s) (checker s)).
Proof.
  destruct (ext c (world (g_io s))) as [r w] eqn:E. exists r, w. split; [reflexivity |].
  rewrite io_run. unfold ask, bind. rewrite (request_answer _ _ _ _ E).
  destruct r; reflexivity.
Qed.

Lemma io_perform c (s : t) :
  exists r w,
    ext c (world (g_io s)) = (r, w)
    /\ io_ (perform c) s
       = (match r with RRaise e => Raise e | _ => Ok tt end,
          Make (after c w (g_io s)) (addeditdelete s) (marks s) (checker s)).
Proof.
  destruct (ext c (world (g_io s))) as [r w] eqn:E. exists r, w. split; [reflexivity |].
  rewrite io_run. unfold perform, bind. rewrite (request_answer _ _ _ _ E).
  destruct r; reflexivity.
Qed.

Lemma io_p4_run_recovery cmd (s : t) :
  exists r w,
    ext (P4Run Recovery cmd) (world (g_io s)) = (r, w)
    /\ io_ (p4_run Recovery cmd) s
       = (match r with
          | RRaise e => Raise e
          | RResults rows _ => Ok rows
          | _ => Raise (TypeError "p4.run")
          end,
          Make (after (P4Run Recovery cmd) w (g_io s)) (addeditdelete s) (marks s) (checker s)).
Proof.
  destruct (ext (P4Run Recovery cmd) (world (g_io s))) as [r w] eqn:E.
  exists r, w. split; [reflexivity |].
  rewrite io_run. unfold p4_run, bind. rewrite (request_answer _ _ _ _ E).
  destruct r; reflexivity.
Qed.

Lemma same_books_trans (s1 s2 s3 : t) :
  same_books s1 s2 -> same_books s2 s3 -> same_books s1 s3.
Proof. unfold same_books. intros (? & ? & ?) (? & ? & ?). repeat split; congruence. Qed.

(** ** Removing the added files *)

Lemma unlink_all_run (paths : list queued) : forall s : t,
  (forall p w, exists r w', ext (OsUnlink p) w = (r, w') /\ forall e, r <> RRaise e) ->
  Forall is_One paths ->
  exists s',
    for_each paths unlink s = (Ok tt, s')
    /\ requests_between s s' (map (fun q => OsUnlink (path_of q)) paths)
    /\ same_books s s'.
Proof.
  induction paths as [| q paths IH]; intros s Hun Hone.
  - exists s. split; [reflexivity |]. split; [| repeat split].
    unfold requests_between. cbn. now rewrite app_nil_r.
  - inversion Hone as [| ? ? Hq Hrest]; subst.
    destruct q as [p | a b]; [| destruct Hq].
    cbn [for_each unlink].
    destruct (io_perform (OsUnlink p) s) as (r & w & E & Hrun).
    destruct (Hun p (world (g_io s))) as (r' & w' & E' & Hok).
    rewrite E in E'. injection E' as <- <-.
    assert (Hrun' : io_ (perform (OsUnlink p)) s
                    = (Ok tt, Make (after (OsUnlink p) w (g_io s)) (addeditdelete s)
                                   (marks s) (checker s))).
    { rewrite Hrun. destruct r; try reflexivity. now destruct (Hok e). }
    erewrite bind_ok by exact Hrun'.
    destruct (IH (Make (after (OsUnlink p) w (g_io s)) (addeditdelete s) (marks s) (checker s))
                 Hun Hrest) as (s' & Hfor & Htr & Hbooks).
    exists s'. split; [exact Hfor |]. split; [| exact Hbooks].
    unfold requests_between in *. rewrite Htr. cbn. now rewrite <- app_assoc.
Qed.

Lemma remove_entries_run (entries : list (string * list queued)) : forall s : t,
  (forall p w, exists r w', ext (OsUnlink p) w = (r, w') /\ forall e, r <> RRaise e) ->
  Forall (fun e => is_add (fst e) = true -> Forall is_One (snd e)) entries ->
  exists s',
    for_each entries (fun entry =>
      if is_add (fst entry) then for_each (snd entry) unlink else ret tt) s = (Ok tt, s')
    /\ requests_between s s'
         (map (fun q => OsUnlink (path_of q))
              (concat (map snd (List.filter (fun e => is_add (fst e)) entries))))
    /\ same_books s s'.
Proof.
  induction entries as [| [op paths] entries IH]; intros s Hun Hall.
  - exists s. split; [reflexivity |]. split; [| repeat split].
    unfold requests_between. cbn. now rewrite app_nil_r.
  - inversion Hall as [| ? ? Hone Hrest]; subst. cbn [fst snd] in Hone.
    cbn [for_each List.filter fst snd].
    destruct (is_add op) eqn:Eop.
    + destruct (unlink_all_run paths s Hun (Hone eq_refl)) as (s1 & Hfor & Htr & Hb).
      erewrite bind_ok by exact Hfor.
      destruct (IH s1 Hun Hrest) as (s' & Hfor' & Htr' & Hb').
      exists s'. split; [exact Hfor' |]. split.
      * unfold requests_between in *. rewrite Htr', Htr. cbn [map concat snd].
        now rewrite map_app, <- app_assoc.
      * exact (same_books_trans _ _ _ Hb Hb').
    + erewrite bind_ok by reflexivity.
      exact (IH s Hun Hrest).
Qed.

Lemma remove_added_files_run (s : t) :
  (forall p w, exists r w', ext (OsUnlink p) w = (r, w') /\ forall e, r <> RRaise e) ->
  adds_are_paths (addeditdelete s) ->
  exists s',
    remove_added_files s = (Ok tt, s')
    /\ requests_between s s' (map (fun q => OsUnlink (path_of q)) (added_paths (addeditdelete s)))
    /\ same_books s s'.
Proof.
  intros Hun Hadds. unfold remove_added_files.
  erewrite bind_ok by reflexivity.
  apply remove_entries_run; [exact Hun |].
  apply Forall_forall. intros [op paths] Hin Hop. cbn [fst snd] in *.
  apply (Hadds op paths); [| exact Hop].
  apply elem_of_map_to_list. exact Hin.
Qed.

Lemma remove_added_files_nothing (s : t) :
  addeditdelete s = ∅ -> remove_added_files s = (Ok tt, s).
Proof.
  intros E. unfold remove_added_files. erewrite bind_ok by reflexivity.
  rewrite E, map_to_list_empty. reflexivity.
Qed.

Lemma adds_are_paths_empty : adds_are_paths ∅.
Proof. intros op paths E. now rewrite lookup_empty in E. Qed.

(** ** [revert_and_raise] *)

(** In a world in which the recovery goes through, [revert_and_raise]
    connects, lists the opened files, reverts the client if the list is
    not empty, unlinks what was queued for add, and raises. *)
Lemma revert_and_raise_recovers {A : Type} ctx errmsg (s : t) :
  recovery_cooperates H ->
  adds_are_paths (addeditdelete s) ->
  exists w1 w2 rows msgs s',
    ext (P4Connect P4GF_USER (p4client ctx)) (world (g_io s)) = (RBool true, w1)
    /\ ext (P4Run Recovery ["opened"]) w1 = (RResults rows msgs, w2)
    /\ revert_and_raise (A := A) ctx errmsg s = (Raise (failure H errmsg), s')
    /\ requests_between s s' (recovery_requests ctx rows (addeditdelete s))
    /\ same_books s s'.
Proof.
  intros (Hc1 & Hc2 & Hc3) Hadds.
  destruct (Hc1 P4GF_USER (p4client ctx) (world (g_io s))) as (w1 & E1).
  destruct (Hc2 ["opened"] w1) as (rows & msgs & w2 & E2).
  exists w1, w2, rows, msgs.
  set (s1 := Make (after (P4Connect P4GF_USER (p4client ctx)) w1 (g_io s))
                  (addeditdelete s) (marks s) (checker s)).
  set (s2 := Make (after (P4Run Recovery ["opened"]) w2 (g_io s1))
                  (addeditdelete s) (marks s) (checker s)).
  assert (Hrun1 : connect_p4 P4GF_USER (p4client ctx) s = (Ok true, s1)).
  { unfold connect_p4. destruct (io_ask (P4Connect P4GF_USER (p4client ctx)) s)
      as (r & w & E & Hrun). rewrite E1 in E. injection E as <- <-. exact Hrun. }
  assert (Hrun2 : io_ (p4_run Recovery ["opened"]) s1 = (Ok rows, s2)).
  { destruct (io_p4_run_recovery ["opened"] s1) as (r & w & E & Hrun).
    cbn [s1 g_io world after] in E. rewrite E2 in E. injection E as <- <-. exact Hrun. }
  assert (Hblock : exists s3,
    (let* opened := io_ (p4_run Recovery ["opened"]) in
     when (negb (bool_decide (opened = [])))
       (io_ (p4_run Recovery ["revert"; "//" +:+ p4client ctx +:+ "/..."]) >> ret tt)) s1
    = (Ok tt, s3)
    /\ requests_between s1 s3
         ([P4Run Recovery ["opened"]]
          ++ (if bool_decide (rows = []) then []
              else [P4Run Recovery ["revert"; "//" +:+ p4client ctx +:+ "/..."]]))
    /\ same_books s s3).
  { erewrite bind_ok by exact Hrun2.
    destruct (bool_decide (rows = [])); cbn [negb when].
    - exists s2. repeat split.
    - destruct (Hc2 ["revert"; "//" +:+ p4client ctx +:+ "/..."] w2) as (rows' & msgs' & w3 & E3).
      destruct (io_p4_run_recovery ["revert"; "//" +:+ p4client ctx +:+ "/..."] s2)
        as (r & w & E & Hrun).
      cbn [s2 g_io world after] in E. rewrite E3 in E. injection E as <- <-.
      erewrite bind_ok by exact Hrun.
      eexists. split; [reflexivity |]. split; [| repeat split].
      unfold requests_between. cbn [g_io trace after s2]. now rewrite <- app_assoc. }
  destruct Hblock as (s3 & Hblock & Htr3 & Hb3).
  assert (Hadds3 : adds_are_paths (addeditdelete s3)).
  { destruct Hb3 as (-> & _). exact Hadds. }
  destruct (remove_added_files_run s3 Hc3 Hadds3) as (s4 & Hrm & Htr4 & Hb4).
  exists s4. split; [exact E1 |]. split; [exact E2 |].
  split; [| split].
  - unfold revert_and_raise.
    erewrite bind_ok by exact Hrun1. cbn [when].
    erewrite bind_ok by exact Hblock.
    erewrite bind_ok by exact Hrm.
    reflexivity.
  - unfold requests_between, recovery_requests in *.
    rewrite Htr4, Htr3. cbn [s1 g_io trace after].
    destruct Hb3 as (-> & _). rewrite <- !app_assoc. reflexivity.
  - exact (same_books_trans _ _ _ Hb3 Hb4).
Qed.

(** In any world, and with nothing queued, [revert_and_raise] raises,
    and what it asks of the world opens no file and submits nothing. *)
Lemma revert_and_raise_quiet {A : Type} ctx errmsg (s : t) :
  addeditdelete s = ∅ ->
  exists e s' reqs,
    revert_and_raise (A := A) ctx errmsg s = (Raise e, s')
    /\ requests_between s s' reqs
    /\ Forall (fun r => opens_or_submits r = false) reqs
    /\ same_books s s'.
Proof.
  intros Hempty.
  assert (Hdone : forall s0 : t, addeditdelete s0 = ∅ -> same_books s s0 ->
            forall reqs, requests_between s s0 reqs ->
            Forall (fun r => opens_or_submits r = false) reqs ->
            exists e s' reqs',
              (remove_added_files >>
               raise (A := A) (RuntimeError ("import failed: " +:+
                        (if Py.truthy errmsg then errmsg else format_stack)))) s0
              = (Raise e, s')
              /\ requests_between s s' reqs'
              /\ Forall (fun r => opens_or_submits r = false) reqs'
              /\ same_books s s').
  { intros s0 E0 Hb reqs Htr Hq. erewrite bind_ok by (apply remove_added_files_nothing; exact E0).
    eexists _, s0, reqs. split; [reflexivity |]. exact (conj Htr (conj Hq Hb)). }
  unfold revert_and_raise, connect_p4.
  destruct (io_ask (P4Connect P4GF_USER (p4client ctx)) s) as (r1 & w1 & E1 & Hrun1).
  set (s1 := Make (after (P4Connect P4GF_USER (p4client ctx)) w1 (g_io s))
                  (addeditdelete s) (marks s) (checker s)) in *.
  assert (Htr1 : requests_between s s1 [P4Connect P4GF_USER (p4client ctx)]) by reflexivity.
  assert (Hb1 : same_books s s1) by (repeat split).
  assert (Hq1 : Forall (fun r => opens_or_submits r = false) [P4Connect P4GF_USER (p4client ctx)])
    by (repeat constructor).
  destruct r1 as [| [|] | | | | | |];
    try (erewrite bind_raise by exact Hrun1; eexists _, s1, _; split; [reflexivity | exact (conj Htr1 (conj Hq1 Hb1))]).
  - (* connected *)
    erewrite bind_ok by exact Hrun1. cbn [when].
    destruct (io_p4_run_recovery ["opened"] s1) as (r2 & w2 & E2 & Hrun2).
    set (s2 := Make (after (P4Run Recovery ["opened"]) w2 (g_io s1))
                    (addeditdelete s1) (marks s1) (checker s1)) in *.
    assert (Htr2 : requests_between s s2
                     [P4Connect P4GF_USER (p4client ctx); P4Run Recovery ["opened"]]).
    { unfold requests_between. cbn [s2 s1 g_io trace after]. now rewrite <- app_assoc. }
    assert (Hb2 : same_books s s2) by (repeat split).
    assert (Hq2 : Forall (fun r => opens_or_submits r = false)
                    [P4Connect P4GF_USER (p4client ctx); P4Run Recovery ["opened"]])
      by (repeat constructor).
    destruct r2 as [| | rows msgs | | | | |];
      try (erewrite bind_raise by (erewrite bind_raise by exact Hrun2; reflexivity);
           eexists _, s2, _; split; [reflexivity | exact (conj Htr2 (conj Hq2 Hb2))]).
    destruct (bool_decide (rows = [])) eqn:Erows.
    + erewrite bind_ok by (erewrite bind_ok by exact Hrun2; rewrite Erows; reflexivity).
      apply (Hdone s2 Hempty Hb2 _ Htr2 Hq2).
    + destruct (io_p4_run_recovery ["revert"; "//" +:+ p4client ctx +:+ "/..."] s2)
        as (r3 & w3 & E3 & Hrun3).
      set (cmd := ["revert"; "//" +:+ p4client ctx +:+ "/..."]) in *.
      set (s3 := Make (after (P4Run Recovery cmd) w3 (g_io s2))
                      (addeditdelete s2) (marks s2) (checker s2)) in *.
      assert (Htr3 : requests_between s s3
                       [P4Connect P4GF_USER (p4client ctx); P4Run Recovery ["opened"];
                        P4Run Recovery cmd]).
      { unfold requests_between. cbn [s3 s2 s1 g_io trace after]. now rewrite <- !app_assoc. }
      assert (Hb3 : same_books s s3) by (repeat split).
      assert (Hq3 : Forall (fun r => opens_or_submits r = false)
                      [P4Connect P4GF_USER (p4client ctx); P4Run Recovery ["opened"];
                       P4Run Recovery cmd])
        by (repeat constructor).
      destruct r3 as [| | rows3 msgs3 | | | | |];
        try (erewrite bind_raise
               by (erewrite bind_ok by exact Hrun2; rewrite Erows; cbn [negb when];
                   erewrite bind_raise by exact Hrun3; reflexivity);
             eexists _, s3, _; split; [reflexivity | exact (conj Htr3 (conj Hq3 Hb3))]).
      erewrite bind_ok
        by (erewrite bind_ok by exact Hrun2; rewrite Erows; cbn [negb when];
            erewrite bind_ok by exact Hrun3; reflexivity).
      apply (Hdone s3 Hempty Hb3 _ Htr3 Hq3).
  - (* no connection *)
    erewrite bind_ok by exact Hrun1. cbn [when].
    erewrite bind_ok by reflexivity.
    apply (Hdone s1 Hempty Hb1 _ Htr1 Hq1).
Qed.

(** ** What every step of a commit leaves as it is *)

Section Preservation.
Variable P : t -> Prop.
Hypothesis P_insensitive : insensitive P.

Lemma pres_io {A : Type} (m : M io A) : preserves P (io_ m).
Proof.
  intros s r s' HP E. rewrite io_run in E. injection E as <- <-.
  apply P_insensitive. exact HP.
Qed.

Lemma pres_ck {A : Type} (m : M ConflictChecker.st A) : preserves P (ck_ m).
Proof.
  intros s r s' HP E. unfold ck_, zoom in E.
  destruct (m (checker s, g_io s)) as [r0 [ck i]]. injection E as <- <-.
  apply P_insensitive. exact HP.
Qed.

End Preservation.

Lemma settled_insensitive ms : insensitive (settled ms).
Proof. intros s i ck HP. exact HP. Qed.

Lemma pres_set_table_empty ms : preserves (settled ms) (set_table ∅).
Proof.
  intros s r s' [Hm _] [= <- <-]. split; [exact Hm | apply adds_are_paths_empty].
Qed.

Lemma pres_setup ms (command_ : string) (q : queued) :
  (is_add command_ = true -> is_One q) ->
  preserves (settled ms) (setup_p4_command command_ q).
Proof.
  intros Hq s r s' [Hm Ha] [= <- <-]. split; [exact Hm |].
  cbn [addeditdelete].
  intros op paths Hl Hop.
  destruct (decide (op = command_)) as [-> | Hne].
  - destruct (addeditdelete s !! command_) as [l |] eqn:El;
      rewrite lookup_insert_eq in Hl; injection Hl as <-.
    + apply Forall_app. split; [exact (Ha command_ l El Hop) |].
      constructor; [exact (Hq Hop) | constructor].
    + constructor; [exact (Hq Hop) | constructor].
  - destruct (addeditdelete s !! command_);
      rewrite lookup_insert_ne in Hl by congruence; exact (Ha op paths Hl Hop).
Qed.

Lemma pres_lift {A : Type} ms (x : res A) : preserves (settled ms) (lift x).
Proof. apply pres_lift_res. Qed.

(** The steps of the exporter. *)
Ltac pres_g2p tac :=
  pres_with ltac:(first [ tac
                        | apply pres_io; apply settled_insensitive
                        | apply pres_ck; apply settled_insensitive
                        | apply pres_lift ]).

Lemma pres_revert_and_raise {A : Type} ms ctx errmsg :
  preserves (settled ms) (revert_and_raise (A := A) ctx errmsg).
Proof. unfold revert_and_raise, connect_p4, remove_added_files, unlink. pres_g2p fail. Qed.

Lemma pres_p4run ms ctx cmd : preserves (settled ms) (_p4run ctx cmd).
Proof.
  unfold _p4run, check_p4_messages.
  pres_g2p ltac:(apply pres_revert_and_raise).
Qed.

Lemma pres_run_p4_commands ms ctx : preserves (settled ms) (run_p4_commands ctx).
Proof.
  unfold run_p4_commands, run_p4_command, as_pair, as_path.
  pres_g2p ltac:(apply pres_p4run).
Qed.

Lemma pres_copy_blobs ms ctx blobs : preserves (settled ms) (copy_blobs ctx blobs).
Proof.
  unfold copy_blobs, rename_blob, copy_blob, add_or_edit_blob, delete_blob,
    _toggle_filetype, fstat_type, ensure_dir, required.
  pres_g2p ltac:(first [ apply pres_p4run | apply pres_run_p4_commands
                        | apply pres_set_table_empty
                        | apply pres_setup; intros Hop; first [exact I | vm_compute in Hop; discriminate] ]).
Qed.

(** C2.  A commit with a 'merge' field is rejected: [copy_commit]
    raises, whatever the world answers; all it asks of the world on the
    way (the connection of the recovery, its [p4 opened] and its
    [p4 revert]) opens no file for add, edit, delete or move and submits
    nothing; the list of marks is as before.  When the recovery goes
    through, the error is the merge rejection: a [RuntimeError] that
    names the commit and asks for a rebase. *)
Theorem merge_commit_is_rejected ctx (c : commit) (s : t) :
  merge c <> None ->
  exists e s' reqs,
    copy_commit ctx c s = (Raise e, s')
    /\ requests_between s s' reqs
    /\ Forall (fun r => opens_or_submits r = false) reqs
    /\ marks s' = marks s
    /\ (recovery_cooperates H ->
        e = RuntimeError ("import failed: Merge commit " +:+ sha1 c
                          +:+ " not permitted. Rebase to create a linear history.")).
Proof.
  intros Hmerge.
  set (s0 := Make (g_io s) ∅ (marks s) (checker s)).
  destruct (revert_and_raise_quiet (A := unit) ctx (merge_message c) s0 eq_refl)
    as (e & s' & reqs & Hrun & Htr & Hq & Hb).
  exists e, s', reqs.
  assert (Hcopy : copy_commit ctx c s = (Raise e, s')).
  { unfold copy_commit.
    erewrite bind_ok by reflexivity.
    rewrite bool_decide_eq_true_2 by exact Hmerge.
    erewrite bind_raise by exact Hrun. reflexivity. }
  split; [exact Hcopy |]. split; [exact Htr |]. split; [exact Hq |].
  split; [apply Hb |].
  intros Hcoop.
  destruct (revert_and_raise_recovers (A := unit) ctx (merge_message c) s0 Hcoop
              adds_are_paths_empty)
    as (w1 & w2 & rows & msgs & s'' & _ & _ & Hrun' & _).
  rewrite Hrun in Hrun'. injection Hrun' as -> _.
  reflexivity.
Qed.

Lemma pres_submit_opened ms ctx c author_p4user :
  preserves (settled ms) (submit_opened ctx c author_p4user).
Proof. unfold submit_opened, p4_submit. pres_g2p fail. Qed.

(** ** The two guarded steps of a commit *)

Lemma except_P4_recovers {A : Type} ctx (body : M t A) (s s1 : t) m :
  recovery_cooperates H ->
  body s = (Raise (P4Exception m), s1) ->
  adds_are_paths (addeditdelete s1) ->
  exists s2,
    try_except_P4 body (fun e => revert_and_raise ctx e) s = (Raise (failure H m), s2)
    /\ recovered ctx s1 s2.
Proof.
  intros Hc Hb Ha.
  destruct (revert_and_raise_recovers (A := A) ctx m s1 Hc Ha)
    as (w1 & w2 & rows & msgs & s2 & E1 & E2 & Hrun & Htr & Hbk).
  exists s2. split.
  - unfold try_except_P4. rewrite Hb. exact Hrun.
  - exists w1, w2, rows, msgs. repeat split; try assumption; apply Hbk.
Qed.

Lemma except_P4_passes {A : Type} (body : M t A) handler (s s1 : t) e :
  (forall m, e <> P4Exception m) ->
  body s = (Raise e, s1) ->
  try_except_P4 body handler s = (Raise e, s1).
Proof.
  intros Hne Hb. unfold try_except_P4. rewrite Hb.
  destruct e; try reflexivity. now destruct (Hne msg).
Qed.

(** A command whose answer carries a 'cannot open' message: [_p4run]
    runs the recovery at once. *)
Lemma p4run_cannot_open ctx cmd (s : t) rows msgs w :
  recovery_cooperates H ->
  adds_are_paths (addeditdelete s) ->
  ext (P4Run CtxP4 cmd) (world (g_io s)) = (RResults rows msgs, w) ->
  List.filter (fun m => mem_Z (msgid m) MSGID_CANNOT_OPEN) msgs <> [] ->
  exists s1 s2,
    io_ (p4_run CtxP4 cmd) s = (Ok rows, s1)
    /\ _p4run ctx cmd s
       = (Raise (failure H (Py.join LF
                   (map (_p4_message_to_text ctx)
                        (List.filter (fun m => mem_Z (msgid m) MSGID_CANNOT_OPEN) msgs)))), s2)
    /\ recovered ctx s1 s2.
Proof.
  intros Hc Ha E Hmsgs.
  set (s1 := Make (set_messages CtxP4 msgs (after (P4Run CtxP4 cmd) w (g_io s)))
                  (addeditdelete s) (marks s) (checker s)).
  assert (Hrun : io_ (p4_run CtxP4 cmd) s = (Ok rows, s1)).
  { rewrite io_run, (p4_run_results _ _ _ _ _ _ E). reflexivity. }
  destruct (revert_and_raise_recovers (A := unit) ctx
              (Py.join LF (map (_p4_message_to_text ctx)
                 (List.filter (fun m => mem_Z (msgid m) MSGID_CANNOT_OPEN) msgs))) s1 Hc Ha)
    as (w1 & w2 & rows' & msgs' & s2 & E1 & E2 & Hraise & Htr & Hbk).
  exists s1, s2. split; [exact Hrun |]. split.
  - unfold _p4run. erewrite bind_ok by exact Hrun.
    unfold check_p4_messages. erewrite bind_ok by reflexivity.
    cbn [s1 g_io set_messages p4_messages].
    destruct (List.filter _ msgs) as [| m0 ms] eqn:Ef; [now destruct Hmsgs |].
    exact Hraise.
  - exists w1, w2, rows', msgs'. repeat split; try assumption; apply Hbk.
Qed.

(** C4, as the code has it.  The two guarded steps of a commit are the
    replay of its file changes ([copy_blobs]) and the step that lists
    the opened files and submits.  When one of them raises a
    [P4Exception], and the recovery's own connection and commands go
    through, the exporter connects as the Git Fusion user on the view's
    client, lists the opened files, reverts the whole client when the
    list is not empty, unlinks every path queued under an 'add'
    operation of the batch table as it is at that moment, and raises a
    [RuntimeError] with the text of the exception after "import
    failed: ".  An exception of any other type leaves the guarded step
    as it is: the state, and with it the list of requests, is the one
    in which the step raised, so [copy_commit] asks nothing more.  One
    such exception is the [RuntimeError] of [check_p4_messages]: when
    the answer to a command carries a 'cannot open' message, [_p4run]
    has run the same recovery itself before it raised. *)
Theorem p4_exception_is_recovered ctx (c : commit) (author_p4user : string) (s : t) :
  recovery_cooperates H ->
  adds_are_paths (addeditdelete s) ->
  (forall m s1,
      copy_blobs ctx (files c) s = (Raise (P4Exception m), s1) ->
      exists s2, replay_files ctx c s = (Raise (failure H m), s2) /\ recovered ctx s1 s2)
  /\ (forall m s1,
         submit_opened ctx c author_p4user s = (Raise (P4Exception m), s1) ->
         exists s2, submit_commit ctx c author_p4user s = (Raise (failure H m), s2)
                    /\ recovered ctx s1 s2)
  /\ (forall e s1,
         (forall m, e <> P4Exception m) ->
         (copy_blobs ctx (files c) s = (Raise e, s1) ->
          replay_files ctx c s = (Raise e, s1))
         /\ (submit_opened ctx c author_p4user s = (Raise e, s1) ->
             submit_commit ctx c author_p4user s = (Raise e, s1)))
  /\ (forall cmd rows msgs w,
         ext (P4Run CtxP4 cmd) (world (g_io s)) = (RResults rows msgs, w) ->
         List.filter (fun m => mem_Z (msgid m) MSGID_CANNOT_OPEN) msgs <> [] ->
         exists s1 s2,
           io_ (p4_run CtxP4 cmd) s = (Ok rows, s1)
           /\ _p4run ctx cmd s
              = (Raise (failure H (Py.join LF
                          (map (_p4_message_to_text ctx)
                               (List.filter (fun m => mem_Z (msgid m) MSGID_CANNOT_OPEN)
                                            msgs)))), s2)
           /\ recovered ctx s1 s2).
Proof.
  intros Hc Ha. split; [| split; [| split]].
  4:{ intros cmd rows msgs w E Hmsgs.
      exact (p4run_cannot_open ctx cmd s rows msgs w Hc Ha E Hmsgs). }
  - intros m s1 Hb. unfold replay_files.
    apply except_P4_recovers; [exact Hc | exact Hb |].
    apply (pres_copy_blobs (marks s) ctx (files c) s _ s1 (conj eq_refl Ha) Hb).
  - intros m s1 Hb.
    destruct (except_P4_recovers ctx (submit_opened ctx c author_p4user) s s1 m Hc Hb)
      as (s2 & Hrun & Hrec).
    { apply (pres_submit_opened (marks s) ctx c author_p4user s _ s1 (conj eq_refl Ha) Hb). }
    exists s2. split; [| exact Hrec].
    unfold submit_commit. erewrite bind_raise by exact Hrun. reflexivity.
  - intros e s1 Hne. split; intros Hb.
    + unfold replay_files. now apply except_P4_passes.
    + unfold submit_commit.
      erewrite bind_raise by (apply except_P4_passes; [exact Hne | exact Hb]).
      reflexivity.
Qed.

(** ** The loop over the commands *)

(** A conflict that [check] reports is remembered. *)
Lemma check_remembers ctx (st st' : ConflictChecker.st) x :
  ConflictChecker.check ctx st = (Ok (Some x), st') ->
  ConflictChecker.has_conflict (fst st') = true.
Proof.
  unfold ConflictChecker.check. intros E.
  apply bind_ok_inv in E as (c0 & st1 & _ & E).
  apply bind_ok_inv in E as (rows & st2 & _ & E).
  apply bind_ok_inv in E as (idx & st3 & _ & E).
  apply bind_ok_inv in E as ([] & st4 & Eup & E).
  injection Eup as <-.
  destruct idx as [i |]; [| discriminate].
  apply bind_ok_inv in E as (c1 & st5 & [= <- <-] & E).
  destruct (Py.index _ i); [| discriminate].
  injection E as _ <-. reflexivity.
Qed.

(** A commit leaves the list of marks alone. *)
Lemma copy_commit_marks ctx c (s s' : t) r :
  copy_commit ctx c s = (r, s') -> marks s' = marks s.
Proof.
  intros E. unfold copy_commit in E.
  erewrite bind_ok in E by reflexivity.
  revert E.
  match goal with
  | |- ?m ?s0 = _ -> _ =>
      assert (Hp : preserves (settled (marks s)) m)
  end.
  { unfold replay_files, submit_commit, check_protects, lookup_by_email, p4user_exists.
    pres_g2p ltac:(first [ apply pres_revert_and_raise | apply pres_copy_blobs
                          | apply pres_submit_opened ]). }
  intros E. apply Hp in E; [apply E |].
  split; [reflexivity | apply adds_are_paths_empty].
Qed.

(** A commit after which the loop is left: the check found a conflict,
    and the mark of the commit was not appended. *)
Lemma copy_command_break ctx c (s s' : t) :
  copy_command ctx (CmdCommit c) s = (Ok Break, s') ->
  marks s' = marks s /\ ConflictChecker.has_conflict (checker s') = true.
Proof.
  unfold copy_command. intros E.
  apply bind_ok_inv in E as ([] & s1 & E1 & E).
  apply bind_ok_inv in E as (mark_ & s2 & E2 & E).
  rewrite io_run in E1. injection E1 as _ <-.
  apply copy_commit_marks in E2. cbn [marks] in E2.
  destruct mark_ as [m |]; [| discriminate].
  apply bind_ok_inv in E as ([sha changelist] & s3 & E3 & E).
  unfold lift, ObjectType.lift_res in E3.
  destruct (mark_to_commit_changelist m); [| discriminate]. injection E3 as _ <-.
  apply bind_ok_inv in E as ([] & s4 & E4 & E).
  apply bind_ok_inv in E as (conflict & s5 & E5 & E).
  unfold ck_, zoom in E4, E5.
  destruct (ConflictChecker.record_commit _ _ _) as [r4 [ck4 i4]]. injection E4 as _ <-.
  cbn [checker g_io marks addeditdelete] in E5.
  destruct (ConflictChecker.check ctx (ck4, i4)) as [r5 [ck5 i5]] eqn:Echeck.
  injection E5 as -> <-.
  destruct conflict as [x |]; cbn [Py.truthy_opt] in E.
  - destruct (Py.truthy x).
    + injection E as <-. cbn [marks checker]. split; [exact E2 |].
      exact (check_remembers ctx _ _ _ Echeck).
    + apply bind_ok_inv in E as (? & ? & _ & [=]).
  - apply bind_ok_inv in E as (? & ? & _ & [=]).
Qed.

(** The commands after a [break] are not looked at. *)
Lemma copy_loop_break ctx pre cmd post (s0 s1 s2 : t) :
  copy_loop ctx pre s0 = (Ok Next, s1) ->
  copy_command ctx cmd s1 = (Ok Break, s2) ->
  copy_loop ctx (pre ++ cmd :: post) s0 = (Ok Break, s2).
Proof.
  revert s0. induction pre as [| x pre IH]; intros s0 Hpre Hcmd.
  - injection Hpre as <-. cbn [app copy_loop].
    erewrite bind_ok by exact Hcmd. reflexivity.
  - cbn [app copy_loop] in *.
    apply bind_ok_inv in Hpre as (f & sa & Hx & Hrest).
    erewrite bind_ok by exact Hx.
    destruct f; [| discriminate].
    exact (IH sa Hrest Hcmd).
Qed.

Lemma perform_trace c (i : io) : trace (snd (perform c i)) = trace i ++ [c].
Proof.
  unfold perform, bind, request. destruct (ext c (world i)) as [r w].
  destruct r; reflexivity.
Qed.

Lemma flush_mirror_run (s s' : t) r :
  flush_mirror s = (Ok r, s') ->
  trace (g_io s') = trace (g_io s) ++ [MirrorAddCommits (marks s); MirrorAddObjectsToP4]
  /\ same_books s s'.
Proof.
  unfold flush_mirror. intros E.
  erewrite bind_ok in E by reflexivity.
  apply bind_ok_inv in E as ([] & s1 & E1 & E).
  rewrite io_run in E1, E. injection E1 as _ <-. injection E as _ <-.
  cbn [g_io]. rewrite !perform_trace, <- app_assoc. repeat split.
Qed.

(** C3, as the code has it.  The commands before a commit went through;
    the commit was copied and submitted, and the check after it found a
    conflict.  Then the loop is left at once, whatever commands follow;
    the mirror is flushed with the marks as they were before this
    commit (its own mark was not appended), by [add_commits] and
    [add_objects_to_p4]; and, the flush done, the operation raises a
    [RuntimeError] with a fixed text, the checker remembering the
    conflict. *)
Theorem conflict_stops_the_export ctx pre c post (s0 s1 s2 s3 : t) :
  copy_loop ctx pre s0 = (Ok Next, s1) ->
  copy_command ctx (CmdCommit c) s1 = (Ok Break, s2) ->
  flush_mirror s2 = (Ok tt, s3) ->
  copy_commands ctx (pre ++ CmdCommit c :: post) s0
  = (Raise (RuntimeError conflict_message), s3)
  /\ trace (g_io s3) = trace (g_io s2) ++ [MirrorAddCommits (marks s1); MirrorAddObjectsToP4]
  /\ marks s3 = marks s1
  /\ ConflictChecker.has_conflict (checker s3) = true.
Proof.
  intros Hpre Hcmd Hflush.
  destruct (copy_command_break ctx c s1 s2 Hcmd) as (Hmarks & Hconflict).
  destruct (flush_mirror_run s2 s3 tt Hflush) as (Htr & _ & Hm3 & Hck3).
  split; [| split; [| split; [| now rewrite Hck3]]].
  - unfold copy_commands.
    assert (Hbody : try_finally (copy_loop ctx (pre ++ CmdCommit c :: post) >> ret tt)
                      flush_mirror s0 = (Ok tt, s3)).
    { unfold try_finally.
      erewrite bind_ok by exact (copy_loop_break ctx pre _ post s0 s1 s2 Hpre Hcmd).
      cbn [ret]. rewrite Hflush. reflexivity. }
    erewrite bind_ok by exact Hbody.
    erewrite bind_ok by reflexivity.
    rewrite Hck3, Hconflict. reflexivity.
  - rewrite Htr, Hmarks. reflexivity.
  - congruence.
Qed.

End WithEnv.

Lemma recovering_cooperates : recovery_cooperates recovering.
Proof.
  split; [| split].
  - intros u c w. exists w. reflexivity.
  - intros cmd w. cbn [ext recovering].
    destruct (bool_decide (cmd = ["opened"])); eexists _, _, _; reflexivity.
  - intros p w. exists RNone, w. split; [reflexivity | discriminate].
Qed.

(** C2 on an instance: a merge commit in a world whose recovery goes
    through. *)
Lemma merge_commit_is_rejected_witness :
  exists s' reqs,
    @copy_commit recovering demo_ctx merge_commit (start_g2p recovering [] no_history)
    = (Raise (RuntimeError
         "import failed: Merge commit fedcba not permitted. Rebase to create a linear history."),
       s')
    /\ requests_between (start_g2p recovering [] no_history) s' reqs
    /\ Forall (fun r => opens_or_submits r = false) reqs
    /\ marks s' = [].
Proof.
  destruct (@merge_commit_is_rejected recovering demo_ctx merge_commit
              (start_g2p recovering [] no_history))
    as (e & s' & reqs & Hrun & Htr & Hq & Hm & He); [discriminate |].
  exists s', reqs. rewrite (He recovering_cooperates) in Hrun.
  split; [exact Hrun |]. split; [exact Htr |]. split; [exact Hq | exact Hm].
Defined.

(** C4 on instances: [p4 add] fails for a new file, the client is
    reverted and the copy of the file is unlinked; and [p4 edit]
    answers that the file is locked, and the client is reverted
    before [_p4run] raises. *)
Lemma p4_exception_is_recovered_witness :
  (exists s2,
     @replay_files recovering demo_ctx add_commit_c (start_g2p recovering add_fails no_history)
     = (Raise (RuntimeError "import failed: add failed"), s2)
     /\ trace (g_io s2)
        = [ PathExists "/ws/c.txt"; PathExists "/ws"; CopyFile "c.txt" "/ws/c.txt";
            P4Run CtxP4 ["add"; "-f"; "/ws/c.txt"];
            P4Connect "git-fusion-user" "git-fusion-demo";
            P4Run Recovery ["opened"];
            P4Run Recovery ["revert"; "//git-fusion-demo/..."];
            OsUnlink "/ws/c.txt" ])
  /\ (exists s2,
        @_p4run recovering demo_ctx ["edit"; "-k"; "/ws/a.txt"]
          (start_g2p recovering edit_is_locked no_history)
        = (Raise (RuntimeError "import failed: //depot/a.txt - locked by pat@ws"), s2)
        /\ trace (g_io s2)
           = [ P4Run CtxP4 ["edit"; "-k"; "/ws/a.txt"];
               P4Connect "git-fusion-user" "git-fusion-demo";
               P4Run Recovery ["opened"];
               P4Run Recovery ["revert"; "//git-fusion-demo/..."] ]).
Proof.
  split.
  - destruct (@p4_exception_is_recovered recovering demo_ctx add_commit_c "ann"
                (start_g2p recovering add_fails no_history)
                recovering_cooperates adds_are_paths_empty) as (Hreplay & _).
    edestruct (Hreplay "add failed") as (s2 & Hrun & Hrec); [vm_compute; reflexivity |].
    exists s2. split; [exact Hrun |].
    destruct Hrec as (w1 & w2 & rows & msgs & E1 & E2 & Htr & _).
    rewrite Htr. vm_compute in E1. injection E1 as <-.
    vm_compute in E2. injection E2 as <- _ _.
    vm_compute. reflexivity.
  - destruct (@p4_exception_is_recovered recovering demo_ctx add_commit_c "ann"
                (start_g2p recovering edit_is_locked no_history)
                recovering_cooperates adds_are_paths_empty) as (_ & _ & _ & Hlocked).
    edestruct (Hlocked ["edit"; "-k"; "/ws/a.txt"]) as (s1 & s2 & Hreq & Hrun & Hrec);
      [vm_compute; reflexivity | vm_compute; discriminate |].
    exists s2. split; [exact Hrun |].
    destruct Hrec as (w1 & w2 & rows & msgs & E1 & E2 & Htr & _).
    rewrite Htr. vm_compute in Hreq. injection Hreq as <-.
    vm_compute in E1. injection E1 as <-.
    vm_compute in E2. injection E2 as <- _ _.
    vm_compute. reflexivity.
Defined.

(** The claim as it stood fails: copying the third file of a commit into
    the workspace fails in the operating system, after one file was
    opened for edit and moved and another was copied and queued for add.
    The error reaches the caller as it is; no connection is made for a
    recovery, nothing is reverted, and the queued file is not
    unlinked. *)
Lemma os_error_is_not_recovered :
  exists s2,
    @replay_files scripted demo_ctx rename_and_add (start_g2p scripted copy_fails no_history)
    = (Raise (OSError "No such file or directory: 'd.lnk'"), s2)
    /\ List.filter opens_or_submits (trace (g_io s2))
       = [ P4Run CtxP4 ["edit"; "-k"; "/ws/a.txt"];
           P4Run CtxP4 ["move"; "-k"; "/ws/a.txt"; "/ws/b.txt"] ]
    /\ added_paths (addeditdelete s2) = [One "/ws/c.txt"]
    /\ List.filter is_recovery_request (trace (g_io s2)) = [].
Proof.
  eexists. split; [vm_compute; reflexivity |].
  split; [| split]; vm_compute; reflexivity.
Qed.

(** C3 on an instance: the head is changelist 5; the first of two
    commits is submitted as changelist 7, and the server then lists the
    changelists 5, 6 and 7. *)
Lemma conflict_stops_the_export_witness :
  exists s2 s3,
    @copy_command scripted demo_ctx (CmdCommit plain_commit)
      (start_g2p scripted foreign_6 head_is_5) = (Ok Break, s2)
    /\ @copy_commands scripted demo_ctx ([] ++ CmdCommit plain_commit :: [CmdCommit add_commit_c])
         (start_g2p scripted foreign_6 head_is_5)
       = (Raise (RuntimeError conflict_message), s3)
    /\ trace (g_io s3) = trace (g_io s2) ++ [MirrorAddCommits []; MirrorAddObjectsToP4]
    /\ marks s3 = []
    /\ ConflictChecker.has_conflict (checker s3) = true.
Proof.
  eexists. eexists. split; [vm_compute; reflexivity |].
  apply (@conflict_stops_the_export scripted demo_ctx [] plain_commit [CmdCommit add_commit_c]
           (start_g2p scripted foreign_6 head_is_5) (start_g2p scripted foreign_6 head_is_5)).
  - reflexivity.
  - vm_compute. reflexivity.
  - vm_compute. reflexivity.
Defined.

(** The claim as it stood fails on the same run: the commit was
    submitted as changelist 7, yet the mirror is flushed with no mark at
    all; and the text of the error has no digit in it, so it names no
    changelist. *)
Lemma conflict_error_names_no_changelist :
  exists s3,
    @copy_commands scripted demo_ctx [CmdCommit plain_commit; CmdCommit add_commit_c]
      (start_g2p scripted foreign_6 head_is_5)
    = (Raise (RuntimeError conflict_message), s3)
    /\ In (P4SaveChange CtxP4 (Some "7") "ann" "1350000000") (trace (g_io s3))
    /\ List.filter (fun r => match r with MirrorAddCommits _ => true | _ => false end)
         (trace (g_io s3)) = [MirrorAddCommits []]
    /\ existsb Py.is_digit (list_ascii_of_string conflict_message) = false.
Proof.
  eexists. split; [vm_compute; reflexivity |].
  split; [| split].
  - vm_compute. tauto.
  - vm_compute. reflexivity.
  - vm_compute. reflexivity.
Qed.

End G2PFacts.

(* ===================================================================== *)
(** * The object mirror *)
(* ===================================================================== *)

Module GitMirrorFacts.
Import GitMirror GitMirrorSpec.

(** ** The object list *)

(** [add_object] at a glance: what it returns and what it leaves. *)
Lemma add_object_run (o : GitObject) (l : GitObjectList) :
  add_object o l
  = match objects l !! key_of o with
    | Some _ => (Ok tt, l)
    | None =>
        match counts l !! type o with
        | None => (Raise (KeyError (type o)),
                   MkGitObjectList (<[key_of o := o]> (objects l)) (counts l))
        | Some n => (Ok tt,
                     MkGitObjectList (<[key_of o := o]> (objects l))
                                     (<[type o := (n + 1)%Z]> (counts l)))
        end
    end.
Proof.
  unfold add_object, bind, get, put, ret, raise.
  destruct (objects l !! key_of o); [reflexivity |].
  destruct (counts l !! type o); reflexivity.
Qed.

Lemma add_object_present (o : GitObject) (l : GitObjectList) :
  is_Some (objects l !! key_of o) -> add_object o l = (Ok tt, l).
Proof. intros [o' E]. rewrite add_object_run, E. reflexivity. Qed.

Lemma well_keyed_insert (o : GitObject) (l : GitObjectList) cs :
  well_keyed l -> well_keyed (MkGitObjectList (<[key_of o := o]> (objects l)) cs).
Proof.
  intros Hl k o' Hk. cbn [objects] in Hk.
  destruct (decide (k = key_of o)) as [-> | Hne].
  - rewrite lookup_insert_eq in Hk. now injection Hk as <-.
  - rewrite lookup_insert_ne in Hk by congruence. exact (Hl k o' Hk).
Qed.

Lemma add_object_well_keyed (o : GitObject) (l l' : GitObjectList) r :
  well_keyed l -> add_object o l = (r, l') -> well_keyed l'.
Proof.
  intros Hl. rewrite add_object_run.
  destruct (objects l !! key_of o) eqn:Eo.
  - intros [= <- <-]. exact Hl.
  - destruct (counts l !! type o); intros [= <- <-]; now apply well_keyed_insert.
Qed.

Lemma well_keyed_empty : well_keyed empty_list.
Proof. intros k o E. cbn in E. now rewrite lookup_empty in E. Qed.

Lemma map_is_fmap {A B : Type} (f : A -> B) (l : list A) : map f l = f <$> l.
Proof. induction l as [| x l IH]; [reflexivity |]. cbn. now rewrite IH. Qed.

(** The objects of a well-keyed list differ in type or sha1. *)
Lemma values_differ (l : GitObjectList) :
  well_keyed l -> NoDup (map key_of (values l)).
Proof.
  intros Hl. unfold values.
  replace (map key_of (map snd (map_to_list (objects l))))
    with ((map_to_list (objects l)).*1).
  - apply NoDup_fst_map_to_list.
  - rewrite map_map, <- map_is_fmap.
    apply map_ext_in. intros [k o] Hin. cbn [fst snd].
    symmetry. apply Hl. apply elem_of_map_to_list, list_elem_of_In. exact Hin.
Qed.

Section WithEnv.
Context `{H : Env}.

(** ** Collecting the objects of the commits *)

Lemma pres_add (o : GitObject) : preserves keyed (add o).
Proof.
  intros s r s' Hs E. unfold add, zoom in E.
  destruct (add_object o (fst s)) as [r0 l] eqn:Ea. injection E as <- <-.
  exact (add_object_well_keyed o (fst s) l r0 Hs Ea).
Qed.

Lemma pres_mirror_io {A : Type} (m : M io A) : preserves keyed (io_ m).
Proof.
  intros s r s' Hs E. unfold io_, zoom in E.
  destruct (m (snd s)) as [r0 i]. injection E as <- <-. exact Hs.
Qed.

Ltac pres_mirror tac :=
  pres_with ltac:(first [ tac | apply pres_add | apply pres_mirror_io ]).

Lemma pres_get_commit_tree commit_ : preserves keyed (__get_commit_tree commit_).
Proof.
  unfold __get_commit_tree.
  apply pres_bind; [apply pres_mirror_io | intros [rc po]].
  destruct (List.filter _ _) as [| line lines]; [apply pres_ret |].
  destruct (Py.split _ _) as [| w0 [| sha1_ ws]]; try apply pres_raise.
  pres_mirror fail.
Qed.

Lemma pres_get_snapshot_trees commit_ : preserves keyed (__get_snapshot_trees commit_).
Proof.
  unfold __get_snapshot_trees, argument.
  pres_mirror ltac:(apply pres_get_commit_tree).
Qed.

Lemma pres_get_delta_trees top_tree1 commit2 :
  preserves keyed (__get_delta_trees top_tree1 commit2).
Proof.
  unfold __get_delta_trees, argument.
  pres_mirror ltac:(apply pres_get_commit_tree).
Qed.

Lemma pres_add_commits_from view marks :
  forall last_top_tree, preserves keyed (add_commits_from view marks last_top_tree).
Proof.
  induction marks as [| mark_ marks IH]; intros last_top_tree; cbn [add_commits_from].
  - apply pres_ret.
  - destruct (Py.split _ mark_) as [| part0 [| part1 parts]]; try apply pres_raise.
    pres_mirror ltac:(first [ apply pres_get_delta_trees | apply pres_get_snapshot_trees
                            | apply IH ]).
Qed.

(** ** Extracting an object *)

Lemma perform_done c (i : io) r w :
  ext c (world i) = (r, w) -> (forall e, r <> RRaise e) ->
  perform c i = (Ok tt, after c w i).
Proof.
  intros E Hr. unfold perform, bind. rewrite (request_answer _ _ _ _ E).
  destruct r; try reflexivity. now destruct (Hr e).
Qed.

Lemma add_object_to_p4_reuses ctx (go : GitObject) dst (i : io) r w1 w2 :
  git_p4_client_path go ctx = Ok dst ->
  ext LockHeartbeat (world i) = (r, w1) -> (forall e, r <> RRaise e) ->
  ext (PathExists dst) w1 = (RBool true, w2) ->
  __add_object_to_p4 ctx go i = (Ok dst, after (PathExists dst) w2 (after LockHeartbeat w1 i)).
Proof.
  intros Hdst E1 Hr E2. unfold __add_object_to_p4.
  erewrite bind_ok by exact (perform_done _ _ r w1 E1 Hr).
  rewrite Hdst. cbn [ObjectType.lift_res].
  erewrite bind_ok by reflexivity.
  erewrite bind_ok by exact (ask_answer (PathExists dst) (after LockHeartbeat w1 i) true w2 E2).
  reflexivity.
Qed.

(** ** The requests for files that exist in the depot *)

Lemma outputStat_files view (d : gmap string string) (hd hd' : handler) :
  outputStat view d hd = Ok hd' -> h_files hd' = h_files hd.
Proof.
  unfold outputStat. cbn zeta.
  destruct (existsb _ _); [now intros [= <-] |].
  destruct (d !! "depotFile"); [| discriminate].
  now intros [= <-].
Qed.

Lemma emits_ret {A : Type} P (a : A) : emits P (ret a).
Proof. intros i r i' [= <- <-]. exists []. now rewrite app_nil_r. Qed.

Lemma emits_bind {A B : Type} P (m : M io A) (k : A -> M io B) :
  emits P m -> (forall a, emits P (k a)) -> emits P (bind m k).
Proof.
  intros Hm Hk i r i' E. unfold bind in E.
  destruct (m i) as [[a | e] i1] eqn:Em.
  - destruct (Hm i _ i1 Em) as (reqs1 & Ht1 & Hp1).
    destruct (Hk a i1 r i' E) as (reqs2 & Ht2 & Hp2).
    exists (reqs1 ++ reqs2). split.
    + now rewrite Ht2, Ht1, app_assoc.
    + now rewrite forallb_app, Hp1, Hp2.
  - injection E as <- <-. exact (Hm i _ i1 Em).
Qed.

Lemma emits_for_each {A : Type} P (l : list A) (body : A -> M io unit) :
  (forall x, emits P (body x)) -> emits P (for_each l body).
Proof.
  intros Hb. induction l as [| x l IH]; cbn [for_each].
  - apply emits_ret.
  - apply emits_bind; [apply Hb | intros _; exact IH].
Qed.

Lemma emits_p4_run (P : call -> bool) c cmd :
  P (P4Run c cmd) = true -> emits P (p4_run c cmd).
Proof.
  intros HP i r i' E. exists [P4Run c cmd]. split; [| cbn; now rewrite HP].
  unfold p4_run, bind, request in E.
  destruct (ext (P4Run c cmd) (world i)) as [rp w].
  destruct rp; injection E as <- <-; try reflexivity.
  cbn [modify ret snd]. now rewrite trace_set_messages.
Qed.

Lemma edit_objects_emits (existing_files : list (string * string)) :
  emits is_edit_or_views (edit_objects_with_views existing_files).
Proof.
  unfold edit_objects_with_views.
  destruct (build_view_mapping existing_files) as [existing_names view_mapping].
  apply emits_bind; [| intros _].
  - apply emits_for_each. intros bite.
    apply emits_bind; [apply emits_p4_run; reflexivity | intros; apply emits_ret].
  - apply emits_for_each. intros vn. apply emits_for_each. intros bite.
    apply emits_bind; [apply emits_p4_run; reflexivity | intros; apply emits_ret].
Qed.

(** ** What is written *)

Lemma written_app (a b : list call) : written (a ++ b) = written a ++ written b.
Proof. apply omap_app. Qed.

Section Wrote.
Variable tr0 : list call.

Lemma wrote_request c ws :
  written [c] = [] -> preserves (wrote tr0 ws) (request c).
Proof.
  intros Hc i r i' (reqs & Ht & Hw) E. unfold request in E.
  destruct (ext c (world i)) as [rp w].
  exists (reqs ++ [c]). split.
  - destruct rp; injection E as <- <-; cbn [trace]; rewrite Ht, app_assoc; reflexivity.
  - rewrite written_app, Hc, Hw. apply app_nil_r.
Qed.

Lemma wrote_set_messages c msgs ws :
  preserves (wrote tr0 ws) (modify (set_messages c msgs)).
Proof.
  intros i r i' (reqs & Ht & Hw) [= <- <-]. exists reqs.
  rewrite trace_set_messages. now split.
Qed.

Lemma wrote_p4_run c cmd ws : preserves (wrote tr0 ws) (p4_run c cmd).
Proof.
  unfold p4_run.
  pres_with ltac:(first [ apply wrote_request; reflexivity | apply wrote_set_messages ]).
Qed.

Lemma wrote_ask c ws : written [c] = [] -> preserves (wrote tr0 ws) (ask c).
Proof. intros Hc. unfold ask. pres_with ltac:(apply wrote_request; exact Hc). Qed.

Lemma wrote_perform c ws : written [c] = [] -> preserves (wrote tr0 ws) (perform c).
Proof. intros Hc. unfold perform. pres_with ltac:(apply wrote_request; exact Hc). Qed.

Lemma wrote_popen cmd stdin ws : preserves (wrote tr0 ws) (popen_no_throw cmd stdin).
Proof. unfold popen_no_throw. pres_with ltac:(apply wrote_request; reflexivity). Qed.

Lemma wrote_write p content ws (i i' : io) r :
  wrote tr0 ws i -> perform (WriteFile p content) i = (r, i') -> wrote tr0 (ws ++ [p]) i'.
Proof.
  intros (reqs & Ht & Hw) E. unfold perform, bind, request in E.
  destruct (ext _ (world i)) as [rp w].
  exists (reqs ++ [WriteFile p content]). split.
  - destruct rp; injection E as <- <-; cbn [trace]; rewrite Ht, app_assoc; reflexivity.
  - rewrite written_app, Hw. reflexivity.
Qed.

(** One object: nothing is written, or the file of the object is. *)
Lemma add_object_to_p4_writes ctx (go : GitObject) ws (i i' : io) r :
  wrote tr0 ws i ->
  __add_object_to_p4 ctx go i = (r, i') ->
  wrote tr0 ws i'
  \/ exists dst, git_p4_client_path go ctx = Ok dst /\ wrote tr0 (ws ++ [dst]) i'.
Proof.
  intros Hw E. unfold __add_object_to_p4 in E.
  apply bind_cases in E as [(e & E1 & ->) | ([] & i1 & E1 & E)];
    (apply (wrote_perform LockHeartbeat ws eq_refl) in E1; [| exact Hw]);
    [left; exact E1 |].
  destruct (git_p4_client_path go ctx) as [dst | e] eqn:Hdst;
    [| injection E as <- <-; left; exact E1].
  erewrite bind_ok in E by reflexivity.
  apply bind_cases in E as [(e & E2 & ->) | (there & i2 & E2 & E)];
    (apply (wrote_ask (PathExists dst) ws eq_refl) in E2; [| exact E1]);
    [left; exact E2 |].
  destruct there; [injection E as <- <-; left; exact E2 |].
  apply bind_cases in E as [(e & E3 & ->) | (dir_there & i3 & E3 & E)];
    (apply (wrote_ask (PathExists (dirname dst)) ws eq_refl) in E3; [| exact E2]);
    [left; exact E3 |].
  apply bind_cases in E as [(e & E4 & ->) | ([] & i4 & E4 & E)];
    (apply (pres_when _ _ _ (wrote_perform (Makedirs (dirname dst)) ws eq_refl)) in E4;
     [| exact E3]);
    [left; exact E4 |].
  apply bind_cases in E as [(e & E5 & ->) | ([rc po] & i5 & E5 & E)];
    (apply (wrote_popen _ _ ws) in E5; [| exact E4]);
    [left; exact E5 |].
  right. exists dst. split; [reflexivity |].
  apply bind_cases in E as [(e & E6 & ->) | ([] & i6 & E6 & E)].
  - exact (wrote_write _ _ _ _ _ _ E5 E6).
  - injection E as _ <-. exact (wrote_write _ _ _ _ _ _ E5 E6).
Qed.

(** All objects: the files written are those of some of the objects,
    each one once, in the order of the list. *)
Lemma map_m_writes ctx (objs : list GitObject) : forall ws (i i' : io) r,
  wrote tr0 ws i ->
  map_m (__add_object_to_p4 ctx) objs i = (r, i') ->
  exists done paths,
    sublist done objs /\ files_of ctx done paths /\ wrote tr0 (ws ++ paths) i'.
Proof.
  induction objs as [| go objs IH]; intros ws i i' r Hw E; cbn [map_m] in E.
  - injection E as _ <-. exists [], []. rewrite app_nil_r.
    split; [constructor | split; [constructor | exact Hw]].
  - apply bind_cases in E as [(e & E1 & ->) | (dst1 & i1 & E1 & E)].
    + destruct (add_object_to_p4_writes ctx go ws i i' _ Hw E1) as [Hw1 | (dst & Hdst & Hw1)].
      * exists [], []. rewrite app_nil_r.
        split; [apply sublist_nil_l | split; [constructor | exact Hw1]].
      * exists [go], [dst].
        split; [apply sublist_skip, sublist_nil_l |].
        split; [repeat constructor; exact Hdst | exact Hw1].
    + assert (Hrest : exists r', map_m (__add_object_to_p4 ctx) objs i1 = (r', i')).
      { apply bind_cases in E as [(e & E2 & ->) | (ys & i2 & E2 & E)].
        - eauto.
        - injection E as _ <-. eauto. }
      destruct Hrest as (r' & Erest).
      destruct (add_object_to_p4_writes ctx go ws i i1 _ Hw E1) as [Hw1 | (dst & Hdst & Hw1)].
      * destruct (IH ws i1 i' r' Hw1 Erest) as (done & paths & Hs & Hf & Hw').
        exists done, paths. split; [apply sublist_cons; exact Hs | split; assumption].
      * destruct (IH (ws ++ [dst]) i1 i' r' Hw1 Erest) as (done & paths & Hs & Hf & Hw').
        exists (go :: done), (dst :: paths).
        split; [apply sublist_skip; exact Hs |].
        split; [constructor; assumption |].
        rewrite <- app_assoc in Hw'. exact Hw'.
Qed.

Lemma wrote_fstat_bites view bs ws : forall hd,
  preserves (wrote tr0 ws) (fstat_bites view bs hd).
Proof.
  induction bs as [| bite bs IH]; intros hd; cbn [fstat_bites].
  - apply pres_ret.
  - pres_with ltac:(first [ apply wrote_request; reflexivity | apply IH ]).
Qed.

Lemma wrote_add_bites bs ws : forall n added,
  preserves (wrote tr0 ws) (add_bites bs n added).
Proof.
  induction bs as [| bite bs IH]; intros n added; cbn [add_bites].
  - apply pres_ret.
  - pres_with ltac:(first [ apply wrote_p4_run | apply IH ]).
Qed.

Lemma wrote_add_objects_with_views ctx add_files ws :
  preserves (wrote tr0 ws) (add_objects_with_views ctx add_files).
Proof.
  unfold add_objects_with_views.
  pres_with ltac:(first [ apply wrote_p4_run | apply wrote_add_bites ]).
Qed.

Lemma wrote_edit_objects_with_views existing_files ws :
  preserves (wrote tr0 ws) (edit_objects_with_views existing_files).
Proof.
  unfold edit_objects_with_views.
  destruct (build_view_mapping existing_files) as [names mapping].
  pres_with ltac:(apply wrote_p4_run).
Qed.

Lemma wrote_io {A : Type} (m : M io A) (l : GitObjectList) ws :
  preserves (wrote tr0 ws) m ->
  preserves (fun s : st => fst s = l /\ wrote tr0 ws (snd s)) (io_ m).
Proof.
  intros Hm s r s' [Hl Hs] E. unfold io_, zoom in E.
  destruct (m (snd s)) as [r0 i] eqn:Em. injection E as <- <-.
  split; [exact Hl | exact (Hm _ _ _ Hs Em)].
Qed.

End Wrote.

Lemma mirror_io_inv {A : Type} (m : M io A) (l : GitObjectList) (i : io) r (s' : st) :
  io_ m (l, i) = (r, s') -> exists i', m i = (r, i') /\ s' = (l, i').
Proof.
  unfold io_, zoom. cbn [fst snd]. destruct (m i) as [r0 i'].
  intros [= <- <-]. now exists i'.
Qed.

(** In [add_objects_to_p4] the only files written are those of the
    objects of the list, each object at most once. *)
Lemma add_objects_to_p4_writes ctx (l : GitObjectList) (i : io) r (s2 : st) :
  add_objects_to_p4 ctx (l, i) = (r, s2) ->
  exists objs reqs,
    trace (snd s2) = trace i ++ reqs
    /\ sublist objs (values l)
    /\ files_of ctx objs (written reqs).
Proof.
  intros E.
  set (Q := fun ws (s : st) => fst s = l /\ wrote (trace i) ws (snd s)).
  assert (Hstart : Q [] (l, i)).
  { split; [reflexivity |]. exists []. split; [now rewrite app_nil_r | reflexivity]. }
  assert (Hgoal : exists objs paths, sublist objs (values l) /\ files_of ctx objs paths
                                     /\ Q paths s2).
  2:{ destruct Hgoal as (objs & paths & Hs & Hf & _ & reqs & Ht & Hw).
      exists objs, reqs. rewrite Hw. repeat split; assumption. }
  assert (Hnone : forall s' : st, Q [] s' ->
           exists objs paths, sublist objs (values l) /\ files_of ctx objs paths /\ Q paths s').
  { intros s' Hs'. exists [], []. split; [apply sublist_nil_l | split; [constructor | exact Hs']]. }
  unfold add_objects_to_p4 in E.
  apply bind_cases in E as [(e & E1 & ->) | (opened & s1 & E1 & E)];
    (apply (wrote_io (trace i) _ l [] (wrote_p4_run _ _ _ _)) in E1; [| exact Hstart]);
    [now apply Hnone |].
  assert (Hrevert : forall r' s', when (negb (bool_decide (opened = [])))
                      (io_ (p4_run CtxP4gf ["revert"; "//" +:+ p4client_gf ctx +:+ "/..."])
                       >> ret tt) s1 = (r', s') -> Q [] s').
  { intros r' s'. apply (fun Hp => Hp s1 r' s' E1).
    pres_with ltac:(apply wrote_io, wrote_p4_run). }
  apply bind_cases in E as [(e & E2 & ->) | ([] & s1' & E2 & E)];
    apply Hrevert in E2 as H2; [now apply Hnone |].
  erewrite bind_ok in E by reflexivity.
  destruct s1' as [l1 i1]. destruct H2 as [Hl1 Hw1]. cbn [fst snd] in Hl1, Hw1, E. subst l1.
  apply bind_cases in E as [(e & E3 & ->) | (add_files & s3 & E3 & E)];
    apply mirror_io_inv in E3 as (i3 & E3 & ->);
    destruct (map_m_writes (trace i) ctx (values l) [] i1 i3 _ Hw1 E3)
      as (done & paths & Hs & Hf & Hw3);
    cbn [app] in Hw3.
  - exists done, paths. repeat split; assumption.
  - exists done, paths. split; [exact Hs |]. split; [exact Hf |].
    revert E.
    match goal with
    | |- ?m ?s = _ -> _ => assert (Hp : preserves (Q paths) m)
    end.
    { pres_with ltac:(first [ apply wrote_io;
                              first [ apply wrote_p4_run | apply wrote_fstat_bites
                                    | apply wrote_add_objects_with_views
                                    | apply wrote_edit_objects_with_views ] ]). }
    intros E. exact (Hp (l, i3) _ s2 (conj eq_refl Hw3) E).
Qed.

(** ** The files that exist in the depot *)

Lemma rows_keep_files view (rows : list p4result) : forall hd hd',
  fold_res (fun r hd => match r with
                        | PDict d => outputStat view d hd
                        | PText _ => Ok hd
                        end) rows hd = Ok hd' ->
  h_files hd' = h_files hd.
Proof.
  induction rows as [| row rows IH]; intros hd hd'; cbn [fold_res].
  - now intros [= <-].
  - destruct row as [d | t].
    + destruct (outputStat view d hd) as [hd1 |] eqn:E1; [| discriminate].
      intros E. rewrite (IH _ _ E). exact (outputStat_files _ _ _ _ E1).
    + apply IH.
Qed.

Lemma messages_name_files (msgs : list message) : forall hd hd',
  fold_res outputMessage msgs hd = Ok hd' ->
  h_files hd' = h_files hd ++ missing_files msgs.
Proof.
  induction msgs as [| m msgs IH]; intros hd hd'; cbn [fold_res].
  - intros [= <-]. symmetry. apply app_nil_r.
  - destruct (outputMessage m hd) as [hd1 |] eqn:E1; [| discriminate].
    intros E. rewrite (IH _ _ E). unfold outputMessage in E1.
    unfold missing_files. cbn [omap list_omap]. fold (missing_files msgs).
    destruct (msgid m =? MsgDm_ExFILE)%Z.
    + destruct (msg_dict m !! "argc") as [f |]; [| discriminate].
      injection E1 as <-. cbn [h_files]. now rewrite <- app_assoc.
    + injection E1 as <-. reflexivity.
Qed.

Lemma feed_handler_files view rows msgs (hd hd' : handler) :
  feed_handler view rows msgs hd = Ok hd' ->
  h_files hd' = h_files hd ++ missing_files msgs.
Proof.
  unfold feed_handler.
  destruct (fold_res _ rows hd) as [hd1 |] eqn:E1; [| discriminate].
  intros E. rewrite (messages_name_files _ _ _ E), (rows_keep_files _ _ _ _ E1). reflexivity.
Qed.

(** ** What is asked for the files that exist *)

Lemma p4_run_trace c cmd (i i' : io) r :
  p4_run c cmd i = (r, i') -> trace i' = trace i ++ [P4Run c cmd].
Proof.
  unfold p4_run, bind, request. destruct (ext _ (world i)) as [rp w].
  destruct rp; intros [= <- <-]; try reflexivity.
  cbn [modify ret snd]. now rewrite trace_set_messages.
Qed.

Lemma for_each_p4_trace {X : Type} c (f : X -> list string) (l : list X) : forall (i i' : io),
  for_each l (fun x => p4_run c (f x) >> ret tt) i = (Ok tt, i') ->
  trace i' = trace i ++ map (fun x => P4Run c (f x)) l.
Proof.
  induction l as [| x l IH]; intros i i'; cbn [for_each].
  - intros [= <-]. symmetry. apply app_nil_r.
  - intros E. apply bind_ok_inv in E as ([] & i1 & E1 & E).
    apply bind_ok_inv in E1 as (rows & i0 & E0 & [= <-]).
    rewrite (IH _ _ E), (p4_run_trace _ _ _ _ _ E0), <- app_assoc. reflexivity.
Qed.

Lemma edit_objects_asks (existing_files : list (string * string)) (i i' : io) :
  edit_objects_with_views existing_files i = (Ok tt, i') ->
  trace i' = trace i ++ edit_requests existing_files.
Proof.
  unfold edit_objects_with_views, edit_requests.
  destruct (build_view_mapping existing_files) as [names mapping].
  intros E. apply bind_ok_inv in E as ([] & i1 & E1 & E).
  apply (for_each_p4_trace CtxP4gf (fun bite => "edit" :: bite)) in E1.
  rewrite app_assoc, <- E1. clear E1 i.
  revert i1 E. induction (map_to_list mapping) as [| vn vns IH]; intros i1; cbn [for_each].
  - intros [= <-]. symmetry. apply app_nil_r.
  - intros E. apply bind_ok_inv in E as ([] & i2 & E2 & E).
    apply (for_each_p4_trace CtxP4gf
             (fun bite => ["attribute"; "-p"; "-n"; "views"; "-v"; fst vn] ++ bite)) in E2.
    rewrite (IH _ E), E2. cbn [map concat]. now rewrite <- app_assoc.
Qed.

(** C7.  A tree that two commits share is mirrored once.
    - [add_object] leaves the list as it is when an object of the same
      type and sha1 is in it; so the list that [add_commits] builds
      holds no two objects of the same type and sha1, whatever git
      answers.
    - From the list that [add_commits] built, [add_objects_to_p4]
      writes at most one file per object of the list, however it ends
      and whatever the world answers: the files written, in the order
      of their writing, are the files of pairwise different objects of
      the list, and nothing else is written.  So the content of a tree
      that two commits share is written at most once.
    - [__add_object_to_p4] returns the path of a file that exists
      already, after a heartbeat and the test for the file, and asks
      for nothing else: no directory, no call of git, no write.
    - The files that go to [p4 add] are those that the server names in
      its 'no such file' messages; a file that exists in the depot
      (a stat row) never joins them, and what
      [edit_objects_with_views] asks for the existing files is [p4 edit]
      and [p4 attribute -p -n views], nothing else: when it returns it
      has asked exactly that, in bites of a thousand. *)
Theorem shared_tree_is_mirrored_once ctx :
  (forall o l, is_Some (objects l !! key_of o) -> add_object o l = (Ok tt, l))
  /\ (forall marks l i r s',
         well_keyed l ->
         add_commits ctx marks (l, i) = (r, s') ->
         NoDup (map key_of (values (fst s'))))
  /\ (forall marks l i s1 r s2,
         well_keyed l ->
         add_commits ctx marks (l, i) = (Ok tt, s1) ->
         add_objects_to_p4 ctx s1 = (r, s2) ->
         exists objs reqs,
           trace (snd s2) = trace (snd s1) ++ reqs
           /\ sublist objs (values (fst s1))
           /\ NoDup (map key_of objs)
           /\ files_of ctx objs (written reqs))
  /\ (forall go dst i r w1 w2,
         git_p4_client_path go ctx = Ok dst ->
         ext LockHeartbeat (world i) = (r, w1) -> (forall e, r <> RRaise e) ->
         ext (PathExists dst) w1 = (RBool true, w2) ->
         exists i',
           __add_object_to_p4 ctx go i = (Ok dst, i')
           /\ trace i' = trace i ++ [LockHeartbeat; PathExists dst])
  /\ (forall view d hd hd', outputStat view d hd = Ok hd' -> h_files hd' = h_files hd)
  /\ (forall view rows msgs hd hd',
         feed_handler view rows msgs hd = Ok hd' ->
         h_files hd' = h_files hd ++ missing_files msgs)
  /\ (forall existing_files, emits is_edit_or_views (edit_objects_with_views existing_files))
  /\ (forall existing_files i i',
         edit_objects_with_views existing_files i = (Ok tt, i') ->
         trace i' = trace i ++ edit_requests existing_files).
Proof.
  split; [| split; [| split; [| split; [| split; [| split; [| split]]]]]].
  - exact add_object_present.
  - intros marks l i r s' Hl E. apply values_differ.
    exact (pres_add_commits_from (view_name ctx) marks None (l, i) r s' Hl E).
  - intros marks l i [l1 i1] r s2 Hl E1 E2.
    pose proof (pres_add_commits_from (view_name ctx) marks None (l, i) _ _ Hl E1) as Hl1.
    destruct (add_objects_to_p4_writes ctx l1 i1 r s2 E2) as (objs & reqs & Ht & Hs & Hf).
    exists objs, reqs. split; [exact Ht |]. split; [exact Hs |]. split; [| exact Hf].
    rewrite map_is_fmap. apply (sublist_NoDup _ (key_of <$> values l1)).
    + rewrite <- map_is_fmap. apply values_differ. exact Hl1.
    + apply fmap_sublist. exact Hs.
  - intros go dst i r w1 w2 Hdst E1 Hr E2. eexists. split.
    + exact (add_object_to_p4_reuses ctx go dst i r w1 w2 Hdst E1 Hr E2).
    + cbn [after trace]. now rewrite <- app_assoc.
  - exact outputStat_files.
  - exact feed_handler_files.
  - exact edit_objects_emits.
  - exact edit_objects_asks.
Qed.

End WithEnv.

(** C7 on instances: adding the shared tree to a list that has it; two
    commits with the same top tree, whose three objects are then
    written, the tree once; a tree whose file exists. *)
Lemma shared_tree_is_mirrored_once_witness :
  (forall l, add_object shared_tree empty_list = (Ok tt, l)
             -> add_object shared_tree l = (Ok tt, l))
  /\ (exists s',
        @add_commits scripted demo_ctx two_marks (empty_list, start_io same_top_tree)
        = (Ok tt, s')
        /\ NoDup (map key_of (values (fst s')))
        /\ length (values (fst s')) = 3%nat)
  /\ (exists s1 s2 objs reqs,
        @add_commits scripted demo_ctx two_marks (empty_list, start_io same_top_tree)
        = (Ok tt, s1)
        /\ @add_objects_to_p4 scripted demo_ctx s1 = (Ok tt, s2)
        /\ trace (snd s2) = trace (snd s1) ++ reqs
        /\ NoDup (map key_of objs)
        /\ files_of demo_ctx objs (written reqs)
        /\ written reqs
           = [ "/gf/objects/aa/aa/-commit-7-demo"; "/gf/objects/bb/bb/-commit-8-demo";
               "/gf/objects/11/11/111111111111111111111111111111111111-tree" ])
  /\ (exists i',
        @__add_object_to_p4 scripted demo_ctx shared_tree (start_io file_exists)
        = (Ok "/gf/objects/11/11/111111111111111111111111111111111111-tree", i')
        /\ trace i'
           = [LockHeartbeat;
              PathExists "/gf/objects/11/11/111111111111111111111111111111111111-tree"]).
Proof.
  destruct (@shared_tree_is_mirrored_once scripted demo_ctx)
    as (Hadd & Hcommits & Hflush & Hreuse & _).
  split; [| split; [| split]].
  - intros l E. apply Hadd. vm_compute in E. injection E as <-. vm_compute. eauto.
  - eexists. split; [vm_compute; reflexivity |]. split; [| vm_compute; reflexivity].
    eapply (Hcommits two_marks empty_list (start_io same_top_tree));
      [apply well_keyed_empty | vm_compute; reflexivity].
  - eexists. eexists.
    edestruct (Hflush two_marks empty_list (start_io same_top_tree))
      as (objs & reqs & Ht & _ & Hn & Hf);
      [apply well_keyed_empty | vm_compute; reflexivity | vm_compute; reflexivity |].
    exists objs, reqs.
    split; [vm_compute; reflexivity |]. split; [vm_compute; reflexivity |].
    split; [exact Ht |]. split; [exact Hn |]. split; [exact Hf |].
    vm_compute in Ht. inversion Ht; subst. vm_compute. reflexivity.
  - apply (Hreuse shared_tree _ (start_io file_exists) RNone [RBool true] []).
    + vm_compute. reflexivity.
    + reflexivity.
    + discriminate.
    + reflexivity.
Defined.

End GitMirrorFacts.

(* ===================================================================== *)
(** * Python strings: splitting, joining, printing and reading numbers *)

Module PyFacts.

Lemma append_String c (a b : string) : String c a +:+ b = String c (a +:+ b).
Proof. reflexivity. Qed.

Lemma append_nil_l (b : string) : "" +:+ b = b.
Proof. reflexivity. Qed.

Lemma chars_append (a b : string) :
  list_ascii_of_string (a +:+ b) = list_ascii_of_string a ++ list_ascii_of_string b.
Proof.
  induction a as [| c a IH]; [reflexivity |].
  rewrite append_String. cbn. now rewrite IH.
Qed.

(** ** [split] and [join] *)

Lemma split_nonempty sep (s : string) : Py.split sep s <> [].
Proof.
  induction s as [| c s IH]; cbn; [discriminate |].
  destruct (Ascii.eqb c sep); [discriminate |].
  destruct (Py.split sep s); [contradiction | discriminate].
Qed.

Lemma split_no_sep sep (a : string) :
  ~ In sep (list_ascii_of_string a) -> Py.split sep a = [a].
Proof.
  induction a as [| c a IH]; intros Hno; [reflexivity |].
  cbn in *. destruct (Ascii.eqb_spec c sep) as [-> | Hne]; [tauto |].
  rewrite IH by tauto. reflexivity.
Qed.

Lemma split_cut sep (a b : string) :
  ~ In sep (list_ascii_of_string a) ->
  Py.split sep (a +:+ String sep b) = a :: Py.split sep b.
Proof.
  induction a as [| c a IH]; intros Hno.
  - rewrite append_nil_l. cbn. now rewrite Ascii.eqb_refl.
  - rewrite append_String. cbn in *.
    destruct (Ascii.eqb_spec c sep) as [-> | Hne]; [tauto |].
    rewrite IH by tauto. reflexivity.
Qed.

Lemma split_max_cut sep (a b : string) n :
  ~ In sep (list_ascii_of_string a) ->
  Py.split_max sep (a +:+ String sep b) (S n) = a :: Py.split_max sep b n.
Proof.
  induction a as [| c a IH]; intros Hno.
  - rewrite append_nil_l. cbn. now rewrite Ascii.eqb_refl.
  - rewrite append_String. cbn [Py.split_max]. cbn in Hno.
    destruct (Ascii.eqb_spec c sep) as [-> | Hne]; [tauto |].
    rewrite IH by tauto. reflexivity.
Qed.

Lemma split_join sep (l : list string) :
  l <> [] ->
  Forall (fun s => ~ In sep (list_ascii_of_string s)) l ->
  Py.split sep (Py.join (String sep "") l) = l.
Proof.
  intros Hne Hall. induction Hall as [| a l Ha Hl IH]; [contradiction |].
  destruct l as [| b l].
  - cbn. now apply split_no_sep.
  - change (Py.join (String sep "") (a :: b :: l))
      with (a +:+ String sep (Py.join (String sep "") (b :: l))).
    rewrite split_cut by exact Ha. rewrite IH by discriminate. reflexivity.
Qed.

(** ** [str] and [int] *)

Lemma rev_string_involutive (s : string) : Py.rev_string (Py.rev_string s) = s.
Proof.
  unfold Py.rev_string.
  now rewrite list_ascii_of_string_of_list_ascii, rev_involutive,
    string_of_list_ascii_of_string.
Qed.

Lemma lstrip_with_head p c (s : string) :
  p c = false -> Py.lstrip_with p (String c s) = String c s.
Proof. intros E. cbn. now rewrite E. Qed.

Lemma lstrip_with_none p (s : string) :
  Forall (fun c => p c = false) (list_ascii_of_string s) -> Py.lstrip_with p s = s.
Proof.
  destruct s as [| c s]; [reflexivity |]. cbn [list_ascii_of_string].
  intros H. inversion H; subst. now apply lstrip_with_head.
Qed.

Lemma strip_with_none p (s : string) :
  Forall (fun c => p c = false) (list_ascii_of_string s) -> Py.strip_with p s = s.
Proof.
  intros H. unfold Py.strip_with. rewrite (lstrip_with_none p s H).
  rewrite lstrip_with_none; [apply rev_string_involutive |].
  unfold Py.rev_string. rewrite list_ascii_of_string_of_list_ascii.
  apply Forall_rev. exact H.
Qed.

Lemma uint_chars (d : Decimal.uint) :
  Forall (fun c => Py.is_digit c = true) (list_ascii_of_string (NilEmpty.string_of_uint d)).
Proof. induction d; cbn [NilEmpty.string_of_uint list_ascii_of_string]; constructor; auto. Qed.

Lemma digits_value_acc (d : Decimal.uint) : forall acc : positive,
  Py.digits_value (NilEmpty.string_of_uint d) (Z.pos acc) = Some (Z.pos (Pos.of_uint_acc d acc)).
Proof.
  induction d; intros acc; cbn [NilEmpty.string_of_uint Py.digits_value Pos.of_uint_acc];
    [reflexivity | ..];
    match goal with
    | |- context [Py.is_digit ?c] => change (Py.is_digit c) with true
    end; cbn match; rewrite <- IHd; f_equal;
    match goal with
    | |- context [Z.of_nat ?n] => set (k := Z.of_nat n); vm_compute in k; subst k
    end; lia.
Qed.

Lemma digits_value_uint (d : Decimal.uint) :
  Py.digits_value (NilEmpty.string_of_uint d) 0 = Some (Z.of_N (Pos.of_uint d)).
Proof.
  induction d; cbn [NilEmpty.string_of_uint Py.digits_value Pos.of_uint];
    [reflexivity | ..];
    match goal with
    | |- context [Py.is_digit ?c] => change (Py.is_digit c) with true
    end; cbn match;
    [ exact IHd | .. ];
    cbn [Z.of_N]; rewrite <- digits_value_acc; f_equal.
Qed.

Lemma str_pos (p : positive) :
  Py.str (Z.pos p) = NilEmpty.string_of_uint (Pos.to_uint p).
Proof.
  unfold Py.str. cbn [Z.to_int NilZero.string_of_int].
  unfold NilZero.string_of_uint.
  destruct (Pos.to_uint p) eqn:E; try reflexivity.
  now apply Unsigned.to_uint_nonnil in E.
Qed.

Lemma str_neg (p : positive) :
  Py.str (Z.neg p) = String "-" (NilEmpty.string_of_uint (Pos.to_uint p)).
Proof.
  unfold Py.str. cbn [Z.to_int NilZero.string_of_int].
  unfold NilZero.string_of_uint.
  destruct (Pos.to_uint p) eqn:E; try reflexivity.
  now apply Unsigned.to_uint_nonnil in E.
Qed.

(** The characters of a printed number are digits, after a minus sign
    at most. *)
Lemma str_chars (n : Z) :
  Forall (fun c => Py.is_digit c = true \/ c = "-"%char) (list_ascii_of_string (Py.str n)).
Proof.
  destruct n as [| p | p].
  - repeat constructor.
  - rewrite str_pos. eapply Forall_impl; [apply uint_chars | cbn; auto].
  - rewrite str_neg. cbn [list_ascii_of_string]. constructor; [now right |].
    eapply Forall_impl; [apply uint_chars | cbn; auto].
Qed.

Lemma str_no_char (n : Z) (c : ascii) :
  Py.is_digit c = false -> c <> "-"%char -> ~ In c (list_ascii_of_string (Py.str n)).
Proof.
  intros Hd Hm Hin. pose proof (str_chars n) as H.
  rewrite Forall_forall in H. apply list_elem_of_In in Hin.
  destruct (H c Hin) as [E | E]; congruence.
Qed.

Lemma uint_string_nonempty (p : positive) :
  exists c s, NilEmpty.string_of_uint (Pos.to_uint p) = String c s /\ Py.is_digit c = true.
Proof.
  pose proof (uint_chars (Pos.to_uint p)) as H.
  destruct (NilEmpty.string_of_uint (Pos.to_uint p)) as [| c s] eqn:E.
  - destruct (Pos.to_uint p) eqn:Ep; try discriminate.
    now apply Unsigned.to_uint_nonnil in Ep.
  - exists c, s. split; [reflexivity |]. now inversion H.
Qed.

Lemma nonempty_digits_uint (p : positive) :
  Py.nonempty_digits (NilEmpty.string_of_uint (Pos.to_uint p)) = Some (Z.pos p).
Proof.
  destruct (uint_string_nonempty p) as (c & s & E & _).
  unfold Py.nonempty_digits. rewrite E, <- E.
  rewrite digits_value_uint, Unsigned.of_to. reflexivity.
Qed.

Lemma digit_not_space c : Py.is_digit c = true -> Py.is_space c = false.
Proof.
  unfold Py.is_digit, Py.is_space. intros H.
  apply andb_true_iff in H as [H1 H2].
  apply Nat.leb_le in H1. apply Nat.leb_le in H2.
  repeat (apply orb_false_iff; split).
  - apply andb_false_iff. right. apply Nat.leb_gt. lia.
  - apply andb_false_iff. right. apply Nat.leb_gt. lia.
  - apply Nat.eqb_neq. lia.
  - apply Nat.eqb_neq. lia.
Qed.

Lemma strip_str (n : Z) : Py.strip (Py.str n) = Py.str n.
Proof.
  apply strip_with_none. eapply Forall_impl; [apply str_chars |].
  intros c [H | ->]; [now apply digit_not_space | reflexivity].
Qed.

(** Reading a printed number gives the number back. *)
Lemma sign_dispatch c (s : string) :
  Py.is_digit c = true ->
  match String c s with
  | String "+"%char d => Py.nonempty_digits d
  | String "-"%char d => Z.opp <$> Py.nonempty_digits d
  | t => Py.nonempty_digits t
  end = Py.nonempty_digits (String c s).
Proof.
  intros Hc.
  destruct c as [[|] [|] [|] [|] [|] [|] [|] [|]]; try reflexivity; discriminate.
Qed.

Lemma int_str (n : Z) : Py.int (Py.str n) = Some n.
Proof.
  unfold Py.int. rewrite strip_str.
  destruct n as [| p | p].
  - reflexivity.
  - rewrite str_pos. destruct (uint_string_nonempty p) as (c & s & E & Hc).
    rewrite E, (sign_dispatch c s Hc), <- E. apply nonempty_digits_uint.
  - rewrite str_neg. rewrite nonempty_digits_uint. reflexivity.
Qed.

End PyFacts.

(* ===================================================================== *)
(** * The counter lock: taking, giving back, timeouts and the heartbeat *)

Module LockMore.
Import Lock LockSpec LockFacts PyFacts.

Section WithProcess.
Variable me : process.

(** ** The heartbeat record, written and read *)

Lemma third_field_record (now : Z) :
  ~ In "009"%char (list_ascii_of_string (hostname me)) ->
  third_field (record_of me now) = Some (Py.str now).
Proof.
  intros Hh. unfold third_field, record_of, TAB.
  rewrite !append_String, !append_nil_l.
  rewrite split_max_cut by exact Hh.
  rewrite split_max_cut by (apply str_no_char; [reflexivity | discriminate]).
  rewrite split_max_cut by (apply str_no_char; [reflexivity | discriminate]).
  reflexivity.
Qed.

(** X1.  The record that [update_heartbeat] writes for a lock just
    taken is one that [check_holder_alive] can read: the holder counts
    as alive in every second before the sixtieth after the record's
    time, and as dead from then on. *)
Theorem written_heartbeat_is_read_back name to ab acq (w : world) :
  ~ In "009"%char (list_ascii_of_string (hostname me)) ->
  exists l1 w1 record,
    update_heartbeat me (Make name true to false acq None None false ab false, w)
    = (Ok tt, (l1, w1))
    /\ counters w1 !! (name +:+ "_heartbeat") = Some record
    /\ forall later,
         check_holder_alive later record
         = Ok ((later <? clock w / 1000)%Z
               || (later - clock w / 1000 <? HEARTBEAT_TIMEOUT_SECS)%Z).
Proof.
  intros Hh. eexists _, _, (record_of me (clock w / 1000)).
  split; [apply update_heartbeat_first |]. split.
  - cbn [server counters]. apply lookup_insert_eq.
  - intros later. unfold check_holder_alive.
    pose proof (third_field_record (clock w / 1000) Hh) as Hf.
    unfold third_field in Hf. rewrite Hf, int_str. reflexivity.
Qed.

(** ** Taking and giving back a free lock *)

Ltac fields :=
  cbn [counter_name has timeout_secs log_timer acquisition_time heartbeat_time
       heartbeat_content_ heartbeat_only auto_beat pacemaker_event fst snd].

Lemma held_duration_run (l : t) (w : world) :
  _held_duration (l, w)
  = (Ok (match acquisition_time l with
         | Some t0 => if (t0 =? 0)%Z then 0 else clock w - t0
         | None => 0
         end)%Z, (l, w)).
Proof.
  unfold _held_duration. step.
  destruct (acquisition_time l) as [t0 |]; [| reflexivity].
  destruct (t0 =? 0)%Z; [reflexivity |]. step. reflexivity.
Qed.

Lemma release_held name to ab (w : world) t0 hbt content v1 v2 :
  counters w !! name = Some v1 ->
  counters w !! (name +:+ "_heartbeat") = Some v2 ->
  (clock w - t0 < _log_timer_duration_seconds * 1000)%Z ->
  let hb := name +:+ "_heartbeat" in
  release me (Make name true to true (Some t0) hbt content false ab ab, w)
  = (Ok true,
     (Make name false to false (Some t0) hbt content false ab false,
      server (delete name (delete hb (counters w))) w
        ((if ab then [PacemakerStop] else [])
         ++ [LogTimerCancel; CounterDelete hb; CounterDelete name]))).
Proof.
  intros H1 H2 Hheld hb.
  assert (Hdiff : hb <> name) by apply heartbeat_name_differs.
  assert (Hshort : (_log_timer_duration_seconds * 1000
                    <=? (if (t0 =? 0) then 0 else clock w - t0))%Z = false).
  { apply Z.leb_gt. destruct (t0 =? 0)%Z; [reflexivity | exact Hheld]. }
  unfold release.
  step. fields. cbn [orb negb when].
  destruct ab.
  - step_with ltac:(unfold _stop_pacemaker; step; fields; step; reflexivity).
    fields.
    step_with ltac:(unfold _destroy_log_timer; step; fields; step; reflexivity).
    fields.
    step_with ltac:(apply held_duration_run). fields.
    cbn [clock]. rewrite Hshort. cbn [when]. step.
    step_with ltac:(unfold clear_heartbeat; step; unfold suppress_P4, try_except_P4;
                    erewrite counter_delete_run by (norm; exact H2); reflexivity).
    step_with ltac:(eapply counter_delete_run; norm;
                    rewrite lookup_delete_ne by exact Hdiff; exact H1).
    step. norm. reflexivity.
  - step_with ltac:(unfold _stop_pacemaker; step; fields; reflexivity).
    fields.
    step_with ltac:(unfold _destroy_log_timer; step; fields; step; reflexivity).
    fields.
    step_with ltac:(apply held_duration_run). fields.
    cbn [clock]. rewrite Hshort. cbn [when]. step.
    step_with ltac:(unfold clear_heartbeat; step; unfold suppress_P4, try_except_P4;
                    erewrite counter_delete_run by (norm; exact H2); reflexivity).
    step_with ltac:(eapply counter_delete_run; norm;
                    rewrite lookup_delete_ne by exact Hdiff; exact H1).
    step. norm. reflexivity.
Qed.

(** X2.  A lock whose counter does not exist is taken in the first
    pass of [acquire], whatever the timeout: the lock counter becomes 1,
    the heartbeat counter carries the holder's record.  A [release]
    that follows deletes both counters again and leaves every other
    counter as it was; neither call sleeps. *)
Theorem free_lock_is_taken_and_given_back name to ab timeout fuel (w : world) :
  counters w !! name = None ->
  let hb := name +:+ "_heartbeat" in
  exists l1 w1 l2 w2 es,
    acquire me (S fuel) timeout (fresh name to ab, w) = Some (Ok tt, (l1, w1))
    /\ has l1 = true
    /\ counters w1 !! name = Some "1"
    /\ counters w1 !! hb = Some (record_of me (clock w / 1000))
    /\ release me (l1, w1) = (Ok true, (l2, w2))
    /\ has l2 = false
    /\ counters w2 = delete hb (counters w)
    /\ events w2 = events w ++ es
    /\ Forall (fun e => is_sleep e = false) es.
Proof.
  intros Hfree hb.
  assert (Hdiff : hb <> name) by apply heartbeat_name_differs.
  pose (now := (clock w / 1000)%Z).
  pose (c1 := <[hb := record_of me now]> (<[name := "1"]> (counters w))).
  pose (w1 := server c1 w ([CounterIncrement name; CounterSet hb (record_of me now)]
                           ++ (if ab then [PacemakerStart name] else []) ++ [LogTimerStart])).
  assert (Hacq : acquire me (S fuel) timeout (fresh name to ab, w)
                 = Some (Ok tt, (Make name true to true (Some (clock w)) (Some now)
                                      (Some (record_of me now)) false ab ab, w1))).
  { unfold acquire. cbn [fst snd heartbeat_only fresh].
    rewrite acquire_loop_S. rewrite pass_acquires by exact Hfree. reflexivity. }
  assert (Hn : c1 !! name = Some "1").
  { unfold c1. rewrite lookup_insert_ne by exact Hdiff. apply lookup_insert_eq. }
  assert (Hh : c1 !! hb = Some (record_of me now)) by apply lookup_insert_eq.
  pose proof (release_held name to ab w1 (clock w) (Some now) (Some (record_of me now))
                "1" (record_of me now) Hn Hh) as Hrel.
  cbn zeta in Hrel.
  eexists _, w1, _, _, _.
  split; [exact Hacq |]. split; [reflexivity |].
  split; [exact Hn |]. split; [exact Hh |].
  split; [apply Hrel; cbn [w1 server clock]; rewrite Z.sub_diag; reflexivity |].
  split; [reflexivity |]. split; [| split].
  - cbn [server counters w1]. unfold c1.
    rewrite delete_insert_eq.
    rewrite delete_insert_ne by exact Hdiff.
    rewrite delete_insert_eq.
    apply delete_id. rewrite lookup_delete_ne by exact Hdiff. exact Hfree.
  - cbn [server events w1]. rewrite <- !app_assoc. reflexivity.
  - destruct ab; repeat constructor.
Qed.

(** X3.  A negative timeout means one attempt: when the counter is
    taken and the holder's record counts as alive, [acquire] raises the
    timeout error in its first pass, after one increment of the lock
    counter and two readings of the heartbeat counter.  It has not
    slept and has deleted nothing. *)
Theorem negative_timeout_tries_once (l : t) (w : world) secs fuel n holder :
  (secs < 0)%Z ->
  heartbeat_only l = false ->
  counter_number (default "0" (counters w !! counter_name l)) = Some n ->
  (1 <= n)%Z ->
  counters w !! heartbeat_counter_name l = Some holder ->
  Py.truthy holder = true -> holder <> "0" ->
  check_holder_alive (clock w / 1000) holder = Ok true ->
  acquire me (S fuel) (Some secs) (l, w)
  = Some (Raise (RuntimeError (timeout_message (counter_name l) (Some holder))),
          (with_has false l,
           server (<[counter_name l := Py.str (n + 1)]> (counters w)) w
             [CounterIncrement (counter_name l);
              CounterGet (heartbeat_counter_name l);
              CounterGet (heartbeat_counter_name l)])).
Proof.
  intros Hneg Hhbo Hn Hge Hhb Ht H0 Halive.
  unfold acquire. cbn [fst snd]. rewrite Hhbo.
  rewrite acquire_loop_S.
  rewrite (pass_waits me l w (clock w) (Some secs) n holder Hn Hge Hhb Ht H0 Halive).
  unfold timed_out. rewrite Z.sub_diag.
  replace (negb (secs =? 0)%Z && (secs * 1000 <=? 0)%Z) with true; [reflexivity |].
  symmetry. apply andb_true_iff. split.
  - apply negb_true_iff, Z.eqb_neq. lia.
  - apply Z.leb_le. lia.
Qed.

Lemma loop_never_ends (timeout : option Z) (holder : string) :
  timed_out timeout = (fun _ => false) ->
  Py.truthy holder = true -> holder <> "0" ->
  (forall now, check_holder_alive now holder = Ok true) ->
  forall fuel start (l : t) (w : world) n,
    counter_number (default "0" (counters w !! counter_name l)) = Some n ->
    (1 <= n)%Z ->
    counters w !! heartbeat_counter_name l = Some holder ->
    acquire_loop me fuel start timeout (l, w) = None.
Proof.
  intros Hto Ht H0 Halive.
  induction fuel as [| fuel IH]; intros start l w n Hn Hge Hhb; [reflexivity |].
  rewrite acquire_loop_S.
  rewrite (pass_waits me l w start timeout n holder Hn Hge Hhb Ht H0 (Halive _)).
  rewrite Hto.
  apply (IH start (with_has false l) _ (n + 1)%Z).
  - cbn [counters counter_name with_has]. rewrite lookup_insert_eq. cbn [from_option id].
    apply counter_number_str.
  - lia.
  - cbn [counters]. unfold heartbeat_counter_name. cbn [counter_name with_has].
    rewrite lookup_insert_ne; [exact Hhb |].
    intros E. symmetry in E. now apply heartbeat_name_differs in E.
Qed.

(** X4.  A timeout of [None] or of 0 means forever: as long as the
    counter is taken and the holder's record counts as alive, [acquire]
    neither returns nor raises, however many passes it is given. *)
Theorem no_timeout_waits_forever (timeout : option Z) (holder : string)
    (l : t) (w : world) n fuel :
  timeout = None \/ timeout = Some 0%Z ->
  heartbeat_only l = false ->
  counter_number (default "0" (counters w !! counter_name l)) = Some n ->
  (1 <= n)%Z ->
  counters w !! heartbeat_counter_name l = Some holder ->
  Py.truthy holder = true -> holder <> "0" ->
  (forall now, check_holder_alive now holder = Ok true) ->
  acquire me fuel timeout (l, w) = None.
Proof.
  intros Hto Hhbo Hn Hge Hhb Ht H0 Halive.
  unfold acquire. cbn [fst snd]. rewrite Hhbo.
  apply (loop_never_ends timeout holder) with (n := n); try assumption.
  destruct Hto as [-> | ->]; reflexivity.
Qed.

Lemma heartbeat_content_kept (l : t) (w : world) t0 :
  heartbeat_time l = Some t0 -> t0 <> 0%Z -> (clock w / 1000 - t0 < HEART_RATE)%Z ->
  heartbeat_content me (l, w) = (Ok (heartbeat_content_ l, heartbeat_content_ l), (l, w)).
Proof.
  intros Ht Hnz Hlt. unfold heartbeat_content. step. step. rewrite Ht.
  apply Z.eqb_neq in Hnz. apply Z.ltb_lt in Hlt. rewrite Hnz, Hlt. reflexivity.
Qed.

Lemma heartbeat_content_first (l : t) (w : world) :
  heartbeat_time l = None ->
  heartbeat_content me (l, w)
  = (Ok (Some (record_of me (clock w / 1000)), heartbeat_content_ l),
     (Make (counter_name l) (has l) (timeout_secs l) (log_timer l) (acquisition_time l)
           (Some (clock w / 1000)%Z) (Some (record_of me (clock w / 1000)))
           (heartbeat_only l) (auto_beat l) (pacemaker_event l), w)).
Proof.
  intros Ht. unfold heartbeat_content. step. step. rewrite Ht. step. reflexivity.
Qed.

(** X5.  The heartbeat is written at most once a second: after the
    first [update_heartbeat] of a holder, a second one in the same
    second (of a clock past second 0) sends nothing to the server and
    leaves the lock object as it is; and a lock object that neither
    holds the lock nor is heartbeat-only never writes. *)
Theorem heartbeat_is_written_once_a_second name to ab acq (w : world) :
  (1000 <= clock w)%Z ->
  exists l1 w1,
    update_heartbeat me (Make name true to false acq None None false ab false, w)
    = (Ok tt, (l1, w1))
    /\ (forall w2, (clock w2 / 1000 = clock w / 1000)%Z ->
                   update_heartbeat me (l1, w2) = (Ok tt, (l1, w2)))
    /\ (forall w2, update_heartbeat me (with_has false l1, w2)
                   = (Ok tt, (with_has false l1, w2))).
Proof.
  intros Hclock.
  assert (Hnow : (clock w / 1000 <> 0)%Z).
  { pose proof (Z.div_le_mono 1000 (clock w) 1000 ltac:(lia) Hclock) as Hd.
    change (1000 / 1000)%Z with 1%Z in Hd. lia. }
  eexists _, _. split; [apply update_heartbeat_first |]. split.
  - intros w2 Hsame. unfold update_heartbeat.
    step. fields. cbn [orb negb].
    step_with ltac:(apply (heartbeat_content_kept _ w2 (clock w / 1000));
                    [reflexivity | exact Hnow | rewrite Hsame, Z.sub_diag; reflexivity]).
    fields. rewrite bool_decide_eq_false_2 by (intros Hd; apply Hd; reflexivity).
    reflexivity.
  - intros w2. reflexivity.
Qed.

(** X6.  A heartbeat-only lock object leaves the lock counter alone:
    its [acquire] returns at once and does nothing, its [release]
    answers [False] and deletes nothing, and its [update_heartbeat]
    writes the heartbeat counter although it does not hold the lock. *)
Theorem heartbeat_only_lock_leaves_the_lock_counter name to (w : world) fuel timeout :
  let l := __init__ name to true in
  let now := (clock w / 1000)%Z in
  acquire me fuel timeout (l, w) = Some (Ok tt, (l, w))
  /\ release me (l, w) = (Ok false, (l, w))
  /\ update_heartbeat me (l, w)
     = (Ok tt,
        (Make name false to false None (Some now) (Some (record_of me now)) true false false,
         server (<[name +:+ "_heartbeat" := record_of me now]> (counters w)) w
           [CounterSet (name +:+ "_heartbeat") (record_of me now)])).
Proof.
  intros l now. split; [reflexivity |]. split.
  - unfold release, l, __init__. step. fields. cbn [orb negb when].
    step_with ltac:(unfold _stop_pacemaker; step; fields; reflexivity).
    reflexivity.
  - unfold update_heartbeat, l, __init__. step. fields. cbn [orb negb].
    step_with ltac:(apply heartbeat_content_first; reflexivity).
    fields. rewrite bool_decide_eq_true_2 by discriminate.
    unfold counter_set, heartbeat_counter_name. fields.
    unfold bind, emit, set_counters, modify, ret. norm.
    reflexivity.
Qed.

End WithProcess.

Lemma written_heartbeat_is_read_back_witness :
  exists l1 w1 record,
    update_heartbeat demo_process
      (Make demo_lock_name true None false None None None false true false,
       held_server stale_record)
    = (Ok tt, (l1, w1))
    /\ counters w1 !! (demo_lock_name +:+ "_heartbeat") = Some record
    /\ forall later,
         check_holder_alive later record
         = Ok ((later <? clock (held_server stale_record) / 1000)%Z
               || (later - clock (held_server stale_record) / 1000
                   <? HEARTBEAT_TIMEOUT_SECS)%Z).
Proof.
  apply (written_heartbeat_is_read_back demo_process demo_lock_name None true None
           (held_server stale_record)).
  vm_compute. intuition discriminate.
Defined.

Lemma free_lock_is_taken_and_given_back_witness :
  exists l1 w1 l2 w2 es,
    acquire demo_process 1 (Some LOCK_TIMEOUT_SECS)
      (fresh demo_lock_name (Some LOCK_TIMEOUT_SECS) true, World ∅ 2000000 [])
    = Some (Ok tt, (l1, w1))
    /\ has l1 = true
    /\ counters w1 !! demo_lock_name = Some "1"
    /\ counters w1 !! (demo_lock_name +:+ "_heartbeat") = Some (record_of demo_process 2000)
    /\ release demo_process (l1, w1) = (Ok true, (l2, w2))
    /\ has l2 = false
    /\ counters w2 = delete (demo_lock_name +:+ "_heartbeat") ∅
    /\ events w2 = [] ++ es
    /\ Forall (fun e => is_sleep e = false) es.
Proof.
  apply (free_lock_is_taken_and_given_back demo_process demo_lock_name
           (Some LOCK_TIMEOUT_SECS) true (Some LOCK_TIMEOUT_SECS) 0
           (World ∅ 2000000 [])).
  apply lookup_empty.
Defined.

Lemma negative_timeout_tries_once_witness :
  acquire demo_process 1 (Some (-1)%Z) (view_lock "demo", held_server malformed_record)
  = Some (Raise (RuntimeError (timeout_message demo_lock_name (Some malformed_record))),
          (with_has false (view_lock "demo"),
           server (<[demo_lock_name := "2"]> (counters (held_server malformed_record)))
             (held_server malformed_record)
             [CounterIncrement demo_lock_name;
              CounterGet (demo_lock_name +:+ "_heartbeat");
              CounterGet (demo_lock_name +:+ "_heartbeat")])).
Proof.
  apply (negative_timeout_tries_once demo_process (view_lock "demo")
           (held_server malformed_record) (-1)%Z 0 1%Z malformed_record).
  - lia.
  - reflexivity.
  - vm_compute. reflexivity.
  - lia.
  - vm_compute. reflexivity.
  - reflexivity.
  - discriminate.
  - vm_compute. reflexivity.
Defined.

Lemma no_timeout_waits_forever_witness :
  acquire demo_process 50 None (view_lock "demo", held_server malformed_record) = None.
Proof.
  apply (no_timeout_waits_forever demo_process None malformed_record (view_lock "demo")
           (held_server malformed_record) 1%Z 50).
  - left. reflexivity.
  - reflexivity.
  - vm_compute. reflexivity.
  - lia.
  - vm_compute. reflexivity.
  - reflexivity.
  - discriminate.
  - intros now. vm_compute. reflexivity.
Defined.

Lemma heartbeat_is_written_once_a_second_witness :
  exists l1 w1,
    update_heartbeat demo_process
      (Make demo_lock_name true None false None None None false true false,
       World ∅ 2000000 [])
    = (Ok tt, (l1, w1))
    /\ (forall w2, (clock w2 / 1000 = clock (World ∅ 2000000 []) / 1000)%Z ->
                   update_heartbeat demo_process (l1, w2) = (Ok tt, (l1, w2)))
    /\ (forall w2, update_heartbeat demo_process (with_has false l1, w2)
                   = (Ok tt, (with_has false l1, w2))).
Proof.
  apply (heartbeat_is_written_once_a_second demo_process demo_lock_name None true None
           (World ∅ 2000000 [])).
  cbn [clock]. lia.
Defined.

End LockMore.

(* ===================================================================== *)
(** * The conflict checker: agreement, and the first disagreement *)

Module ConflictCheckerMore.
Import ConflictChecker ConflictCheckerSpec.

Lemma known_numbers (l : list (string * string)) :
  map p4_changelist_number (known_of l) = map Some (map snd l).
Proof.
  unfold known_of. rewrite !map_map. reflexivity.
Qed.

Lemma in_changes_head c cs : in_changes (Some c) (c :: cs) = true.
Proof.
  unfold in_changes. cbn [existsb same_change]. rewrite String.eqb_refl. reflexivity.
Qed.

(** The known elements that the server did not report are dropped from
    the front, up to the first one that it did report. *)
Lemma skip_old_app (old recent : list (option string)) (changes : list string) :
  Forall (fun g => in_changes g changes = false) old ->
  match recent with
  | [] => True
  | g :: _ => in_changes g changes = true
  end ->
  skip_old (old ++ recent) changes = recent.
Proof.
  intros Hold Hrecent. induction Hold as [| g old Hg _ IH]; cbn [app].
  - destruct recent as [| g rest]; [reflexivity |]. cbn [skip_old].
    rewrite Hrecent. reflexivity.
  - cbn [skip_old]. rewrite Hg. exact IH.
Qed.

Lemma lockstep_same (cs : list string) : forall k,
  lockstep (map Some cs) cs k = FellOff [] [] (k + length cs).
Proof.
  induction cs as [| c cs IH]; intros k; cbn [map lockstep length].
  - rewrite Nat.add_0_r. reflexivity.
  - cbn [same_change]. rewrite String.eqb_refl, IH. f_equal. lia.
Qed.

(** The walk over agreeing changelists stops at the first known
    element that the report does not continue with. *)
Lemma lockstep_disagrees (agreed : list string) g rest tail_ : forall k,
  match tail_ with
  | [] => True
  | c :: _ => same_change g c = false
  end ->
  match lockstep (map Some agreed ++ g :: rest) (agreed ++ tail_) k with
  | Mismatch n => n = k + length agreed
  | FellOff (_ :: _) _ n => n = k + length agreed
  | FellOff [] _ _ => False
  end.
Proof.
  induction agreed as [| c cs IH]; intros k Ht; cbn [map app lockstep length].
  - destruct tail_ as [| c more].
    + lia.
    + rewrite Ht. lia.
  - cbn [same_change]. rewrite String.eqb_refl.
    specialize (IH (S k) Ht).
    destruct (lockstep (map Some cs ++ g :: rest) (cs ++ tail_) (S k)) as [n | [| ? ?] ? n];
      [lia | exact IH | lia].
Qed.

Section WithEnv.
Context `{Env}.

Lemma find_conflict_index_agrees old recent rows fci lg (i : io) :
  ObjectType.map_res change_of (rev rows) = Ok (map snd recent) ->
  Forall (fun e => in_changes (p4_changelist_number e) (map snd recent) = false) old ->
  let known := old ++ known_of recent in
  find_conflict_index rows (Make known fci lg, i)
  = (Ok None,
     (Make known fci (match last known with
                      | Some e => p4_changelist_number e
                      | None => lg
                      end), i)).
Proof.
  intros Hrows Hold known.
  unfold find_conflict_index.
  step. cbn [good].
  rewrite Hrows. cbn [ObjectType.lift_res]. step.
  unfold known at 1. rewrite map_app, known_numbers.
  rewrite skip_old_app.
  - rewrite lockstep_same. cbn [last].
    destruct (last known) as [e |]; [| reflexivity].
    step. reflexivity.
  - induction Hold; constructor; assumption.
  - destruct recent as [| [sha c] rest]; [exact I | apply in_changes_head].
Qed.

(** X7.  No foreign changelist: when the changelists that the server
    reports are, oldest first, exactly those of the most recent known
    commits, and no older known commit is among them, [check] returns
    [None], reports no conflict afterwards, and remembers the changelist
    of the last known commit as the last good one. *)
Theorem check_finds_no_conflict ctx old recent rows msgs fci lg (i : io) w :
  (forall cmd, ext (P4Run CtxP4 cmd) (world i) = (RResults rows msgs, w)) ->
  ObjectType.map_res change_of (rev rows) = Ok (map snd recent) ->
  Forall (fun e => in_changes (p4_changelist_number e) (map snd recent) = false) old ->
  let known := old ++ known_of recent in
  exists c' i',
    check ctx (Make known fci lg, i) = (Ok None, (c', i'))
    /\ good c' = known
    /\ has_conflict c' = false
    /\ last_good_change_number c'
       = match last known with
         | Some e => p4_changelist_number e
         | None => lg
         end.
Proof.
  intros Hq Hrows Hold known.
  eexists _, _. split; [| split; [| split]].
  - unfold check.
    step. cbv zeta beta.
    step_with ltac:(unfold io_, zoom; cbn [fst snd];
                    rewrite (p4_run_results _ _ _ _ _ _ (Hq _)); reflexivity).
    step_with ltac:(apply find_conflict_index_agrees; assumption).
    step. reflexivity.
  - reflexivity.
  - reflexivity.
  - reflexivity.
Qed.

Lemma find_conflict_index_disagrees old agreed e rest tail_ rows fci lg (i : io) :
  ObjectType.map_res change_of (rev rows) = Ok (map snd agreed ++ tail_) ->
  Forall (fun g => in_changes (p4_changelist_number g) (map snd agreed ++ tail_) = false)
         old ->
  agreed <> [] ->
  match tail_ with
  | [] => True
  | c :: _ => same_change (p4_changelist_number e) c = false
  end ->
  let known := old ++ known_of agreed ++ e :: rest in
  find_conflict_index rows (Make known fci lg, i)
  = (Ok (Some (length agreed)), (Make known fci lg, i)).
Proof.
  intros Hrows Hold Hne Htail known.
  unfold find_conflict_index.
  step. cbn [good].
  rewrite Hrows. cbn [ObjectType.lift_res]. step.
  unfold known. rewrite !map_app, known_numbers. cbn [map].
  rewrite skip_old_app.
  - pose proof (lockstep_disagrees (map snd agreed) (p4_changelist_number e)
                  (map p4_changelist_number rest) tail_ 0 Htail) as Hl.
    rewrite length_map in Hl.
    destruct (lockstep _ _ 0) as [n | [| ? ?] ? n]; [subst n | contradiction | subst n];
      reflexivity.
  - induction Hold; constructor; assumption.
  - destruct agreed as [| [sha c] more]; [contradiction |]. apply in_changes_head.
Qed.

(** X8.  The first disagreement.  The server's report (oldest first)
    agrees with a non-empty run of known commits and then either ends,
    although a further commit [e] is known, or goes on with a
    changelist that is not the one of [e].  Then [check] stores the
    number of agreeing changelists as the conflict index, so that
    [has_conflict] is true, and returns the changelist number of the
    known commit at that index of its list.  When no older known
    commit was skipped, this is the changelist of [e], the first commit
    that does not match. *)
Theorem check_returns_the_commit_at_the_conflict_index
    ctx old agreed e rest tail_ rows msgs fci lg (i : io) w :
  (forall cmd, ext (P4Run CtxP4 cmd) (world i) = (RResults rows msgs, w)) ->
  ObjectType.map_res change_of (rev rows) = Ok (map snd agreed ++ tail_) ->
  Forall (fun g => in_changes (p4_changelist_number g) (map snd agreed ++ tail_) = false)
         old ->
  agreed <> [] ->
  match tail_ with
  | [] => True
  | c :: _ => same_change (p4_changelist_number e) c = false
  end ->
  let known := old ++ known_of agreed ++ e :: rest in
  exists x c' i',
    Py.index known (length agreed) = Some x
    /\ check ctx (Make known fci lg, i) = (Ok (p4_changelist_number x), (c', i'))
    /\ good c' = known
    /\ first_conflict_index c' = Some (length agreed)
    /\ has_conflict c' = true
    /\ (old = [] -> x = e).
Proof.
  intros Hq Hrows Hold Hne Htail known.
  assert (Hlen : length agreed < length known).
  { unfold known, known_of. rewrite !length_app, length_map. cbn [length]. lia. }
  destruct (nth_error known (length agreed)) as [x |] eqn:Hx.
  2:{ apply nth_error_None in Hx. lia. }
  exists x. eexists _, _. split; [exact Hx |].
  split; [| split; [| split; [| split]]].
  - unfold check.
    step. cbv zeta beta.
    step_with ltac:(unfold io_, zoom; cbn [fst snd];
                    rewrite (p4_run_results _ _ _ _ _ _ (Hq _)); reflexivity).
    step_with ltac:(apply (find_conflict_index_disagrees old agreed e rest tail_); assumption).
    step. step. cbn [good]. unfold Py.index. fold known. rewrite Hx. reflexivity.
  - reflexivity.
  - reflexivity.
  - reflexivity.
  - intros ->. unfold known in Hx. cbn [app] in Hx.
    rewrite nth_error_app2 in Hx by (unfold known_of; rewrite length_map; lia).
    unfold known_of in Hx. rewrite length_map, Nat.sub_diag in Hx.
    injection Hx as <-. reflexivity.
Qed.

End WithEnv.

Lemma check_finds_no_conflict_witness :
  let old := [MkCommitChange (Some "c0") (Some "5")] in
  let recent := [("c1", "6"); ("c2", "7")] in
  exists c' i',
    @check scripted demo_ctx
      (Make (old ++ known_of recent) None (Some "5"),
       start_io [RResults [row1 "change" "7"; row1 "change" "6"] []])
    = (Ok None, (c', i'))
    /\ good c' = old ++ known_of recent
    /\ has_conflict c' = false
    /\ last_good_change_number c' = Some "7".
Proof.
  apply (@check_finds_no_conflict scripted demo_ctx
           [MkCommitChange (Some "c0") (Some "5")] [("c1", "6"); ("c2", "7")]
           [row1 "change" "7"; row1 "change" "6"] [] None (Some "5")
           (start_io [RResults [row1 "change" "7"; row1 "change" "6"] []]) []).
  - reflexivity.
  - reflexivity.
  - repeat constructor.
Defined.

Lemma check_returns_the_commit_at_the_conflict_index_witness :
  let e := MkCommitChange (Some "c2") (Some "8") in
  let known := known_of [("c1", "6")] ++ [e] in
  exists c' i',
    @check scripted demo_ctx
      (Make known None (Some "6"),
       start_io [RResults [row1 "change" "8"; row1 "change" "7"; row1 "change" "6"] []])
    = (Ok (Some "8"), (c', i'))
    /\ good c' = known
    /\ first_conflict_index c' = Some 1
    /\ has_conflict c' = true.
Proof.
  intros e known.
  destruct (@check_returns_the_commit_at_the_conflict_index scripted demo_ctx
              [] [("c1", "6")] e [] ["7"; "8"]
              [row1 "change" "8"; row1 "change" "7"; row1 "change" "6"] [] None (Some "6")
              (start_io [RResults [row1 "change" "8"; row1 "change" "7"; row1 "change" "6"] []])
              [])
    as (x & c' & i' & _ & Hrun & Hgood & Hidx & Hc & Hx).
  - reflexivity.
  - reflexivity.
  - constructor.
  - discriminate.
  - reflexivity.
  - exists c', i'. rewrite (Hx eq_refl) in Hrun. auto.
Defined.

End ConflictCheckerMore.

(* ===================================================================== *)
(** * The exporter: escaped paths, refused commits, empty commits *)

Module G2PMore.
Import G2P G2PSpec G2PMoreSpec PyFacts G2PFacts.

(** ** Escaping a path *)

Lemma replace_char_app old new (a b : string) :
  replace_char old new (a +:+ b) = replace_char old new a +:+ replace_char old new b.
Proof.
  induction a as [| c a IH]; [reflexivity |].
  rewrite append_String. cbn [replace_char]. rewrite IH, FastImportFacts.append_assoc. reflexivity.
Qed.

(** What [escape_path] writes for one character. *)
Lemma escape_path_String c (p : string) :
  escape_path (String c p)
  = (if Ascii.eqb c "%" then "%25"
     else if Ascii.eqb c "#" then "%23"
     else if Ascii.eqb c "@" then "%40"
     else if Ascii.eqb c "*" then "%2A"
     else String c "") +:+ escape_path p.
Proof. reflexivity. Qed.

Ltac ascii_cases c :=
  destruct (Ascii.eqb_spec c "%") as [-> | ?];
  [| destruct (Ascii.eqb_spec c "#") as [-> | ?];
     [| destruct (Ascii.eqb_spec c "@") as [-> | ?];
        [| destruct (Ascii.eqb_spec c "*") as [-> | ?]]]].

Lemma replace_char_other old new c (s : string) :
  c <> old ->
  replace_char old new (String c s) = String c (replace_char old new s).
Proof.
  intros Hne. cbn [replace_char].
  destruct (Ascii.eqb_spec c old) as [E | _]; [contradiction | reflexivity].
Qed.

Lemma escape_path_chain_String c (p : string) :
  escape_path_chain (String c p)
  = (if Ascii.eqb c "%" then "%25"
     else if Ascii.eqb c "#" then "%23"
     else if Ascii.eqb c "@" then "%40"
     else if Ascii.eqb c "*" then "%2A"
     else String c "") +:+ escape_path_chain p.
Proof.
  unfold escape_path_chain.
  ascii_cases c.
  - reflexivity.
  - reflexivity.
  - reflexivity.
  - reflexivity.
  - rewrite !replace_char_other by assumption. reflexivity.
Qed.

Lemma escape_path_is_the_chain (p : string) : escape_path_chain p = escape_path p.
Proof.
  induction p as [| c p IH]; [reflexivity |].
  rewrite escape_path_chain_String, escape_path_String, IH. reflexivity.
Qed.

Lemma escape_path_cancel c c' (a b : string) :
  escape_path (String c a) = escape_path (String c' b) ->
  c = c' /\ escape_path a = escape_path b.
Proof.
  rewrite !escape_path_String.
  ascii_cases c; ascii_cases c'; rewrite !append_String, !append_nil_l; intros E;
    try discriminate E;
    try (injection E as E; split; [reflexivity | exact E]);
    try (injection E as E1 E; congruence);
    try (injection E as E1 E; split; [exact E1 | exact E]).
Qed.

Lemma escape_path_nonempty c (p : string) : escape_path (String c p) <> "".
Proof.
  rewrite escape_path_String. ascii_cases c; discriminate.
Qed.

Lemma escape_path_no_special (p : string) :
  Forall (fun c => is_p4_special c = false) (list_ascii_of_string (escape_path p)).
Proof.
  induction p as [| c p IH]; [constructor |].
  rewrite escape_path_String, chars_append.
  apply Forall_app. split; [| exact IH].
  ascii_cases c; cbn; repeat constructor.
  unfold is_p4_special.
  destruct (Ascii.eqb_spec c "#"); [contradiction |].
  destruct (Ascii.eqb_spec c "@"); [contradiction |].
  destruct (Ascii.eqb_spec c "*"); [contradiction | reflexivity].
Qed.

(** X9.  The four replacements of [escape_path], made one after the
    other with the percent sign first, rewrite every character of the
    path exactly once.  The result holds no [#], [@] or [*], so the
    server reads it as a plain path, and two different paths are never
    sent as the same argument. *)
Theorem escape_path_is_faithful :
  (forall p, escape_path_chain p = escape_path p)
  /\ (forall p, Forall (fun c => is_p4_special c = false)
                  (list_ascii_of_string (escape_path_chain p)))
  /\ (forall p q, escape_path_chain p = escape_path_chain q -> p = q).
Proof.
  split; [exact escape_path_is_the_chain |]. split.
  - intros p. rewrite escape_path_is_the_chain. apply escape_path_no_special.
  - intros p q. rewrite !escape_path_is_the_chain. revert q.
    induction p as [| c p IH]; intros [| c' q] E.
    + reflexivity.
    + symmetry in E. now apply escape_path_nonempty in E.
    + now apply escape_path_nonempty in E.
    + apply escape_path_cancel in E as [-> E]. f_equal. exact (IH q E).
Qed.

Section WithEnv.
Context `{H : Env}.

(** ** The author and the file names of a commit *)

Lemma lookup_by_email_run addr (s : t) u w :
  ext (UserMapLookupByEmail addr) (world (g_io s)) = (RUser u, w) ->
  lookup_by_email addr s
  = (Ok u, Make (after (UserMapLookupByEmail addr) w (g_io s))
               (addeditdelete s) (marks s) (checker s)).
Proof.
  intros E. unfold lookup_by_email.
  destruct (io_request (UserMapLookupByEmail addr) s) as (r & w0 & E0 & Hrun).
  rewrite E in E0. injection E0 as <- <-.
  erewrite bind_ok by exact Hrun. reflexivity.
Qed.

Lemma p4user_exists_run u (s : t) b w :
  ext (UserMapP4UserExists u) (world (g_io s)) = (RBool b, w) ->
  p4user_exists u s
  = (Ok b, Make (after (UserMapP4UserExists u) w (g_io s))
               (addeditdelete s) (marks s) (checker s)).
Proof.
  intros E. unfold p4user_exists.
  destruct (io_ask (UserMapP4UserExists u) s) as (r & w0 & E0 & Hrun).
  rewrite E in E0. injection E0 as <- <-. exact Hrun.
Qed.

(** Once [copy_commit] has come to its recovery with nothing queued,
    the commit is refused. *)
Lemma refused_when {A : Type} ctx c (s s1 : t) asked msg :
  (forall e s', revert_and_raise (A := A) ctx msg s1 = (Raise e, s') ->
                copy_commit ctx c s = (Raise e, s')) ->
  addeditdelete s1 = ∅ -> marks s1 = marks s ->
  requests_between s s1 asked ->
  Forall (fun r => opens_or_submits r = false) asked ->
  Py.truthy msg = true ->
  refused ctx c s asked msg.
Proof.
  intros Hstep Hempty Hmarks Htr0 Hq0 Hmsg.
  destruct (revert_and_raise_quiet (A := A) ctx msg s1 Hempty)
    as (e & s' & reqs & Hrun & Htr & Hq & Hb).
  exists e, s', reqs. split; [exact (Hstep e s' Hrun) |].
  split; [| split; [| split]].
  - unfold requests_between in *. rewrite Htr, Htr0, <- app_assoc. reflexivity.
  - apply Forall_app. split; assumption.
  - destruct Hb as (_ & Hm & _). rewrite Hm. exact Hmarks.
  - intros Hcoop.
    destruct (revert_and_raise_recovers (A := A) ctx msg s1 Hcoop)
      as (w1 & w2 & rows & msgs & s'' & _ & _ & Hrun' & Htr' & _).
    { rewrite Hempty. apply adds_are_paths_empty. }
    rewrite Hrun in Hrun'. injection Hrun' as -> <-.
    split.
    + unfold failure. rewrite Hmsg. reflexivity.
    + exists rows. unfold requests_between in *. rewrite Htr in Htr'.
      apply app_inv_head in Htr'. rewrite Htr', Hempty. reflexivity.
Qed.

Lemma not_permitted_truthy (email_ : string) :
  Py.truthy ("User '" +:+ email_ +:+ "' not permitted to commit") = true.
Proof. rewrite append_String. reflexivity. Qed.

(** X10.  A commit whose author is unknown is refused: when the user
    map has no Perforce user for the author's e-mail address (angle
    brackets stripped), or names one that does not exist in Perforce,
    [copy_commit] raises after asking the user map only.  Nothing was
    checked out, opened or submitted, the list of marks is unchanged,
    and the error says that the user is not permitted to commit. *)
Theorem unknown_author_is_refused ctx (c : commit) (s : t) :
  merge c = None ->
  let email_ := Py.strip_chars "<>" (email (author c)) in
  let msg := "User '" +:+ email_ +:+ "' not permitted to commit" in
  (forall w,
      ext (UserMapLookupByEmail email_) (world (g_io s)) = (RUser None, w) ->
      refused ctx c s [UserMapLookupByEmail email_] msg)
  /\ (forall u x y w w',
         ext (UserMapLookupByEmail email_) (world (g_io s)) = (RUser (Some (u, x, y)), w) ->
         ext (UserMapP4UserExists u) w = (RBool false, w') ->
         refused ctx c s [UserMapLookupByEmail email_; UserMapP4UserExists u] msg).
Proof.
  intros Hmerge email_ msg.
  set (s0 := Make (g_io s) ∅ (marks s) (checker s)).
  assert (Hnomerge : bool_decide (merge c <> None) = false).
  { apply bool_decide_eq_false_2. intros Hn. exact (Hn Hmerge). }
  split.
  - intros w E.
    pose proof (lookup_by_email_run email_ s0 None w E) as Hlook.
    eapply (refused_when (A := string)) with
      (s1 := Make (after (UserMapLookupByEmail email_) w (g_io s0)) ∅ (marks s) (checker s)).
    + intros e s' Hrun. unfold copy_commit.
      step. rewrite Hnomerge. step.
      fold email_. step_with ltac:(exact Hlook).
      erewrite bind_raise by exact Hrun. reflexivity.
    + reflexivity.
    + reflexivity.
    + reflexivity.
    + repeat constructor.
    + apply not_permitted_truthy.
  - intros u x y w w' E E'.
    pose proof (lookup_by_email_run email_ s0 _ w E) as Hlook.
    set (s1 := Make (after (UserMapLookupByEmail email_) w (g_io s0)) ∅ (marks s) (checker s)).
    pose proof (p4user_exists_run u s1 false w' E') as Hex.
    eapply (refused_when (A := string)) with
      (s1 := Make (after (UserMapP4UserExists u) w' (g_io s1)) ∅ (marks s) (checker s)).
    + intros e s' Hrun. unfold copy_commit.
      step. rewrite Hnomerge. step.
      fold email_. step_with ltac:(exact Hlook).
      erewrite bind_raise; [reflexivity |].
      cbv beta iota. step_with ltac:(exact Hex).
      exact Hrun.
    + reflexivity.
    + reflexivity.
    + unfold requests_between. cbn [g_io trace after s1 s0]. rewrite <- app_assoc. reflexivity.
    + repeat constructor.
    + apply not_permitted_truthy.
Qed.

(** The file names are looked at one by one; the first bad one ends
    the commit. *)
Lemma names_checked_up_to ctx (good_ : list blob) b rest err (s : t) :
  Forall (fun b => check_valid_filename (path b) = None) good_ ->
  check_valid_filename (path b) = Some err ->
  forall e s',
    revert_and_raise (A := unit) ctx err s = (Raise e, s') ->
    for_each (good_ ++ b :: rest) (fun b =>
      match check_valid_filename (path b) with
      | Some err => revert_and_raise ctx err
      | None => ret tt
      end) s = (Raise e, s').
Proof.
  intros Hgood Hbad e s' Hrun.
  induction Hgood as [| g good_ Hg _ IH]; cbn [app for_each].
  - rewrite Hbad. erewrite bind_raise by exact Hrun. reflexivity.
  - rewrite Hg. step. exact IH.
Qed.

(** X11.  A commit that touches a file whose name holds three dots in
    a row is refused.  The author being known, [copy_commit] raises at
    the first such file, before the commit is checked out: it has asked
    the user map only, nothing was opened or submitted, the list of
    marks is unchanged, and the error is "bad filename" with the
    name. *)
Theorem bad_filename_is_refused ctx (c : commit) (s : t) u x y w w' good_ b rest :
  merge c = None ->
  let email_ := Py.strip_chars "<>" (email (author c)) in
  ext (UserMapLookupByEmail email_) (world (g_io s)) = (RUser (Some (u, x, y)), w) ->
  ext (UserMapP4UserExists u) w = (RBool true, w') ->
  files c = good_ ++ b :: rest ->
  Forall (fun b => Py.contains "..." (path b) = false) good_ ->
  Py.contains "..." (path b) = true ->
  refused ctx c s [UserMapLookupByEmail email_; UserMapP4UserExists u]
    ("bad filename: " +:+ path b).
Proof.
  intros Hmerge email_ E E' Hfiles Hgood Hbad.
  set (s0 := Make (g_io s) ∅ (marks s) (checker s)).
  assert (Hnomerge : bool_decide (merge c <> None) = false).
  { apply bool_decide_eq_false_2. intros Hn. exact (Hn Hmerge). }
  pose proof (lookup_by_email_run email_ s0 _ w E) as Hlook.
  set (s1 := Make (after (UserMapLookupByEmail email_) w (g_io s0)) ∅ (marks s) (checker s)).
  pose proof (p4user_exists_run u s1 true w' E') as Hex.
  eapply (refused_when (A := unit)) with
    (s1 := Make (after (UserMapP4UserExists u) w' (g_io s1)) ∅ (marks s) (checker s)).
  - intros e s' Hrun. unfold copy_commit.
    step. rewrite Hnomerge. step.
    fold email_. step_with ltac:(exact Hlook).
    erewrite bind_ok by (cbv beta iota; step_with ltac:(exact Hex); reflexivity).
    rewrite Hfiles.
    erewrite bind_raise; [reflexivity |].
    apply (names_checked_up_to ctx good_ b rest ("bad filename: " +:+ path b)).
    + eapply Forall_impl; [exact Hgood |]. cbn beta. intros g Hg.
      unfold check_valid_filename. rewrite Hg. reflexivity.
    + unfold check_valid_filename. rewrite Hbad. reflexivity.
    + exact Hrun.
  - reflexivity.
  - reflexivity.
  - unfold requests_between. cbn [g_io trace after s1 s0]. rewrite <- app_assoc. reflexivity.
  - repeat constructor.
  - rewrite append_String. reflexivity.
Qed.

(** ** What a commit leaves of the books *)

Section Books.
Variable P : t -> Prop.
Hypothesis P_books : of_the_books P.

Lemma keep_io {A : Type} (m : M io A) : preserves P (io_ m).
Proof.
  intros s r s' HP E. rewrite io_run in E. injection E as <- <-.
  apply P_books. exact HP.
Qed.

Lemma keep_set_table table : preserves P (set_table table).
Proof. intros s r s' HP [= <- <-]. apply P_books. exact HP. Qed.

Lemma keep_setup command_ q : preserves P (setup_p4_command command_ q).
Proof.
  unfold setup_p4_command.
  apply pres_bind; [apply pres_get | intros; apply keep_set_table].
Qed.

Ltac keep tac :=
  pres_with ltac:(first [ tac | apply keep_io | apply keep_set_table | apply keep_setup ]).

Lemma keep_revert_and_raise {A : Type} ctx errmsg :
  preserves P (revert_and_raise (A := A) ctx errmsg).
Proof. unfold revert_and_raise, connect_p4, remove_added_files, unlink. keep fail. Qed.

Lemma keep_p4run ctx cmd : preserves P (_p4run ctx cmd).
Proof. unfold _p4run, check_p4_messages. keep ltac:(apply keep_revert_and_raise). Qed.

Lemma keep_run_p4_commands ctx : preserves P (run_p4_commands ctx).
Proof.
  unfold run_p4_commands, run_p4_command, as_pair, as_path.
  keep ltac:(apply keep_p4run).
Qed.

Lemma keep_copy_blobs ctx blobs : preserves P (copy_blobs ctx blobs).
Proof.
  unfold copy_blobs, rename_blob, copy_blob, add_or_edit_blob, delete_blob,
    _toggle_filetype, fstat_type, ensure_dir, required, lift.
  keep ltac:(first [ apply keep_p4run | apply keep_run_p4_commands ]).
Qed.

Lemma keep_copy_commit ctx c : preserves P (copy_commit ctx c).
Proof.
  unfold copy_commit, replay_files, submit_commit, submit_opened, p4_submit,
    check_protects, lookup_by_email, p4user_exists, lift.
  keep ltac:(first [ apply keep_revert_and_raise | apply keep_copy_blobs ]).
Qed.

End Books.

(** [copy_commit] changes neither the list of marks nor the conflict
    checker. *)
Lemma copy_commit_books ctx c (s s' : t) r :
  copy_commit ctx c s = (r, s') -> marks s' = marks s /\ checker s' = checker s.
Proof.
  intros E.
  apply (keep_copy_commit (fun x => marks x = marks s /\ checker x = checker s)) in E.
  - exact E.
  - intros x i table HP. exact HP.
  - split; reflexivity.
Qed.

(** X12.  A commit that opens nothing is skipped.  When [p4 opened]
    lists no file after the replay, nothing is submitted: the step
    asks for the opened files and returns [None].  And a commit for
    which [copy_commit] returns [None] leaves no trace in the books:
    the loop goes on, no mark is appended, and the conflict checker is
    neither told of the commit nor asked to check. *)
Theorem empty_commit_is_skipped ctx (c : commit) (author_p4user : string) :
  (forall (s : t) msgs w,
      ext (P4Run CtxP4 ["opened"]) (world (g_io s)) = (RResults [] msgs, w) ->
      exists s',
        submit_commit ctx c author_p4user s = (Ok None, s')
        /\ requests_between s s' [P4Run CtxP4 ["opened"]]
        /\ same_books s s')
  /\ (forall (s s1 s2 : t),
         io_ (perform LockHeartbeat) s = (Ok tt, s1) ->
         copy_commit ctx c s1 = (Ok None, s2) ->
         copy_command ctx (CmdCommit c) s = (Ok Next, s2)
         /\ marks s2 = marks s
         /\ checker s2 = checker s).
Proof.
  split.
  - intros s msgs w E.
    eexists. split; [| split].
    + unfold submit_commit, submit_opened, try_except_P4.
      erewrite bind_ok.
      2:{ erewrite bind_ok by (rewrite io_run, (p4_run_results _ _ _ _ _ _ E); reflexivity).
          reflexivity. }
      reflexivity.
    + unfold requests_between. cbn [fst snd g_io].
      rewrite trace_set_messages. reflexivity.
    + repeat split.
  - intros s s1 s2 Hbeat Hcommit.
    split.
    + unfold copy_command. step_with ltac:(exact Hbeat).
      step_with ltac:(exact Hcommit). reflexivity.
    + apply copy_commit_books in Hcommit as [Hm Hc].
      rewrite io_run in Hbeat. injection Hbeat as _ <-.
      cbn [marks checker] in Hm, Hc. split; assumption.
Qed.

(** ** The end of the loop *)

Lemma flush_mirror_asks (s : t) :
  exists flush s' rest,
    flush_mirror s = (flush, s')
    /\ trace (g_io s') = trace (g_io s) ++ MirrorAddCommits (marks s) :: rest
    /\ same_books s s'.
Proof.
  unfold flush_mirror.
  destruct (io_perform (MirrorAddCommits (marks s)) s) as (r1 & w1 & _ & Hrun1).
  set (s1 := Make (after (MirrorAddCommits (marks s)) w1 (g_io s))
                  (addeditdelete s) (marks s) (checker s)) in *.
  destruct (io_perform MirrorAddObjectsToP4 s1) as (r2 & w2 & _ & Hrun2).
  assert (Hsecond : exists flush s',
            io_ (perform MirrorAddObjectsToP4) s1 = (flush, s')
            /\ trace (g_io s') = trace (g_io s)
                 ++ [MirrorAddCommits (marks s); MirrorAddObjectsToP4]
            /\ same_books s s').
  { eexists _, _. split; [exact Hrun2 |]. split; [| repeat split].
    cbn [g_io trace after s1]. rewrite <- app_assoc. reflexivity. }
  destruct Hsecond as (flush & s' & Hrun & Htr & Hb).
  step.
  destruct r1;
    try (erewrite bind_ok by exact Hrun1; rewrite Hrun;
         exists flush, s', [MirrorAddObjectsToP4]; split; [reflexivity | split; assumption]).
  erewrite bind_raise by exact Hrun1.
  eexists _, s1, []. split; [reflexivity |]. split; [reflexivity | repeat split].
Qed.

(** X13.  The mirror is told of the marks however the loop over the
    commands ends: [copy_commands] runs the loop, then hands the marks
    gathered so far to the mirror, and only then lets an error of the
    loop through or raises the conflict error.  An error of the flush
    itself replaces whatever the loop produced. *)
Theorem mirror_is_flushed_however_the_loop_ends ctx (cmds : list command) (s : t) :
  exists loop_ s1 flush s2 rest,
    copy_loop ctx cmds s = (loop_, s1)
    /\ flush_mirror s1 = (flush, s2)
    /\ copy_commands ctx cmds s
       = (after_flush loop_ flush (ConflictChecker.has_conflict (checker s2)), s2)
    /\ trace (g_io s2) = trace (g_io s1) ++ MirrorAddCommits (marks s1) :: rest
    /\ marks s2 = marks s1.
Proof.
  destruct (copy_loop ctx cmds s) as [loop_ s1] eqn:Eloop.
  destruct (flush_mirror_asks s1) as (flush & s2 & rest & Eflush & Htr & Hb).
  exists loop_, s1, flush, s2, rest.
  split; [reflexivity |]. split; [exact Eflush |].
  split; [| split; [exact Htr | apply Hb]].
  unfold copy_commands, try_finally, bind. rewrite Eloop.
  destruct loop_ as [f | e]; cbn [ret]; rewrite Eflush;
    destruct flush as [[] | e']; try reflexivity.
  cbn [after_flush get]. destruct (ConflictChecker.has_conflict (checker s2)); reflexivity.
Qed.

(** ** Marks *)

Lemma substring_all (t : string) : String.substring 0 (String.length t) t = t.
Proof.
  induction t as [| c t IH]; [reflexivity |].
  cbn [String.length String.substring]. rewrite IH. reflexivity.
Qed.

(** [s[1:]] drops the first character. *)
Lemma slice_tail c (t : string) : Py.slice (String c t) (Some 1%Z) None = t.
Proof.
  unfold Py.slice, Py.norm_index. cbn [String.length Z.ltb Z.compare].
  rewrite Z.min_r by lia.
  replace (Z.to_nat (Z.of_nat (S (String.length t)) - 1)) with (String.length t) by lia.
  change (Z.to_nat 1) with 1. cbn [String.substring]. apply substring_all.
Qed.

Lemma mark_round_trip (n sha : string) :
  ~ In " "%char (list_ascii_of_string n) ->
  ~ In " "%char (list_ascii_of_string sha) ->
  mark_to_commit_changelist (":" +:+ n +:+ " " +:+ sha) = Ok (sha, n).
Proof.
  intros Hn Hsha. unfold mark_to_commit_changelist.
  rewrite (append_String ":" "" _), append_nil_l, slice_tail.
  rewrite (append_String " " "" sha), append_nil_l.
  rewrite split_cut by exact Hn. rewrite split_no_sep by exact Hsha. reflexivity.
Qed.

Lemma revert_and_raise_never_returns {A : Type} ctx errmsg (s s' : t) (x : A) :
  revert_and_raise ctx errmsg s <> (Ok x, s').
Proof.
  unfold revert_and_raise. intros E.
  apply bind_ok_inv in E as (p4 & s1 & _ & E).
  apply bind_ok_inv in E as ([] & s2 & _ & E).
  apply bind_ok_inv in E as ([] & s3 & _ & E).
  discriminate.
Qed.

Lemma io_perform_trace c (s s' : t) r :
  io_ (perform c) s = (r, s') -> trace (g_io s') = trace (g_io s) ++ [c].
Proof.
  rewrite io_run. intros [= _ <-]. cbn [g_io]. apply perform_trace.
Qed.

Lemma io_p4_run_returns c cmd (s s' : t) rows :
  io_ (p4_run c cmd) s = (Ok rows, s') ->
  exists msgs w,
    ext (P4Run c cmd) (world (g_io s)) = (RResults rows msgs, w)
    /\ trace (g_io s') = trace (g_io s) ++ [P4Run c cmd].
Proof.
  rewrite io_run. unfold p4_run, bind.
  destruct (ext (P4Run c cmd) (world (g_io s))) as [rp w] eqn:Ew.
  rewrite (request_answer _ _ _ _ Ew).
  destruct rp; try discriminate. cbn [fst snd modify ret].
  intros [= <- <-]. exists msgs, w. split; [reflexivity |].
  cbn [g_io]. rewrite trace_set_messages. reflexivity.
Qed.

(** A submit that returns: the number comes from the answer of the
    server, and the change of that number is fetched and saved. *)
Lemma p4_submit_returns desc author_ author_date (s s' : t) n :
  p4_submit desc author_ author_date s = (Ok n, s') ->
  exists rows msgs w,
    ext (P4Run CtxP4 ["submit"; "-d"; desc]) (world (g_io s)) = (RResults rows msgs, w)
    /\ changelist_from_submit_result rows = Ok n
    /\ requests_between s s'
         [ P4Run CtxP4 ["submit"; "-d"; desc]; P4FetchChange CtxP4 n;
           P4SaveChange CtxP4 n author_ author_date ].
Proof.
  unfold p4_submit. intros E.
  apply bind_ok_inv in E as (rows & s1 & E1 & E).
  apply bind_ok_inv in E as (n' & s2 & E2 & E).
  apply bind_ok_inv in E as ([] & s3 & E3 & E).
  apply bind_ok_inv in E as ([] & s4 & E4 & E).
  injection E as <- <-.
  unfold lift, ObjectType.lift_res in E2.
  destruct (changelist_from_submit_result rows) as [n0 |] eqn:En; [| discriminate].
  injection E2 as <- <-.
  apply io_p4_run_returns in E1 as (msgs & w & Ew & Ht1).
  apply io_perform_trace in E3, E4.
  exists rows, msgs, w. split; [exact Ew |]. split; [exact En |].
  unfold requests_between. rewrite E4, E3, Ht1, <- !app_assoc. reflexivity.
Qed.

(** X14.  The mark of a submitted commit carries the changelist that
    the server named, and is read back as it was written.  When
    [copy_commit] returns a mark, the last requests of the commit
    were [p4 submit] with the description of the commit and, for the
    changelist number that [changelist_from_submit_result] found in
    the answer, fetching and saving that change with the author and
    the author's date; the mark is a colon, that number, a space and
    the commit's sha1; and [mark_to_commit_changelist] finds both
    again, provided that neither holds a space. *)
Theorem submitted_mark_is_read_back ctx (c : commit) (s s' : t) m :
  copy_commit ctx c s = (Ok (Some m), s') ->
  exists author_p4user n s1 rows msgs w,
    let desc := change_description c (authenticated_p4user ctx) author_p4user in
    ext (P4Run CtxP4 ["submit"; "-d"; desc]) (world (g_io s1)) = (RResults rows msgs, w)
    /\ changelist_from_submit_result rows = Ok n
    /\ requests_between s1 s'
         [ P4Run CtxP4 ["submit"; "-d"; desc]; P4FetchChange CtxP4 n;
           P4SaveChange CtxP4 n author_p4user (date (author c)) ]
    /\ m = ":" +:+ Py.str_opt n +:+ " " +:+ sha1 c
    /\ (~ In " "%char (list_ascii_of_string (Py.str_opt n)) ->
        ~ In " "%char (list_ascii_of_string (sha1 c)) ->
        mark_to_commit_changelist m = Ok (sha1 c, Py.str_opt n)).
Proof.
  unfold copy_commit. intros E.
  apply bind_ok_inv in E as ([] & s1 & _ & E).
  apply bind_ok_inv in E as ([] & s2 & _ & E).
  apply bind_ok_inv in E as (found & s3 & _ & E).
  apply bind_ok_inv in E as (author_p4user & s4 & _ & E).
  apply bind_ok_inv in E as ([] & s5 & _ & E).
  apply bind_ok_inv in E as ([rc out] & s6 & _ & E).
  apply bind_ok_inv in E as ([] & s7 & _ & E).
  apply bind_ok_inv in E as ([] & s8 & _ & E).
  apply bind_ok_inv in E as ([] & s9 & _ & E).
  unfold submit_commit in E.
  apply bind_ok_inv in E as (changenum & s10 & Etry & E).
  destruct changenum as [n |]; [| discriminate].
  injection E as <- <-.
  unfold try_except_P4 in Etry.
  destruct (submit_opened ctx c author_p4user s9) as [[x | e] sx] eqn:Eopened.
  2:{ destruct e; try discriminate. now apply revert_and_raise_never_returns in Etry. }
  injection Etry as -> ->.
  unfold submit_opened in Eopened.
  apply bind_ok_inv in Eopened as (opened & sa & Ea & Eopened).
  destruct (negb (bool_decide (opened = []))); [| discriminate].
  apply bind_ok_inv in Eopened as (n' & sb & Esubmit & Eret).
  injection Eret as -> ->.
  destruct (p4_submit_returns _ _ _ _ _ _ Esubmit) as (rows & msgs & w & Ew & En & Htr).
  exists author_p4user, n, sa, rows, msgs, w.
  cbv zeta. repeat split; try assumption.
  intros Hn Hsha. apply mark_round_trip; assumption.
Qed.

End WithEnv.

(** X14 on an instance: the commit is submitted as changelist 7. *)
Lemma submitted_mark_is_read_back_witness :
  exists author_p4user n s1 rows msgs w,
    let desc := change_description plain_commit (authenticated_p4user demo_ctx) author_p4user in
    @ext scripted (P4Run CtxP4 ["submit"; "-d"; desc]) (world (g_io s1)) = (RResults rows msgs, w)
    /\ changelist_from_submit_result rows = Ok n
    /\ requests_between s1
         (snd (@copy_commit scripted demo_ctx plain_commit
                 (start_g2p scripted submits_7 no_history)))
         [ P4Run CtxP4 ["submit"; "-d"; desc]; P4FetchChange CtxP4 n;
           P4SaveChange CtxP4 n author_p4user (date (author plain_commit)) ]
    /\ ":7 abc123" = ":" +:+ Py.str_opt n +:+ " " +:+ sha1 plain_commit
    /\ (~ In " "%char (list_ascii_of_string (Py.str_opt n)) ->
        ~ In " "%char (list_ascii_of_string (sha1 plain_commit)) ->
        mark_to_commit_changelist ":7 abc123" = Ok (sha1 plain_commit, Py.str_opt n)).
Proof.
  apply (@submitted_mark_is_read_back scripted demo_ctx plain_commit
           (start_g2p scripted submits_7 no_history)).
  vm_compute. reflexivity.
Defined.

(** X10 on an instance: the user map does not know the author. *)
Lemma unknown_author_is_refused_witness :
  @refused scripted demo_ctx add_commit_c (start_g2p scripted [RUser None] no_history)
    [UserMapLookupByEmail "ann@example.com"]
    "User 'ann@example.com' not permitted to commit".
Proof.
  refine (proj1 (@unknown_author_is_refused scripted demo_ctx add_commit_c
                   (start_g2p scripted [RUser None] no_history) eq_refl) [] _).
  reflexivity.
Defined.

(** X11 on an instance: the second file of the commit is "a...b". *)
Lemma bad_filename_is_refused_witness :
  @refused scripted demo_ctx dotted_commit (start_g2p scripted author_known no_history)
    [UserMapLookupByEmail "ann@example.com"; UserMapP4UserExists "ann"]
    "bad filename: a...b".
Proof.
  refine (@bad_filename_is_refused scripted demo_ctx dotted_commit
            (start_g2p scripted author_known no_history)
            "ann" "ann@example.com" "Ann Lee" [RBool true] []
            [Blob "M" (Some "100644") (Some "1111") "c.txt" None]
            (Blob "M" (Some "100644") (Some "2222") "a...b" None) []
            eq_refl _ _ _ _ _).
  - reflexivity.
  - reflexivity.
  - reflexivity.
  - repeat constructor.
  - reflexivity.
Defined.

End G2PMore.

(* ===================================================================== *)
(** * The object mirror: batches, counts, and the views attribute *)

Module GitMirrorMore.
Import GitMirror GitMirrorSpec GitMirrorMoreSpec PyFacts GitMirrorFacts.

(** ** Batches *)

Lemma bites_aux_concat {A : Type} (n : nat) : forall fuel (l : list A),
  1 <= n -> length l <= fuel -> concat (bites_aux fuel n l) = l.
Proof.
  induction fuel as [| fuel IH]; intros l Hn Hlen.
  - destruct l; [reflexivity | cbn in Hlen; lia].
  - destruct l as [| x l]; [reflexivity |].
    cbn [bites_aux concat]. rewrite IH.
    + apply firstn_skipn.
    + exact Hn.
    + rewrite length_skipn. cbn [length] in *. lia.
Qed.

Lemma bites_aux_sizes {A : Type} (n : nat) : forall fuel (l : list A),
  1 <= n -> Forall (fun b => 1 <= length b <= n) (bites_aux fuel n l).
Proof.
  induction fuel as [| fuel IH]; intros l Hn; [constructor |].
  destruct l as [| x l]; [constructor |].
  cbn [bites_aux]. constructor; [| apply IH; exact Hn].
  rewrite length_firstn. cbn [length]. lia.
Qed.

(** X15.  The loops that feed the server in bites of a thousand send
    every element once and in order: the bites of a list, put end to
    end, are the list, and every bite holds at least one element and
    at most [n]. *)
Theorem batches_cover_the_list {A : Type} (n : nat) (l : list A) :
  1 <= n ->
  concat (bites n l) = l
  /\ Forall (fun b => 1 <= length b <= n) (bites n l).
Proof.
  intros Hn. unfold bites. split.
  - apply bites_aux_concat; [exact Hn | lia].
  - apply bites_aux_sizes. exact Hn.
Qed.

(** ** The views attribute *)

Lemma split_parts_no_sep sep (s : string) :
  Forall (fun p => ~ In sep (list_ascii_of_string p)) (Py.split sep s).
Proof.
  induction s as [| c s IH]; [repeat constructor; intros [] |].
  cbn [Py.split].
  destruct (Ascii.eqb_spec c sep) as [-> | Hne].
  - constructor; [intros [] | exact IH].
  - destruct (Py.split sep s) as [| p ps] eqn:E.
    + repeat constructor. cbn. intros [Hc | []]. exact (Hne Hc).
    + inversion IH as [| ? ? Hp Hps]; subst.
      constructor; [| exact Hps].
      cbn. intros [Hc | Hin]; [exact (Hne Hc) | exact (Hp Hin)].
Qed.

Lemma existsb_last (view : string) (parts : list string) :
  existsb (String.eqb view) (parts ++ [view]) = true.
Proof.
  rewrite existsb_app. cbn. rewrite String.eqb_refl. apply orb_true_iff. right. reflexivity.
Qed.

(** X16.  The [fstat] callback and the views attribute.  A file whose
    attribute lists the view already is left alone.  Any other file is
    queued with the attribute it is to get, the old views and this
    one joined by [#]; and once a file carries that attribute the
    callback recognises it as belonging to the view, so it is not
    queued a second time.  (The view name holds no [#].) *)
Theorem fstat_callback_adds_the_view view (h : gmap string string) (hd : handler) depot :
  ~ In "#"%char (list_ascii_of_string view) ->
  h !! "depotFile" = Some depot ->
  let parts := Py.split "#"%char (default "" (h !! "attr-views")) in
  let views' := Py.join "#" (parts ++ [view]) in
  (existsb (String.eqb view) parts = true -> outputStat view h hd = Ok hd)
  /\ (existsb (String.eqb view) parts = false ->
      outputStat view h hd
      = Ok (MkHandler (h_files hd) (h_existing hd ++ [(depot, views')])))
  /\ (forall hd2, outputStat view (<["attr-views" := views']> h) hd2 = Ok hd2).
Proof.
  intros Hview Hdepot parts views'. split; [| split].
  - intros Hin. unfold outputStat. cbn zeta. fold parts. rewrite Hin. reflexivity.
  - intros Hout. unfold outputStat. cbn zeta. fold parts. rewrite Hout, Hdepot. reflexivity.
  - intros hd2. unfold outputStat. cbn zeta.
    rewrite lookup_insert_eq. cbn [default from_option id].
    unfold views'. rewrite split_join.
    + rewrite existsb_last. reflexivity.
    + destruct parts; discriminate.
    + apply Forall_app. split; [apply split_parts_no_sep |].
      constructor; [exact Hview | constructor].
Qed.

(** ** The counters of the object list *)

Lemma filter_length_perm {A : Type} (f : A -> bool) (l l' : list A) :
  Permutation l l' -> length (List.filter f l) = length (List.filter f l').
Proof.
  induction 1 as [| x l l' _ IH | x y l | l l' l'' _ IH1 _ IH2].
  - reflexivity.
  - cbn. destruct (f x); cbn; rewrite IH; reflexivity.
  - cbn. destruct (f x), (f y); reflexivity.
  - rewrite IH1. exact IH2.
Qed.

Lemma count_of_insert ty (o : GitObject) (l : GitObjectList) cs :
  objects l !! key_of o = None ->
  count_of ty (MkGitObjectList (<[key_of o := o]> (objects l)) cs)
  = (if String.eqb (type o) ty then 1 else 0) + count_of ty l.
Proof.
  intros Hnew. unfold count_of, values. cbn [objects].
  rewrite (filter_length_perm _ _ (map snd ((key_of o, o) :: map_to_list (objects l)))).
  - cbn [map snd List.filter]. destruct (String.eqb (type o) ty); reflexivity.
  - apply Permutation_map. apply map_to_list_insert. exact Hnew.
Qed.

(** X17.  The counters of the object list follow its objects.  The
    list starts with three counters at 0; whenever [add_object]
    returns, every counter is again the number of objects of its type
    in the list, whether the object was new or not.  An object that is
    new and of a type without a counter is a [KeyError], raised after
    the object was stored: the list then holds one more object of that
    type, the counters are as before, and adding the same object once
    more returns without an error and changes nothing. *)
Theorem counts_follow_the_objects :
  counted empty_list
  /\ (forall o l l', counted l -> add_object o l = (Ok tt, l') -> counted l')
  /\ (forall o l,
         objects l !! key_of o = None -> counts l !! type o = None ->
         exists l',
           add_object o l = (Raise (KeyError (type o)), l')
           /\ objects l' !! key_of o = Some o
           /\ count_of (type o) l' = S (count_of (type o) l)
           /\ counts l' = counts l
           /\ add_object o l' = (Ok tt, l')).
Proof.
  split; [| split].
  - intros ty n E. unfold empty_list in E. cbn [counts] in E.
    unfold count_of, values, empty_list. cbn [objects]. rewrite map_to_list_empty. cbn.
    repeat (apply lookup_insert_Some in E as [[_ <-] | [_ E]]; [reflexivity |]).
    rewrite lookup_empty in E. discriminate.
  - intros o l l' Hl. rewrite GitMirrorFacts.add_object_run.
    destruct (objects l !! key_of o) eqn:Eo; [intros [= <-]; exact Hl |].
    destruct (counts l !! type o) as [n0 |] eqn:Ec; [| discriminate].
    intros [= <-] ty n E. cbn [counts] in E.
    rewrite count_of_insert by exact Eo.
    destruct (String.eqb_spec (type o) ty) as [<- | Hne].
    + rewrite lookup_insert_eq in E. injection E as <-.
      rewrite (Hl _ _ Ec). lia.
    + rewrite lookup_insert_ne in E by exact Hne.
      rewrite (Hl _ _ E). reflexivity.
  - intros o l Eo Ec. eexists. split; [| split; [| split; [| split]]].
    + rewrite GitMirrorFacts.add_object_run, Eo, Ec. reflexivity.
    + cbn [objects]. apply lookup_insert_eq.
    + rewrite count_of_insert by exact Eo. rewrite String.eqb_refl. reflexivity.
    + reflexivity.
    + apply GitMirrorFacts.add_object_present. cbn [objects].
      rewrite lookup_insert_eq. eauto.
Qed.

Section WithEnv.
Context `{H : Env}.

Lemma mirror_io_run {A : Type} (m : M io A) (l : GitObjectList) (i : io) :
  io_ m (l, i) = (fst (m i), (l, snd (m i))).
Proof. unfold io_, zoom. cbn [fst snd]. destruct (m i); reflexivity. Qed.

(** X18.  With no object in the list there is nothing to mirror:
    [add_objects_to_p4] asks for the opened files of the object
    client, reverts them if there are any, and returns.  It extracts
    nothing, adds nothing and submits nothing. *)
Theorem nothing_to_mirror ctx (l : GitObjectList) (i : io) rows msgs w rows' msgs' w' :
  objects l = ∅ ->
  ext (P4Run CtxP4gf ["opened"]) (world i) = (RResults rows msgs, w) ->
  ext (P4Run CtxP4gf ["revert"; "//" +:+ p4client_gf ctx +:+ "/..."]) w
  = (RResults rows' msgs', w') ->
  exists i',
    add_objects_to_p4 ctx (l, i) = (Ok tt, (l, i'))
    /\ trace i'
       = trace i ++ P4Run CtxP4gf ["opened"]
           :: (if bool_decide (rows = []) then []
               else [P4Run CtxP4gf ["revert"; "//" +:+ p4client_gf ctx +:+ "/..."]]).
Proof.
  intros Hempty Eopened Erevert.
  assert (Hrest : forall i0 : io,
    (let* s := get in
     let* add_files := io_ (map_m (__add_object_to_p4 ctx) (values (fst s))) in
     let* hd := io_ (fstat_bites (view_name ctx) (bites 1000 add_files) (MkHandler [] [])) in
     let add_files := h_files hd in
     let existing_files := h_existing hd in
     let files_to_add := (length add_files + length existing_files)%nat in
     if (files_to_add =? 0)%nat then ret tt
     else
       let* files_not_added := io_ (add_objects_with_views ctx add_files) in
       io_ (edit_objects_with_views existing_files) >>
       if (files_not_added <? Z.of_nat files_to_add)%Z
       then io_ (p4_run CtxP4gf ["submit"; "-d";
                                 "Git Fusion " +:+ view_name ctx +:+ " copied to git"]) >> ret tt
       else ret tt) (l, i0) = (Ok tt, (l, i0))).
  { intros i0. step. unfold values. cbn [fst]. rewrite Hempty, map_to_list_empty.
    cbn [map map_m]. step_with ltac:(rewrite mirror_io_run; reflexivity).
    cbn [fst snd ret]. step_with ltac:(rewrite mirror_io_run; reflexivity).
    reflexivity. }
  unfold add_objects_to_p4.
  step_with ltac:(rewrite mirror_io_run, (p4_run_results _ _ _ _ _ _ Eopened); reflexivity).
  destruct (bool_decide (rows = [])); cbn [negb when].
  - step. eexists. split; [apply Hrest |].
    rewrite trace_set_messages. reflexivity.
  - erewrite bind_ok.
    2:{ erewrite bind_ok.
        2:{ rewrite mirror_io_run. rewrite p4_run_results with (rows := rows') (msgs := msgs') (w := w').
            - reflexivity.
            - rewrite world_set_messages. exact Erevert. }
        reflexivity. }
    eexists. split; [apply Hrest |].
    cbn [fst snd]. rewrite !trace_set_messages. cbn [after trace].
    rewrite trace_set_messages. cbn [after trace]. rewrite <- app_assoc. reflexivity.
Qed.

End WithEnv.

Lemma batches_cover_the_list_witness :
  concat (bites 2 ["a"; "b"; "c"]) = ["a"; "b"; "c"]
  /\ Forall (fun b => 1 <= length b <= 2) (bites 2 ["a"; "b"; "c"]).
Proof. apply (batches_cover_the_list 2 ["a"; "b"; "c"]). lia. Defined.

Lemma fstat_callback_adds_the_view_witness :
  let h : gmap string string := <["depotFile" := "//.git-fusion/objects/11/11/11-tree"]>
                                  (<["attr-views" := "alpha#beta"]> ∅) in
  outputStat "demo" h (MkHandler [] [])
  = Ok (MkHandler [] [("//.git-fusion/objects/11/11/11-tree", "alpha#beta#demo")])
  /\ forall hd2, outputStat "demo" (<["attr-views" := "alpha#beta#demo"]> h) hd2 = Ok hd2.
Proof.
  intros h.
  destruct (fstat_callback_adds_the_view "demo" h (MkHandler [] [])
              "//.git-fusion/objects/11/11/11-tree") as (_ & Hnew & Hagain).
  - vm_compute. intuition discriminate.
  - reflexivity.
  - split; [apply Hnew; reflexivity | exact Hagain].
Defined.

Lemma nothing_to_mirror_witness :
  exists i',
    @add_objects_to_p4 scripted demo_ctx
      (empty_list, start_io [RResults [row1 "depotFile" "//.git-fusion/left-open"] []])
    = (Ok tt, (empty_list, i'))
    /\ trace i' = [P4Run CtxP4gf ["opened"];
                   P4Run CtxP4gf ["revert"; "//" +:+ p4client_gf demo_ctx +:+ "/..."]].
Proof.
  apply (@nothing_to_mirror scripted demo_ctx empty_list
           (start_io [RResults [row1 "depotFile" "//.git-fusion/left-open"] []])
           [row1 "depotFile" "//.git-fusion/left-open"] [] [] [] [] []);
    reflexivity.
Defined.

End GitMirrorMore.

(* ===================================================================== *)
(** * The list of revisions: sorting and bisection *)

Module RevListFacts.
Import RevList RevListSpec.

(** ** The order of strings *)

Lemma ascii_compare_lt (a b : ascii) :
  Ascii.compare a b = Lt <-> (N_of_ascii a < N_of_ascii b)%N.
Proof. unfold Ascii.compare. apply N.compare_lt_iff. Qed.

Lemma ascii_compare_refl (a : ascii) : Ascii.compare a a = Eq.
Proof. unfold Ascii.compare. apply N.compare_refl. Qed.

Lemma string_compare_refl (s : string) : String.compare s s = Eq.
Proof.
  induction s as [| c s IH]; [reflexivity |].
  cbn [String.compare]. rewrite ascii_compare_refl. exact IH.
Qed.

Lemma string_compare_trans (a : string) : forall b c,
  String.compare a b <> Gt -> String.compare b c <> Gt -> String.compare a c <> Gt.
Proof.
  induction a as [| x a IH]; intros [| y b] [| z c]; cbn [String.compare];
    try congruence.
  destruct (Ascii.compare x y) eqn:Exy; try congruence;
    destruct (Ascii.compare y z) eqn:Eyz; try congruence.
  - apply Ascii.compare_eq_iff in Exy, Eyz. subst. rewrite ascii_compare_refl. apply IH.
  - apply Ascii.compare_eq_iff in Exy. subst. rewrite Eyz. congruence.
  - apply Ascii.compare_eq_iff in Eyz. subst. rewrite Exy. congruence.
  - apply ascii_compare_lt in Exy, Eyz.
    assert (Hxz : Ascii.compare x z = Lt)
      by (apply ascii_compare_lt; eapply N.lt_trans; eassumption).
    rewrite Hxz. congruence.
Qed.

Lemma leb_not_gt (a b : string) : String.leb a b = true <-> String.compare a b <> Gt.
Proof. unfold String.leb. destruct (String.compare a b); cbn; split; congruence. Qed.

Lemma leb_refl (a : string) : String.leb a a = true.
Proof. apply leb_not_gt. rewrite string_compare_refl. congruence. Qed.

Lemma leb_trans (a b c : string) :
  String.leb a b = true -> String.leb b c = true -> String.leb a c = true.
Proof. rewrite !leb_not_gt. apply string_compare_trans. Qed.

Lemma ltb_leb (a b : string) : String.ltb a b = true -> String.leb a b = true.
Proof. unfold String.ltb, String.leb. destruct (String.compare a b); cbn; congruence. Qed.

Lemma not_ltb_leb (a b : string) : String.ltb a b = false -> String.leb b a = true.
Proof.
  unfold String.ltb, String.leb. rewrite (String.compare_antisym b a).
  destruct (String.compare a b); cbn; congruence.
Qed.

(** ** Sorting *)

Lemma insert_sorted_perm x (l : t) : Permutation (insert_sorted x l) (x :: l).
Proof.
  induction l as [| y l IH]; [reflexivity |].
  cbn [insert_sorted]. destruct (String.ltb (fst x) (fst y)); [reflexivity |].
  rewrite IH. apply perm_swap.
Qed.

Lemma insert_sorted_sorted x (l : t) : sorted l -> sorted (insert_sorted x l).
Proof.
  induction l as [| y l IH]; intros Hl.
  - cbn. split; [constructor | exact I].
  - destruct Hl as [Hy Hl]. cbn [insert_sorted].
    destruct (String.ltb (fst x) (fst y)) eqn:E.
    + cbn [sorted]. split; [| split; assumption].
      apply ltb_leb in E. constructor; [exact E |].
      eapply Forall_impl; [exact Hy |]. cbn beta. intros z Hz.
      exact (leb_trans _ _ _ E Hz).
    + cbn [sorted]. split; [| exact (IH Hl)].
      rewrite (insert_sorted_perm x l).
      constructor; [exact (not_ltb_leb _ _ E) | exact Hy].
Qed.

Lemma sort_from (l : t) : forall acc,
  sorted acc ->
  sorted (fold_left (fun acc x => insert_sorted x acc) l acc)
  /\ Permutation (fold_left (fun acc x => insert_sorted x acc) l acc) (l ++ acc).
Proof.
  induction l as [| x l IH]; intros acc Hacc; [split; [exact Hacc | reflexivity] |].
  cbn [fold_left app].
  destruct (IH (insert_sorted x acc) (insert_sorted_sorted x acc Hacc)) as [Hs Hp].
  split; [exact Hs |].
  rewrite Hp, insert_sorted_perm. symmetry. apply Permutation_middle.
Qed.

Lemma sort_sorted (l : t) : sorted (sort l) /\ Permutation (sort l) l.
Proof.
  destruct (sort_from l [] I) as [Hs Hp]. split; [exact Hs |].
  rewrite app_nil_r in Hp. exact Hp.
Qed.

(** ** Bisection *)

Lemma sorted_nth (l : t) : forall i j ki fi kj fj,
  sorted l -> i <= j ->
  nth_error l i = Some (ki, fi) -> nth_error l j = Some (kj, fj) ->
  String.leb ki kj = true.
Proof.
  induction l as [| x l IH]; intros i j ki fi kj fj Hl Hij Hi Hj.
  - destruct i; discriminate.
  - destruct Hl as [Hx Hl]. destruct i as [| i], j as [| j]; cbn [nth_error] in *.
    + injection Hi as ->. injection Hj as [= -> _]. apply leb_refl.
    + injection Hi as ->.
      apply nth_error_In in Hj. rewrite List.Forall_forall in Hx.
      exact (Hx _ Hj).
    + lia.
    + apply (IH i j ki fi kj fj Hl); [lia | assumption | assumption].
Qed.

Lemma half_between (lo hi : nat) : lo < hi -> lo <= Nat.div (lo + hi) 2 < hi.
Proof.
  intros Hlt.
  pose proof (Nat.div_mod_eq (lo + hi) 2) as Hd.
  pose proof (Nat.mod_upper_bound (lo + hi) 2 ltac:(lia)) as Hm.
  lia.
Qed.

Lemma key_at_some_index (key : string) (l : t) :
  In key (map fst l) -> exists i f, nth_error l i = Some (key, f).
Proof.
  intros Hin. apply in_map_iff in Hin as ([k f] & Hk & Hin). cbn in Hk. subst k.
  apply In_nth_error in Hin as [i Hi]. exists i, f. exact Hi.
Qed.

Lemma find_loop_spec (key : string) (l : t) : forall fuel lo hi,
  sorted l -> lo <= hi -> hi <= length l -> hi - lo < fuel ->
  (forall i f, i < lo -> nth_error l i <> Some (key, f)) ->
  (forall i f, hi <= i -> nth_error l i <> Some (key, f)) ->
  (exists f, find_loop fuel lo hi key l = Some (Ok (Some f)) /\ In (key, f) l)
  \/ (find_loop fuel lo hi key l = Some (Ok None) /\ ~ In key (map fst l)).
Proof.
  induction fuel as [| fuel IH]; intros lo hi Hl Hle Hhi Hfuel Hbelow Habove; [lia |].
  cbn [find_loop].
  destruct (Nat.ltb_spec lo hi) as [Hlt | Hge].
  - destruct (half_between lo hi Hlt) as [Hlo Hmid].
    set (mid := Nat.div (lo + hi) 2) in *.
    destruct (nth_error l mid) as [[midkey f] |] eqn:Emid.
    2:{ apply nth_error_None in Emid. lia. }
    destruct (String.leb midkey key) eqn:Eleb.
    + destruct (String.eqb_spec midkey key) as [-> | Hne].
      * left. exists f. split; [reflexivity |]. exact (nth_error_In _ _ Emid).
      * apply IH; try assumption; try lia.
        intros i f' Hi Hnth.
        assert (Hik : String.leb key midkey = true)
          by (apply (sorted_nth l i mid key f' midkey f Hl); [lia | assumption | assumption]).
        apply Hne. apply String.leb_antisym; assumption.
    + apply IH; try assumption; try lia.
      intros i f' Hi Hnth.
      assert (Hik : String.leb midkey key = true)
        by (apply (sorted_nth l mid i midkey f key f' Hl); [lia | assumption | assumption]).
      congruence.
  - right. split; [reflexivity |].
    intros Hin. apply key_at_some_index in Hin as (i & f & Hi).
    destruct (Nat.lt_ge_cases i lo) as [Hc | Hc].
    + exact (Hbelow i f Hc Hi).
    + apply (Habove i f); [lia | exact Hi].
Qed.

(** X19.  The list of revisions is searched by bisection after it was
    sorted, and the search is right: for a key under which a revision
    was appended, [find] returns a revision appended under that very
    key; for any other key it returns [None].  It always comes to an
    end, within as many passes as the list has elements and one
    more.  [append] stores a revision under its depot path, a [#]
    and its revision number. *)
Theorem find_after_sort (key : string) (revs : t) :
  (In key (map fst revs) ->
   exists f, find key (sort revs) = Some (Ok (Some f)) /\ In (key, f) revs)
  /\ (~ In key (map fst revs) -> find key (sort revs) = Some (Ok None))
  /\ (forall p, In (P4File.depot_path p +:+ "#" +:+ P4File.revision p, p) (append p revs)).
Proof.
  enough (Hmain : (In key (map fst revs) ->
                   exists f, find key (sort revs) = Some (Ok (Some f)) /\ In (key, f) revs)
                  /\ (~ In key (map fst revs) -> find key (sort revs) = Some (Ok None))).
  { destruct Hmain as [Ha Hb]. split; [exact Ha | split; [exact Hb |]].
    intros p. apply in_or_app. right. left. reflexivity. }
  destruct (sort_sorted revs) as [Hs Hp].
  assert (Hspec := find_loop_spec key (sort revs) (S (length (sort revs))) 0
                     (length (sort revs)) Hs ltac:(lia) ltac:(lia) ltac:(lia)).
  fold (find key (sort revs)) in Hspec.
  destruct Hspec as [(f & Hfind & Hin) | (Hfind & Hnot)].
  - intros i f Hi. lia.
  - intros i f Hi Hnth.
    assert (nth_error (sort revs) i = None) by (apply nth_error_None; exact Hi).
    congruence.
  - split.
    + intros _. exists f. split; [exact Hfind |].
      apply (Permutation_in _ Hp). exact Hin.
    + intros Hout. exfalso. apply Hout.
      apply in_map_iff. exists (key, f). split; [reflexivity |].
      apply (Permutation_in _ Hp). exact Hin.
  - split.
    + intros Hin. exfalso. apply Hnot.
      apply (Permutation_in _ (Permutation_map fst (Permutation_sym Hp))). exact Hin.
    + intros _. exact Hfind.
Qed.

End RevListFacts.

(* ===================================================================== *)
(** * The script builder: what is written stays written *)

Module FastImportMore.
Import FastImport FastImportSpec FastImportMoreSpec FastImportFacts.

Section WithEnv.
Context `{H : Env}.

Section Growth.
Variable fi0 : t.

Lemma grown_self : preserves (grown_from fi0) self.
Proof. intros s r s' HP [= <- <-]. exact HP. Qed.

Lemma grown_append text : preserves (grown_from fi0) (__append text).
Proof.
  intros [fi i] r s' ([t0 Ht] & Htz & Hlen & Hb) [= <- <-].
  cbn [fst snd script fi_timezone project_root_path_length branchname] in *.
  split; [| split; [| split]]; try assumption.
  exists (t0 +:+ text). rewrite Ht. apply append_assoc.
Qed.

Lemma grown_io {A : Type} (m : M io A) : preserves (grown_from fi0) (io_ m).
Proof.
  intros [fi i] r s' HP E. unfold io_, zoom in E. cbn [fst snd] in E.
  destruct (m i) as [r0 i1]. injection E as <- <-. exact HP.
Qed.

Lemma grown_remember (u fullname : string) :
  preserves (grown_from fi0)
    (modify (fun s : st =>
       (Make (script (fst s)) (fi_timezone (fst s))
             (project_root_path_length (fst s)) (branchname (fst s))
             (<[u := fullname]> (username_map (fst s))), snd s))).
Proof. intros [fi i] r s' HP [= <- <-]. exact HP. Qed.

Ltac grown tac :=
  pres_with ltac:(first [ tac | apply grown_self | apply grown_append | apply grown_io
                        | apply grown_remember ]).

Lemma grown_trailer_lines keys suffix : forall b,
  preserves (grown_from fi0) (add_trailer_lines keys suffix b).
Proof.
  induction keys as [| [key capitalized] keys IH]; intros b; cbn [add_trailer_lines].
  - apply pres_ret.
  - destruct (Re.search _ suffix); [| apply IH].
    apply pres_bind; [apply grown_append | intros _; apply IH].
Qed.

Lemma grown_add_commit cl last_ : preserves (grown_from fi0) (add_commit cl last_).
Proof.
  unfold add_commit, add_commit_head, __add_files, __add_file, __relative_path,
    __add_data, __email_for_user, __full_name_for_user, lookup_by_p4user.
  grown ltac:(apply grown_trailer_lines).
Qed.

End Growth.

(** X20.  What is written stays written.  However [add_commit] ends,
    with the commit recorded or with an exception on the way, the
    script afterwards begins with the script as it was before, and the
    time zone, the length of the root path and the branch name of the
    builder are unchanged. *)
Theorem script_is_only_appended_to (cl : P4Changelist) (last_ : option string) (s : st) :
  exists r s' text,
    add_commit cl last_ s = (r, s')
    /\ script (fst s') = script (fst s) +:+ text
    /\ fi_timezone (fst s') = fi_timezone (fst s)
    /\ project_root_path_length (fst s') = project_root_path_length (fst s)
    /\ branchname (fst s') = branchname (fst s).
Proof.
  destruct (add_commit cl last_ s) as [r s'] eqn:E.
  destruct (grown_add_commit (fst s) cl last_ s r s') as ([text Ht] & Htz & Hlen & Hb).
  - split; [| repeat split]. exists "". symmetry. apply append_empty_r.
  - exact E.
  - exists r, s', text. repeat split; assumption.
Qed.

(** X21.  The full name of a Perforce user is asked for once.  After
    [__full_name_for_user] has answered for a user, it answers the same
    for that user from its cache, without a request and without any
    other change. *)
Theorem full_name_is_asked_once (username : string) (s s1 : st) name :
  __full_name_for_user username s = (Ok name, s1) ->
  username_map (fst s1) !! username = Some name
  /\ __full_name_for_user username s1 = (Ok name, s1).
Proof.
  unfold __full_name_for_user. intros E.
  apply bind_ok_inv in E as (fi & s0 & [= <- <-] & E).
  destruct (username_map (fst s) !! username) as [cached |] eqn:Ecache.
  - injection E as <- <-. split; [exact Ecache |].
    step. rewrite Ecache. reflexivity.
  - apply bind_ok_inv in E as (u3 & s2 & _ & E).
    apply bind_ok_inv in E as ([] & s3 & [= <-] & E).
    injection E as <- <-.
    cbn [fst username_map]. split; [apply lookup_insert_eq |].
    step. cbn [fst username_map]. rewrite lookup_insert_eq. reflexivity.
Qed.

End WithEnv.

Lemma full_name_is_asked_once_witness :
  exists s1 : @st scripted,
    @__full_name_for_user scripted "ann"
      (fresh_fastimport, start_io [RUser (Some ("ann", "ann@example.com", "Ann   Lee"))])
    = (Ok "Ann Lee", s1)
    /\ username_map (fst s1) !! "ann" = Some "Ann Lee"
    /\ @__full_name_for_user scripted "ann" s1 = (Ok "Ann Lee", s1).
Proof.
  eexists. split; [vm_compute; reflexivity |].
  apply (@full_name_is_asked_once scripted "ann"
           (fresh_fastimport, start_io [RUser (Some ("ann", "ann@example.com", "Ann   Lee"))])).
  vm_compute. reflexivity.
Defined.

End FastImportMore.

(* ===================================================================== *)
(** * The user map: what a lookup answers *)

Module UserMapFacts.
Import UserMap UserMapSpec.

Lemma find_app index value (a b : list tuple) :
  find_by_tuple_index index value (a ++ b)
  = match find_by_tuple_index index value a with
    | Some u => Some u
    | None => find_by_tuple_index index value b
    end.
Proof.
  induction a as [| x a IH]; [reflexivity |].
  cbn [app find_by_tuple_index].
  destruct (String.eqb (field index x) value); [reflexivity | exact IH].
Qed.

Lemma find_some index value (l : list tuple) u :
  find_by_tuple_index index value l = Some u -> In u l /\ field index u = value.
Proof.
  induction l as [| x l IH]; [discriminate |].
  cbn [find_by_tuple_index].
  destruct (String.eqb_spec (field index x) value) as [E | _].
  - intros [= <-]. split; [left; reflexivity | exact E].
  - intros Hf. destruct (IH Hf) as [Hin Hv]. split; [right; exact Hin | exact Hv].
Qed.

(** Among users that differ in a field, the one with a given value of
    the field is the one the search finds. *)
Lemma find_unique index (l : list tuple) h :
  NoDup (map (field index) l) -> In h l ->
  find_by_tuple_index index (field index h) l = Some h.
Proof.
  induction l as [| x l IH]; intros Hnd Hin; [destruct Hin |].
  apply NoDup_cons in Hnd as [Hx Hnd]. cbn [find_by_tuple_index].
  destruct Hin as [-> | Hin].
  - rewrite String.eqb_refl. reflexivity.
  - destruct (String.eqb_spec (field index x) (field index h)) as [E | _].
    + exfalso. apply Hx. rewrite E. apply list_elem_of_In, in_map. exact Hin.
    + exact (IH Hnd Hin).
Qed.

(** A search among earlier hits agrees with a search among the
    Perforce users. *)
Lemma find_in_hits index value (server hits : list tuple) u :
  NoDup (map (field index) server) ->
  Forall (fun h => In h server) hits ->
  find_by_tuple_index index value hits = Some u ->
  find_by_tuple_index index value server = Some u.
Proof.
  intros Hnd Hhits Hf. apply find_some in Hf as [Hin <-].
  apply find_unique; [exact Hnd |].
  rewrite List.Forall_forall in Hhits. exact (Hhits u Hin).
Qed.

Section WithWorld.
Variable w : world.
Variable server : list tuple.
Hypothesis Hw : answers w server.

Lemma read_user_map_run (s : t) (log : list event) :
  exists log', read_user_map w (s, log) = (Ok (file_map w), (s, log ++ log')).
Proof.
  destruct Hw as ([root Hroot] & Hsync & _).
  unfold read_user_map, file_map.
  step. rewrite Hroot. cbn [ObjectType.lift_res]. step. step.
  rewrite Hsync. cbn [ObjectType.lift_res]. step. step.
  destruct (map_lines w) as [lines |].
  - step. eexists. unfold ret. cbn [fst snd]. rewrite <- !app_assoc. reflexivity.
  - eexists. unfold ret. cbn [fst snd]. rewrite <- !app_assoc. reflexivity.
Qed.

Lemma get_p4_users_run (s : t) (log : list event) :
  get_p4_users w (s, log) = (Ok server, (s, log ++ [RunUsers])).
Proof.
  destruct Hw as (_ & _ & rows & Hrows & Hmap).
  unfold get_p4_users. step. rewrite Hrows. cbn [ObjectType.lift_res]. step.
  rewrite Hmap. reflexivity.
Qed.

(** The list that a lookup searches first: the file and earlier hits. *)
Lemma the_users_run (s : t) (log : list event) :
  cached w server s ->
  exists hits log',
    the_users w (s, log)
    = (Ok (file_map w ++ hits), (Make (Some (file_map w ++ hits)) (p4users s), log'))
    /\ Forall (fun h => In h server) hits.
Proof.
  intros [Hu _]. unfold the_users. step.
  assert (Hread : exists log',
    (let* l := read_user_map w in set_users l >> ret l) (s, log)
    = (Ok (file_map w ++ []), (Make (Some (file_map w ++ [])) (p4users s), log'))).
  { destruct (read_user_map_run s log) as [log' Hrun].
    exists (log ++ log'). step_with ltac:(exact Hrun). rewrite app_nil_r. reflexivity. }
  destruct Hu as [Hnone | (hits & Hsome & Hhits)].
  - rewrite Hnone. destruct Hread as [log' Hrun]. exists [], log'. split; [exact Hrun | constructor].
  - rewrite Hsome. destruct (file_map w ++ hits) as [| u l] eqn:El.
    + apply app_eq_nil in El as [Hf ->]. destruct Hread as [log' Hrun].
      exists [], log'. split; [| constructor]. rewrite Hf in *. exact Hrun.
    + exists hits, log. rewrite El. split; [| exact Hhits].
      unfold ret. destruct s as [us ps]. cbn [users p4users] in *. subst us. reflexivity.
Qed.

Lemma the_p4users_run (s : t) (log : list event) :
  p4users s = None \/ p4users s = Some server ->
  exists log',
    the_p4users w (s, log) = (Ok server, (Make (users s) (Some server), log')).
Proof.
  intros Hp. unfold the_p4users. step.
  assert (Hfetch : exists log',
    (let* l := get_p4_users w in set_p4users l >> ret l) (s, log)
    = (Ok server, (Make (users s) (Some server), log'))).
  { eexists. step_with ltac:(apply get_p4_users_run). reflexivity. }
  destruct s as [us ps]. cbn [users p4users fst] in *.
  destruct Hp as [-> | ->]; [exact Hfetch |].
  destruct server as [| u l]; [exact Hfetch |].
  exists log. reflexivity.
Qed.

(** X22.  What a lookup answers depends on the user map file and on
    the Perforce users only, not on what was looked up before: it is
    the first match in the file; else the match among the Perforce
    users; else the user unknown_git if Perforce has one; else [None].
    This holds for every state of the two caches that lookups can
    leave behind, provided that no two Perforce users agree in the
    field that is searched. *)
Theorem lookup_follows_the_sources index value (s : t) (log : list event) :
  NoDup (map (field index) server) ->
  cached w server s ->
  exists s' log',
    _lookup_by_tuple_index w index value (s, log)
    = (Ok (answer index value (file_map w) server), (s', log'))
    /\ cached w server s'.
Proof.
  intros Hnd Hc.
  destruct (the_users_run s log Hc) as (hits & log1 & Hrun1 & Hhits).
  unfold _lookup_by_tuple_index, answer.
  step_with ltac:(exact Hrun1).
  rewrite find_app.
  destruct (find_by_tuple_index index value (file_map w)) as [u |] eqn:Efile.
  - eexists _, _. split; [reflexivity |].
    split; [right; exists hits; split; [reflexivity | exact Hhits] | apply Hc].
  - destruct (find_by_tuple_index index value hits) as [u |] eqn:Ehits.
    + rewrite (find_in_hits index value server hits u Hnd Hhits Ehits).
      eexists _, _. split; [reflexivity |].
      split; [right; exists hits; split; [reflexivity | exact Hhits] | apply Hc].
    + destruct (the_p4users_run (Make (Some (file_map w ++ hits)) (p4users s)) log1)
        as (log2 & Hrun2); [apply Hc |].
      step_with ltac:(exact Hrun2). cbn [users p4users].
      set (found := match find_by_tuple_index index value server with
                    | Some u => Some u
                    | None => find_by_tuple_index TUPLE_INDEX_P4USER P4GF_UNKNOWN_USER server
                    end).
      assert (Hfound : forall u, found = Some u -> In u server).
      { unfold found. intros u.
        destruct (find_by_tuple_index index value server) eqn:E1.
        - intros [= <-]. exact (proj1 (find_some _ _ _ _ E1)).
        - intros E2. exact (proj1 (find_some _ _ _ _ E2)). }
      destruct found as [u |].
      * step. eexists _, _. split; [reflexivity |]. cbn [fst users p4users default from_option id].
        split; [| right; reflexivity].
        right. exists (hits ++ [u]). split; [rewrite app_assoc; reflexivity |].
        apply Forall_app. split; [exact Hhits |].
        constructor; [exact (Hfound u eq_refl) | constructor].
      * eexists _, _. split; [reflexivity |].
        split; [right; exists hits; split; [reflexivity | exact Hhits] | right; reflexivity].
Qed.

(** X23.  [p4user_exists] is true exactly for the names of the
    Perforce users, whatever was looked up before, and it leaves the
    caches in a state that lookups can leave behind. *)
Theorem p4user_exists_is_membership (p4user : string) (s : t) (log : list event) :
  cached w server s ->
  exists s' log',
    p4user_exists w p4user (s, log)
    = (Ok (bool_decide (p4user ∈ map (field TUPLE_INDEX_P4USER) server)), (s', log'))
    /\ cached w server s'.
Proof.
  intros Hc.
  destruct (the_p4users_run s log (proj2 Hc)) as (log1 & Hrun).
  unfold p4user_exists. step_with ltac:(exact Hrun).
  assert (Hdec : bool_decide (find_by_tuple_index TUPLE_INDEX_P4USER p4user server <> None)
                 = bool_decide (p4user ∈ map (field TUPLE_INDEX_P4USER) server)).
  2:{ eexists _, _. split; [unfold ret; rewrite Hdec; reflexivity |].
      split; [apply Hc | right; reflexivity]. }
  apply bool_decide_ext.
  rewrite list_elem_of_In. split.
  - intros Hsome.
    destruct (find_by_tuple_index TUPLE_INDEX_P4USER p4user server) as [u |] eqn:E;
      [| contradiction].
    apply find_some in E as [Hin <-]. apply in_map. exact Hin.
  - intros Hin Hnone. apply in_map_iff in Hin as (u & <- & Hin).
    revert Hnone. clear -Hin. induction server as [| x l IH]; [destruct Hin |].
    cbn [find_by_tuple_index].
    destruct (String.eqb_spec (field TUPLE_INDEX_P4USER x) (field TUPLE_INDEX_P4USER u))
      as [_ | Hne]; [discriminate |].
    destruct Hin as [-> | Hin]; [contradiction | exact (IH Hin)].
Qed.

End WithWorld.

Lemma demo_world_answers : answers demo_world demo_server.
Proof.
  split; [exists "/gf"; reflexivity |]. split; [reflexivity |].
  eexists. split; [reflexivity |]. vm_compute. reflexivity.
Qed.

(** X22 on an instance: an address of the user map file, asked for
    before anything was read. *)
Lemma lookup_follows_the_sources_witness :
  exists s' log',
    lookup_by_email demo_world "bob@work.example" (__init__, [])
    = (Ok (Some ("bob", "bob@work.example", "Bob Ray")), (s', log'))
    /\ cached demo_world demo_server s'.
Proof.
  destruct (lookup_follows_the_sources demo_world demo_server demo_world_answers
              TUPLE_INDEX_EMAIL "bob@work.example" __init__ [])
    as (s' & log' & Hrun & Hc).
  - apply (bool_decide_unpack _). vm_compute. exact I.
  - split; left; reflexivity.
  - exists s', log'. split; [| exact Hc].
    unfold lookup_by_email. rewrite Hrun. vm_compute. reflexivity.
Defined.

(** X23 on an instance. *)
Lemma p4user_exists_is_membership_witness :
  exists s' log',
    p4user_exists demo_world "ann" (__init__, []) = (Ok true, (s', log'))
    /\ cached demo_world demo_server s'.
Proof.
  destruct (p4user_exists_is_membership demo_world demo_server demo_world_answers
              "ann" __init__ [])
    as (s' & log' & Hrun & Hc).
  - split; left; reflexivity.
  - exists s', log'. split; [| exact Hc].
    rewrite Hrun. vm_compute. reflexivity.
Defined.

End UserMapFacts.

(* ===================================================================== *)
(** * The path of a mirrored object, written and parsed *)

Module MirrorPathFacts.
Import MirrorPathSpec PyFacts.

(** ** Patterns *)

Lemma run_length_prefix p (a b : string) :
  Forall (fun c => p c = true) (list_ascii_of_string a) ->
  match b with
  | EmptyString => True
  | String c _ => p c = false
  end ->
  Re.run_length p None (a +:+ b) = String.length a.
Proof.
  intros Ha Hb. induction a as [| x a IH].
  - rewrite append_nil_l. destruct b as [| c b]; [reflexivity |]. cbn. rewrite Hb. reflexivity.
  - inversion Ha as [| ? ? Hx Ha']; subst.
    rewrite append_String. cbn [Re.run_length String.length]. rewrite Hx.
    cbn [fmap option_fmap option_map]. rewrite (IH Ha'). reflexivity.
Qed.

Lemma run_length_all p (a : string) :
  Forall (fun c => p c = true) (list_ascii_of_string a) ->
  Re.run_length p None a = String.length a.
Proof.
  intros Ha. rewrite <- (FastImportFacts.append_empty_r a) at 1.
  apply run_length_prefix; [exact Ha | exact I].
Qed.

Lemma drop_prefix (a b : string) : Re.drop (String.length a) (a +:+ b) = b.
Proof.
  induction a as [| x a IH]; [destruct b; reflexivity |].
  rewrite append_String. cbn [String.length Re.drop]. exact IH.
Qed.

Lemma substring_prefix (a b : string) : String.substring 0 (String.length a) (a +:+ b) = a.
Proof.
  induction a as [| x a IH]; [destruct b; reflexivity |].
  rewrite append_String. cbn [String.length String.substring]. rewrite IH. reflexivity.
Qed.

Lemma drop_whole (a : string) : Re.drop (String.length a) a = "".
Proof. induction a as [| x a IH]; [reflexivity | exact IH]. Qed.

Lemma substring_whole (a : string) : String.substring 0 (String.length a) a = a.
Proof.
  induction a as [| x a IH]; [reflexivity |].
  cbn [String.length String.substring]. rewrite IH. reflexivity.
Qed.

Lemma try_down_top {R : Type} (k : nat -> option R) lo n r :
  lo <= n -> k n = Some r -> Re.try_down k lo n = Some r.
Proof.
  intros Hle Hk. destruct n as [| n]; cbn [Re.try_down].
  - replace (Nat.ltb 0 lo) with false by (symmetry; apply Nat.ltb_ge; lia). rewrite Hk. reflexivity.
  - replace (Nat.ltb (S n) lo) with false by (symmetry; apply Nat.ltb_ge; lia).
    rewrite Hk. reflexivity.
Qed.

Lemma search_skip re c (s : string) :
  Re.match_ re (String c s) = None -> Re.search re (String c s) = Re.search re s.
Proof. intros E. cbn [Re.search]. rewrite E. reflexivity. Qed.

Lemma search_here re (s : string) g :
  Re.match_ re s = Some g -> Re.search re s = Some g.
Proof. intros E. destruct s; cbn [Re.search]; rewrite E; reflexivity. Qed.

Lemma literal_prefix (p : string) re (s : string) groups :
  Re.match_here (Re.lit p ++ re) (p +:+ s) None groups = Re.match_here re s None groups.
Proof.
  induction p as [| c p IH]; [reflexivity |].
  rewrite append_String. unfold Re.lit in *.
  cbn [list_ascii_of_string map app Re.match_here].
  rewrite Ascii.eqb_refl. exact IH.
Qed.

(** The rest of the line as a group. *)
Lemma rest_of_line (Y : string) (groups : list string) :
  Forall (fun c => Re.dot c = true) (list_ascii_of_string Y) ->
  Re.match_here [Re.Open; Re.star Re.dot; Re.Close] Y None groups
  = Some (rev (Y :: groups), "").
Proof.
  intros HY. unfold Re.star. cbn [Re.match_here].
  rewrite run_length_all by exact HY.
  apply try_down_top; [lia |].
  rewrite drop_whole, substring_whole.
  reflexivity.
Qed.

(** The pattern of the parser on a path cut at the first dash after
    /objects/. *)
Lemma gfo_match (X Y : string) :
  X <> "" ->
  Forall (fun c => Re.not_dash c = true) (list_ascii_of_string X) ->
  Forall (fun c => Re.dot c = true) (list_ascii_of_string Y) ->
  Re.match_ ObjectType.re_gfo ("/objects/" +:+ (X +:+ String "-" Y)) = Some [X; Y].
Proof.
  intros Hne HX HY.
  assert (Htail :
    Re.match_here [Re.Open; Re.plus Re.not_dash; Re.Close; Re.Chr "-"%char;
                   Re.Open; Re.star Re.dot; Re.Close] (X +:+ String "-" Y) None []
    = Some ([X; Y], "")).
  { unfold Re.plus. cbn [Re.match_here].
    rewrite run_length_prefix by (exact HX || reflexivity).
    apply try_down_top; [destruct X; [contradiction | cbn; lia] |].
    rewrite drop_prefix, substring_prefix.
    cbn [Re.match_here Re.extend fmap option_fmap option_map String.append
         Ascii.eqb Bool.eqb].
    apply (rest_of_line Y [X] HY). }
  unfold Re.match_, ObjectType.re_gfo.
  rewrite literal_prefix, Htail. reflexivity.
Qed.

(** ** Strings *)

Lemma join_split sep (s : string) : Py.join (String sep "") (Py.split sep s) = s.
Proof.
  unfold Py.join. induction s as [| c s IH]; [reflexivity |].
  cbn [Py.split]. pose proof (split_nonempty sep s) as Hne.
  destruct (Ascii.eqb_spec c sep) as [-> | _].
  - destruct (Py.split sep s) as [| w ws]; [contradiction |].
    change (String.concat (String sep "") ("" :: w :: ws))
      with (String sep (String.concat (String sep "") (w :: ws))).
    rewrite IH. reflexivity.
  - destruct (Py.split sep s) as [| w ws]; [contradiction |].
    destruct ws as [| w' ws].
    + cbn [String.concat] in *. rewrite IH. reflexivity.
    + change (String.concat (String sep "") (String c w :: w' :: ws))
        with (String c (w +:+ String sep "" +:+ String.concat (String sep "") (w' :: ws))).
      change (String.concat (String sep "") (w :: w' :: ws))
        with (w +:+ String sep "" +:+ String.concat (String sep "") (w' :: ws)) in IH.
      rewrite IH. reflexivity.
Qed.

Lemma substring_chars (P : ascii -> Prop) (s : string) : forall n m,
  Forall P (list_ascii_of_string s) ->
  Forall P (list_ascii_of_string (String.substring n m s)).
Proof.
  induction s as [| c s IH]; intros n m Hs.
  - destruct n, m; constructor.
  - inversion Hs as [| ? ? Hc Hs']; subst.
    destruct n as [| n]; [destruct m as [| m] |]; cbn [String.substring list_ascii_of_string].
    + constructor.
    + constructor; [exact Hc | apply IH; exact Hs'].
    + apply IH. exact Hs'.
Qed.

Lemma slice_chars (P : ascii -> Prop) (s : string) lo hi :
  Forall P (list_ascii_of_string s) ->
  Forall P (list_ascii_of_string (Py.slice s lo hi)).
Proof. intros Hs. unfold Py.slice. cbn zeta. apply substring_chars. exact Hs. Qed.

(** [s[:2] + s[2:4] + s[4:]] is [s]. *)
Lemma slice_parts (s : string) :
  Py.slice s None (Some 2%Z) +:+ Py.slice s (Some 2%Z) (Some 4%Z) +:+ Py.slice s (Some 4%Z) None
  = s.
Proof.
  destruct s as [| a [| b [| c [| d t]]]]; try reflexivity.
  unfold Py.slice, Py.norm_index. cbn [String.length].
  set (len := Z.of_nat (S (S (S (S (String.length t)))))).
  assert (Hlen : len = (Z.of_nat (String.length t) + 4)%Z) by (unfold len; lia).
  change (2 <? 0)%Z with false. change (4 <? 0)%Z with false. cbn iota.
  rewrite (Z.min_r len 2), (Z.min_r len 4) by lia.
  replace (Z.to_nat (len - 4)) with (String.length t) by lia.
  change (Z.to_nat (2 - 0)) with 2. change (Z.to_nat (4 - 2)) with 2.
  change (Z.to_nat 0) with 0. change (Z.to_nat 2) with 2. change (Z.to_nat 4) with 4.
  cbn [String.substring]. rewrite substring_whole.
  replace (String.substring 0 0 t) with "" by (destruct t; reflexivity).
  reflexivity.
Qed.

Lemma deslash_app (a b : string) :
  ObjectType._deslash (a +:+ b) = ObjectType._deslash a +:+ ObjectType._deslash b.
Proof.
  unfold ObjectType._deslash. induction a as [| c a IH]; [reflexivity |].
  rewrite append_String. cbn [list_ascii_of_string List.filter].
  destruct (negb (Ascii.eqb c "/")); cbn [string_of_list_ascii]; rewrite IH; reflexivity.
Qed.

Lemma deslash_free (s : string) : free_of "/" s -> ObjectType._deslash s = s.
Proof.
  unfold ObjectType._deslash, free_of. induction s as [| c s IH]; intros Hs; [reflexivity |].
  cbn [list_ascii_of_string List.filter] in *.
  destruct (Ascii.eqb_spec c "/") as [-> | _]; [exfalso; apply Hs; left; reflexivity |].
  cbn [negb string_of_list_ascii]. rewrite IH; [reflexivity |].
  intros Hin. apply Hs. right. exact Hin.
Qed.

Lemma free_of_forall (c : ascii) (s : string) :
  free_of c s <-> Forall (fun x => x <> c) (list_ascii_of_string s).
Proof.
  unfold free_of. rewrite List.Forall_forall. split.
  - intros Hs x Hin ->. exact (Hs Hin).
  - intros Hs Hin. exact (Hs c Hin eq_refl).
Qed.

(** The sha1 cut in three, as the path has it. *)
Lemma slashed_back (sha : string) :
  free_of "/" sha ->
  ObjectType._deslash
    (Py.slice sha None (Some 2%Z) +:+ "/" +:+ Py.slice sha (Some 2%Z) (Some 4%Z) +:+ "/"
     +:+ Py.slice sha (Some 4%Z) None) = sha.
Proof.
  intros Hs.
  assert (Hpart : forall lo hi, ObjectType._deslash (Py.slice sha lo hi) = Py.slice sha lo hi).
  { intros lo hi. apply deslash_free, free_of_forall, slice_chars, free_of_forall, Hs. }
  rewrite !deslash_app, !Hpart.
  change (ObjectType._deslash "/") with "".
  rewrite !append_nil_l. apply slice_parts.
Qed.

Lemma slashed_no_dash (sha : string) :
  free_of "-" sha ->
  Forall (fun c => Re.not_dash c = true)
    (list_ascii_of_string
       (Py.slice sha None (Some 2%Z) +:+ "/" +:+ Py.slice sha (Some 2%Z) (Some 4%Z) +:+ "/"
        +:+ Py.slice sha (Some 4%Z) None)).
Proof.
  intros Hs.
  assert (Hpart : forall lo hi,
    Forall (fun c => Re.not_dash c = true) (list_ascii_of_string (Py.slice sha lo hi))).
  { intros lo hi. apply slice_chars. apply free_of_forall in Hs.
    eapply Forall_impl; [exact Hs |]. cbn beta. intros c Hc. unfold Re.not_dash.
    destruct (Ascii.eqb_spec c "-"); [contradiction | reflexivity]. }
  rewrite !chars_append. repeat (apply Forall_app; split); try apply Hpart;
    repeat constructor.
Qed.

Lemma no_newline_dot (s : string) :
  free_of "010" s -> Forall (fun c => Re.dot c = true) (list_ascii_of_string s).
Proof.
  intros Hs. apply free_of_forall in Hs.
  eapply Forall_impl; [exact Hs |]. cbn beta. intros c Hc. unfold Re.dot.
  destruct (Ascii.eqb_spec c "010"); [contradiction | reflexivity].
Qed.

(** ** The path *)

(** A path of the mirror below the depot root is found by the pattern
    of the parser at /objects/, with the slashed sha1 and the rest of
    the name as its groups. *)
Lemma gfo_search (sha rest_ : string) :
  free_of "-" sha -> free_of "010" rest_ ->
  let slashed := Py.slice sha None (Some 2%Z) +:+ "/" +:+ Py.slice sha (Some 2%Z) (Some 4%Z)
                 +:+ "/" +:+ Py.slice sha (Some 4%Z) None in
  Re.search ObjectType.re_gfo
    (depot_root +:+ "objects/" +:+ Py.slice sha None (Some 2%Z) +:+ "/"
     +:+ Py.slice sha (Some 2%Z) (Some 4%Z) +:+ "/" +:+ Py.slice sha (Some 4%Z) None
     +:+ "-" +:+ rest_)
  = Some [slashed; rest_].
Proof.
  intros Hsha Hrest slashed.
  set (A := Py.slice sha None (Some 2%Z)) in *.
  set (B := Py.slice sha (Some 2%Z) (Some 4%Z)) in *.
  set (C := Py.slice sha (Some 4%Z) None) in *.
  assert (Hshape :
    depot_root +:+ "objects/" +:+ A +:+ "/" +:+ B +:+ "/" +:+ C +:+ "-" +:+ rest_
    = "//.git-fusion" +:+ ("/objects/" +:+ (slashed +:+ String "-" rest_))).
  { unfold slashed. rewrite !FastImportFacts.append_assoc. reflexivity. }
  rewrite Hshape.
  set (Z := "/objects/" +:+ (slashed +:+ String "-" rest_)).
  rewrite !append_String, append_nil_l.
  do 13 (rewrite search_skip by reflexivity).
  apply search_here. unfold Z. apply gfo_match.
  - unfold slashed. destruct A; discriminate.
  - apply slashed_no_dash. exact Hsha.
  - apply no_newline_dot. exact Hrest.
Qed.

(** X24.  The depot path under which the mirror stores an object is
    parsed back to the object.  For a sha1 without dash and slash and
    a type without dash and line feed, [_filepath_to_object_type]
    reads from the path that [mirror_path] builds below
    //.git-fusion/ the sha1 and the type, with no changelist, unless
    the type is commit; and from that path followed by a dash, a
    changelist number, a dash and a view name it reads the sha1, the
    type, and the changelist with its view, even when the view name
    has dashes of its own. *)
Theorem mirror_path_is_parsed_back (asked sha ty : string) :
  free_of "-" sha -> free_of "/" sha ->
  free_of "-" ty -> free_of "010" ty ->
  (ty <> ObjectType.COMMIT ->
   ObjectType._filepath_to_object_type asked (GitMirror.mirror_path depot_root sha ty)
   = Ok (ObjectType.Make sha ty None))
  /\ (forall change view,
         free_of "-" change -> free_of "010" change -> free_of "010" view ->
         ObjectType._filepath_to_object_type asked
           (GitMirror.mirror_path depot_root sha ty +:+ "-" +:+ change +:+ "-" +:+ view)
         = Ok (ObjectType.Make sha ty (Some [(change, view)]))).
Proof.
  intros Hdash Hslash Hty Hnl. split.
  - intros Hcommit. unfold ObjectType._filepath_to_object_type, GitMirror.mirror_path.
    rewrite (gfo_search sha ty Hdash Hnl). cbv zeta.
    cbn [Re.group Nat.sub nth].
    rewrite (slashed_back sha Hslash), (split_no_sep _ ty Hty).
    destruct (String.eqb_spec ty ObjectType.COMMIT) as [E | _]; [contradiction | reflexivity].
  - intros change view Hc Hcnl Hv.
    assert (Hshape :
      GitMirror.mirror_path depot_root sha ty +:+ "-" +:+ change +:+ "-" +:+ view
      = depot_root +:+ "objects/" +:+ Py.slice sha None (Some 2%Z) +:+ "/"
        +:+ Py.slice sha (Some 2%Z) (Some 4%Z) +:+ "/" +:+ Py.slice sha (Some 4%Z) None
        +:+ "-" +:+ (ty +:+ String "-" (change +:+ String "-" view))).
    { unfold GitMirror.mirror_path. rewrite !FastImportFacts.append_assoc. reflexivity. }
    rewrite Hshape. unfold ObjectType._filepath_to_object_type.
    rewrite gfo_search.
    + cbv zeta. cbn [Re.group Nat.sub nth].
      rewrite (slashed_back sha Hslash).
      rewrite (split_cut _ ty _ Hty), (split_cut _ change _ Hc).
      pose proof (split_nonempty "-" view) as Hne.
      pose proof (join_split "-" view) as Hjoin.
      destruct (Py.split "-" view) as [| v1 vs]; [contradiction |].
      rewrite Hjoin. reflexivity.
    + exact Hdash.
    + apply free_of_forall. apply free_of_forall in Hnl, Hcnl, Hv.
      rewrite chars_append. apply Forall_app. split; [exact Hnl |].
      cbn [list_ascii_of_string]. constructor; [discriminate |].
      rewrite chars_append. apply Forall_app. split; [exact Hcnl |].
      cbn [list_ascii_of_string]. constructor; [discriminate | exact Hv].
Qed.

(** X24 on instances: a tree, and a commit of changelist 12 in the
    view my-view. *)
Lemma mirror_path_is_parsed_back_witness :
  let sha := "0123456789abcdef0123456789abcdef01234567" in
  ObjectType._filepath_to_object_type sha (GitMirror.mirror_path depot_root sha "tree")
  = Ok (ObjectType.Make sha "tree" None)
  /\ ObjectType._filepath_to_object_type sha
       (GitMirror.mirror_path depot_root sha "commit" +:+ "-" +:+ "12" +:+ "-" +:+ "my-view")
     = Ok (ObjectType.Make sha "commit" (Some [("12", "my-view")])).
Proof.
  intros sha.
  assert (Hfree : forall c, Re.hex c = false -> free_of c sha).
  { intros c Hc. apply free_of_forall. unfold sha.
    repeat (constructor; [intros E; subst c; vm_compute in Hc; discriminate Hc |]).
    constructor. }
  assert (Hdash : free_of "-" sha) by (apply Hfree; reflexivity).
  assert (Hslash : free_of "/" sha) by (apply Hfree; reflexivity).
  assert (Hword : forall c ty, Re.lower c = false ->
                    Forall (fun x => Re.lower x = true) (list_ascii_of_string ty) ->
                    free_of c ty).
  { intros c ty Hc Hty. apply free_of_forall.
    eapply Forall_impl; [exact Hty |]. cbn beta. intros x Hx E. subst x. congruence. }
  destruct (mirror_path_is_parsed_back sha sha "tree" Hdash Hslash) as [Htree _].
  { apply Hword; [reflexivity | repeat constructor]. }
  { apply Hword; [reflexivity | repeat constructor]. }
  destruct (mirror_path_is_parsed_back sha sha "commit" Hdash Hslash) as [_ Hcommit].
  { apply Hword; [reflexivity | repeat constructor]. }
  { apply Hword; [reflexivity | repeat constructor]. }
  split.
  - apply Htree. discriminate.
  - apply (Hcommit "12" "my-view");
      apply free_of_forall; repeat constructor; discriminate.
Defined.

End MirrorPathFacts.

(* ===================================================================== *)
(** * The range of changelists: the full sha1, and a new repository *)

Module RevRangeMore.
Import RevRange PyFacts MirrorPathFacts.

(** ** The answer of git cat-file --batch-check *)

Lemma run_length_bounded p (a b : string) :
  Forall (fun c => p c = true) (list_ascii_of_string a) ->
  Re.run_length p (Some (String.length a)) (a +:+ b) = String.length a.
Proof.
  intros Ha. induction a as [| x a IH]; [rewrite append_nil_l; destruct b; reflexivity |].
  inversion Ha as [| ? ? Hx Ha']; subst.
  rewrite append_String. cbn [Re.run_length String.length]. rewrite Hx.
  cbn [fmap option_fmap option_map Nat.pred]. rewrite (IH Ha'). reflexivity.
Qed.

Lemma run_length_short p (a b : string) n :
  Forall (fun c => p c = true) (list_ascii_of_string a) ->
  String.length a < n ->
  match b with
  | EmptyString => True
  | String c _ => p c = false
  end ->
  Re.run_length p (Some n) (a +:+ b) = String.length a.
Proof.
  intros Ha. revert n. induction a as [| x a IH]; intros n Hn Hb.
  - rewrite append_nil_l. destruct n as [| n]; [cbn in Hn; lia |].
    destruct b as [| c b]; [reflexivity |]. cbn. rewrite Hb. reflexivity.
  - inversion Ha as [| ? ? Hx Ha']; subst.
    destruct n as [| n]; [cbn in Hn; lia |].
    rewrite append_String. cbn [Re.run_length String.length]. rewrite Hx.
    cbn [fmap option_fmap option_map Nat.pred].
    rewrite (IH Ha' n); [reflexivity | cbn in Hn; lia | exact Hb].
Qed.

Lemma try_down_below {R : Type} (k : nat -> option R) lo n :
  n < lo -> Re.try_down k lo n = None.
Proof.
  intros Hlt. destruct n; cbn [Re.try_down];
    (replace (Nat.ltb _ lo) with true by (symmetry; apply Nat.ltb_lt; lia)); reflexivity.
Qed.

(** One step of the matcher at a time. *)
Lemma step_open re (s : string) groups :
  Re.match_here (Re.Open :: re) s None groups = Re.match_here re s (Some "") groups.
Proof. reflexivity. Qed.

Lemma step_close re (s g : string) groups :
  Re.match_here (Re.Close :: re) s (Some g) groups = Re.match_here re s None (g :: groups).
Proof. reflexivity. Qed.

Lemma step_chr re c (s : string) groups :
  Re.match_here (Re.Chr c :: re) (String c s) None groups = Re.match_here re s None groups.
Proof. cbn [Re.match_here]. rewrite Ascii.eqb_refl. reflexivity. Qed.

Lemma step_rep p lo hi re (a b : string) groups r :
  Re.run_length p hi (a +:+ b) = String.length a ->
  lo <= String.length a ->
  Re.match_here re b (Some a) groups = Some r ->
  Re.match_here (Re.Rep p lo hi :: re) (a +:+ b) (Some "") groups = Some r.
Proof.
  intros Hrun Hlo Hk. cbn [Re.match_here]. rewrite Hrun.
  apply try_down_top; [exact Hlo |].
  rewrite drop_prefix, substring_prefix. exact Hk.
Qed.

(** A line that begins with forty hex digits, a space, a word of
    lower-case letters and a space. *)
Lemma patt_match (sha ty rest_ : string) :
  String.length sha = 40 ->
  Forall (fun c => Re.hex c = true) (list_ascii_of_string sha) ->
  ty <> "" ->
  Forall (fun c => Re.lower c = true) (list_ascii_of_string ty) ->
  Re.match_ patt (sha +:+ String " " (ty +:+ String " " rest_)) = Some [sha; ty].
Proof.
  intros Hlen Hsha Hne Hty.
  assert (Hrest :
    Re.match_here [Re.star Re.dot] rest_ None [ty; sha]
    = Some ([sha; ty], Re.drop (Re.run_length Re.dot None rest_) rest_)).
  { unfold Re.star. cbn [Re.match_here]. apply try_down_top; [lia | reflexivity]. }
  unfold Re.match_, patt.
  rewrite step_open.
  rewrite (step_rep Re.hex 40 (Some 40) _ sha _ []
             ([sha; ty], Re.drop (Re.run_length Re.dot None rest_) rest_));
    [reflexivity | | | ].
  - rewrite <- Hlen. apply run_length_bounded. exact Hsha.
  - lia.
  - rewrite step_close, step_chr, step_open. unfold Re.plus.
    apply step_rep.
    + apply run_length_prefix; [exact Hty | reflexivity].
    + destruct ty; [contradiction | cbn; lia].
    + rewrite step_close, step_chr. exact Hrest.
Qed.

(** A line that does not begin with forty hex digits. *)
Lemma patt_no_match (pre rest_ : string) :
  String.length pre < 40 ->
  Forall (fun c => Re.hex c = true) (list_ascii_of_string pre) ->
  match rest_ with
  | EmptyString => True
  | String c _ => Re.hex c = false
  end ->
  Re.match_ patt (pre +:+ rest_) = None.
Proof.
  intros Hlen Hpre Hrest. unfold Re.match_, patt. cbn [Re.match_here].
  rewrite (run_length_short _ pre rest_ 40 Hpre Hlen Hrest).
  rewrite try_down_below by exact Hlen. reflexivity.
Qed.

Section WithEnv.
Context `{H : Env}.

(** X25.  [expand_sha1] reads the full sha1 from the answer of git.
    When the answer to git cat-file --batch-check begins with forty
    hex digits, a space, a word in lower-case letters and a space, the
    forty digits are returned; when it has fewer than forty hex digits
    at its start (as in the answer for an object that is missing), the
    result is [None].  Nothing but git is asked. *)
Theorem expand_sha1_reads_the_full_sha1 (partial_sha1 : string) (i : io) rc out w :
  ext (Popen ["git"; "cat-file"; "--batch-check"] (Some partial_sha1)) (world i)
  = (RProc rc out, w) ->
  let i' := after (Popen ["git"; "cat-file"; "--batch-check"] (Some partial_sha1)) w i in
  (forall sha ty rest_,
      out = sha +:+ String " " (ty +:+ String " " rest_) ->
      String.length sha = 40 ->
      Forall (fun c => Re.hex c = true) (list_ascii_of_string sha) ->
      ty <> "" ->
      Forall (fun c => Re.lower c = true) (list_ascii_of_string ty) ->
      expand_sha1 partial_sha1 i = (Ok (Some sha), i'))
  /\ (forall pre rest_,
         out = pre +:+ rest_ ->
         String.length pre < 40 ->
         Forall (fun c => Re.hex c = true) (list_ascii_of_string pre) ->
         match rest_ with
         | EmptyString => True
         | String c _ => Re.hex c = false
         end ->
         expand_sha1 partial_sha1 i = (Ok None, i')).
Proof.
  intros E i'.
  assert (Hrun : expand_sha1 partial_sha1 i
                 = (Ok ((fun g => Re.group g 1) <$> Re.match_ patt out), i')).
  { unfold expand_sha1, popen_no_throw.
    erewrite bind_ok.
    2:{ erewrite bind_ok by (apply (request_answer _ _ _ _ E)). reflexivity. }
    reflexivity. }
  split.
  - intros sha ty rest_ -> Hlen Hsha Hne Hty.
    rewrite Hrun, (patt_match sha ty rest_ Hlen Hsha Hne Hty). reflexivity.
  - intros pre rest_ -> Hlen Hpre Hrest.
    rewrite Hrun, (patt_no_match pre rest_ Hlen Hpre Hrest). reflexivity.
Qed.

(** X26.  A new repository.  A start that begins with an at sign
    makes a range for a new repository.  From "@1" nothing is asked
    and there is no graft.  From any other start the two most recent
    changelists up to the start are asked for: when there are two, the
    graft is the number of the older one; when there are fewer, there
    is no graft. *)
Theorem new_repository_range ctx (start_at stop_at : string) (i : io) :
  Py.startswith "@" start_at = true ->
  (start_at = "@1" ->
   from_start_stop ctx start_at stop_at i
   = (Ok (Make (Some "@1") (Some stop_at) true None None), i))
  /\ (start_at <> "@1" ->
      forall rows msgs w,
        ext (P4Run CtxP4 ["changes"; "-m2"; client_view_path ctx +:+ start_at]) (world i)
        = (RResults rows msgs, w) ->
        let i' := set_messages CtxP4 msgs
                    (after (P4Run CtxP4 ["changes"; "-m2"; client_view_path ctx +:+ start_at])
                       w i) in
        (length rows < 2 ->
         from_start_stop ctx start_at stop_at i
         = (Ok (Make (Some start_at) (Some stop_at) true None None), i'))
        /\ (forall newest older rest_ change n,
               rows = newest :: older :: rest_ ->
               ConflictChecker.change_of older = Ok change ->
               Py.int change = Some n ->
               from_start_stop ctx start_at stop_at i
               = (Ok (Make (Some start_at) (Some stop_at) true (Some n) None), i'))).
Proof.
  intros Hat. unfold from_start_stop. rewrite Hat. unfold _new_repo_from_perforce_range.
  split.
  - intros ->. reflexivity.
  - intros Hne rows msgs w E.
    destruct (String.eqb_spec start_at "@1") as [-> | _]; [contradiction |].
    cbn [negb].
    split.
    + intros Hlen.
      erewrite bind_ok by (apply (p4_run_results _ _ _ _ _ _ E)).
      destruct rows as [| r0 [| r1 rows]]; [reflexivity | reflexivity | cbn in Hlen; lia].
    + intros newest older rest_ change n -> Hchange Hint.
      erewrite bind_ok by (apply (p4_run_results _ _ _ _ _ _ E)).
      cbv beta iota. rewrite Hchange. cbn [ObjectType.lift_res]. step.
      rewrite Hint. reflexivity.
Qed.

End WithEnv.

(** X25 on an instance: git knows the commit. *)
Lemma expand_sha1_reads_the_full_sha1_witness :
  @expand_sha1 scripted "0123456" (start_io mirror_knows_head)
  = (Ok (Some sha1_of_head),
     @after scripted (Popen ["git"; "cat-file"; "--batch-check"] (Some "0123456"))
       (List.tl mirror_knows_head) (start_io mirror_knows_head)).
Proof.
  refine (proj1 (@expand_sha1_reads_the_full_sha1 scripted "0123456"
                   (start_io mirror_knows_head) 0%Z (sha1_of_head +:+ " commit 215" +:+ LF)
                   (List.tl mirror_knows_head) eq_refl)
            sha1_of_head "commit" ("215" +:+ LF) eq_refl eq_refl _ _ _).
  - repeat constructor.
  - discriminate.
  - repeat constructor.
Defined.

(** X26 on an instance: history starts at changelist 5, and changelist
    3 is the one before it in the view. *)
Lemma new_repository_range_witness :
  @from_start_stop scripted demo_ctx "@5" "#head"
    (start_io [RResults [row1 "change" "5"; row1 "change" "3"] []])
  = (Ok (Make (Some "@5") (Some "#head") true (Some 3%Z) None),
     @after scripted (P4Run CtxP4 ["changes"; "-m2"; client_view_path demo_ctx +:+ "@5"]) []
       (start_io [RResults [row1 "change" "5"; row1 "change" "3"] []])).
Proof.
  refine (proj2 (proj2 (@new_repository_range scripted demo_ctx "@5" "#head"
                          (start_io [RResults [row1 "change" "5"; row1 "change" "3"] []])
                          eq_refl)
                   ltac:(discriminate)
                   [row1 "change" "5"; row1 "change" "3"] [] [] eq_refl)
            (row1 "change" "5") (row1 "change" "3") [] "3" 3%Z eq_refl eq_refl eq_refl).
Defined.

End RevRangeMore.

(* ===================================================================== *)
(** * The object mirror: the commits of the marks *)

Module GitMirrorMarks.
Import GitMirror GitMirrorSpec GitMirrorMoreSpec PyFacts.

Section WithEnv.
Context `{H : Env}.

Section Held.
Variable k : string.
Variable o : GitObject.

Lemma held_add (o' : GitObject) : preserves (holds k o) (add o').
Proof.
  intros [l i] r s' Hk E. unfold holds, add, zoom in *. cbn [fst snd] in *.
  rewrite GitMirrorFacts.add_object_run in E.
  destruct (objects l !! key_of o') eqn:Eo; [injection E as <- <-; exact Hk |].
  destruct (counts l !! type o'); injection E as <- <-;
    cbn [fst objects]; (rewrite lookup_insert_ne; [exact Hk |]);
    intros <-; congruence.
Qed.

Lemma held_io {A : Type} (m : M io A) : preserves (holds k o) (io_ m).
Proof.
  intros [l i] r s' Hk E. unfold io_, zoom in E. cbn [fst snd] in E.
  destruct (m i) as [r0 i1]. injection E as <- <-. exact Hk.
Qed.

Ltac held tac := pres_with ltac:(first [ tac | apply held_add | apply held_io ]).

Lemma held_get_commit_tree commit_ : preserves (holds k o) (__get_commit_tree commit_).
Proof.
  unfold __get_commit_tree.
  apply pres_bind; [apply held_io | intros [rc po]].
  destruct (List.filter _ _) as [| line lines]; [apply pres_ret |].
  destruct (Py.split _ _) as [| w0 [| sha1_ ws]]; try apply pres_raise.
  held fail.
Qed.

Lemma held_get_snapshot_trees commit_ :
  preserves (holds k o) (__get_snapshot_trees commit_).
Proof. unfold __get_snapshot_trees, argument. held ltac:(apply held_get_commit_tree). Qed.

Lemma held_get_delta_trees top_tree1 commit2 :
  preserves (holds k o) (__get_delta_trees top_tree1 commit2).
Proof. unfold __get_delta_trees, argument. held ltac:(apply held_get_commit_tree). Qed.

Lemma held_add_commits_from view marks : forall last_top_tree,
  preserves (holds k o) (add_commits_from view marks last_top_tree).
Proof.
  induction marks as [| mark_ marks IH]; intros last_top_tree; cbn [add_commits_from].
  - apply pres_ret.
  - destruct (Py.split _ mark_) as [| part0 [| part1 parts]]; try apply pres_raise.
    held ltac:(first [ apply held_get_delta_trees | apply held_get_snapshot_trees
                     | apply IH ]).
Qed.

End Held.

(** X27.  The commit of a mark is in the list of objects to mirror.
    For a mark as [copy_commit] writes it (a colon, the changelist
    number, a space, the sha1), [add_commits] puts the commit into the
    object list with that changelist number and the view of the
    context, before it asks git for anything, and there it stays,
    whatever git answers for this mark and for the marks after it, and
    also when the collection ends in an exception. *)
Theorem commit_of_a_mark_is_listed ctx (n sha : string) (rest_ : list string)
    (l : GitObjectList) (i : io) count r s' :
  ~ In " "%char (list_ascii_of_string n) ->
  Forall (fun c => Py.is_space c = false) (list_ascii_of_string sha) ->
  objects l !! ("commit" +:+ sha) = None ->
  counts l !! "commit" = Some count ->
  add_commits ctx ((":" +:+ n +:+ " " +:+ sha) :: rest_) (l, i) = (r, s') ->
  holds ("commit" +:+ sha) (MkGitObject "commit" sha (Some [(n, view_name ctx)])) s'.
Proof.
  intros Hn Hsha Hnew Hcount E.
  assert (Hfree : ~ In " "%char (list_ascii_of_string sha)).
  { intros Hin. rewrite List.Forall_forall in Hsha. specialize (Hsha _ Hin). discriminate. }
  unfold add_commits in E. cbn [add_commits_from] in E.
  rewrite (append_String ":" "" _), append_nil_l in E.
  rewrite (append_String " " "" sha), append_nil_l in E.
  change (String ":" (n +:+ String " " sha)) with (String ":" n +:+ String " " sha) in E.
  rewrite split_cut in E by (cbn; intros [Hc | Hin]; [discriminate | exact (Hn Hin)]).
  rewrite (split_no_sep _ sha Hfree) in E.
  rewrite G2PMore.slice_tail in E.
  unfold Py.strip in E. rewrite (strip_with_none _ sha Hsha) in E.
  set (commit_ := MkGitObject "commit" sha (Some [(n, view_name ctx)])) in *.
  assert (Hadd : add commit_ (l, i)
                 = (Ok tt, (MkGitObjectList (<[key_of commit_ := commit_]> (objects l))
                                            (<["commit" := (count + 1)%Z]> (counts l)), i))).
  { unfold add, zoom. cbn [fst snd]. rewrite GitMirrorFacts.add_object_run.
    change (key_of commit_) with ("commit" +:+ sha). rewrite Hnew.
    change (type commit_) with "commit". rewrite Hcount. reflexivity. }
  erewrite bind_ok in E by exact Hadd.
  revert E.
  match goal with
  | |- ?m ?s0 = _ -> _ =>
      intros E;
      apply (fun Hp : preserves (holds ("commit" +:+ sha) commit_) m => Hp s0 r s')
  end.
  - apply pres_bind; [| intros top; apply held_add_commits_from].
    destruct (Py.truthy_opt None); [apply held_get_delta_trees | apply held_get_snapshot_trees].
  - unfold holds. cbn [fst objects]. apply lookup_insert_eq.
  - exact E.
Qed.

End WithEnv.

(** X27 on an instance: the first of two marks, with git answering the
    same top tree for both commits. *)
Lemma commit_of_a_mark_is_listed_witness :
  @holds scripted "commitaaaa" (MkGitObject "commit" "aaaa" (Some [("7", view_name demo_ctx)]))
    (snd (@add_commits scripted demo_ctx two_marks (empty_list, start_io same_top_tree))).
Proof.
  apply (@commit_of_a_mark_is_listed scripted demo_ctx "7" "aaaa" [":8 bbbb"] empty_list
           (start_io same_top_tree) 0%Z
           (fst (@add_commits scripted demo_ctx two_marks (empty_list, start_io same_top_tree)))).
  - cbn. intros [Hc | []]. discriminate.
  - repeat constructor.
  - reflexivity.
  - reflexivity.
  - apply surjective_pairing.
Defined.

End GitMirrorMarks.
